(** * Document evaluators: presentation and word-document comparison

    A shallow embedding of the comparison core of
    [impress_test_evaluator.py] (presentation files, content-based shape
    matching) and of the evaluator embedded in [writer_test_evaluator.py]
    (word documents, merge-then-compare of runs), followed by the
    properties of the tolerance comparator, the fuzzy shape matcher and
    the run comparison.

    Modelling conventions.
    - Python [int] is [Z]; Python [float] is the IEEE-754 binary64
      specification [spec_float] of the Standard Library.
    - Python [str] is [string]: a sequence of characters with code below
      256.
    - [None] is [None]; an attribute probed with [hasattr] is an
      [option] field.
    - The objects handed out by the document library (python-pptx) are
      records holding what the evaluator reads from them.
    - An uncaught Python exception is the outcome [None] of the
      evaluation monad [M]; the global [mismatch_log] is its state. *)

From Stdlib Require Import ZArith Lia SpecFloat Ascii String.
From stdpp Require Import base option list gmap sets strings.

Local Open Scope string_scope.
Local Open Scope Z_scope.

(** ** Python built-ins used by the evaluators *)
Module Py.

(** *** int / int and float comparison *)

(** binary64: 53 bits of precision, infinities at exponent 1024. *)
Definition prec : Z := 53.
Definition emax : Z := 1024.

(** An [int] seen as an exact binary floating-point number (unbounded
    mantissa, exponent 0). *)
Definition of_int (a : Z) : spec_float :=
  match a with
  | Z0 => S754_zero false
  | Zpos p => S754_finite false p 0
  | Zneg p => S754_finite true p 0
  end.

(** [a / b] on two ints: the exact quotient rounded once to the nearest
    binary64 value, ties to even. [None] is [ZeroDivisionError] or
    [OverflowError] (quotient too large for a float). *)
Definition int_true_div (a b : Z) : option spec_float :=
  if b =? 0 then None
  else match SFdiv prec emax (of_int a) (of_int b) with
       | S754_infinity _ => None
       | q => Some q
       end.

(** [x <= y] on floats. *)
Definition float_le (x y : spec_float) : bool := SFleb x y.

(** The float literals [0.005] and [0.01]. *)
Definition float_0_005 : spec_float := S754_finite false 5764607523034235 (-60).
Definition float_0_01 : spec_float := S754_finite false 5764607523034235 (-59).

(** *** str *)

(** [c.isspace()] for a character with code below 256. *)
Definition isspace (c : ascii) : bool :=
  let n := nat_of_ascii c in
  ((9 <=? n) && (n <=? 13) || (28 <=? n) && (n <=? 32)
   || (n =? 133) || (n =? 160))%nat.

Fixpoint lstrip (s : string) : string :=
  match s with
  | EmptyString => EmptyString
  | String c s' => if isspace c then lstrip s' else s
  end.

Fixpoint rstrip (s : string) : string :=
  match s with
  | EmptyString => EmptyString
  | String c s' =>
      match rstrip s' with
      | EmptyString => if isspace c then EmptyString else String c EmptyString
      | r => String c r
      end
  end.

(** [s.strip()] *)
Definition strip (s : string) : string := rstrip (lstrip s).

(** Truth value of a string: non-empty. *)
Definition truthy (s : string) : bool :=
  match s with EmptyString => false | _ => true end.

(** [sub in s] *)
Fixpoint contains (sub s : string) : bool :=
  String.prefix sub s
  || match s with
     | EmptyString => false
     | String _ s' => contains sub s'
     end.

(** [s.replace(old, new)] for a non-empty [old]: occurrences are replaced
    left to right without overlap; [skip] counts the characters of a
    matched occurrence still to be dropped. *)
Fixpoint replace_from (old new : string) (skip : nat) (s : string) : string :=
  match s with
  | EmptyString => EmptyString
  | String c s' =>
      match skip with
      | S k => replace_from old new k s'
      | O =>
          if String.prefix old s
          then String.append new (replace_from old new (String.length old - 1) s')
          else String c (replace_from old new 0 s')
      end
  end.

Definition replace (old new s : string) : string := replace_from old new 0 s.

(** [re.sub(r'\s+', ' ', s)]: [in_ws] tells that the previous character
    belonged to a whitespace run already replaced. *)
Fixpoint collapse_whitespace (in_ws : bool) (s : string) : string :=
  match s with
  | EmptyString => EmptyString
  | String c s' =>
      if isspace c
      then if in_ws then collapse_whitespace true s'
           else String " " (collapse_whitespace true s')
      else String c (collapse_whitespace false s')
  end.


(** [sep.join(l)] *)
Definition join (sep : string) (l : list string) : string := String.concat sep l.

End Py.

(** ** impress_test_evaluator.py *)
Module Impress.
Import Py.

(** *** The document model read by the evaluator *)

(** [pptx.enum.shapes.MSO_SHAPE_TYPE] *)
Inductive MSO_SHAPE_TYPE :=
| AUTO_SHAPE | CALLOUT | CANVAS | CHART | COMMENT | DIAGRAM
| EMBEDDED_OLE_OBJECT | FORM_CONTROL | FREEFORM | GROUP | IGX_GRAPHIC
| INK | INK_COMMENT | LINE | LINKED_OLE_OBJECT | LINKED_PICTURE | MEDIA
| OLE_CONTROL_OBJECT | PICTURE | PLACEHOLDER | SCRIPT_ANCHOR | TABLE
| TEXT_BOX | TEXT_EFFECT | WEB_VIDEO | MIXED.

#[global] Instance MSO_SHAPE_TYPE_eq_dec : EqDecision MSO_SHAPE_TYPE.
Proof. solve_decision. Defined.

(** [pptx.enum.text.PP_ALIGN] *)
Inductive PP_ALIGN :=
| ALIGN_CENTER | ALIGN_DISTRIBUTE | ALIGN_JUSTIFY | ALIGN_JUSTIFY_LOW
| ALIGN_LEFT | ALIGN_RIGHT | ALIGN_THAI_DISTRIBUTE | ALIGN_MIXED.

#[global] Instance PP_ALIGN_eq_dec : EqDecision PP_ALIGN.
Proof. solve_decision. Defined.

(** An [RGBColor]: three ints. *)
Definition RGBColor : Type := Z * Z * Z.

(** A [ColorFormat]: [rgb] is [None] when the object has no [rgb]
    attribute; [color_type] is its [type]. *)
Record Color := {
  rgb : option RGBColor;
  color_type : option Z
}.

(** [font.underline]: [None], a bool, or a member of the underline
    enumeration. *)
Inductive underline_value :=
| U_bool (b : bool)
| U_enum (n : Z).

#[global] Instance underline_value_eq_dec : EqDecision underline_value.
Proof. solve_decision. Defined.

(** The int an underline value compares as: [True] is 1 and [False] is 0. *)
Definition underline_int (u : underline_value) : Z :=
  match u with
  | U_bool true => 1
  | U_bool false => 0
  | U_enum n => n
  end.

(** [underline1 != underline2] *)
Definition underline_differs (underline1 underline2 : option underline_value) : bool :=
  match underline1, underline2 with
  | None, None => false
  | Some u1, Some u2 => negb (underline_int u1 =? underline_int u2)
  | _, _ => true
  end.

(** One entry of [extract_bullets]: (lvl, char, text, color). *)
Definition bullet : Type := option string * string * string * string.

Record Font := {
  (** [font.name], [font.size] *)
  font_name : option string;
  font_size : option Z;
  bold : option bool;
  italic : option bool;
  underline : option underline_value;
  color : Color;
  (** [font._element.attrib.get('strike')] *)
  strike : option string
}.

Record Run := {
  run_text : string;
  font : Font
}.

Record Paragraph := {
  alignment : option PP_ALIGN;
  para_text : string;
  level : Z;
  runs : list Run
}.

Record TextFrame := {
  (** [shape.text], which the library defines as [text_frame.text] *)
  text : string;
  paragraphs : list Paragraph
}.

Record Cell := {
  cell_text : string;
  (** [cell.text_frame.paragraphs] *)
  cell_paragraphs : list Paragraph
}.

Record Table := {
  (** [len(table.rows)], [len(table.columns)] *)
  rows : nat;
  columns : nat;
  (** the cells, row by row; [table.cell(r, c)] raises outside them *)
  grid : list (list Cell)
}.

Record Line := {
  dash_style : option Z;
  line_width : option Z;
  (** [None] when reading [line.color] raises *)
  line_color : option Color
}.

(** A shape. [text_frame] is present on the shapes that have the [text]
    and [text_frame] attributes; [image_md5] is
    [hashlib.md5(shape.image.blob).hexdigest()], [None] when that
    raises; [table] is [None] when [shape.table] raises; [line] is
    present when the shape has a [line] attribute; [shapes] are the
    children read from a GROUP shape. *)
#[warnings="-register-all"] Inductive Shape := mkShape {
  shape_type : MSO_SHAPE_TYPE;
  shape_left : Z;
  shape_top : Z;
  shape_width : Z;
  shape_height : Z;
  text_frame : option TextFrame;
  image_md5 : option string;
  table : option Table;
  line : option Line;
  shapes : list Shape
}.

(** A background fill: its [type] and [fore_color.rgb] ([None] when
    reading it raises). *)
Record Fill := {
  fill_type : option Z;
  fore_color_rgb : option RGBColor
}.

(** A notes slide: the text of its [notes_text_frame], which is [None]
    when the notes slide has no notes placeholder. *)
Record NotesSlide := {
  notes_text_frame : option string
}.

Record Slide := {
  background_fill : Fill;
  (** [slide.slide_layout.slide_master.background.fill] *)
  master_background_fill : Fill;
  (** [slide.notes_slide] as the library hands it to the evaluator. For
      a file without notes the library creates the notes slide when it
      is read, so that such a file is read as a notes slide with an
      empty text; [None] stands for a value that tests false. *)
  notes_slide : option NotesSlide;
  slide_shapes : list Shape;
  (** [extract_bullets(run.part.blob.decode('utf-8'))] for the runs of
      the slide: [run.part] is the part of the slide for every one of
      them, so that all of them give this one list, which has an entry
      for every paragraph with visible text of the XML of the part, in
      the order of the file. [None] when the extraction raises. *)
  part_bullets : option (list bullet)
}.

(** A loaded [Presentation]: its slides. *)
Definition Presentation : Type := list Slide.

(** *** Evaluation monad: the global [mismatch_log] and exceptions *)

Definition M (A : Type) : Type := list string -> option A * list string.

Definition ret {A} (a : A) : M A := fun log => (Some a, log).

Definition raise {A} : M A := fun log => (None, log).

Definition bind {A B} (m : M A) (k : A -> M B) : M B :=
  fun log =>
    match m log with
    | (Some a, log') => k a log'
    | (None, log') => (None, log')
    end.

Declare Scope M_scope.
Delimit Scope M_scope with M.
Notation "x ← y ; z" := (bind y (fun x => z))
  (at level 20, y at level 100, z at level 200, only parsing) : M_scope.
Notation "x ;; z" := (bind x (fun _ => z))
  (at level 100, z at level 200, only parsing, right associativity) : M_scope.

(** An expression that may raise, evaluated without touching the log. *)
Definition lift {A} (o : option A) : M A :=
  match o with Some a => ret a | None => raise end.

(** [mismatch_log.append(message)]; the values interpolated into the
    messages are left out. *)
Definition log_mismatch (message : string) : M unit :=
  fun log => (Some tt, (log ++ [message])%list).

(** [a or b] on expressions that may raise: [b] is evaluated only when
    [a] is false. *)
Definition or_else (a b : option bool) : option bool :=
  match a with
  | Some true => Some true
  | Some false => b
  | None => None
  end.

(** *** Helper functions *)

Definition is_approximately_equal (val1 val2 : Z) (tolerance : spec_float)
  : option bool :=
  if bool_decide (val1 = val2) then Some true
  else if bool_decide (val1 = 0) && bool_decide (val2 = 0) then Some true
  else
    let abs_diff := Z.abs (val1 - val2) in
    (* Absolute tolerance for tiny shapes *)
    if abs_diff <=? 1000 then Some true
    (* Percentage tolerance for larger shapes *)
    else if bool_decide (val1 = 0) || bool_decide (val2 = 0) then Some false
    else
      percentage_diff ← int_true_div abs_diff (Z.max (Z.abs val1) (Z.abs val2));
      Some (float_le percentage_diff tolerance).

Definition normalize_alignment (alignment : option PP_ALIGN) : PP_ALIGN :=
  match alignment with None => ALIGN_LEFT | Some a => a end.

Definition normalize_cell_text (text : string) : string :=
  strip (collapse_whitespace false text).

Definition get_slide_background_color (slide : Slide) : option (option RGBColor) :=
  let fill := background_fill slide in
  if bool_decide (fill_type fill = Some 1) then
    c ← fore_color_rgb fill; Some (Some c)
  else if bool_decide (fill_type fill = Some 5) then
    let master_fill := master_background_fill slide in
    if bool_decide (fill_type master_fill = Some 1) then
      c ← fore_color_rgb master_fill; Some (Some c)
    else Some None
  else Some None.

(** [None] is the [AttributeError] of [notes_slide.notes_text_frame.text]
    on a notes slide without notes text frame. *)
Definition get_slide_notes (slide : Slide) : option string :=
  match notes_slide slide with
  | Some notes => notes_text_frame notes
  | None => Some EmptyString
  end.

Definition compare_bullets (bullets1 bullets2 : list bullet) : bool :=
  if negb (bool_decide (length bullets1 = length bullets2)) then false
  else
    forallb
      (fun '((lvl1, char1, text1, _), (lvl2, char2, text2, _)) =>
         if negb (bool_decide (text1 = text2)) || negb (bool_decide (char1 = char2))
         then false
         else bool_decide (default "0" lvl1 = default "0" lvl2))
      (zip bullets1 bullets2).

Definition fonts_effectively_equal (val1 val2 : option bool)
    (treat_none_as_false : bool) : bool :=
  if bool_decide (val1 = val2) then true
  else if treat_none_as_false then
    (bool_decide (val1 = None) || bool_decide (val1 = Some false))
    && (bool_decide (val2 = None) || bool_decide (val2 = Some false))
  else false.

(** [get_all_text_shapes]: the shapes with a text frame, groups expanded
    depth-first. *)
Fixpoint _extract_from_shape (shape : Shape) : list Shape :=
  ((match text_frame shape with Some _ => [shape] | None => [] end)
   ++ (if bool_decide (shape_type shape = GROUP)
       then flat_map _extract_from_shape (shapes shape)
       else []))%list.

Definition get_all_text_shapes (slide : Slide) : list Shape :=
  flat_map _extract_from_shape (slide_shapes slide).

(** *** Shape matching functions *)

(** [table.cell(row_idx, col_idx)] *)
Definition cell (t : Table) (row_idx col_idx : nat) : option Cell :=
  row ← grid t !! row_idx; row !! col_idx.

(** The [try] block of [get_shape_signature] for tables: the non-empty
    normalized cell texts in row-major order; [None] when it raises. *)
Definition table_cell_texts (shape : Shape) : option (list string) :=
  t ← table shape;
  texts ← mapM (fun row_idx =>
                  mapM (fun col_idx =>
                          c ← cell t row_idx col_idx;
                          Some (normalize_cell_text (cell_text c)))
                       (seq 0 (columns t)))
               (seq 0 (rows t));
  Some (List.filter truthy (concat texts)).

Definition get_shape_signature (shape : Shape) : MSO_SHAPE_TYPE * string * string :=
  let shape_type := shape_type shape in
  (* Extract text if available *)
  let text_content :=
    match text_frame shape with
    | Some tf => strip (text tf)
    | None => EmptyString
    end in
  (* Extract image hash if it's a picture *)
  let image_hash :=
    if bool_decide (shape_type = PICTURE) then default EmptyString (image_md5 shape)
    else EmptyString in
  (* For tables, include cell content as text *)
  let text_content :=
    if bool_decide (shape_type = TABLE) then
      match table_cell_texts shape with
      | Some table_text => join "|" table_text
      | None => text_content
      end
    else text_content in
  (shape_type, text_content, image_hash).

Definition TEXT_SHAPE_TYPES : list MSO_SHAPE_TYPE :=
  [TEXT_BOX; AUTO_SHAPE; PLACEHOLDER].

(** Shape type matching logic; [None] is the [continue] of the loop. *)
Definition type_score (target_type cand_type : MSO_SHAPE_TYPE) : option Z :=
  if bool_decide (target_type = cand_type) then Some 10
  else if bool_decide (target_type ∈ TEXT_SHAPE_TYPES)
          && bool_decide (cand_type ∈ TEXT_SHAPE_TYPES) then Some 5
  else None.

(** Text content match. *)
Definition text_score (target_text cand_text : string) : Z :=
  if truthy target_text && truthy cand_text then
    if bool_decide (target_text = cand_text) then 100
    else if contains target_text cand_text || contains cand_text target_text
         then 50 else 0
  else if negb (truthy target_text) && negb (truthy cand_text) then 20
  else 0.

(** Image hash match. *)
Definition hash_score (target_hash cand_hash : string) : Z :=
  if truthy target_hash && truthy cand_hash then
    if bool_decide (target_hash = cand_hash) then 100 else 0
  else 0.

(** Position proximity; every shape has the attribute [left]. *)
Definition position_score (target_shape candidate : Shape) : Z :=
  let pos_diff :=
    Z.abs (shape_left target_shape - shape_left candidate)
    + Z.abs (shape_top target_shape - shape_top candidate) in
  if pos_diff <? 100000 then 10
  else if pos_diff <? 500000 then 5
  else 0.

(** The score an unused candidate reaches in the loop body of
    [find_matching_shape]; [None] when the body ends in [continue]. *)
Definition candidate_score (target_shape candidate : Shape) : option Z :=
  let '(target_type, target_text, target_hash) := get_shape_signature target_shape in
  let '(cand_type, cand_text, cand_hash) := get_shape_signature candidate in
  score ← type_score target_type cand_type;
  Some (score + text_score target_text cand_text
        + hash_score target_hash cand_hash
        + position_score target_shape candidate).

(** The loop [for idx, candidate in enumerate(candidate_shapes)] over the
    state (best_match, best_match_idx, best_score). *)
Fixpoint scan_candidates (target_shape : Shape) (used_indices : gset Z)
    (idx : Z) (candidate_shapes : list Shape)
    (best : option Shape * Z * Z) : option Shape * Z * Z :=
  match candidate_shapes with
  | [] => best
  | candidate :: rest =>
      scan_candidates target_shape used_indices (idx + 1) rest
        (if bool_decide (idx ∈ used_indices) then best
         else match candidate_score target_shape candidate with
              | None => best
              | Some score =>
                  if best.2 <? score then (Some candidate, idx, score)
                  else best
              end)
  end.

Definition find_matching_shape (target_shape : Shape)
    (candidate_shapes : list Shape) (used_indices : gset Z)
  : option Shape * Z :=
  (scan_candidates target_shape used_indices 0 candidate_shapes
     (None, -1, -1)).1.

(** *** Shape comparison functions *)

Local Open Scope M_scope.

(** [log_mismatch(message)] followed by [return result]. *)
Definition mismatch {A} (message : string) (result : A) : M A :=
  log_mismatch message;; ret result.

(** A [for] loop whose body may leave the enclosing function with
    [return 0]: the body yields [false] when it does, and the loop
    yields [true] when it ran to its end. *)
Fixpoint for_each {A} (body : A -> M bool) (l : list A) : M bool :=
  match l with
  | [] => ret true
  | x :: rest =>
      go_on ← body x;
      if go_on then for_each body rest else ret false
  end.

(** [not is_approximately_equal(a1, b1) or not is_approximately_equal(a2, b2)] *)
Definition either_differs (a1 b1 a2 b2 : Z) : option bool :=
  or_else (negb <$> is_approximately_equal a1 b1 float_0_005)
          (negb <$> is_approximately_equal a2 b2 float_0_005).

Definition compare_picture_shape (shape1 shape2 : Shape) : M Z :=
  (* Check position *)
  differs ← lift (either_differs (shape_left shape1) (shape_left shape2)
                                 (shape_top shape1) (shape_top shape2));
  if (differs : bool) then mismatch "(PICTURE): Position mismatch" 0 else
  (* Check dimensions *)
  differs ← lift (either_differs (shape_width shape1) (shape_width shape2)
                                 (shape_height shape1) (shape_height shape2));
  if (differs : bool) then mismatch "(PICTURE): Dimension mismatch" 0 else
  (* Compare image content hash *)
  same_image ←
    match image_md5 shape1, image_md5 shape2 with
    | Some hash1, Some hash2 =>
        if negb (bool_decide (hash1 = hash2))
        then mismatch "(PICTURE): Image content mismatch" false
        else ret true
    | _, _ => mismatch "(PICTURE): Image hash comparison failed" true
    end;
  if negb same_image then ret 0 else
  (* Check border properties *)
  match line shape1, line shape2 with
  | Some line1, Some line2 =>
      if negb (bool_decide (dash_style line1 = dash_style line2))
      then mismatch "(PICTURE): Border style mismatch" 0 else
      close ← lift (is_approximately_equal (default 0 (line_width line1))
                      (default 0 (line_width line2)) float_0_01);
      if negb close then mismatch "(PICTURE): Border width mismatch" 0 else
      match line_color line1, line_color line2 with
      | Some color1, Some color2 =>
          match rgb color1, rgb color2 with
          | Some rgb1, Some rgb2 =>
              if negb (bool_decide (rgb1 = rgb2))
              then mismatch "(PICTURE): Border color mismatch" 0
              else ret 1
          | _, _ =>
              if negb (bool_decide (color_type color1 = color_type color2))
              then mismatch "(PICTURE): Border color type mismatch" 0
              else ret 1
          end
      | _, _ => ret 1
      end
  | _, _ => ret 1
  end.

Definition POSITION_TOLERANCE_EMU : Z := 2000.

(** The checks of [compare_table_shape] on one pair of runs. *)
Definition compare_table_run (run1 run2 : Run) : M bool :=
  (* Check font color *)
  if match rgb (color (font run1)), rgb (color (font run2)) with
     | Some rgb1, Some rgb2 => negb (bool_decide (rgb1 = rgb2))
     | _, _ => false
     end
  then mismatch "Font color mismatch" false else
  (* Check font bold *)
  if negb (fonts_effectively_equal (bold (font run1)) (bold (font run2)) true)
  then mismatch "Font bold mismatch" false else
  (* Check font italic *)
  if negb (fonts_effectively_equal (italic (font run1)) (italic (font run2)) true)
  then mismatch "Font italic mismatch" false else
  (* Check font underline *)
  let underline1 := underline (font run1) in
  let underline2 := underline (font run2) in
  if underline_differs underline1 underline2
     && negb (bool_decide (underline1 = None) && bool_decide (underline2 = None))
     && (xorb (bool_decide (underline1 = None)) (bool_decide (underline2 = None))
         || xorb (bool_decide (underline1 = Some (U_bool true)))
                 (bool_decide (underline2 = Some (U_bool true))))
  then mismatch "Font underline mismatch" false
  else ret true.

(** The checks of [compare_table_shape] on one pair of paragraphs. *)
Definition compare_table_paragraph (para12 : Paragraph * Paragraph) : M bool :=
  let '(para1, para2) := para12 in
  if negb (bool_decide (length (runs para1) = length (runs para2)))
  then mismatch "Run count mismatch" false
  else for_each (fun '(run1, run2) => compare_table_run run1 run2)
                (zip (runs para1) (runs para2)).

(** The checks of [compare_table_shape] on the cells at one position. *)
Definition compare_table_cell (table1 table2 : Table) (pos : nat * nat) : M bool :=
  let '(row_idx, col_idx) := pos in
  cell1 ← lift (cell table1 row_idx col_idx);
  cell2 ← lift (cell table2 row_idx col_idx);
  (* Check cell text *)
  if negb (bool_decide (normalize_cell_text (cell_text cell1)
                        = normalize_cell_text (cell_text cell2)))
  then mismatch "Text mismatch" false else
  (* Check paragraph count *)
  if negb (bool_decide (length (cell_paragraphs cell1) = length (cell_paragraphs cell2)))
  then mismatch "Paragraph count mismatch" false
  (* Check each paragraph's runs *)
  else for_each compare_table_paragraph
                (zip (cell_paragraphs cell1) (cell_paragraphs cell2)).

Definition compare_table_shape (shape1 shape2 : Shape) : M Z :=
  (* Strict position check *)
  if (POSITION_TOLERANCE_EMU <? Z.abs (shape_left shape1 - shape_left shape2))
     || (POSITION_TOLERANCE_EMU <? Z.abs (shape_top shape1 - shape_top shape2))
  then mismatch "(TABLE): Position mismatch" 0 else
  (* Dimension check *)
  differs ← lift (either_differs (shape_width shape1) (shape_width shape2)
                                 (shape_height shape1) (shape_height shape2));
  if (differs : bool) then mismatch "(TABLE): Dimension mismatch" 0 else
  table1 ← lift (table shape1);
  table2 ← lift (table shape2);
  (* Check table dimensions *)
  if negb (bool_decide (rows table1 = rows table2))
     || negb (bool_decide (columns table1 = columns table2))
  then mismatch "(TABLE): Table size mismatch" 0 else
  (* Check each cell *)
  finished ← for_each (compare_table_cell table1 table2)
               (flat_map (fun row_idx =>
                           map (fun col_idx => (row_idx, col_idx))
                               (seq 0 (columns table1)))
                         (seq 0 (rows table1)));
  ret (if (finished : bool) then 1 else 0).

Definition compare_shape_geometry (shape1 shape2 : Shape) : M bool :=
  differs ← lift (or_else
                    (either_differs (shape_left shape1) (shape_left shape2)
                                    (shape_top shape1) (shape_top shape2))
                    (either_differs (shape_width shape1) (shape_width shape2)
                                    (shape_height shape1) (shape_height shape2)));
  if (differs : bool) then mismatch "Geometry mismatch" false
  else ret true.

Section Parts.

(** What [extract_bullets] gives on [run1.part.blob] and on
    [run2.part.blob]: the lists of the test slide and of the golden
    slide, whichever runs of the two slides are compared. *)
Variables bullets_of_part1 bullets_of_part2 : option (list bullet).

(** The checks of [compare_text_shape] on one pair of runs. *)
Definition compare_text_run (run1 run2 : Run) : M bool :=
  let font1 := font run1 in
  let font2 := font run2 in
  (* Font name *)
  if negb (bool_decide (font_name font1 = font_name font2))
  then mismatch "Font name mismatch" false else
  (* Font size *)
  if negb (bool_decide (font_size font1 = font_size font2))
  then mismatch "Font size mismatch" false else
  (* Font bold *)
  if negb (fonts_effectively_equal (bold font1) (bold font2) true)
  then mismatch "Font bold mismatch" false else
  (* Font italic *)
  if negb (fonts_effectively_equal (italic font1) (italic font2) true)
  then mismatch "Font italic mismatch" false else
  (* Font color *)
  if match rgb (color font1), rgb (color font2) with
     | Some rgb1, Some rgb2 => negb (bool_decide (rgb1 = rgb2))
     | _, _ => false
     end
  then mismatch "Font color mismatch" false else
  (* Font underline *)
  let underline1 := underline font1 in
  let underline2 := underline font2 in
  if underline_differs underline1 underline2
     && negb (bool_decide (underline1 = None))
     && negb (bool_decide (underline2 = None))
  then mismatch "Font underline mismatch" false else
  if underline_differs underline1 underline2
     && (bool_decide (underline1 = None) && bool_decide (underline2 = Some (U_bool true))
         || bool_decide (underline1 = Some (U_bool true)) && bool_decide (underline2 = None))
  then mismatch "Font underline mismatch (None vs True)" false else
  (* Strikethrough *)
  let strike1 := default "noStrike" (strike font1) in
  let strike2 := default "noStrike" (strike font2) in
  if negb (bool_decide (strike1 = strike2))
  then mismatch "Strikethrough mismatch" false else
  (* Bullets *)
  match bullets_of_part1, bullets_of_part2 with
  | Some bullets1, Some bullets2 =>
      if negb (compare_bullets bullets1 bullets2)
      then mismatch "Bullets mismatch" false
      else ret true
  | _, _ => ret true (* Skip bullet comparison if extraction fails *)
  end.

(** The checks of [compare_text_shape] on one pair of paragraphs. *)
Definition compare_text_paragraph (para12 : Paragraph * Paragraph) : M bool :=
  let '(para1, para2) := para12 in
  (* Check alignment *)
  let align1 := normalize_alignment (alignment para1) in
  let align2 := normalize_alignment (alignment para2) in
  if negb (bool_decide (align1 = align2))
  then mismatch "Alignment mismatch" false else
  (* Check text *)
  if negb (bool_decide (para_text para1 = para_text para2))
  then mismatch "Text mismatch" false else
  (* Check indent level *)
  if negb (bool_decide (level para1 = level para2))
  then mismatch "Indent level mismatch" false else
  (* Check run count *)
  if negb (bool_decide (length (runs para1) = length (runs para2)))
  then mismatch "Run count mismatch" false
  (* Compare each run *)
  else for_each (fun '(run1, run2) => compare_text_run run1 run2)
                (zip (runs para1) (runs para2)).

Definition compare_text_shape (shape1 shape2 : Shape) : M Z :=
  text_frame1 ← lift (text_frame shape1);
  text_frame2 ← lift (text_frame shape2);
  (* Check text content *)
  if negb (bool_decide (strip (text text_frame1) = strip (text text_frame2)))
  then mismatch "Text content mismatch" 0 else
  (* Check paragraph count *)
  if negb (bool_decide (length (paragraphs text_frame1)
                        = length (paragraphs text_frame2)))
  then mismatch "Paragraph count mismatch" 0 else
  (* Compare each paragraph *)
  finished ← for_each compare_text_paragraph
               (zip (paragraphs text_frame1) (paragraphs text_frame2));
  ret (if (finished : bool) then 1 else 0).

(** *** Main comparison function *)

(** The comparison of a matched pair inside the shape loop of
    [compare_pptx_files]; [false] when the function returns 0. *)
Definition compare_matched_shapes (shape1 shape2 : Shape) : M bool :=
  (* Validate PICTURE shapes *)
  result ← (if bool_decide (shape_type shape1 = PICTURE)
            then compare_picture_shape shape1 shape2 else ret 1);
  if bool_decide (result = 0) then ret false else
  (* Validate TABLE shapes *)
  result ← (if bool_decide (shape_type shape1 = TABLE)
            then compare_table_shape shape1 shape2 else ret 1);
  if bool_decide (result = 0) then ret false else
  (* Validate shape dimensions and position *)
  same_geometry ← compare_shape_geometry shape1 shape2;
  if negb same_geometry then ret false else
  (* Validate text shapes *)
  match text_frame shape1, text_frame shape2 with
  | Some _, Some _ =>
      result ← compare_text_shape shape1 shape2;
      ret (negb (bool_decide (result = 0)))
  | _, _ => ret true
  end.

(** The loop [for test_idx, test_shape in enumerate(test_shapes)] over
    the state [used_golden_indices]: [None] when the function returns 0
    inside the loop, the final set otherwise. *)
Fixpoint match_shapes (test_shapes golden_shapes : list Shape)
    (used_golden_indices : gset Z) : M (option (gset Z)) :=
  match test_shapes with
  | [] => ret (Some used_golden_indices)
  | test_shape :: rest =>
      (* Find matching golden shape *)
      match find_matching_shape test_shape golden_shapes used_golden_indices with
      | (None, _) => mismatch "No matching shape found for test shape" None
      | (Some golden_shape, golden_idx) =>
          let used_golden_indices := {[golden_idx]} ∪ used_golden_indices in
          (* Now compare the matched pair *)
          go_on ← compare_matched_shapes test_shape golden_shape;
          if (go_on : bool)
          then match_shapes rest golden_shapes used_golden_indices
          else ret None
      end
  end.

End Parts.

(** The comparison of a matched pair inside the text shape loop. *)
Definition compare_matched_text_shapes (tshape1 tshape2 : Shape) : M bool :=
  text_frame1 ← lift (text_frame tshape1);
  text_frame2 ← lift (text_frame tshape2);
  if negb (bool_decide (strip (text text_frame1) = strip (text text_frame2)))
  then mismatch "TextShape: Text mismatch" false else
  if negb (bool_decide (length (paragraphs text_frame1)
                        = length (paragraphs text_frame2)))
  then mismatch "TextShape: Paragraph count mismatch" false else
  for_each (fun '(para1, para2) =>
              let align1 := normalize_alignment (alignment para1) in
              let align2 := normalize_alignment (alignment para2) in
              if negb (bool_decide (align1 = align2))
              then mismatch "TextShape: Alignment mismatch" false
              else ret true)
           (zip (paragraphs text_frame1) (paragraphs text_frame2)).

(** The loop [for test_idx, tshape1 in enumerate(text_shapes1)] over the
    state [used_golden_text_indices]; [false] when the function returns 0
    inside the loop. *)
Fixpoint match_text_shapes (text_shapes1 text_shapes2 : list Shape)
    (used_golden_text_indices : gset Z) : M bool :=
  match text_shapes1 with
  | [] => ret true
  | tshape1 :: rest =>
      match find_matching_shape tshape1 text_shapes2 used_golden_text_indices with
      | (None, _) => mismatch "No matching text shape for test TextShape" false
      | (Some tshape2, golden_text_idx) =>
          let used_golden_text_indices :=
            {[golden_text_idx]} ∪ used_golden_text_indices in
          go_on ← compare_matched_text_shapes tshape1 tshape2;
          if (go_on : bool)
          then match_text_shapes rest text_shapes2 used_golden_text_indices
          else ret false
      end
  end.

(** The body of the loop over the slides; [false] when the function
    returns 0. *)
Definition compare_slides (slide12 : Slide * Slide) : M bool :=
  let '(slide1, slide2) := slide12 in
  (* Check background color *)
  background1 ← lift (get_slide_background_color slide1);
  background2 ← lift (get_slide_background_color slide2);
  if negb (bool_decide (background1 = background2))
  then mismatch "Background color mismatch" false else
  (* Check notes *)
  notes1 ← lift (strip <$> get_slide_notes slide1);
  notes2 ← lift (strip <$> get_slide_notes slide2);
  if negb (bool_decide (notes1 = notes2))
  then mismatch "Notes mismatch" false else
  (* Check shape count *)
  if negb (bool_decide (length (slide_shapes slide1) = length (slide_shapes slide2)))
  then mismatch "Shape count mismatch" false else
  (* Match shapes from test file to golden file (content-based matching) *)
  let test_shapes := slide_shapes slide1 in
  let golden_shapes := slide_shapes slide2 in
  matched ← match_shapes (part_bullets slide1) (part_bullets slide2)
              test_shapes golden_shapes ∅;
  match matched with
  | None => ret false
  | Some used_golden_indices =>
      (* Verify all golden shapes were matched *)
      if negb (bool_decide (size used_golden_indices = length golden_shapes))
      then mismatch "golden shape(s) not matched by any test shape" false else
      (* Additional check: compare all text shapes including those in GROUPs *)
      let text_shapes1 := get_all_text_shapes slide1 in
      let text_shapes2 := get_all_text_shapes slide2 in
      if negb (bool_decide (length text_shapes1 = length text_shapes2))
      then mismatch "Text shape count mismatch (including groups)" false else
      (* Match text shapes by content *)
      match_text_shapes text_shapes1 text_shapes2 ∅
  end.

(** [compare_pptx_files] on the two loaded presentations: 1 if the files
    match, 0 otherwise. The log is emptied first. *)
Definition compare_pptx_files (prs1 prs2 : Presentation) : M Z :=
  fun _ =>
    ((* Compare number of slides *)
     if negb (bool_decide (length prs1 = length prs2))
     then mismatch "Slide count mismatch" 0 else
     (* Compare each slide *)
     finished ← for_each compare_slides (zip prs1 prs2);
     ret (if (finished : bool) then 1 else 0)) [].

(** *** Notions used to state the properties *)

(** A table whose cells exist at every position below the row and column
    counts: [table.cell] never raises inside the evaluator's loops. *)
Definition well_formed_table (t : Table) : bool :=
  forallb (fun row_idx =>
             forallb (fun col_idx =>
                        match cell t row_idx col_idx with
                        | Some _ => true
                        | None => false
                        end)
                     (seq 0 (columns t)))
          (seq 0 (rows t)).

(** A shape of type TABLE carries a well-formed table. *)
Definition well_formed_shape (shape : Shape) : bool :=
  if bool_decide (shape_type shape = TABLE) then
    match table shape with
    | Some t => well_formed_table t
    | None => false
    end
  else true.

(** The background colour of the slide can be read and its shapes are
    well formed. *)
Definition well_formed_slide (slide : Slide) : bool :=
  match get_slide_background_color slide with
  | Some _ => forallb well_formed_shape (slide_shapes slide)
  | None => false
  end.

(** A well-formed document: the background colour of every slide can
    be read and every table has its cells. *)
Definition well_formed (prs : Presentation) : bool :=
  forallb well_formed_slide prs.

(** The bullet comparison of [compare_text_shape] passes on the lists
    of the two parts: [compare_bullets] accepts them, or one of the
    extractions raised and the comparison is skipped. *)
Definition bullets_accepted (bullets_of_part1 bullets_of_part2 : option (list bullet))
  : bool :=
  match bullets_of_part1, bullets_of_part2 with
  | Some bullets1, Some bullets2 => compare_bullets bullets1 bullets2
  | _, _ => true
  end.

(** [shape] at the left and top of [other]. *)
Definition moved_onto (other shape : Shape) : Shape :=
  mkShape (shape_type shape) (shape_left other) (shape_top other)
    (shape_width shape) (shape_height shape) (text_frame shape) (image_md5 shape)
    (table shape) (line shape) (shapes shape).

(** The notes of the slide can be read: [get_slide_notes] does not
    raise. *)
Definition notes_read (slide : Slide) : bool :=
  match get_slide_notes slide with Some _ => true | None => false end.

(** Every unguarded read of the evaluator succeeds on the document. *)
Definition readable (prs : Presentation) : bool :=
  well_formed prs && forallb notes_read prs.

(** The golden indices claimed by the successive test shapes in the
    shape loop of [compare_pptx_files] ([match_shapes]), in the order in
    which they are added to [used_golden_indices], up to the point where
    the loop is left. *)
Fixpoint claimed_indices (bullets_of_part1 bullets_of_part2 : option (list bullet))
    (test_shapes golden_shapes : list Shape)
    (used_golden_indices : gset Z) (log : list string) : list Z :=
  match test_shapes with
  | [] => []
  | test_shape :: rest =>
      match find_matching_shape test_shape golden_shapes used_golden_indices with
      | (None, _) => []
      | (Some golden_shape, golden_idx) =>
          golden_idx ::
            match compare_matched_shapes bullets_of_part1 bullets_of_part2
                    test_shape golden_shape log with
            | (Some true, log') =>
                claimed_indices bullets_of_part1 bullets_of_part2 rest golden_shapes
                  ({[golden_idx]} ∪ used_golden_indices) log'
            | _ => []
            end
      end
  end.

(** A computation that returns [v] from every state of the log. *)
Definition returns {A} (m : M A) (v : A) : Prop :=
  forall log, exists log', m log = (Some v, log').

End Impress.

(** ** writer_test_evaluator.py: the embedded word-document evaluator *)
Module Writer.
Import Py.

(** One entry of [runs_formatting]: the dict built for a run by
    [extract_paragraphs_with_full_details]. A flag is [None] when the
    key is absent or holds [None]. *)
Record run := {
  text : string;
  bold : option bool;
  italic : option bool;
  underline : option bool;
  font_size : option string;
  font_name : option string
}.

(** The dict returned by [normalize_formatting]. *)
Record formatting := {
  norm_bold : bool;
  norm_italic : bool;
  norm_underline : bool;
  norm_font_size : option string;
  norm_font_name : option string
}.

#[global] Instance formatting_eq_dec : EqDecision formatting.
Proof. solve_decision. Defined.

Definition normalize_font_name (font : option string) : option string :=
  match font with
  | None => None
  | Some font =>
      if negb (truthy font) then None
      else
        let font := replace " (Headings)" EmptyString (replace " (Body)" EmptyString font) in
        let font := replace " (headings)" EmptyString (replace " (body)" EmptyString font) in
        let font := strip font in
        if truthy font then Some font else None
  end.

(** [True if flag else False] *)
Definition flag_set (flag : option bool) : bool :=
  match flag with Some true => true | _ => false end.

Definition normalize_formatting (run_fmt : run) : formatting :=
  {| norm_bold := flag_set (bold run_fmt);
     norm_italic := flag_set (italic run_fmt);
     norm_underline := flag_set (underline run_fmt);
     norm_font_size := font_size run_fmt;
     norm_font_name := normalize_font_name (font_name run_fmt) |}.

(** [current['text'] = value] *)
Definition set_text (current : run) (value : string) : run :=
  {| text := value;
     bold := bold current;
     italic := italic current;
     underline := underline current;
     font_size := font_size current;
     font_name := font_name current |}.

(** The loop [for run in runs_formatting[1:]] of [merge_consecutive_runs]
    over the state (merged, current), followed by the final append. *)
Fixpoint merge_from (merged : list run) (current : run) (rest : list run)
  : list run :=
  match rest with
  | [] => if truthy (text current) then merged ++ [current] else merged
  | run :: rest' =>
      let current_fmt := normalize_formatting current in
      let run_fmt := normalize_formatting run in
      if bool_decide (norm_bold current_fmt = norm_bold run_fmt)
         && bool_decide (norm_italic current_fmt = norm_italic run_fmt)
         && bool_decide (norm_underline current_fmt = norm_underline run_fmt)
         && bool_decide (norm_font_size current_fmt = norm_font_size run_fmt)
         && bool_decide (norm_font_name current_fmt = norm_font_name run_fmt)
      then merge_from merged
             (set_text current (String.append (text current) (text run))) rest'
      else merge_from
             (if truthy (text current) then merged ++ [current] else merged)
             run rest'
  end%list.

Definition merge_consecutive_runs (runs_formatting : list run) : list run :=
  match runs_formatting with
  | [] => []
  | first :: rest => merge_from [] first rest
  end.

(** The result of [compare_runs_semantic]: (is_match, error_code,
    error_msg); the values interpolated into the message are left out. *)
Definition comparison : Type := bool * option string * option string.

Definition failure (error_code error_msg : string) : comparison :=
  (false, Some error_code, Some error_msg).

(** The loop [for j, (actual_run, golden_run) in enumerate(zip(...))] and
    the final [return True, None, None]. *)
Fixpoint compare_segments (pairs : list (run * run)) : comparison :=
  match pairs with
  | [] => (true, None, None)
  | (actual_run, golden_run) :: rest =>
      let actual_norm := normalize_formatting actual_run in
      let golden_norm := normalize_formatting golden_run in
      let actual_text_clean := strip (text actual_run) in
      let golden_text_clean := strip (text golden_run) in
      if negb (bool_decide (actual_text_clean = golden_text_clean))
      then failure "FAIL_RUN_TEXT_CHANGED" "Expected text"
      else if negb (bool_decide (norm_bold actual_norm = norm_bold golden_norm))
      then failure "FAIL_RUN_BOLD_CHANGED" "Bold mismatch"
      else if negb (bool_decide (norm_italic actual_norm = norm_italic golden_norm))
      then failure "FAIL_RUN_ITALIC_CHANGED" "Italic mismatch"
      else if negb (bool_decide (norm_underline actual_norm = norm_underline golden_norm))
      then failure "FAIL_RUN_UNDERLINE_CHANGED" "Underline mismatch"
      else if negb (bool_decide (norm_font_size actual_norm = norm_font_size golden_norm))
      then failure "FAIL_RUN_FONT_SIZE_CHANGED" "Font size mismatch"
      else if negb (bool_decide (norm_font_name actual_norm = norm_font_name golden_norm))
      then failure "FAIL_RUN_FONT_NAME_CHANGED" "Font name mismatch"
      else compare_segments rest
  end.

(** [all(normalize_formatting(r) == normalize_formatting(first) for r in merged)] *)
Definition uniform (first : run) (merged : list run) : bool :=
  forallb (fun r => bool_decide (normalize_formatting r = normalize_formatting first))
          merged.

Definition compare_runs_semantic (actual_runs golden_runs : list run)
    (para_index : Z) : comparison :=
  let actual_merged := merge_consecutive_runs actual_runs in
  let golden_merged := merge_consecutive_runs golden_runs in
  let actual_merged := List.filter (fun r => truthy (strip (text r))) actual_merged in
  let golden_merged := List.filter (fun r => truthy (strip (text r))) golden_merged in
  if negb (bool_decide (length actual_merged = length golden_merged)) then
    let actual_full_text := join EmptyString (map text actual_merged) in
    let golden_full_text := join EmptyString (map text golden_merged) in
    if bool_decide (strip actual_full_text = strip golden_full_text)
       && match actual_merged, golden_merged with
          | actual_first :: _, golden_first :: _ =>
              let actual_uniform := uniform actual_first actual_merged in
              let golden_uniform := uniform golden_first golden_merged in
              actual_uniform && golden_uniform
              && bool_decide (normalize_formatting actual_first
                              = normalize_formatting golden_first)
          | _, _ => false
          end
    then (true, None, None)
    else failure "FAIL_PARAGRAPH_RUN_COUNT_CHANGED"
                 "Expected a different number of formatted segments (after merging consecutive runs with same formatting)"
  else compare_segments (zip actual_merged golden_merged).

End Writer.

(** ** Notions used in the proofs about [int / int] *)
Module Rounding.

(** [Q] and [l] describe the quotient [N / D]: [Q] is its integer part
    and [l] tells where the remainder lies with respect to one half. *)
Definition locates (N D Q : Z) (l : location) : Prop :=
  Q = N / D /\
  match l with
  | loc_Exact => N mod D = 0
  | loc_Inexact Lt => 0 < 2 * (N mod D) < D
  | loc_Inexact Eq => 0 < N mod D /\ 2 * (N mod D) = D
  | loc_Inexact Gt => D < 2 * (N mod D)
  end.

(** The rational bound below which a quotient rounds to a float not
    above [0.005]: the midpoint between [0.005] and the next float,
    11529215046068471 / 2^61. *)
Definition threshold_num : Z := 11529215046068471.
Definition threshold_den : Z := 2 ^ 61.

End Rounding.

(** ** Sample documents *)
Module ImpressSamples.
Import Py Impress.

Definition black : Color := {| rgb := Some (0, 0, 0); color_type := Some 1 |}.

Definition plain_font : Font :=
  {| font_name := Some "Calibri"; font_size := Some 228600; bold := None;
     italic := Some false; underline := None; color := black; strike := None |}.

Definition run_of (t : string) : Run :=
  {| run_text := t; font := plain_font |}.

(** The entry of [extract_bullets] for a paragraph with the text [t],
    without bullet. *)
Definition plain_bullet (t : string) : bullet :=
  (None, "No Bullet", t, "No Color").

Definition notes_of (t : string) : option NotesSlide :=
  Some {| notes_text_frame := Some t |}.

Definition paragraph_of (t : string) : Paragraph :=
  {| alignment := None; para_text := t; level := 0; runs := [run_of t] |}.

Definition thin_line : Line :=
  {| dash_style := None; line_width := Some 9525; line_color := Some black |}.

Definition text_box (t : string) (x y : Z) : Shape :=
  {| shape_type := TEXT_BOX; shape_left := x; shape_top := y;
     shape_width := 3000000; shape_height := 500000;
     text_frame := Some {| text := t; paragraphs := [paragraph_of t] |};
     image_md5 := None; table := None; line := Some thin_line; shapes := [] |}.

Definition auto_shape (t : string) (x y : Z) : Shape :=
  {| shape_type := AUTO_SHAPE; shape_left := x; shape_top := y;
     shape_width := 3000000; shape_height := 500000;
     text_frame := Some {| text := t; paragraphs := [paragraph_of t] |};
     image_md5 := None; table := None; line := Some thin_line; shapes := [] |}.

Definition picture (digest : string) (x y : Z) : Shape :=
  {| shape_type := PICTURE; shape_left := x; shape_top := y;
     shape_width := 2000000; shape_height := 1500000;
     text_frame := None; image_md5 := Some digest; table := None;
     line := Some thin_line; shapes := [] |}.

Definition cell_of (t : string) : Cell :=
  {| cell_text := t; cell_paragraphs := [paragraph_of t] |}.

Definition table_shape (x y : Z) : Shape :=
  {| shape_type := TABLE; shape_left := x; shape_top := y;
     shape_width := 6000000; shape_height := 1000000;
     text_frame := None; image_md5 := None;
     table := Some {| rows := 1; columns := 2;
                      grid := [[cell_of "Species"; cell_of "Count"]] |};
     line := None; shapes := [] |}.

Definition group_shape : Shape :=
  {| shape_type := GROUP; shape_left := 100000; shape_top := 5000000;
     shape_width := 4000000; shape_height := 800000;
     text_frame := None; image_md5 := None; table := None; line := None;
     shapes := [text_box "Inside the group" 100000 5000000] |}.

Definition white_fill : Fill :=
  {| fill_type := Some 1; fore_color_rgb := Some (255, 255, 255) |}.

Definition slide_1 : Slide :=
  {| background_fill := white_fill; master_background_fill := white_fill;
     notes_slide := notes_of "Speaker notes";
     slide_shapes := [text_box "Conservation Project" 500000 300000;
                      picture "9e107d9d372bb6826bd81d3542a419d6" 500000 1200000;
                      table_shape 500000 3000000;
                      group_shape];
     part_bullets := Some [plain_bullet "Conservation Project";
                           plain_bullet "Species"; plain_bullet "Count";
                           plain_bullet "Inside the group"] |}.

Definition deck : Presentation := [slide_1].

End ImpressSamples.

Module WriterSamples.
Import Py Writer.

Definition segment (t : string) (is_bold : bool) : run :=
  {| text := t; bold := Some is_bold; italic := Some false;
     underline := Some false; font_size := Some "24";
     font_name := Some "Calibri (Body)" |}.

End WriterSamples.

(** ** More of the Python built-ins *)
Module PyText.
Import Py.

(** The loop of [s.split()]: [word] holds the characters of the word
    being read; words are separated by runs of whitespace and empty words
    are dropped. *)
Fixpoint split_from (word : string) (s : string) : list string :=
  match s with
  | EmptyString => if truthy word then [word] else []
  | String c s' =>
      if isspace c
      then if truthy word then word :: split_from EmptyString s'
           else split_from EmptyString s'
      else split_from (String.append word (String c EmptyString)) s'
  end.

(** [s.split()] *)
Definition split (s : string) : list string := split_from EmptyString s.

End PyText.

(** ** impress_test_evaluator.py: loading and the test suite *)
Module ImpressSuite.
Import Py Impress.

(** [compare_pptx_files(file1_path, file2_path)] from the two paths: the
    log is emptied, then the files are loaded; a file is [None] when
    [Presentation(path)] raises. *)
Definition compare_pptx_paths (file1 file2 : option Presentation) : M Z :=
  fun _ =>
    match file1, file2 with
    | Some prs1, Some prs2 => compare_pptx_files prs1 prs2 []
    | _, _ => (None, [])
    end.

(** The second component of the result of [run_evaluator]: the first
    logged mismatch, [None], or the text [str(e)] of a caught exception. *)
Inductive reason :=
| first_mismatch (message : string)
| no_reason
| exception_text.

(** [run_evaluator]: the result and the reason, with the log it leaves. *)
Definition run_evaluator (test_file golden_file : option Presentation)
    (log : list string) : (Z * reason) * list string :=
  match compare_pptx_paths test_file golden_file log with
  | (Some result, mismatch_log) =>
      (result,
       match mismatch_log with
       | first :: _ => first_mismatch first
       | [] => no_reason
       end,
       mismatch_log)
  | (None, mismatch_log) => (0, exception_text, mismatch_log)
  end.

End ImpressSuite.

(** ** writer_test_evaluator.py: the checks of the embedded script *)
Module WriterScript.
Import Py PyText Writer.

(** One entry of the list returned by
    [extract_paragraphs_with_full_details]. *)
Record paragraph := {
  para_text : string;
  style : option string;
  alignment : option string;
  spacing_before : option string;
  spacing_after : option string;
  line_spacing : option string;
  runs_formatting : list run;
  has_comment : bool
}.

(** One entry of the list returned by [extract_comments]. *)
Record comment := {
  comment_id : string;
  author : string;
  comment_text : string
}.

(** The dict returned by [extract_headers_footers]. *)
Record headers_footers := {
  headers : list string;
  footers : list string
}.

(** The dict returned by [extract_document_structure]. *)
Record structure := {
  tables : nat;
  images : nat;
  sections : nat;
  footnotes : nat;
  endnotes : nat;
  bookmarks : nat
}.

(** What the four extraction functions return on a file; each is [None]
    when the function returns [None]. *)
Record document := {
  extracted_paragraphs : option (list paragraph);
  extracted_headers_footers : option headers_footers;
  extracted_structure : option structure;
  extracted_comments : option (list comment)
}.

(** [' '.join(text.split())] *)
Definition text_normalized (text : string) : string := join " " (split text).

(** The checks on the paragraphs at index [i]; [None] when they pass, the
    printed code otherwise. *)
Definition check_paragraph (actual_para golden_para : paragraph) (i : Z)
  : option string :=
  let actual_text_normalized := text_normalized (para_text actual_para) in
  let golden_text_normalized := text_normalized (para_text golden_para) in
  if negb (bool_decide (actual_text_normalized = golden_text_normalized))
  then Some "FAIL_PARAGRAPH_TEXT_CHANGED"
  else if negb (bool_decide (style actual_para = style golden_para))
  then Some "FAIL_PARAGRAPH_STYLE_CHANGED"
  else if negb (bool_decide (alignment actual_para = alignment golden_para))
  then Some "FAIL_PARAGRAPH_ALIGNMENT_CHANGED"
  else if negb (bool_decide (spacing_before actual_para = spacing_before golden_para))
  then Some "FAIL_PARAGRAPH_SPACING_BEFORE_CHANGED"
  else if negb (bool_decide (spacing_after actual_para = spacing_after golden_para))
  then Some "FAIL_PARAGRAPH_SPACING_AFTER_CHANGED"
  else if negb (bool_decide (line_spacing actual_para = line_spacing golden_para))
  then Some "FAIL_PARAGRAPH_LINE_SPACING_CHANGED"
  else
    let '(is_match, error_code, _) :=
      compare_runs_semantic (runs_formatting actual_para)
        (runs_formatting golden_para) i in
    if negb is_match then Some (default "None" error_code) else None.

(** The loop [for i in range(len(actual_paragraphs))] from index [i] on;
    [golden_paragraphs[i]] raises when the index is out of range. *)
Fixpoint check_paragraphs (i : nat) (actual_rest : list paragraph)
    (golden_paragraphs : list paragraph) : option string :=
  match actual_rest with
  | [] => None
  | actual_para :: rest =>
      match golden_paragraphs !! i with
      | None => Some "FAIL_EXCEPTION"
      | Some golden_para =>
          match check_paragraph actual_para golden_para (Z.of_nat i) with
          | Some code => Some code
          | None => check_paragraphs (S i) rest golden_paragraphs
          end
      end
  end.

(** CHECK 3: headers and footers. *)
Definition check_headers_footers (actual_hf golden_hf : headers_footers)
  : option string :=
  if negb (bool_decide (headers actual_hf = headers golden_hf))
  then Some "FAIL_HEADERS_CHANGED"
  else if negb (bool_decide (footers actual_hf = footers golden_hf))
  then Some "FAIL_FOOTERS_CHANGED"
  else None.

(** CHECK 4: document structure. *)
Definition check_structure (actual_structure golden_structure : structure)
  : option string :=
  if negb (bool_decide (tables actual_structure = tables golden_structure))
  then Some "FAIL_TABLE_COUNT_CHANGED"
  else if negb (bool_decide (images actual_structure = images golden_structure))
  then Some "FAIL_IMAGE_COUNT_CHANGED"
  else if negb (bool_decide (sections actual_structure = sections golden_structure))
  then Some "FAIL_SECTION_COUNT_CHANGED"
  else if negb (bool_decide (bookmarks actual_structure = bookmarks golden_structure))
  then Some "FAIL_BOOKMARK_COUNT_CHANGED"
  else if negb (bool_decide (footnotes actual_structure = footnotes golden_structure))
  then Some "FAIL_FOOTNOTE_COUNT_CHANGED"
  else if negb (bool_decide (endnotes actual_structure = endnotes golden_structure))
  then Some "FAIL_ENDNOTE_COUNT_CHANGED"
  else None.

(** The loop over [zip(actual_comments, golden_comments)]. *)
Fixpoint check_comment_pairs (pairs : list (comment * comment)) : option string :=
  match pairs with
  | [] => None
  | (actual_comment, golden_comment) :: rest =>
      if negb (bool_decide (comment_text actual_comment = comment_text golden_comment))
      then Some "FAIL_COMMENT_TEXT_CHANGED"
      else if negb (bool_decide (author actual_comment = author golden_comment))
      then Some "FAIL_COMMENT_AUTHOR_CHANGED"
      else check_comment_pairs rest
  end.

(** The loop over [zip(actual_paragraphs, golden_paragraphs)] that checks
    the comment placement. *)
Fixpoint check_comment_placement (pairs : list (paragraph * paragraph))
  : option string :=
  match pairs with
  | [] => None
  | (actual_para, golden_para) :: rest =>
      if negb (Bool.eqb (has_comment actual_para) (has_comment golden_para))
      then Some "FAIL_COMMENT_PLACEMENT_CHANGED"
      else check_comment_placement rest
  end.

(** CHECK 5: comments. *)
Definition check_comments (actual_comments golden_comments : list comment)
    (actual_paragraphs golden_paragraphs : list paragraph) : option string :=
  if negb (bool_decide (length actual_comments = length golden_comments))
  then Some "FAIL_COMMENT_COUNT_CHANGED"
  else
    match check_comment_pairs (zip actual_comments golden_comments) with
    | Some code => Some code
    | None =>
        check_comment_placement (zip actual_paragraphs golden_paragraphs)
    end.

(** The body of the embedded script: what it prints on standard output.
    [actual_file] is [None] when the solution file does not exist and
    [golden_file] is [None] when the download of the reference raises. *)
Definition evaluate (actual_file golden_file : option document) : string :=
  match actual_file with
  | None => "FAIL_FILE_NOT_FOUND"
  | Some actual =>
      match golden_file with
      | None => "FAIL_EXCEPTION"
      | Some golden =>
          match extracted_paragraphs actual, extracted_paragraphs golden with
          | Some actual_paragraphs, Some golden_paragraphs =>
              (* CHECK 1: paragraph count *)
              if negb (bool_decide (length actual_paragraphs = length golden_paragraphs))
              then "FAIL_PARAGRAPH_COUNT_CHANGED"
              else
                (* CHECK 2: paragraph text and formatting *)
                match check_paragraphs 0 actual_paragraphs golden_paragraphs with
                | Some code => code
                | None =>
                    match extracted_headers_footers actual,
                          extracted_headers_footers golden with
                    | Some actual_hf, Some golden_hf =>
                        match check_headers_footers actual_hf golden_hf with
                        | Some code => code
                        | None =>
                            match extracted_structure actual,
                                  extracted_structure golden with
                            | Some actual_structure, Some golden_structure =>
                                match check_structure actual_structure
                                        golden_structure with
                                | Some code => code
                                | None =>
                                    match extracted_comments actual,
                                          extracted_comments golden with
                                    | Some actual_comments, Some golden_comments =>
                                        match check_comments actual_comments
                                                golden_comments actual_paragraphs
                                                golden_paragraphs with
                                        | Some code => code
                                        | None => "SUCCESS"
                                        end
                                    | _, _ => "FAIL_COMMENT_EXTRACTION"
                                    end
                                end
                            | _, _ => "FAIL_STRUCTURE_EXTRACTION"
                            end
                        end
                    | _, _ => "FAIL_HEADER_FOOTER_EXTRACTION"
                    end
                end
          | _, _ => "FAIL_PARAGRAPH_EXTRACTION"
          end
      end
  end.

(** The codes the script can print. *)
Definition codes : list string :=
  ["SUCCESS"; "FAIL_FILE_NOT_FOUND"; "FAIL_EXCEPTION";
   "FAIL_PARAGRAPH_EXTRACTION"; "FAIL_PARAGRAPH_COUNT_CHANGED";
   "FAIL_PARAGRAPH_TEXT_CHANGED"; "FAIL_PARAGRAPH_STYLE_CHANGED";
   "FAIL_PARAGRAPH_ALIGNMENT_CHANGED"; "FAIL_PARAGRAPH_SPACING_BEFORE_CHANGED";
   "FAIL_PARAGRAPH_SPACING_AFTER_CHANGED"; "FAIL_PARAGRAPH_LINE_SPACING_CHANGED";
   "FAIL_PARAGRAPH_RUN_COUNT_CHANGED"; "FAIL_RUN_TEXT_CHANGED";
   "FAIL_RUN_BOLD_CHANGED"; "FAIL_RUN_ITALIC_CHANGED";
   "FAIL_RUN_UNDERLINE_CHANGED"; "FAIL_RUN_FONT_SIZE_CHANGED";
   "FAIL_RUN_FONT_NAME_CHANGED"; "FAIL_HEADER_FOOTER_EXTRACTION";
   "FAIL_HEADERS_CHANGED"; "FAIL_FOOTERS_CHANGED"; "FAIL_STRUCTURE_EXTRACTION";
   "FAIL_TABLE_COUNT_CHANGED"; "FAIL_IMAGE_COUNT_CHANGED";
   "FAIL_SECTION_COUNT_CHANGED"; "FAIL_BOOKMARK_COUNT_CHANGED";
   "FAIL_FOOTNOTE_COUNT_CHANGED"; "FAIL_ENDNOTE_COUNT_CHANGED";
   "FAIL_COMMENT_EXTRACTION"; "FAIL_COMMENT_COUNT_CHANGED";
   "FAIL_COMMENT_TEXT_CHANGED"; "FAIL_COMMENT_AUTHOR_CHANGED";
   "FAIL_COMMENT_PLACEMENT_CHANGED"].

End WriterScript.

(** ** Notions used to state the properties of the presentation evaluator *)
Module ImpressNotions.
Import Py Impress.

(** *** The mismatch log *)

Definition unmatched_golden_message : string :=
  "golden shape(s) not matched by any test shape".

Definition no_match_message : string :=
  "No matching shape found for test shape".

(** The messages of the shape matching loop itself. *)
Definition matching_messages : list string :=
  [unmatched_golden_message; no_match_message].

(** From the log [log], the computation only appends messages, none of
    them [forbidden], and appends at least one when its result is a
    failure. *)
Definition attributes_at {A} (forbidden : string) (failed : A -> bool)
    (m : M A) (log : list string) : Prop :=
  exists messages,
    (m log).2 = (log ++ messages)%list
    /\ (forbidden ∉ messages)
    /\ forall a, (m log).1 = Some a -> failed a = true -> messages <> [].

Definition is_zero (result : Z) : bool := bool_decide (result = 0).

Definition is_none {A} (result : option A) : bool :=
  match result with None => true | Some _ => false end.

(** *** What a match guarantees *)

(** What a passed comparison of a test shape with its golden shape
    guarantees. *)
Definition shapes_agree (test_shape golden_shape : Shape) : Prop :=
  type_score (shape_type test_shape) (shape_type golden_shape) <> None
  /\ is_approximately_equal (shape_left test_shape) (shape_left golden_shape)
       float_0_005 = Some true
  /\ is_approximately_equal (shape_top test_shape) (shape_top golden_shape)
       float_0_005 = Some true
  /\ is_approximately_equal (shape_width test_shape) (shape_width golden_shape)
       float_0_005 = Some true
  /\ is_approximately_equal (shape_height test_shape) (shape_height golden_shape)
       float_0_005 = Some true
  /\ (forall tf1 tf2,
        text_frame test_shape = Some tf1 -> text_frame golden_shape = Some tf2 ->
        strip (text tf1) = strip (text tf2)
        /\ length (paragraphs tf1) = length (paragraphs tf2))
  /\ (forall hash1 hash2,
        shape_type test_shape = PICTURE ->
        image_md5 test_shape = Some hash1 -> image_md5 golden_shape = Some hash2 ->
        hash1 = hash2).

(** What a passed comparison of two slides guarantees: [pairing] gives,
    for each test shape in order, the position of the golden shape it was
    compared with. *)
Definition slides_agree (slide1 slide2 : Slide) : Prop :=
  (exists background,
     get_slide_background_color slide1 = Some background
     /\ get_slide_background_color slide2 = Some background)
  /\ (exists notes1 notes2,
        get_slide_notes slide1 = Some notes1 /\ get_slide_notes slide2 = Some notes2
        /\ strip notes1 = strip notes2)
  /\ length (get_all_text_shapes slide1) = length (get_all_text_shapes slide2)
  /\ exists pairing : list nat,
       NoDup pairing
       /\ length pairing = length (slide_shapes slide2)
       /\ Forall2 (fun test_shape k =>
                     exists golden_shape,
                       slide_shapes slide2 !! k = Some golden_shape
                       /\ shapes_agree test_shape golden_shape)
                  (slide_shapes slide1) pairing.

(** *** The matcher *)

(** The types the matcher treats as interchangeable: the text-bearing
    types form one class, every other type is alone in its class. *)
Definition type_class (shape_type : MSO_SHAPE_TYPE) : MSO_SHAPE_TYPE :=
  if bool_decide (shape_type ∈ TEXT_SHAPE_TYPES) then TEXT_BOX else shape_type.

(** The matcher can pair the two shapes. *)
Definition compatible (test_shape golden_shape : Shape) : Prop :=
  type_score (shape_type test_shape) (shape_type golden_shape) <> None.

(** As a candidate for the target [shape], [other] scores below a copy of
    [shape] (or is rejected). *)
Definition outscored_by_copy (shape other : Shape) : bool :=
  match candidate_score shape other, candidate_score shape shape with
  | Some score, Some self => score <? self
  | _, _ => true
  end.

(** No shape of the list can be taken for another one by the matcher. *)
Definition distinguishable (shapes : list Shape) : Prop :=
  forall (i j : nat) (shape other : Shape),
    shapes !! i = Some shape -> shapes !! j = Some other -> i <> j ->
    outscored_by_copy shape other = true.

(** [slide2] is [slide1] with its shapes in another order. Nothing is
    said of the paragraphs that [extract_bullets] lists for the two
    parts: they follow the order of each file. *)
Definition reordered (slide1 slide2 : Slide) : Prop :=
  background_fill slide2 = background_fill slide1
  /\ master_background_fill slide2 = master_background_fill slide1
  /\ notes_slide slide2 = notes_slide slide1
  /\ slide_shapes slide1 ≡ₚ slide_shapes slide2.

(** The bullet comparison of [compare_text_shape] passes on the two
    slides: [compare_bullets] accepts the lists of the two parts, or one
    of the extractions raises and the comparison is skipped. *)
Definition bullets_pass (slide1 slide2 : Slide) : bool :=
  bullets_accepted (part_bullets slide1) (part_bullets slide2).

(** The shape has a text frame with a run. *)
Definition shape_has_run (shape : Shape) : bool :=
  match text_frame shape with
  | Some text_frame1 =>
      existsb (fun para => negb (bool_decide (runs para = [])))
              (paragraphs text_frame1)
  | None => false
  end.

(** A shape of the slide itself (not of a group) has a text frame with a
    run: the shape loop compares runs on this slide. *)
Definition has_run (slide : Slide) : bool :=
  existsb shape_has_run (slide_shapes slide).

(** No run is compared on the slides, or the bullet comparison passes. *)
Definition bullets_allow (slide1 slide2 : Slide) : bool :=
  negb (has_run slide1) || bullets_pass slide1 slide2.

(** *** Helper functions *)

(** What [compare_bullets] looks at in a bullet. *)
Definition bullet_key (b : bullet) : string * string * string :=
  let '(lvl, char, text, _) := b in (default "0" lvl, char, text).

(** [hasattr(shape, 'text_frame')] *)
Definition has_text_frame (shape : Shape) : bool :=
  match text_frame shape with Some _ => true | None => false end.

(** Every whitespace character of [s] is a single space that follows a
    visible character ([after_space] tells that a space came just before). *)
Fixpoint single_spaced (after_space : bool) (s : string) : bool :=
  match s with
  | EmptyString => true
  | String c s' =>
      if isspace c
      then bool_decide (c = " "%char) && negb after_space && single_spaced true s'
      else single_spaced false s'
  end.

End ImpressNotions.

(** ** Notions used to state the properties of the word-document evaluator *)
Module WriterNotions.
Import Py PyText Writer WriterScript.

(** The test of [merge_consecutive_runs] on two runs. *)
Definition same_formatting (current next : run) : bool :=
  bool_decide (normalize_formatting current = normalize_formatting next).

(** What the final [if current.get('text')] appends. *)
Definition pending (current : run) : list run :=
  if truthy (text current) then [current] else [].

(** No two adjacent segments have the same normalized formatting. *)
Fixpoint distinct_neighbours (l : list run) : bool :=
  match l with
  | r1 :: ((r2 :: _) as l') => negb (same_formatting r1 r2) && distinct_neighbours l'
  | _ => true
  end.

(** The codes [compare_runs_semantic] returns. *)
Definition run_codes : list string :=
  ["FAIL_PARAGRAPH_RUN_COUNT_CHANGED"; "FAIL_RUN_TEXT_CHANGED";
   "FAIL_RUN_BOLD_CHANGED"; "FAIL_RUN_ITALIC_CHANGED";
   "FAIL_RUN_UNDERLINE_CHANGED"; "FAIL_RUN_FONT_SIZE_CHANGED";
   "FAIL_RUN_FONT_NAME_CHANGED"].

(** What the script checks on a pair of paragraphs in CHECK 2. *)
Definition paragraphs_agree (actual_para golden_para : paragraph) : Prop :=
  text_normalized (para_text actual_para) = text_normalized (para_text golden_para)
  /\ style actual_para = style golden_para
  /\ alignment actual_para = alignment golden_para
  /\ spacing_before actual_para = spacing_before golden_para
  /\ spacing_after actual_para = spacing_after golden_para
  /\ line_spacing actual_para = line_spacing golden_para
  /\ fst (fst (compare_runs_semantic (runs_formatting actual_para)
                 (runs_formatting golden_para) 0)) = true.

(** What the script checks on a pair of comments. *)
Definition comments_agree (actual_comment golden_comment : comment) : Prop :=
  comment_text actual_comment = comment_text golden_comment
  /\ author actual_comment = author golden_comment.

(** A file on which the four extractions succeed. *)
Definition loaded (paragraphs : list paragraph) (hf : headers_footers)
    (counts : structure) (comments : list comment) : option document :=
  Some {| extracted_paragraphs := Some paragraphs;
          extracted_headers_footers := Some hf;
          extracted_structure := Some counts;
          extracted_comments := Some comments |}.

End WriterNotions.

(** ** More sample documents *)
Module OrderSamples.
Import Py Impress ImpressSamples.

(** Two slides with the same two captions at slightly different places on
    a wide slide. *)
Definition captions_test : Presentation :=
  [{| background_fill := white_fill; master_background_fill := white_fill;
      notes_slide := notes_of EmptyString;
      slide_shapes := [text_box "Caption" 30000000 0;
                       text_box "Caption" 30170000 0];
      part_bullets := Some [plain_bullet "Caption"; plain_bullet "Caption"] |}].

Definition captions_golden : Presentation :=
  [{| background_fill := white_fill; master_background_fill := white_fill;
      notes_slide := notes_of EmptyString;
      slide_shapes := [text_box "Caption" 30120000 0;
                       text_box "Caption" 30200000 0];
      part_bullets := Some [plain_bullet "Caption"; plain_bullet "Caption"] |}].

(** A title and a picture, and the same slide with the picture first. *)
Definition title_then_picture : Slide :=
  {| background_fill := white_fill; master_background_fill := white_fill;
     notes_slide := notes_of "Speaker notes";
     slide_shapes := [text_box "Conservation Project" 500000 300000;
                      picture "9e107d9d372bb6826bd81d3542a419d6" 500000 1200000];
     part_bullets := Some [plain_bullet "Conservation Project"] |}.

Definition picture_then_title : Slide :=
  {| background_fill := white_fill; master_background_fill := white_fill;
     notes_slide := notes_of "Speaker notes";
     slide_shapes := [picture "9e107d9d372bb6826bd81d3542a419d6" 500000 1200000;
                      text_box "Conservation Project" 500000 300000];
     part_bullets := Some [plain_bullet "Conservation Project"] |}.

(** A title and a caption, and the same slide with the caption first:
    the paragraphs of the part follow the shapes. *)
Definition title_then_caption : Slide :=
  {| background_fill := white_fill; master_background_fill := white_fill;
     notes_slide := notes_of "Speaker notes";
     slide_shapes := [text_box "Conservation Project" 500000 300000;
                      text_box "Caption" 500000 1200000];
     part_bullets := Some [plain_bullet "Conservation Project";
                           plain_bullet "Caption"] |}.

Definition caption_then_title : Slide :=
  {| background_fill := white_fill; master_background_fill := white_fill;
     notes_slide := notes_of "Speaker notes";
     slide_shapes := [text_box "Caption" 500000 1200000;
                      text_box "Conservation Project" 500000 300000];
     part_bullets := Some [plain_bullet "Caption";
                           plain_bullet "Conservation Project"] |}.

(** A valid slide whose background is filled with a colour of the theme:
    [fill.type] is 1 and reading [fill.fore_color.rgb] raises. *)
Definition theme_fill : Fill := {| fill_type := Some 1; fore_color_rgb := None |}.

Definition theme_background : Presentation :=
  [{| background_fill := theme_fill; master_background_fill := white_fill;
      notes_slide := notes_of EmptyString;
      slide_shapes := [text_box "Conservation Project" 500000 300000];
      part_bullets := Some [plain_bullet "Conservation Project"] |}].

(** A valid slide whose notes slide has no notes placeholder. *)
Definition notes_without_placeholder : Presentation :=
  [{| background_fill := white_fill; master_background_fill := white_fill;
      notes_slide := Some {| notes_text_frame := None |};
      slide_shapes := [text_box "Conservation Project" 500000 300000];
      part_bullets := Some [plain_bullet "Conservation Project"] |}].

End OrderSamples.

(** ** temp.py: the positional comparator *)
Module Temp.
Import Py Impress.

(** The keyword options of [compare_pptx_files], after the
    [options.get(name, default)] lines. *)
Record options := {
  approximately_tolerance : spec_float;
  examine_number_of_slides : bool;
  examine_shape : bool;
  examine_text : bool;
  examine_indent : bool;
  examine_font_name : bool;
  examine_font_size : bool;
  examine_font_bold : bool;
  examine_font_italic : bool;
  examine_color_rgb : bool;
  examine_font_underline : bool;
  examine_strike_through : bool;
  examine_alignment : bool;
  examine_title_bottom_position : bool;
  examine_table_bottom_position : bool;
  examine_right_position : bool;
  examine_top_position : bool;
  examine_shape_for_shift_size : bool;
  examine_image_size : bool;
  examine_modify_height : bool;
  examine_bullets : bool;
  examine_background_color : bool;
  examine_note : bool
}.

(** The options when no keyword is given. *)
Definition default_options : options :=
  {| approximately_tolerance := float_0_005;
     examine_number_of_slides := true;
     examine_shape := true;
     examine_text := true;
     examine_indent := true;
     examine_font_name := true;
     examine_font_size := true;
     examine_font_bold := true;
     examine_font_italic := true;
     examine_color_rgb := true;
     examine_font_underline := true;
     examine_strike_through := true;
     examine_alignment := true;
     examine_title_bottom_position := false;
     examine_table_bottom_position := false;
     examine_right_position := false;
     examine_top_position := false;
     examine_shape_for_shift_size := false;
     examine_image_size := false;
     examine_modify_height := false;
     examine_bullets := true;
     examine_background_color := true;
     examine_note := true |}.

(** A computation of the comparator is an [option]: [None] is an
    exception that leaves [compare_pptx_files]. Inside it, a block of
    checks yields [false] when the function returns 0 and [true] when
    the checks that follow are to be made. The lines written to the
    debug log are left out: the log is taken to be writable, and what
    they print is computed from attributes that are always present. *)

(** A [for] loop whose body may leave the function with [return 0]. *)
Fixpoint loop {A} (body : A -> option bool) (l : list A) : option bool :=
  match l with
  | [] => Some true
  | x :: rest =>
      go_on ← body x;
      if (go_on : bool) then loop body rest else Some false
  end.

(** The nested [get_slide_notes]. The outer [None] is the
    [AttributeError] of [notes_slide.notes_text_frame.text] on a notes
    slide without notes text frame; [Some None] is the value [None] that
    the function returns when [slide.notes_slide] tests false. *)
Definition get_slide_notes (slide : Slide) : option (option string) :=
  match notes_slide slide with
  | Some notes => text ← notes_text_frame notes; Some (Some text)
  | None => Some None
  end.

(** The nested [_compare_bullets_with_tolerance]. *)
Definition _compare_bullets_with_tolerance (bullets1 bullets2 : list bullet) : bool :=
  if negb (bool_decide (length bullets1 = length bullets2)) then false
  else
    forallb
      (fun '((lvl1, char1, text1, _), (lvl2, char2, text2, _)) =>
         (* Compare text (most important) *)
         if negb (bool_decide (text1 = text2)) then false
         (* Compare bullet character *)
         else if negb (bool_decide (char1 = char2)) then false
         (* Compare level with tolerance (None and '0' are equivalent) *)
         else
           let normalized_lvl1 := default "0" lvl1 in
           let normalized_lvl2 := default "0" lvl2 in
           bool_decide (normalized_lvl1 = normalized_lvl2))
      (zip bullets1 bullets2).

Section Comparison.
Variable opts : options.

(** [not is_approximately_equal(a, b)] with the tolerance of the options;
    the nested [is_approximately_equal] has the text of the function of
    impress_test_evaluator.py. *)
Definition differs (a b : Z) : option bool :=
  negb <$> is_approximately_equal a b (approximately_tolerance opts).

(** The test on left, top, width and height that the option blocks
    share. *)
Definition geometry_differs (shape1 shape2 : Shape) : option bool :=
  or_else
    (or_else
       (or_else (differs (shape_left shape1) (shape_left shape2))
                (differs (shape_top shape1) (shape_top shape2)))
       (differs (shape_width shape1) (shape_width shape2)))
    (differs (shape_height shape1) (shape_height shape2)).

(** [return 0] when [test] holds. *)
Definition fail_when (test : option bool) : option bool := negb <$> test.

(** [hasattr(shape1, "text") and hasattr(shape2, "text")
     and shape1.text == shape2.text] *)
Definition same_text (shape1 shape2 : Shape) : bool :=
  match text_frame shape1, text_frame shape2 with
  | Some text_frame1, Some text_frame2 =>
      bool_decide (text text_frame1 = text text_frame2)
  | _, _ => false
  end.

(** [shape1.text == literal], read where [same_text] holds. *)
Definition text_is (shape1 : Shape) (literal : string) : bool :=
  match text_frame shape1 with
  | Some text_frame1 => bool_decide (text text_frame1 = literal)
  | None => false
  end.

(** [not hasattr(shape1, "text") and not hasattr(shape2, "text")] *)
Definition no_text (shape1 shape2 : Shape) : bool :=
  match text_frame shape1, text_frame shape2 with
  | None, None => true
  | _, _ => false
  end.

(** ENHANCEMENT 2: Validate Picture/Image Shapes *)
Definition validate_picture (shape1 shape2 : Shape) : option bool :=
  (* Check position with tolerance *)
  moved ← or_else (differs (shape_left shape1) (shape_left shape2))
                  (differs (shape_top shape1) (shape_top shape2));
  if (moved : bool) then Some false else
  (* Check dimensions with tolerance *)
  resized ← or_else (differs (shape_width shape1) (shape_width shape2))
                    (differs (shape_height shape1) (shape_height shape2));
  if (resized : bool) then Some false else
  (* Compare image binary content (hash) *)
  if match image_md5 shape1, image_md5 shape2 with
     | Some hash1, Some hash2 => negb (bool_decide (hash1 = hash2))
     | _, _ => false
     end
  then Some false else
  (* Validate Image Border Properties *)
  match line shape1, line shape2 with
  | Some line1, Some line2 =>
      (* Check border style *)
      if negb (bool_decide (dash_style line1 = dash_style line2)) then Some false else
      (* Check border width *)
      wider ←
        (if negb (bool_decide (line_width line1 = line_width line2))
         then match line_width line1, line_width line2 with
              | Some width1, Some width2 =>
                  negb <$> is_approximately_equal width1 width2 float_0_01
              | _, _ => None
              end
         else Some false);
      if (wider : bool) then Some false else
      (* Check border color (RGB) *)
      match line_color line1, line_color line2 with
      | Some color1, Some color2 =>
          match rgb color1, rgb color2 with
          | Some rgb1, Some rgb2 =>
              if negb (bool_decide (rgb1 = rgb2)) then Some false else Some true
          | _, _ =>
              if negb (bool_decide (color_type color1 = color_type color2))
              then Some false else Some true
          end
      | _, _ => Some true
      end
  | _, _ => Some true
  end.

Definition POSITION_TOLERANCE_EMU : Z := 2000.

(** ENHANCEMENT 3: Validate Table Properties *)
Definition validate_table (shape1 shape2 : Shape) : option bool :=
  let pos_diff_left := Z.abs (shape_left shape1 - shape_left shape2) in
  let pos_diff_top := Z.abs (shape_top shape1 - shape_top shape2) in
  if (POSITION_TOLERANCE_EMU <? pos_diff_left) || (POSITION_TOLERANCE_EMU <? pos_diff_top)
  then Some false else
  (* Check dimensions with hybrid tolerance *)
  fail_when (or_else (differs (shape_width shape1) (shape_width shape2))
                     (differs (shape_height shape1) (shape_height shape2))).

(** The blocks guarded by the positional options, in their order; the
    block of [examine_shape] stands between them. *)
Definition examine_positions (slide_idx : Z) (shape1 shape2 : Shape) : option bool :=
  go_on ←
    (if examine_title_bottom_position opts then
       if same_text shape1 shape2 then
         if text_is shape1 "Product Comparison"
            && ((shape_top shape1 <=? shape_top shape2) || (shape_top shape1 <? 3600000))
         then Some false else Some true
       else fail_when (geometry_differs shape1 shape2)
     else Some true);
  if negb go_on then Some false else
  go_on ←
    (if examine_table_bottom_position opts then
       if bool_decide (slide_idx = 3) && bool_decide (shape_type shape1 = TABLE)
          && bool_decide (shape_type shape2 = TABLE)
       then
         if (shape_top shape1 <=? shape_top shape2) || (shape_top shape1 <? 3600000)
         then Some false else Some true
       else fail_when (geometry_differs shape1 shape2)
     else Some true);
  if negb go_on then Some false else
  if examine_right_position opts
     && (bool_decide (slide_idx = 2) && no_text shape1 shape2)
     && ((shape_left shape1 <=? shape_left shape2) || (shape_left shape1 <? 4320000))
  then Some false else
  if examine_top_position opts
     && (bool_decide (slide_idx = 2) && bool_decide (shape_type shape1 = PICTURE)
         && bool_decide (shape_type shape2 = PICTURE))
     && ((shape_top shape2 <=? shape_top shape1) || (1980000 <? shape_top shape1))
  then Some false else
  go_on ←
    (if examine_shape_for_shift_size opts then
       shifted ← geometry_differs shape1 shape2;
       if (shifted : bool)
          && negb (same_text shape1 shape2
                   && text_is shape1 "Elaborate on what you want to discuss.")
       then Some false else Some true
     else Some true);
  if negb go_on then Some false else
  (* examine_shape check happens BEFORE examine_modify_height *)
  shifted ← geometry_differs shape1 shape2;
  if (shifted : bool) && examine_shape opts then Some false else
  go_on ←
    (if examine_image_size opts then
       if bool_decide (shape_type shape1 = PICTURE)
          && bool_decide (shape_type shape2 = PICTURE)
       then fail_when (or_else (differs (shape_width shape1) (shape_width shape2))
                               (differs (shape_height shape1) (shape_height shape2)))
       else fail_when (geometry_differs shape1 shape2)
     else Some true);
  if negb go_on then Some false else
  if examine_modify_height opts then
    if no_text shape1 shape2
       || (bool_decide (shape_type shape1 = FREEFORM)
           && bool_decide (shape_type shape2 = FREEFORM))
    then fail_when (differs (shape_height shape1) (shape_height shape2))
    else fail_when (geometry_differs shape1 shape2)
  else Some true.

(** The first pass over the cells of two tables: the texts. *)
Definition compare_cell_text (table1 table2 : Table) (pos : nat * nat) : option bool :=
  let '(row_idx, col_idx) := pos in
  cell1 ← cell table1 row_idx col_idx;
  cell2 ← cell table2 row_idx col_idx;
  let text1 := normalize_cell_text (cell_text cell1) in
  let text2 := normalize_cell_text (cell_text cell2) in
  if negb (bool_decide (text1 = text2)) then Some false else Some true.

(** The checks on a pair of runs of a table cell. *)
Definition compare_cell_run (run12 : Run * Run) : option bool :=
  let '(run1, run2) := run12 in
  (* Check font color *)
  if match rgb (color (font run1)), rgb (color (font run2)) with
     | Some rgb1, Some rgb2 =>
         negb (bool_decide (rgb1 = rgb2)) && examine_color_rgb opts
     | _, _ => false
     end
  then Some false else
  (* Check font bold *)
  if negb (bool_decide (bold (font run1) = bold (font run2)))
     && negb ((bool_decide (bold (font run1) = None)
               || bool_decide (bold (font run1) = Some false))
              && (bool_decide (bold (font run2) = None)
                  || bool_decide (bold (font run2) = Some false)))
  then Some false else
  (* Check font italic *)
  if negb (bool_decide (italic (font run1) = italic (font run2)))
     && negb ((bool_decide (italic (font run1) = None)
               || bool_decide (italic (font run1) = Some false))
              && (bool_decide (italic (font run2) = None)
                  || bool_decide (italic (font run2) = Some false)))
  then Some false else
  (* Check font underline *)
  let underline1 := underline (font run1) in
  let underline2 := underline (font run2) in
  if underline_differs underline1 underline2
     && (negb (bool_decide (underline1 = None)) && negb (bool_decide (underline2 = None))
         || (bool_decide (underline1 = None)
             && bool_decide (underline2 = Some (U_bool true))
             || bool_decide (underline1 = Some (U_bool true))
                && bool_decide (underline2 = None)))
  then Some false else Some true.

(** The second pass over the cells of two tables: the formatting. *)
Definition compare_cell_formatting (table1 table2 : Table) (pos : nat * nat)
  : option bool :=
  let '(row_idx, col_idx) := pos in
  cell1 ← cell table1 row_idx col_idx;
  cell2 ← cell table2 row_idx col_idx;
  (* Check if cells have the same number of paragraphs *)
  if negb (bool_decide (length (cell_paragraphs cell1) = length (cell_paragraphs cell2)))
  then Some false else
  loop (fun '(para1, para2) =>
          (* Check if paragraphs have the same number of runs *)
          if negb (bool_decide (length (runs para1) = length (runs para2)))
          then Some false
          else loop compare_cell_run (zip (runs para1) (runs para2)))
       (zip (cell_paragraphs cell1) (cell_paragraphs cell2)).

(** The block [if shape1.shape_type == MSO_SHAPE_TYPE.TABLE] on the
    contents of the tables. *)
Definition compare_tables (shape1 shape2 : Shape) : option bool :=
  table1 ← table shape1;
  table2 ← table shape2;
  (* Check if tables have the same dimensions *)
  if negb (bool_decide (rows table1 = rows table2))
     || negb (bool_decide (columns table1 = columns table2))
  then Some false else
  let positions :=
    flat_map (fun row_idx => map (fun col_idx => (row_idx, col_idx))
                                 (seq 0 (columns table1)))
             (seq 0 (rows table1)) in
  (* Table Cell Text Validation *)
  go_on ← loop (compare_cell_text table1 table2) positions;
  if negb go_on then Some false else
  loop (compare_cell_formatting table1 table2) positions.

Section Parts.

(** What [_extract_bullets] gives on [run1.part.blob] and on
    [run2.part.blob]: the lists of the two slides, whichever runs of
    the two slides are compared. *)
Variables bullets_of_part1 bullets_of_part2 : option (list bullet).

(** The checks on a pair of runs of a text shape. *)
Definition compare_run (run12 : Run * Run) : option bool :=
  let '(run1, run2) := run12 in
  let font1 := font run1 in
  let font2 := font run2 in
  if negb (bool_decide (font_name font1 = font_name font2)) && examine_font_name opts
  then Some false else
  if negb (bool_decide (font_size font1 = font_size font2)) && examine_font_size opts
  then Some false else
  if negb (bool_decide (bold font1 = bold font2)) && examine_font_bold opts
     (* Special handling for None vs False *)
     && negb ((bool_decide (bold font1 = None) || bool_decide (bold font1 = Some false))
              && (bool_decide (bold font2 = None) || bool_decide (bold font2 = Some false)))
  then Some false else
  if negb (bool_decide (italic font1 = italic font2)) && examine_font_italic opts
     && negb ((bool_decide (italic font1 = None) || bool_decide (italic font1 = Some false))
              && (bool_decide (italic font2 = None)
                  || bool_decide (italic font2 = Some false)))
  then Some false else
  if match rgb (color font1), rgb (color font2) with
     | Some rgb1, Some rgb2 =>
         negb (bool_decide (rgb1 = rgb2)) && examine_color_rgb opts
     | _, _ => false
     end
  then Some false else
  let underline1 := underline font1 in
  let underline2 := underline font2 in
  if underline_differs underline1 underline2 && examine_font_underline opts
     && (negb (bool_decide (underline1 = None)) && negb (bool_decide (underline2 = None))
         || (bool_decide (underline1 = None)
             && bool_decide (underline2 = Some (U_bool true))
             || bool_decide (underline1 = Some (U_bool true))
                && bool_decide (underline2 = None)))
  then Some false else
  if negb (bool_decide (default "noStrike" (strike font1)
                        = default "noStrike" (strike font2)))
     && examine_strike_through opts
  then Some false else
  if examine_bullets opts then
    match bullets_of_part1, bullets_of_part2 with
    | Some bullets1, Some bullets2 =>
        (* Compare bullets with tolerance for minor differences *)
        if negb (_compare_bullets_with_tolerance bullets1 bullets2)
        then Some false else Some true
    | _, _ => Some true (* If bullet extraction fails, skip bullet comparison *)
    end
  else Some true.

(** The checks on a pair of paragraphs of a text shape. *)
Definition compare_paragraph (para12 : Paragraph * Paragraph) : option bool :=
  let '(para1, para2) := para12 in
  (* Handle alignment comparison *)
  if examine_alignment opts
     && negb (bool_decide (normalize_alignment (alignment para1)
                           = normalize_alignment (alignment para2)))
  then Some false else
  (* Check if the runs are the same *)
  if negb (bool_decide (para_text para1 = para_text para2)) && examine_text opts
  then Some false else
  if negb (bool_decide (level para1 = level para2)) && examine_indent opts
  then Some false else
  (* Check if the number of runs are the same *)
  if negb (bool_decide (length (runs para1) = length (runs para2)))
  then Some false
  else loop compare_run (zip (runs para1) (runs para2)).

(** The block [if hasattr(shape1, "text") and hasattr(shape2, "text")]. *)
Definition compare_text (shape1 shape2 : Shape) : option bool :=
  match text_frame shape1, text_frame shape2 with
  | Some text_frame1, Some text_frame2 =>
      if negb (bool_decide (strip (text text_frame1) = strip (text text_frame2)))
         && examine_text opts
      then Some false else
      (* Check if the number of paragraphs are the same *)
      if negb (bool_decide (length (paragraphs text_frame1)
                            = length (paragraphs text_frame2)))
      then Some false
      (* Check if the paragraphs are the same *)
      else loop compare_paragraph
                (zip (paragraphs text_frame1) (paragraphs text_frame2))
  | _, _ => Some true
  end.

(** The body of the loop over [zip(slide1.shapes, slide2.shapes)]. *)
Definition compare_shapes (slide_idx : Z) (shape12 : Shape * Shape) : option bool :=
  let '(shape1, shape2) := shape12 in
  (* ENHANCEMENT 1: Validate Shape Types *)
  if negb (bool_decide (shape_type shape1 = shape_type shape2)) then Some false else
  go_on ← (if bool_decide (shape_type shape1 = PICTURE)
           then validate_picture shape1 shape2 else Some true);
  if negb go_on then Some false else
  go_on ← (if bool_decide (shape_type shape1 = TABLE)
           then validate_table shape1 shape2 else Some true);
  if negb go_on then Some false else
  go_on ← examine_positions slide_idx shape1 shape2;
  if negb go_on then Some false else
  go_on ← (if bool_decide (shape_type shape1 = TABLE)
           then compare_tables shape1 shape2 else Some true);
  if negb go_on then Some false else
  compare_text shape1 shape2.

End Parts.

(** The additional check on a pair of text shapes. *)
Definition compare_text_shapes (tshape12 : Shape * Shape) : option bool :=
  let '(tshape1, tshape2) := tshape12 in
  text_frame1 ← text_frame tshape1;
  text_frame2 ← text_frame tshape2;
  (* Compare text content *)
  if negb (bool_decide (strip (text text_frame1) = strip (text text_frame2)))
     && examine_text opts
  then Some false else
  (* Check if text shapes have the same number of paragraphs *)
  if negb (bool_decide (length (paragraphs text_frame1)
                        = length (paragraphs text_frame2)))
  then Some false else
  (* Compare alignment of each paragraph *)
  loop (fun '(para1, para2) =>
          if negb (bool_decide (normalize_alignment (alignment para1)
                                = normalize_alignment (alignment para2)))
          then Some false else Some true)
       (zip (paragraphs text_frame1) (paragraphs text_frame2)).

(** The body of the loop over [zip(prs1.slides, prs2.slides)];
    [slide_idx] counts from 1. *)
Definition compare_slides (slide_idx : Z) (slide12 : Slide * Slide) : option bool :=
  let '(slide1, slide2) := slide12 in
  background1 ← get_slide_background_color slide1;
  background2 ← get_slide_background_color slide2;
  if negb (bool_decide (background1 = background2)) && examine_background_color opts
  then Some false else
  (* [.strip()] raises on the value [None] *)
  notes1 ← get_slide_notes slide1 ≫= fmap strip;
  notes2 ← get_slide_notes slide2 ≫= fmap strip;
  if negb (bool_decide (notes1 = notes2)) && examine_note opts
  then Some false else
  (* Get all text shapes including those inside GROUPs *)
  let text_shapes1 := get_all_text_shapes slide1 in
  let text_shapes2 := get_all_text_shapes slide2 in
  (* Check if the number of shapes is the same *)
  if negb (bool_decide (length (slide_shapes slide1) = length (slide_shapes slide2)))
  then Some false else
  (* Check if the shapes are the same *)
  go_on ← loop (compare_shapes (part_bullets slide1) (part_bullets slide2) slide_idx)
             (zip (slide_shapes slide1) (slide_shapes slide2));
  if negb go_on then Some false else
  (* Additional check: compare all text shapes including those in GROUPs *)
  if examine_alignment opts
     && bool_decide (length text_shapes1 = length text_shapes2)
  then loop compare_text_shapes (zip text_shapes1 text_shapes2)
  else if negb (bool_decide (length text_shapes1 = length text_shapes2))
  then Some false
  else Some true.

(** The loop over the slides, [slide_idx] being the number of the slides
    compared so far. *)
Fixpoint compare_all_slides (slide_idx : Z) (slides : list (Slide * Slide))
  : option bool :=
  match slides with
  | [] => Some true
  | slide12 :: rest =>
      let slide_idx := slide_idx + 1 in
      go_on ← compare_slides slide_idx slide12;
      if (go_on : bool) then compare_all_slides slide_idx rest else Some false
  end.

(** [compare_pptx_files] on the two loaded presentations: 1 if the files
    match according to the criteria, 0 otherwise. *)
Definition compare_pptx_files (prs1 prs2 : Presentation) : option Z :=
  (* Compare the number of slides *)
  if negb (bool_decide (length prs1 = length prs2)) && examine_number_of_slides opts
  then Some 0 else
  (* Compare the content of each slide *)
  finished ← compare_all_slides 0 (zip prs1 prs2);
  Some (if (finished : bool) then 1 else 0).

End Comparison.

(** [run_evaluator]: the result, and whether an error message is
    returned with it. A file is [None] when it cannot be loaded. *)
Definition run_evaluator (test_file golden_file : option Presentation) : Z * bool :=
  match test_file, golden_file with
  | Some prs1, Some prs2 =>
      match compare_pptx_files default_options prs1 prs2 with
      | Some result => (result, false)
      | None => (0, true)
      end
  | _, _ => (0, true)
  end.

End Temp.

(** ** Notions used to state the properties of temp.py *)
Module TempNotions.
Import Py Impress Temp.

(** The four options that ask for a shape moved away from its golden
    place are off, as they are by default. *)
Definition in_place (opts : options) : Prop :=
  examine_title_bottom_position opts = false
  /\ examine_table_bottom_position opts = false
  /\ examine_right_position opts = false
  /\ examine_top_position opts = false.

(** The text of the notes as [compare_pptx_files] reads it, stripped:
    [None] when reading it raises. *)
Definition stripped_notes (slide : Slide) : option string :=
  get_slide_notes slide ≫= fmap strip.

(** The notes of every slide can be read: [slide.notes_slide] tests true
    and has a notes text frame. A file without notes is of this kind,
    since the library creates its notes slides when they are read. *)
Definition annotated (prs : Presentation) : Prop :=
  Forall (fun slide => stripped_notes slide <> None) prs.

(** Two values within the tolerance of the options. *)
Definition close (opts : options) (a b : Z) : Prop :=
  is_approximately_equal a b (approximately_tolerance opts) = Some true.

Definition same_place (opts : options) (shape1 shape2 : Shape) : Prop :=
  close opts (shape_left shape1) (shape_left shape2)
  /\ close opts (shape_top shape1) (shape_top shape2)
  /\ close opts (shape_width shape1) (shape_width shape2)
  /\ close opts (shape_height shape1) (shape_height shape2).

(** What a result of 1 tells about two runs at the same place of two
    text shapes; a bold or italic flag that is [None] reads as false. *)
Definition run_pair_agrees (opts : options) (run1 run2 : Run) : Prop :=
  (examine_font_name opts = true -> font_name (font run1) = font_name (font run2))
  /\ (examine_font_size opts = true -> font_size (font run1) = font_size (font run2))
  /\ (examine_font_bold opts = true ->
        default false (bold (font run1)) = default false (bold (font run2)))
  /\ (examine_font_italic opts = true ->
        default false (italic (font run1)) = default false (italic (font run2)))
  /\ (examine_color_rgb opts = true ->
        forall rgb1 rgb2, rgb (color (font run1)) = Some rgb1 ->
                          rgb (color (font run2)) = Some rgb2 -> rgb1 = rgb2)
  /\ (examine_strike_through opts = true ->
        default "noStrike" (strike (font run1)) = default "noStrike" (strike (font run2))).

Definition paragraph_pair_agrees (opts : options) (para1 para2 : Paragraph) : Prop :=
  (examine_alignment opts = true ->
     normalize_alignment (alignment para1) = normalize_alignment (alignment para2))
  /\ (examine_text opts = true -> para_text para1 = para_text para2)
  /\ (examine_indent opts = true -> level para1 = level para2)
  /\ Forall2 (run_pair_agrees opts) (runs para1) (runs para2).

(** The cells of two tables carry the same text up to whitespace. *)
Definition tables_agree (table1 table2 : Table) : Prop :=
  rows table1 = rows table2 /\ columns table1 = columns table2
  /\ forall row_idx col_idx,
       (row_idx < rows table1)%nat -> (col_idx < columns table1)%nat ->
       exists cell1 cell2,
         cell table1 row_idx col_idx = Some cell1
         /\ cell table2 row_idx col_idx = Some cell2
         /\ normalize_cell_text (cell_text cell1) = normalize_cell_text (cell_text cell2)
         /\ length (cell_paragraphs cell1) = length (cell_paragraphs cell2).

(** What a result of 1 tells about the shapes at the same index of two
    slides. *)
Definition shape_pair_agrees (opts : options) (shape1 shape2 : Shape) : Prop :=
  shape_type shape1 = shape_type shape2
  /\ (examine_shape opts = true -> same_place opts shape1 shape2)
  /\ (shape_type shape1 = PICTURE ->
        same_place opts shape1 shape2
        /\ forall hash1 hash2, image_md5 shape1 = Some hash1 ->
                               image_md5 shape2 = Some hash2 -> hash1 = hash2)
  /\ (shape_type shape1 = TABLE ->
        Z.abs (shape_left shape1 - shape_left shape2) <= 2000
        /\ Z.abs (shape_top shape1 - shape_top shape2) <= 2000
        /\ close opts (shape_width shape1) (shape_width shape2)
        /\ close opts (shape_height shape1) (shape_height shape2)
        /\ exists table1 table2,
             table shape1 = Some table1 /\ table shape2 = Some table2
             /\ tables_agree table1 table2)
  /\ (forall text_frame1 text_frame2,
        text_frame shape1 = Some text_frame1 -> text_frame shape2 = Some text_frame2 ->
        (examine_text opts = true -> strip (text text_frame1) = strip (text text_frame2))
        /\ Forall2 (paragraph_pair_agrees opts)
                   (paragraphs text_frame1) (paragraphs text_frame2)).

(** What a result of 1 tells about the slides at the same index of two
    presentations. *)
Definition slide_pair_agrees (opts : options) (slide1 slide2 : Slide) : Prop :=
  (exists notes1 notes2,
     stripped_notes slide1 = Some notes1 /\ stripped_notes slide2 = Some notes2
     /\ (examine_note opts = true -> notes1 = notes2))
  /\ (exists background1 background2,
        get_slide_background_color slide1 = Some background1
        /\ get_slide_background_color slide2 = Some background2
        /\ (examine_background_color opts = true -> background1 = background2))
  /\ Forall2 (shape_pair_agrees opts) (slide_shapes slide1) (slide_shapes slide2)
  /\ length (get_all_text_shapes slide1) = length (get_all_text_shapes slide2).

(** What the options that ask for a moved shape demand of the shapes at
    the same index of the slides numbered [slide_idx]. *)
Definition moved (opts : options) (slide_idx : Z) (shape1 shape2 : Shape) : Prop :=
  (examine_title_bottom_position opts = true ->
     forall text_frame1 text_frame2,
       text_frame shape1 = Some text_frame1 -> text_frame shape2 = Some text_frame2 ->
       text text_frame1 = "Product Comparison" ->
       text text_frame2 = "Product Comparison" ->
       shape_top shape2 < shape_top shape1 /\ 3600000 <= shape_top shape1)
  /\ (examine_table_bottom_position opts = true ->
        slide_idx = 3 -> shape_type shape1 = TABLE -> shape_type shape2 = TABLE ->
        shape_top shape2 < shape_top shape1 /\ 3600000 <= shape_top shape1)
  /\ (examine_right_position opts = true ->
        slide_idx = 2 -> text_frame shape1 = None -> text_frame shape2 = None ->
        shape_left shape2 < shape_left shape1 /\ 4320000 <= shape_left shape1)
  /\ (examine_top_position opts = true ->
        slide_idx = 2 -> shape_type shape1 = PICTURE -> shape_type shape2 = PICTURE ->
        shape_top shape1 < shape_top shape2 /\ shape_top shape1 <= 1980000).

End TempNotions.

Module TempSamples.
Import Py Impress ImpressSamples Temp.

(** The default options with [examine_top_position] set. *)
Definition top_position_options : options :=
  {| approximately_tolerance := float_0_005;
     examine_number_of_slides := true;
     examine_shape := true;
     examine_text := true;
     examine_indent := true;
     examine_font_name := true;
     examine_font_size := true;
     examine_font_bold := true;
     examine_font_italic := true;
     examine_color_rgb := true;
     examine_font_underline := true;
     examine_strike_through := true;
     examine_alignment := true;
     examine_title_bottom_position := false;
     examine_table_bottom_position := false;
     examine_right_position := false;
     examine_top_position := true;
     examine_shape_for_shift_size := false;
     examine_image_size := false;
     examine_modify_height := false;
     examine_bullets := true;
     examine_background_color := true;
     examine_note := true |}.

Definition picture_slide (y : Z) : Slide :=
  {| background_fill := white_fill; master_background_fill := white_fill;
     notes_slide := notes_of "Speaker notes";
     slide_shapes := [text_box "Habitat" 500000 300000;
                      picture "9e107d9d372bb6826bd81d3542a419d6" 500000 y];
     part_bullets := Some [plain_bullet "Habitat"] |}.

(** Two presentations whose second slide shows a picture, in the test
    file 500 EMU above its golden place. *)
Definition raised_test : Presentation := [slide_1; picture_slide 1200000].
Definition raised_golden : Presentation := [slide_1; picture_slide 1200500].

(** Two captions on a wide slide. *)
Definition captions (x1 x2 : Z) : Presentation :=
  [{| background_fill := white_fill; master_background_fill := white_fill;
      notes_slide := notes_of EmptyString;
      slide_shapes := [text_box "Caption" x1 0; text_box "Caption" x2 0];
      part_bullets := Some [plain_bullet "Caption"; plain_bullet "Caption"] |}].

End TempSamples.

(** * Properties *)

Module BasicFacts.

Lemma bool_decide_refl {A} `{EqDecision A} (x : A) : bool_decide (x = x) = true.
Proof. apply bool_decide_eq_true_2. reflexivity. Qed.

End BasicFacts.

(** ** Correct rounding of [int / int] against the tolerance [0.005] *)
Module RoundingFacts.
Import Py Rounding.

(** A positive number lies between the powers of two given by its number of
    binary digits. *)
Lemma digits2_pos_bounds (p : positive) :
  2 ^ (Z.pos (digits2_pos p) - 1) <= Z.pos p < 2 ^ Z.pos (digits2_pos p).
Proof.
  induction p as [p IH|p IH|]; simpl digits2_pos.
  - rewrite Pos2Z.inj_succ, Z.pow_succ_r by lia.
    replace (Z.succ (Z.pos (digits2_pos p)) - 1) with (Z.succ (Z.pos (digits2_pos p) - 1)) by lia.
    rewrite Z.pow_succ_r by lia. lia.
  - rewrite Pos2Z.inj_succ, Z.pow_succ_r by lia.
    replace (Z.succ (Z.pos (digits2_pos p)) - 1) with (Z.succ (Z.pos (digits2_pos p) - 1)) by lia.
    rewrite Z.pow_succ_r by lia. lia.
  - simpl. lia.
Qed.

Lemma Zdigits2_bounds (n : Z) :
  0 < n -> 0 < Zdigits2 n /\ 2 ^ (Zdigits2 n - 1) <= n < 2 ^ Zdigits2 n.
Proof.
  destruct n as [|p|p]; try lia. intros _. simpl Zdigits2.
  split; [lia | apply digits2_pos_bounds].
Qed.

Lemma Zdigits2_le (n k : Z) : 0 <= k -> 0 <= n < 2 ^ k -> Zdigits2 n <= k.
Proof.
  intros Hk [Hn0 Hn].
  destruct (Z.eq_dec n 0) as [->|Hne]; [simpl; lia|].
  destruct (Zdigits2_bounds n) as (Hd & Hlo & _); [lia|].
  destruct (Z_lt_le_dec k (Zdigits2 n)) as [Hlt|]; [|lia].
  assert (2 ^ k <= 2 ^ (Zdigits2 n - 1)) by (apply Z.pow_le_mono_r; lia). lia.
Qed.

Lemma Zdigits2_ge (n k : Z) : 0 <= k -> 2 ^ k <= n -> k + 1 <= Zdigits2 n.
Proof.
  intros Hk Hn.
  assert (0 < 2 ^ k) by (apply Z.pow_pos_nonneg; lia).
  destruct (Zdigits2_bounds n) as (Hd & _ & Hhi); [lia|].
  destruct (Z_lt_le_dec (Zdigits2 n) (k + 1)) as [Hlt|]; [|lia].
  assert (2 ^ Zdigits2 n <= 2 ^ k) by (apply Z.pow_le_mono_r; lia). lia.
Qed.

(** One right shift halves the mantissa, keeps the bit shifted out as the
    round bit and accumulates the earlier bits in the sticky bit. *)
Lemma shr_1_spec (m : Z) (r s : bool) :
  0 <= m ->
  shr_1 (Build_shr_record m r s) = Build_shr_record (m / 2) (Z.odd m) (r || s).
Proof.
  intros Hm. rewrite <- Z.div2_div.
  destruct m as [|[p|p|]|p]; try lia; reflexivity.
Qed.

(** The location computed by the division describes its remainder. *)
Lemma new_location_locates (N D : Z) :
  0 < D -> 0 <= N -> locates N D (N / D) (new_location D (N mod D)).
Proof.
  intros HD HN. split; [reflexivity|].
  pose proof (Z.mod_pos_bound N D HD) as HR.
  unfold new_location, new_location_even, new_location_odd.
  destruct (Z.even D) eqn:Hev.
  - destruct (Z.eqb_spec (N mod D) 0) as [H0|H0]; [exact H0|].
    destruct (Z.compare_spec (2 * (N mod D)) D); lia.
  - destruct (Z.eqb_spec (N mod D) 0) as [H0|H0]; [exact H0|].
    assert (Hodd : Z.odd D = true) by (rewrite <- Z.negb_even, Hev; reflexivity).
    apply Z.odd_spec in Hodd. destruct Hodd as [k Hk].
    destruct (Z.compare_spec (2 * (N mod D) + 1) D); lia.
Qed.

(** A right shift of a located quotient locates the quotient by twice the
    divisor. *)
Lemma shr_1_locates (N D Q : Z) (l : location) :
  0 < D -> 0 <= N -> locates N D Q l ->
  locates N (2 * D) (shr_m (shr_1 (shr_record_of_loc Q l)))
          (loc_of_shr_record (shr_1 (shr_record_of_loc Q l))).
Proof.
  intros HD HN [HQ Hl].
  assert (HQ0 : 0 <= Q) by (subst Q; apply Z.div_pos; lia).
  pose proof (Z.mod_pos_bound N D HD) as HR.
  assert (Hdiv : N / (2 * D) = Q / 2).
  { subst Q. rewrite (Z.mul_comm 2 D), Z.div_div by lia. reflexivity. }
  assert (Hmod : N mod (2 * D) = N mod D + D * (Q mod 2)).
  { subst Q. rewrite (Z.mul_comm 2 D). apply Z.rem_mul_r; lia. }
  assert (Hodd : Q mod 2 = if Z.odd Q then 1 else 0) by apply Zmod_odd.
  split.
  - destruct l as [|[| |]]; simpl shr_record_of_loc;
      rewrite shr_1_spec by lia; simpl; lia.
  - rewrite Hmod, Hodd.
    destruct l as [|[| |]]; simpl shr_record_of_loc;
      rewrite shr_1_spec by lia; simpl; destruct (Z.odd Q); simpl; lia.
Qed.

(** Rounding a located quotient to nearest, ties to even: the result is
    within one half of the quotient, and it is at most an odd [K] exactly
    when the quotient is below [K + 1/2]. *)
Lemma round_nearest_even_locates (N D Q : Z) (l : location) :
  0 < D -> 0 <= N -> locates N D Q l ->
  Q <= round_nearest_even Q l <= Q + 1
  /\ (2 * round_nearest_even Q l - 1) * D <= 2 * N
  /\ forall K, Z.odd K = true ->
       (round_nearest_even Q l <= K <-> 2 * N < (2 * K + 1) * D).
Proof.
  intros HD HN [HQ Hl].
  pose proof (Z.mod_pos_bound N D HD) as HR.
  pose proof (Z.div_mod N D ltac:(lia)) as HND.
  rewrite <- HQ in HND.
  set (R := N mod D) in *.
  destruct l as [|[| |]]; simpl round_nearest_even.
  - repeat split; try nia.
  - destruct (Z.even Q) eqn:Hev.
    + split; [lia|]. split; [nia|]. intros K HK.
      apply Z.even_spec in Hev. destruct Hev as [q Hq].
      apply Z.odd_spec in HK. destruct HK as [k Hk]. split; nia.
    + split; [lia|]. split; [nia|]. intros K HK.
      assert (Hodd : Z.odd Q = true) by (rewrite <- Z.negb_even, Hev; reflexivity).
      apply Z.odd_spec in Hodd. destruct Hodd as [q Hq].
      apply Z.odd_spec in HK. destruct HK as [k Hk]. split; nia.
  - repeat split; try nia.
  - repeat split; try nia.
Qed.

(** In binary64 a mantissa of 54 bits is shifted once and a shorter one is
    left alone. *)
Lemma shr_fexp_binary64 (Q E : Z) (l : location) :
  0 <= Q < 2 ^ 54 -> -1074 <= E ->
  shr_fexp 53 1024 Q E l =
    if 2 ^ 53 <=? Q then (shr_1 (shr_record_of_loc Q l), E + 1)
    else (shr_record_of_loc Q l, E).
Proof.
  intros [HQ0 HQ] HE. unfold shr_fexp, fexp, emin.
  destruct (Z.leb_spec (2 ^ 53) Q) as [Hbig|Hsmall].
  - assert (Hd : Zdigits2 Q = 54).
    { pose proof (Zdigits2_le Q 54 ltac:(lia) ltac:(lia)).
      pose proof (Zdigits2_ge Q 53 ltac:(lia) Hbig). lia. }
    rewrite Hd.
    replace (Z.max (54 + E - 53) (3 - 1024 - 53) - E) with 1 by lia.
    reflexivity.
  - pose proof (Zdigits2_le Q 53 ltac:(lia) ltac:(lia)) as Hd.
    destruct (Z.max (Zdigits2 Q + E - 53) (3 - 1024 - 53) - E) eqn:Hk;
      [reflexivity | lia | reflexivity].
Qed.

(** The rounding of a located quotient with a mantissa below 2^54: at most
    one shift, one rounding, and one more shift when the rounding reaches
    2^53. *)
Lemma binary_round_aux_binary64 (N D Q E : Z) (l : location) :
  0 < D -> 0 <= N -> locates N D Q l -> Q < 2 ^ 54 -> -1074 <= E <= 0 ->
  exists D' e1 mr,
    ((Q < 2 ^ 53 /\ D' = D /\ e1 = E) \/ (2 ^ 53 <= Q /\ D' = 2 * D /\ e1 = E + 1))
    /\ N / D' <= mr <= N / D' + 1
    /\ mr <= 2 ^ 53
    /\ (2 * mr - 1) * D' <= 2 * N
    /\ (forall K, Z.odd K = true -> (mr <= K <-> 2 * N < (2 * K + 1) * D'))
    /\ binary_round_aux 53 1024 false Q E l =
         if mr =? 0 then S754_zero false
         else if mr =? 2 ^ 53 then S754_finite false (2 ^ 52)%positive (e1 + 1)
         else S754_finite false (Z.to_pos mr) e1.
Proof.
  intros HD HN Hloc HQ HE.
  assert (HQ0 : 0 <= Q) by (destruct Hloc as [-> _]; apply Z.div_pos; lia).
  assert (Hstep : forall D' Q' l' e1,
             0 < D' -> locates N D' Q' l' -> Q' < 2 ^ 53 -> -1074 <= e1 <= 1 ->
             let mr := round_nearest_even Q' l' in
             N / D' <= mr <= N / D' + 1 /\ mr <= 2 ^ 53
             /\ (2 * mr - 1) * D' <= 2 * N
             /\ (forall K, Z.odd K = true -> (mr <= K <-> 2 * N < (2 * K + 1) * D'))
             /\ (let '(mrs'', e'') := shr_fexp 53 1024 mr e1 loc_Exact in
                 match shr_m mrs'' with
                 | 0 => S754_zero false
                 | Z.pos m => if e'' <=? 1024 - 53 then S754_finite false m e''
                              else S754_infinity false
                 | Z.neg _ => S754_nan
                 end) =
                if mr =? 0 then S754_zero false
                else if mr =? 2 ^ 53 then S754_finite false (2 ^ 52)%positive (e1 + 1)
                else S754_finite false (Z.to_pos mr) e1).
  { intros D' Q' l' e1 HD' Hloc' HQ' He1 mr.
    destruct (round_nearest_even_locates N D' Q' l' HD' HN Hloc') as (Hb & Hlow & HK).
    fold mr in Hb, Hlow, HK.
    assert (HQ'0 : 0 <= Q') by (destruct Hloc' as [-> _]; apply Z.div_pos; lia).
    assert (HQ'eq : Q' = N / D') by apply Hloc'.
    split; [lia|]. split; [lia|]. split; [exact Hlow|]. split; [exact HK|].
    rewrite shr_fexp_binary64 by lia.
    destruct (Z.leb_spec (2 ^ 53) mr) as [Hbig|Hsmall].
    - assert (Hmr : mr = 2 ^ 53) by lia. rewrite Hmr.
      cbn [shr_record_of_loc]. rewrite shr_1_spec by lia.
      cbn [shr_m]. change (2 ^ 53 / 2) with (Z.pos (2 ^ 52)).
      cbv beta iota.
      destruct (Z.leb_spec (e1 + 1) (1024 - 53)); [|lia].
      reflexivity.
    - cbn [shr_record_of_loc shr_m].
      destruct mr as [|p|p] eqn:Hmr; [reflexivity| |lia].
      destruct (Z.leb_spec e1 (1024 - 53)); [|lia].
      destruct (Z.eqb_spec (Z.pos p) (2 ^ 53)); [lia|].
      reflexivity. }
  unfold binary_round_aux. rewrite shr_fexp_binary64 by lia.
  destruct (Z.leb_spec (2 ^ 53) Q) as [Hbig|Hsmall].
  - pose proof (shr_1_locates N D Q l HD HN Hloc) as Hloc'.
    set (mrs' := shr_1 (shr_record_of_loc Q l)) in *.
    assert (HQ' : shr_m mrs' < 2 ^ 53).
    { destruct Hloc' as [-> _]. apply Z.div_lt_upper_bound; [lia|].
      destruct Hloc as [HQeq _].
      pose proof (Z.mul_div_le N D HD). pose proof (Z.mod_pos_bound N D HD).
      pose proof (Z.div_mod N D ltac:(lia)). nia. }
    destruct (Hstep (2 * D) (shr_m mrs') (loc_of_shr_record mrs') (E + 1)
                ltac:(lia) Hloc' HQ' ltac:(lia)) as (H1 & H2 & H3 & H4 & H5).
    exists (2 * D), (E + 1), (round_nearest_even (shr_m mrs') (loc_of_shr_record mrs')).
    split; [right; lia|]. split; [exact H1|]. split; [exact H2|].
    split; [exact H3|]. split; [exact H4|]. exact H5.
  - assert (Hl : loc_of_shr_record (shr_record_of_loc Q l) = l)
      by (destruct l as [|[| |]]; reflexivity).
    assert (Hm : shr_m (shr_record_of_loc Q l) = Q)
      by (destruct l as [|[| |]]; reflexivity).
    destruct (Hstep D Q l E HD Hloc Hsmall ltac:(lia)) as (H1 & H2 & H3 & H4 & H5).
    exists D, E, (round_nearest_even Q l).
    split; [left; lia|]. split; [exact H1|]. split; [exact H2|].
    split; [exact H3|]. split; [exact H4|].
    cbv beta iota. rewrite Hl, Hm. exact H5.
Qed.

Lemma div_eucl_div_mod (a b : Z) : Z.div_eucl a b = (a / b, a mod b).
Proof. unfold Z.div, Z.modulo. destruct (Z.div_eucl a b); reflexivity. Qed.

(** The division core on two positive ints whose quotient is at most 2: the
    numerator is scaled by 2^s so that the integer quotient has 53 or 54
    bits, or fewer in the subnormal range. *)
Lemma SFdiv_core_binary64_ints (n m : Z) :
  0 < n -> 0 < m -> n <= 2 * m ->
  exists s,
    52 <= s <= 1074
    /\ n * 2 ^ s < 2 ^ 54 * m
    /\ (s < 1074 -> 2 ^ 52 * m <= n * 2 ^ s)
    /\ SFdiv_core_binary 53 1024 n 0 m 0 =
         (n * 2 ^ s / m, - s, new_location m ((n * 2 ^ s) mod m)).
Proof.
  intros Hn Hm Hnm.
  destruct (Zdigits2_bounds n Hn) as (Hd1 & Hn1 & Hn2).
  destruct (Zdigits2_bounds m Hm) as (Hd2 & Hm1 & Hm2).
  set (d1 := Zdigits2 n) in *. set (d2 := Zdigits2 m) in *.
  assert (Hd : d1 <= d2 + 1).
  { destruct (Z_lt_le_dec (d2 + 1) d1) as [Hlt|]; [|lia].
    assert (2 ^ (d2 + 1) <= 2 ^ (d1 - 1)) by (apply Z.pow_le_mono_r; lia).
    rewrite Z.pow_add_r in * by lia. lia. }
  set (s := - Z.max (d1 - d2 - 53) (-1074)).
  assert (Hs : 52 <= s <= 1074) by (unfold s; lia).
  exists s.
  assert (HA : 0 < 2 ^ (d1 - 1)) by (apply Z.pow_pos_nonneg; lia).
  assert (HB : 0 < 2 ^ (d2 - 1)) by (apply Z.pow_pos_nonneg; lia).
  assert (HS : 0 < 2 ^ s) by (apply Z.pow_pos_nonneg; lia).
  assert (Hn2' : n < 2 * 2 ^ (d1 - 1)).
  { replace d1 with (Z.succ (d1 - 1)) in Hn2 by lia.
    rewrite Z.pow_succ_r in Hn2 by lia. exact Hn2. }
  assert (Hm2' : m < 2 * 2 ^ (d2 - 1)).
  { replace d2 with (Z.succ (d2 - 1)) in Hm2 by lia.
    rewrite Z.pow_succ_r in Hm2 by lia. exact Hm2. }
  split; [exact Hs|].
  assert (Hcases : s = 53 + d2 - d1 \/ (s = 1074 /\ 1074 < 53 + d2 - d1)) by (unfold s; lia).
  split; [|split].
  - destruct Hcases as [Heq|[Heq Hlt]].
    + assert (HSA : 2 ^ s * 2 ^ (d1 - 1) = 2 ^ 53 * 2 ^ (d2 - 1)).
      { rewrite <- !Z.pow_add_r by lia. f_equal. lia. }
      nia.
    + assert (HBA : 2 ^ 1021 * (2 * 2 ^ (d1 - 1)) <= 2 ^ (d2 - 1)).
      { replace (2 * 2 ^ (d1 - 1)) with (2 ^ d1).
        2:{ replace d1 with (Z.succ (d1 - 1)) at 1 by lia.
            rewrite Z.pow_succ_r by lia. reflexivity. }
        rewrite <- Z.pow_add_r by lia. apply Z.pow_le_mono_r; lia. }
      rewrite Heq. 
      replace (2 ^ 1074) with (2 ^ 53 * 2 ^ 1021) by (rewrite <- Z.pow_add_r by lia; reflexivity).
      assert (0 < 2 ^ 53) by lia. assert (0 < 2 ^ 1021) by (apply Z.pow_pos_nonneg; lia).
      set (P := 2 ^ 1021) in *. nia.
  - intros Hlt. destruct Hcases as [Heq|[Heq _]]; [|lia].
    assert (HSA : 2 ^ s * 2 ^ (d1 - 1) = 2 ^ 53 * 2 ^ (d2 - 1)).
    { rewrite <- !Z.pow_add_r by lia. f_equal. lia. }
    nia.
  - unfold SFdiv_core_binary, fexp, emin. fold d1 d2.
    replace (Z.min (Z.max (d1 + 0 - (d2 + 0) - 53) (3 - 1024 - 53)) (0 - 0)) with (- s)
      by (unfold s; lia).
    replace (0 - 0 - - s) with s by lia.
    destruct s as [|ps|ps] eqn:Hseq; [lia| |lia].
    rewrite Z.shiftl_mul_pow2 by lia.
    rewrite div_eucl_div_mod. reflexivity.
Qed.

(** [<=] on two positive finite floats in canonical form. *)
Lemma SFleb_finite (p1 p2 : positive) (e1 e2 : Z) :
  SFleb (S754_finite false p1 e1) (S754_finite false p2 e2) =
    (e1 <? e2) || ((e1 =? e2) && (Z.pos p1 <=? Z.pos p2)).
Proof.
  unfold SFleb, SFcompare.
  destruct (Z.compare_spec e1 e2) as [Heq|Hlt|Hgt].
  - subst. rewrite Z.ltb_irrefl, Z.eqb_refl. simpl.
    unfold Z.leb. simpl. unfold Pos.compare.
    destruct (Pos.compare_cont Eq p1 p2); reflexivity.
  - destruct (Z.ltb_spec e1 e2); [reflexivity|lia].
  - destruct (Z.ltb_spec e1 e2); [lia|].
    destruct (Z.eqb_spec e1 e2); [lia|]. reflexivity.
Qed.

(** [n / m] for positive ints with [n <= 2 * m]: the quotient scaled by
    [2^t] and rounded to nearest, ties to even. *)
Lemma SFdiv_binary64_ints (n m : Z) :
  0 < n -> 0 < m -> n <= 2 * m ->
  exists t mr,
    51 <= t <= 1074
    /\ 0 <= mr <= 2 ^ 53
    /\ n * 2 ^ t < 2 ^ 53 * m
    /\ (2 * mr - 1) * m <= 2 * (n * 2 ^ t)
    /\ (forall K, Z.odd K = true -> (mr <= K <-> 2 * (n * 2 ^ t) < (2 * K + 1) * m))
    /\ (t < 1074 -> 2 ^ 52 <= mr)
    /\ SFdiv prec emax (of_int n) (of_int m) =
         if mr =? 0 then S754_zero false
         else if mr =? 2 ^ 53 then S754_finite false (2 ^ 52)%positive (- t + 1)
         else S754_finite false (Z.to_pos mr) (- t).
Proof.
  intros Hn Hm Hnm.
  destruct (SFdiv_core_binary64_ints n m Hn Hm Hnm) as (s & Hs & Hup & Hlow & Hcore).
  assert (HS : 0 < 2 ^ s) by (apply Z.pow_pos_nonneg; lia).
  set (N := n * 2 ^ s) in *.
  assert (HN : 0 <= N) by (unfold N; nia).
  pose proof (new_location_locates N m Hm HN) as Hloc.
  assert (HQ : N / m < 2 ^ 54) by (apply Z.div_lt_upper_bound; lia).
  destruct (binary_round_aux_binary64 N m (N / m) (- s) _ Hm HN Hloc HQ ltac:(lia))
    as (D' & e1 & mr & Hcase & Hmr & Hmr53 & Hlo & HK & Hres).
  assert (Hdiv0 : 0 <= N / D').
  { apply Z.div_pos; [lia|]. destruct Hcase as [(_ & -> & _)|(_ & -> & _)]; lia. }
  assert (HSFdiv : SFdiv prec emax (of_int n) (of_int m)
                   = binary_round_aux 53 1024 false (N / m) (- s) (new_location m (N mod m))).
  { destruct n as [|pn|pn]; [lia| |lia]. destruct m as [|pm|pm]; [lia| |lia].
    unfold of_int, SFdiv, prec, emax. rewrite Hcore. reflexivity. }
  destruct Hcase as [(Hsmall & -> & ->)|(Hbig & -> & ->)].
  - exists s, mr.
    split; [lia|]. split; [lia|].
    split.
    { pose proof (Z.mul_div_le N m Hm). pose proof (Z.mod_pos_bound N m Hm).
      pose proof (Z.div_mod N m ltac:(lia)). fold N. nia. }
    split; [exact Hlo|]. split; [exact HK|].
    split.
    { intros Hlt. specialize (Hlow Hlt).
      assert (2 ^ 52 <= N / m) by (apply Z.div_le_lower_bound; lia). lia. }
    rewrite HSFdiv. exact Hres.
  - assert (Hs1 : 2 ^ s = 2 * 2 ^ (s - 1)).
    { replace s with (Z.succ (s - 1)) at 1 by lia. apply Z.pow_succ_r. lia. }
    assert (HN' : N = 2 * (n * 2 ^ (s - 1))) by (unfold N; rewrite Hs1; ring).
    exists (s - 1), mr.
    split; [lia|]. split; [lia|].
    split; [lia|].
    split; [lia|].
    split.
    { intros K HKodd. rewrite (HK K HKodd). lia. }
    split.
    { intros _.
      assert (2 ^ 53 <= N / m * 1) by lia.
      assert (2 ^ 52 <= N / (2 * m)).
      { apply Z.div_le_lower_bound; [lia|].
        pose proof (Z.mul_div_le N m Hm). nia. }
      lia. }
    rewrite HSFdiv, Hres. replace (- (s - 1) + 1) with (- s + 1 + 1) by lia.
    replace (- (s - 1)) with (- s + 1) by lia. reflexivity.
Qed.

(** [n / m <= 0.005] on floats is a comparison of integers: the quotient is
    compared with the midpoint between [0.005] and the next float. *)
Lemma int_true_div_le_0_005 (n m : Z) :
  0 < n -> 0 < m -> n <= 2 * m ->
  exists q, int_true_div n m = Some q
            /\ float_le q float_0_005 = (n * 2 ^ 61 <? 11529215046068471 * m).
Proof.
  intros Hn Hm Hnm.
  destruct (SFdiv_binary64_ints n m Hn Hm Hnm)
    as (t & mr & Ht & Hmr & Hup & Hlo & HK & Hnormal & Hres).
  assert (HT : 0 < 2 ^ t) by (apply Z.pow_pos_nonneg; lia).
  unfold int_true_div. destruct (Z.eqb_spec m 0) as [|_]; [lia|].
  rewrite Hres. unfold float_le, float_0_005.
  specialize (HK 5764607523034235 eq_refl).
  destruct (Z_lt_le_dec 60 t) as [Hbig|Hsmall].
  - (* the quotient lies below the binade of the tolerance *)
    assert (2 ^ 61 <= 2 ^ t) by (apply Z.pow_le_mono_r; lia).
    assert (Htrue : (n * 2 ^ 61 <? 11529215046068471 * m) = true)
      by (apply Z.ltb_lt; nia).
    rewrite Htrue.
    destruct (Z.eqb_spec mr 0); [eexists; split; reflexivity|].
    destruct (Z.eqb_spec mr (2 ^ 53)).
    + eexists; split; [reflexivity|]. rewrite SFleb_finite.
      destruct (Z.ltb_spec (- t + 1) (-60)); [reflexivity|].
      destruct (Z.eqb_spec (- t + 1) (-60)); [reflexivity|lia].
    + eexists; split; [reflexivity|]. rewrite SFleb_finite.
      destruct (Z.ltb_spec (- t) (-60)); [reflexivity|lia].
  - specialize (Hnormal ltac:(lia)).
    destruct (Z.eqb_spec mr 0); [lia|].
    destruct (Z.eq_dec t 60) as [->|Hne].
    + (* the binade of the tolerance *)
      destruct (Z.eqb_spec mr (2 ^ 53)) as [Heq|Hneq].
      * eexists; split; [reflexivity|]. rewrite SFleb_finite. simpl.
        symmetry. apply Z.ltb_ge. subst mr. lia.
      * eexists; split; [reflexivity|]. rewrite SFleb_finite. simpl.
        rewrite Z2Pos.id by lia.
        destruct (Z.leb_spec mr 5764607523034235) as [Hle|Hgt];
          symmetry; [apply Z.ltb_lt|apply Z.ltb_ge]; lia.
    + (* the quotient lies above the binade of the tolerance *)
      assert (2 * 2 ^ t <= 2 ^ 60).
      { replace (2 * 2 ^ t) with (2 ^ (t + 1)) by (rewrite Z.pow_add_r by lia; lia).
        apply Z.pow_le_mono_r; lia. }
      assert (Hfalse : (n * 2 ^ 61 <? 11529215046068471 * m) = false)
        by (apply Z.ltb_ge; nia).
      rewrite Hfalse.
      destruct (Z.eqb_spec mr (2 ^ 53)).
      * eexists; split; [reflexivity|]. rewrite SFleb_finite.
        destruct (Z.ltb_spec (- t + 1) (-60)); [lia|].
        destruct (Z.eqb_spec (- t + 1) (-60)); [lia|]. reflexivity.
      * eexists; split; [reflexivity|]. rewrite SFleb_finite.
        destruct (Z.ltb_spec (- t) (-60)); [lia|].
        destruct (Z.eqb_spec (- t) (-60)); [lia|]. reflexivity.
Qed.

End RoundingFacts.

(** ** The tolerance comparator *)
Module ToleranceFacts.
Import Py Impress Rounding RoundingFacts.

Lemma is_approximately_equal_refl (x : Z) (tolerance : spec_float) :
  is_approximately_equal x x tolerance = Some true.
Proof. unfold is_approximately_equal. rewrite bool_decide_eq_true_2; reflexivity. Qed.

(** The comparator never raises: the division is reached only with a
    positive divisor and a quotient of at most 2. *)
Lemma is_approximately_equal_returns (a b : Z) (tolerance : spec_float) :
  exists r, is_approximately_equal a b tolerance = Some r.
Proof.
  unfold is_approximately_equal.
  case_bool_decide; [eauto|].
  destruct (bool_decide (a = 0) && bool_decide (b = 0)); [eauto|].
  destruct (Z.leb_spec (Z.abs (a - b)) 1000); [eauto|].
  destruct (bool_decide (a = 0) || bool_decide (b = 0)); [eauto|].
  destruct (int_true_div_le_0_005 (Z.abs (a - b)) (Z.max (Z.abs a) (Z.abs b)))
    as (q & Hq & _); [lia | lia | lia |].
  rewrite Hq. simpl. eauto.
Qed.

(** With the default tolerance the comparator is a test on integers. *)
Lemma is_approximately_equal_0_005 (a b : Z) :
  is_approximately_equal a b float_0_005 =
    Some (if Z.abs (a - b) <=? 1000 then true
          else if bool_decide (a = 0) || bool_decide (b = 0) then false
          else Z.abs (a - b) * threshold_den
               <? threshold_num * Z.max (Z.abs a) (Z.abs b)).
Proof.
  unfold is_approximately_equal.
  case_bool_decide as Hab.
  { subst b. replace (a - a) with 0 by lia. reflexivity. }
  destruct (bool_decide (a = 0) && bool_decide (b = 0)) eqn:H0.
  { apply andb_prop in H0 as [Ha Hb].
    apply bool_decide_eq_true_1 in Ha, Hb. lia. }
  destruct (Z.leb_spec (Z.abs (a - b)) 1000); [reflexivity|].
  destruct (bool_decide (a = 0) || bool_decide (b = 0)) eqn:Hz; [reflexivity|].
  apply orb_false_elim in Hz as [Ha Hb].
  apply bool_decide_eq_false_1 in Ha, Hb.
  destruct (int_true_div_le_0_005 (Z.abs (a - b)) (Z.max (Z.abs a) (Z.abs b)))
    as (q & Hq & Hle); [lia | lia | lia |].
  rewrite Hq. simpl. rewrite Hle. reflexivity.
Qed.

(** Below 2^53 the float test is the exact rational test
    [|a-b| / max(|a|,|b|) <= 1/200]. *)
Lemma threshold_exact (d m : Z) :
  0 <= d -> 0 < m <= 2 ^ 53 ->
  (d * threshold_den <? threshold_num * m) = (200 * d <=? m).
Proof.
  intros Hd Hm. unfold threshold_den, threshold_num.
  destruct (Z.leb_spec (200 * d) m) as [Hle|Hgt].
  - apply Z.ltb_lt. lia.
  - apply Z.ltb_ge. lia.
Qed.

(** C1 (as amended). For all integers a and b, [is_approximately_equal]
    with the default tolerance returns true when a = b, when both are
    zero, and whenever |a-b| <= 1000; it returns false when |a-b| > 1000
    and one operand is zero; otherwise it returns the float test
    [|a-b| / max(|a|,|b|) <= 0.005], which is the integer test
    |a-b| * 2^61 < 11529215046068471 * max(|a|,|b|) and, for magnitudes up
    to 2^53, exactly 200 * |a-b| <= max(|a|,|b|). In particular (a, a+1000)
    always compares equal, and (a, a+1001) compares unequal exactly when
    the larger magnitude max(|a|,|a+1001|) is below 200200, that is when
    1001 exceeds 0.5% of the larger magnitude. *)
Theorem numbers_equal_hybrid_tolerance (a b : Z) :
  let r := is_approximately_equal a b float_0_005 in
  let d := Z.abs (a - b) in
  let m := Z.max (Z.abs a) (Z.abs b) in
  (a = b -> r = Some true)
  /\ (a = 0 /\ b = 0 -> r = Some true)
  /\ (d <= 1000 -> r = Some true)
  /\ (1000 < d -> a = 0 \/ b = 0 -> r = Some false)
  /\ (1000 < d -> a <> 0 -> b <> 0 ->
      (exists q, int_true_div d m = Some q /\ r = Some (float_le q float_0_005))
      /\ r = Some (d * threshold_den <? threshold_num * m)
      /\ (m <= 2 ^ 53 -> r = Some (200 * d <=? m)))
  /\ is_approximately_equal a (a + 1000) float_0_005 = Some true
  /\ (is_approximately_equal a (a + 1001) float_0_005 = Some false
      <-> Z.max (Z.abs a) (Z.abs (a + 1001)) < 200200).
Proof.
  cbv zeta. rewrite !is_approximately_equal_0_005.
  repeat split.
  - intros ->. replace (b - b) with 0 by lia. reflexivity.
  - intros [-> ->]. reflexivity.
  - intros Hd. destruct (Z.leb_spec (Z.abs (a - b)) 1000); [reflexivity|lia].
  - intros Hd Hz. destruct (Z.leb_spec (Z.abs (a - b)) 1000); [lia|].
    destruct Hz as [-> | ->].
    + reflexivity.
    + rewrite orb_true_r. reflexivity.
  - destruct (int_true_div_le_0_005 (Z.abs (a - b)) (Z.max (Z.abs a) (Z.abs b)))
      as (q & Hq & Hle); [lia | lia | lia |].
    exists q. split; [exact Hq|].
    destruct (Z.leb_spec (Z.abs (a - b)) 1000); [lia|].
    rewrite !bool_decide_eq_false_2 by assumption. simpl.
    rewrite Hle. reflexivity.
  - destruct (Z.leb_spec (Z.abs (a - b)) 1000); [lia|].
    rewrite !bool_decide_eq_false_2 by assumption. reflexivity.
  - intros Hm. destruct (Z.leb_spec (Z.abs (a - b)) 1000); [lia|].
    rewrite !bool_decide_eq_false_2 by assumption. simpl.
    rewrite threshold_exact by lia. reflexivity.
  - destruct (Z.leb_spec (Z.abs (a - (a + 1000))) 1000); [reflexivity|lia].
  - destruct (Z.leb_spec (Z.abs (a - (a + 1001))) 1000); [lia|].
    destruct (bool_decide (a = 0) || bool_decide (a + 1001 = 0)) eqn:Hz.
    + intros _. apply orb_prop in Hz as [Hz|Hz];
        apply bool_decide_eq_true_1 in Hz; lia.
    + intros Heq. injection Heq as Heq. apply Z.ltb_ge in Heq.
      unfold threshold_den, threshold_num in Heq. lia.
  - intros Hm.
    destruct (Z.leb_spec (Z.abs (a - (a + 1001))) 1000); [lia|].
    destruct (bool_decide (a = 0) || bool_decide (a + 1001 = 0)); [reflexivity|].
    f_equal. apply Z.ltb_ge. unfold threshold_den, threshold_num. lia.
Qed.

Lemma numbers_equal_hybrid_tolerance_witness :
  is_approximately_equal 5 5 float_0_005 = Some true
  /\ is_approximately_equal 0 0 float_0_005 = Some true
  /\ is_approximately_equal 100 900 float_0_005 = Some true
  /\ is_approximately_equal 0 5000 float_0_005 = Some false
  /\ is_approximately_equal 10000000 10003000 float_0_005
     = Some (200 * Z.abs (10000000 - 10003000)
             <=? Z.max (Z.abs 10000000) (Z.abs 10003000)).
Proof.
  split; [apply (proj1 (numbers_equal_hybrid_tolerance 5 5)); reflexivity|].
  split; [apply (proj1 (proj2 (numbers_equal_hybrid_tolerance 0 0))); split; reflexivity|].
  split; [apply (proj1 (proj2 (proj2 (numbers_equal_hybrid_tolerance 100 900)))); simpl; lia|].
  split; [apply (proj1 (proj2 (proj2 (proj2 (numbers_equal_hybrid_tolerance 0 5000)))));
          [simpl; lia | left; reflexivity]|].
  apply (proj1 (proj2 (proj2 (proj2 (proj2
           (numbers_equal_hybrid_tolerance 10000000 10003000)))))); simpl; lia.
Defined.

(** C1 as stated fails on its boundary clause: 1001 exceeds 0.5% of
    200000, yet 200000 and 201001 compare equal, because the relative
    difference is taken against the larger magnitude 201001. *)
Lemma numbers_equal_boundary_counterexample :
  (5 * 200000 < 1001 * 1000
   /\ is_approximately_equal 200000 (200000 + 1001) float_0_005 = Some true)
  /\ ~ (forall v, 5 * v < 1001 * 1000 ->
         is_approximately_equal v (v + 1001) float_0_005 = Some false).
Proof.
  assert (H : is_approximately_equal 200000 (200000 + 1001) float_0_005 = Some true)
    by (vm_compute; reflexivity).
  split; [split; [lia | exact H]|].
  intros Hall. specialize (Hall 200000 ltac:(lia)). congruence.
Qed.

(** C9. The comparator is symmetric in its two operands, for every
    tolerance. *)
Theorem is_approximately_equal_symmetric (a b : Z) (tolerance : spec_float) :
  is_approximately_equal a b tolerance = is_approximately_equal b a tolerance.
Proof.
  unfold is_approximately_equal.
  replace (Z.abs (b - a)) with (Z.abs (a - b)) by lia.
  rewrite (Z.max_comm (Z.abs b) (Z.abs a)).
  rewrite (andb_comm (bool_decide (b = 0))), (orb_comm (bool_decide (b = 0))).
  destruct (decide (a = b)) as [->|Hne]; [reflexivity|].
  rewrite (bool_decide_eq_false_2 (a = b)), (bool_decide_eq_false_2 (b = a))
    by congruence.
  reflexivity.
Qed.

(** C7. [fonts_effectively_equal] with [treat_none_as_false] holds exactly
    when the two flags are equal or both lie in {None, False}; in
    particular (None, False) and (True, True) are equivalent and
    (None, True) is not. *)
Theorem fonts_effectively_equal_spec (val1 val2 : option bool) :
  fonts_effectively_equal val1 val2 true
  = bool_decide (val1 = val2
                 \/ (val1 ∈ [None; Some false] /\ val2 ∈ [None; Some false]))
  /\ fonts_effectively_equal None (Some false) true = true
  /\ fonts_effectively_equal None (Some true) true = false
  /\ fonts_effectively_equal (Some true) (Some true) true = true.
Proof.
  split; [|repeat split].
  destruct val1 as [[]|], val2 as [[]|]; vm_compute; reflexivity.
Qed.

End ToleranceFacts.

(** ** The fuzzy shape matcher *)
Module MatcherFacts.
Import Py Impress.

Lemma type_score_range (target_type cand_type : MSO_SHAPE_TYPE) (sc : Z) :
  type_score target_type cand_type = Some sc -> 5 <= sc <= 10.
Proof.
  unfold type_score. intros H.
  repeat case_match; simplify_eq; lia.
Qed.

Lemma text_score_range (target_text cand_text : string) :
  0 <= text_score target_text cand_text <= 100.
Proof. unfold text_score. repeat case_match; lia. Qed.

Lemma hash_score_range (target_hash cand_hash : string) :
  0 <= hash_score target_hash cand_hash <= 100.
Proof. unfold hash_score. repeat case_match; lia. Qed.

Lemma position_score_range (target_shape candidate : Shape) :
  0 <= position_score target_shape candidate <= 10.
Proof. unfold position_score. repeat case_match; lia. Qed.

Lemma signature_type (shape : Shape) :
  (get_shape_signature shape).1.1 = shape_type shape.
Proof. reflexivity. Qed.

Lemma candidate_score_type (target_shape candidate : Shape) :
  candidate_score target_shape candidate =
    score ← type_score (shape_type target_shape) (shape_type candidate);
    Some (score
          + text_score (get_shape_signature target_shape).1.2
                       (get_shape_signature candidate).1.2
          + hash_score (get_shape_signature target_shape).2
                       (get_shape_signature candidate).2
          + position_score target_shape candidate).
Proof.
  unfold candidate_score.
  pose proof (signature_type target_shape) as Ht.
  pose proof (signature_type candidate) as Hc.
  destruct (get_shape_signature target_shape) as [[tt tx] th].
  destruct (get_shape_signature candidate) as [[ct cx] ch].
  simpl in *. subst. reflexivity.
Qed.

Lemma candidate_score_none (target_shape candidate : Shape) :
  candidate_score target_shape candidate = None
  <-> type_score (shape_type target_shape) (shape_type candidate) = None.
Proof.
  rewrite candidate_score_type.
  destruct (type_score _ _); simpl; split; congruence.
Qed.

Lemma candidate_score_lower (target_shape candidate : Shape) (sc : Z) :
  candidate_score target_shape candidate = Some sc -> 5 <= sc.
Proof.
  rewrite candidate_score_type.
  destruct (type_score _ _) as [ts|] eqn:Hts;
    cbn -[get_shape_signature position_score text_score hash_score];
    [|discriminate].
  intros Heq. apply (inj Some) in Heq. subst sc.
  pose proof (type_score_range _ _ _ Hts).
  pose proof (text_score_range (get_shape_signature target_shape).1.2
                (get_shape_signature candidate).1.2).
  pose proof (hash_score_range (get_shape_signature target_shape).2
                (get_shape_signature candidate).2).
  pose proof (position_score_range target_shape candidate). lia.
Qed.

(** A shape scores highest against itself. *)
Lemma candidate_score_self (shape : Shape) :
  exists sc, candidate_score shape shape = Some sc
             /\ forall candidate sc', candidate_score shape candidate = Some sc' -> sc' <= sc.
Proof.
  rewrite candidate_score_type.
  assert (Hty : type_score (shape_type shape) (shape_type shape) = Some 10).
  { unfold type_score. rewrite bool_decide_eq_true_2; reflexivity. }
  rewrite Hty. cbn -[get_shape_signature position_score text_score hash_score].
  eexists. split; [reflexivity|].
  intros candidate sc'. rewrite candidate_score_type.
  destruct (type_score _ (shape_type candidate)) as [ts|] eqn:Hts;
    cbn -[get_shape_signature position_score text_score hash_score];
    [|discriminate].
  intros Heq. apply (inj Some) in Heq. subst sc'.
  pose proof (type_score_range _ _ _ Hts).
  set (tx := (get_shape_signature shape).1.2).
  set (th := (get_shape_signature shape).2).
  set (cx := (get_shape_signature candidate).1.2).
  set (ch := (get_shape_signature candidate).2).
  assert (text_score tx cx <= text_score tx tx).
  { unfold text_score. rewrite (bool_decide_eq_true_2 (tx = tx)) by reflexivity.
    destruct (truthy tx), (truthy cx); simpl; repeat case_match; lia. }
  assert (hash_score th ch <= hash_score th th).
  { unfold hash_score. rewrite (bool_decide_eq_true_2 (th = th)) by reflexivity.
    destruct (truthy th), (truthy ch); simpl; repeat case_match; lia. }
  assert (position_score shape candidate <= position_score shape shape).
  { pose proof (position_score_range shape candidate).
    unfold position_score at 2. rewrite !Z.sub_diag. simpl. lia. }
  lia.
Qed.

Lemma scan_candidates_spec (target_shape : Shape) (used : gset Z)
    (cands : list Shape) :
  forall (i0 : Z) (best : option Shape * Z * Z),
    let r := scan_candidates target_shape used i0 cands best in
    (r = best
     /\ forall k c sc, cands !! k = Some c -> (i0 + Z.of_nat k) ∉ used ->
          candidate_score target_shape c = Some sc -> sc <= best.2)
    \/ (exists k c sc,
          cands !! k = Some c /\ ((i0 + Z.of_nat k) ∉ used)
          /\ candidate_score target_shape c = Some sc
          /\ r = (Some c, i0 + Z.of_nat k, sc) /\ best.2 < sc
          /\ forall k' c' sc', cands !! k' = Some c' -> (i0 + Z.of_nat k') ∉ used ->
               candidate_score target_shape c' = Some sc' ->
               sc' <= sc /\ ((k' < k)%nat -> sc' < sc)).
Proof.
  induction cands as [|cand rest IH]; intros i0 best; simpl.
  - left. split; [reflexivity|]. intros k c sc Hk. discriminate.
  - set (best' := if bool_decide (i0 ∈ used) then best
                  else match candidate_score target_shape cand with
                       | Some score => if best.2 <? score then (Some cand, i0, score) else best
                       | None => best
                       end).
    assert (Hbest' :
              (best' = best
               /\ forall sc, i0 ∉ used -> candidate_score target_shape cand = Some sc ->
                             sc <= best.2)
              \/ (exists sc, (i0 ∉ used) /\ candidate_score target_shape cand = Some sc
                             /\ best.2 < sc /\ best' = (Some cand, i0, sc))).
    { unfold best'. case_bool_decide as Hused.
      - left. split; [reflexivity|]. intros sc Hn. contradiction.
      - destruct (candidate_score target_shape cand) as [score|].
        + destruct (Z.ltb_spec best.2 score).
          * right. exists score. auto.
          * left. split; [reflexivity|]. intros sc _ [= <-]. lia.
        + left. split; [reflexivity|]. intros sc _ [=]. }
    specialize (IH (i0 + 1) best'). cbv zeta in IH.
    destruct Hbest' as [[Heq Hcand]|(sc0 & Hn0 & Hsc0 & Hlt0 & Heq)];
      destruct IH as [[Hr Hall]|(k & c & sc & Hk & Hn & Hsc & Hr & Hlt & Hall)].
    + left. rewrite Hr, Heq. split; [reflexivity|].
      intros [|k] c sc Hk Hn Hsc; simpl in Hk.
      * injection Hk as <-. apply Hcand; [|exact Hsc].
        replace (i0 + Z.of_nat 0) with i0 in Hn by lia. exact Hn.
      * rewrite <- Heq. apply (Hall k c sc Hk); [|exact Hsc].
        replace (i0 + 1 + Z.of_nat k) with (i0 + Z.of_nat (S k)) by lia. exact Hn.
    + right. exists (S k), c, sc.
      replace (i0 + Z.of_nat (S k)) with (i0 + 1 + Z.of_nat k) by lia.
      rewrite Heq in Hlt.
      split; [exact Hk|]. split; [exact Hn|]. split; [exact Hsc|].
      split; [exact Hr|]. split; [exact Hlt|].
      intros [|k'] c' sc' Hk' Hn' Hsc'; simpl in Hk'.
      * injection Hk' as <-.
        replace (i0 + Z.of_nat 0) with i0 in Hn' by lia.
        specialize (Hcand sc' Hn' Hsc'). split; [lia|]. intros _. lia.
      * replace (i0 + Z.of_nat (S k')) with (i0 + 1 + Z.of_nat k') in Hn' by lia.
        destruct (Hall k' c' sc' Hk' Hn' Hsc') as [Hle Hstrict].
        split; [exact Hle|]. intros Hlt'. apply Hstrict. lia.
    + right. exists 0%nat, cand, sc0.
      replace (i0 + Z.of_nat 0) with i0 by lia.
      split; [reflexivity|]. split; [exact Hn0|]. split; [exact Hsc0|].
      split; [rewrite Hr; exact Heq|]. split; [exact Hlt0|].
      intros [|k'] c' sc' Hk' Hn' Hsc'; simpl in Hk'.
      * injection Hk' as <-. assert (sc' = sc0) by congruence. lia.
      * replace (i0 + Z.of_nat (S k')) with (i0 + 1 + Z.of_nat k') in Hn' by lia.
        specialize (Hall k' c' sc' Hk' Hn' Hsc'). rewrite Heq in Hall. simpl in Hall.
        split; [exact Hall|lia].
    + right. exists (S k), c, sc.
      replace (i0 + Z.of_nat (S k)) with (i0 + 1 + Z.of_nat k) by lia.
      rewrite Heq in Hlt. simpl in Hlt.
      split; [exact Hk|]. split; [exact Hn|]. split; [exact Hsc|].
      split; [exact Hr|]. split; [lia|].
      intros [|k'] c' sc' Hk' Hn' Hsc'; simpl in Hk'.
      * injection Hk' as <-. assert (sc' = sc0) by congruence. subst sc'.
        split; [lia|]. intros _. lia.
      * replace (i0 + Z.of_nat (S k')) with (i0 + 1 + Z.of_nat k') in Hn' by lia.
        destruct (Hall k' c' sc' Hk' Hn' Hsc') as [Hle Hstrict].
        split; [exact Hle|]. intros Hlt'. apply Hstrict. lia.
Qed.

Lemma find_matching_shape_cases (target_shape : Shape) (cands : list Shape)
    (used : gset Z) :
  (find_matching_shape target_shape cands used = (None, -1)
   /\ forall k c, cands !! k = Some c ->
        Z.of_nat k ∈ used \/ candidate_score target_shape c = None)
  \/ (exists k c sc,
        cands !! k = Some c /\ (Z.of_nat k ∉ used)
        /\ candidate_score target_shape c = Some sc
        /\ find_matching_shape target_shape cands used = (Some c, Z.of_nat k)
        /\ forall k' c' sc', cands !! k' = Some c' -> Z.of_nat k' ∉ used ->
             candidate_score target_shape c' = Some sc' ->
             sc' <= sc /\ ((k' < k)%nat -> sc' < sc)).
Proof.
  unfold find_matching_shape.
  destruct (scan_candidates_spec target_shape used cands 0 (None, -1, -1))
    as [[Hr Hall]|(k & c & sc & Hk & Hn & Hsc & Hr & _ & Hall)].
  - left. rewrite Hr. split; [reflexivity|].
    intros k c Hk.
    destruct (decide (Z.of_nat k ∈ used)) as [|Hn]; [left; assumption|right].
    destruct (candidate_score target_shape c) as [sc|] eqn:Hsc; [|reflexivity].
    pose proof (candidate_score_lower _ _ _ Hsc).
    specialize (Hall k c sc Hk Hn Hsc). simpl in Hall. lia.
  - right. exists k, c, sc. rewrite Hr. simpl in *.
    repeat split; try assumption; apply (Hall k' c' sc'); assumption.
Qed.

(** What a successful match returns. *)
Lemma find_matching_shape_some (target_shape : Shape) (cands : list Shape)
    (used : gset Z) (s : Shape) (idx : Z) :
  find_matching_shape target_shape cands used = (Some s, idx) ->
  exists k sc, idx = Z.of_nat k /\ cands !! k = Some s /\ (idx ∉ used)
               /\ candidate_score target_shape s = Some sc.
Proof.
  intros Hfind.
  destruct (find_matching_shape_cases target_shape cands used)
    as [[Hnone _]|(k & c & sc & Hk & Hn & Hsc & Hsome & _)].
  - congruence.
  - rewrite Hsome in Hfind. injection Hfind as <- <-.
    exists k, sc. auto.
Qed.

(** A shape of a list is matched with itself when exactly the indices
    before it are used. *)
Lemma find_matching_shape_self (shapes : list Shape) (i : nat) (s : Shape)
    (used : gset Z) :
  shapes !! i = Some s ->
  (forall z, z ∈ used <-> 0 <= z < Z.of_nat i) ->
  find_matching_shape s shapes used = (Some s, Z.of_nat i).
Proof.
  intros Hi Hused.
  destruct (candidate_score_self s) as (self & Hself & Hmax).
  assert (Hfree : Z.of_nat i ∉ used) by (rewrite Hused; lia).
  destruct (find_matching_shape_cases s shapes used)
    as [[_ Hall]|(k & c & sc & Hk & Hn & Hsc & Hsome & Hall)].
  - destruct (Hall i s Hi); [contradiction|congruence].
  - destruct (Hall i s self Hi Hfree Hself) as [Hle Hfirst].
    pose proof (Hmax c sc Hsc) as Hge.
    assert (Hki : k = i).
    { rewrite Hused in Hn.
      destruct (Nat.lt_trichotomy k i) as [Hlt|[Heq|Hgt]]; [lia|exact Heq|].
      specialize (Hfirst Hgt). lia. }
    subst k. rewrite Hsome. congruence.
Qed.

(** C2 (as amended). [find_matching_shape] returns no match, (None, -1),
    if and only if every candidate is either at a used index or rejected
    by the type gate (which covers the empty candidate list); whenever a
    candidate at an unused index passes the type gate, some candidate is
    returned. *)
Theorem find_matching_shape_no_match (target_shape : Shape)
    (cands : list Shape) (used : gset Z) :
  (find_matching_shape target_shape cands used = (None, -1)
   <-> forall k c, cands !! k = Some c ->
         Z.of_nat k ∈ used
         \/ type_score (shape_type target_shape) (shape_type c) = None)
  /\ (forall k c, cands !! k = Some c -> Z.of_nat k ∉ used ->
        type_score (shape_type target_shape) (shape_type c) <> None ->
        exists s idx, find_matching_shape target_shape cands used = (Some s, idx)).
Proof.
  destruct (find_matching_shape_cases target_shape cands used)
    as [[Hnone Hall]|(k & c & sc & Hk & Hn & Hsc & Hsome & _)].
  - split.
    + split; [|intros _; exact Hnone].
      intros _ k c Hk. destruct (Hall k c Hk) as [Hu|Hs]; [left; exact Hu|right].
      apply candidate_score_none. exact Hs.
    + intros k c Hk Hn Hty. destruct (Hall k c Hk) as [Hu|Hs]; [contradiction|].
      apply candidate_score_none in Hs. contradiction.
  - split.
    + split.
      * rewrite Hsome. discriminate.
      * intros Hall. destruct (Hall k c Hk) as [Hu|Hs]; [contradiction|].
        apply candidate_score_none in Hs. congruence.
    + intros _ _ _ _ _. exists c, (Z.of_nat k). exact Hsome.
Qed.

Lemma find_matching_shape_no_match_witness :
  find_matching_shape (ImpressSamples.picture "a" 0 0)
    [ImpressSamples.table_shape 0 0] ∅ = (None, -1)
  /\ exists s idx,
       find_matching_shape (ImpressSamples.picture "a" 0 0)
         [ImpressSamples.table_shape 0 0; ImpressSamples.picture "b" 0 0] ∅
       = (Some s, idx).
Proof.
  split.
  - apply (proj1 (find_matching_shape_no_match _ _ _)).
    intros [|[|k]] c Hk; simpl in Hk; [|discriminate|discriminate].
    injection Hk as <-. right. reflexivity.
  - apply (proj2 (find_matching_shape_no_match _ _ _) 1%nat
             (ImpressSamples.picture "b" 0 0)).
    + reflexivity.
    + apply not_elem_of_empty.
    + discriminate.
Defined.

(** C2 as stated fails: with a single unused candidate of another,
    non-text type the candidate list is neither empty nor used up, yet
    no match is returned. *)
Lemma find_matching_shape_no_match_counterexample :
  ~ (forall target_shape cands (used : gset Z),
       find_matching_shape target_shape cands used = (None, -1)
       <-> (cands = [] \/ forall k, (k < length cands)%nat -> Z.of_nat k ∈ used)).
Proof.
  intros Hclaim.
  destruct (Hclaim (ImpressSamples.picture "a" 0 0)
              [ImpressSamples.table_shape 0 0] ∅) as [Hto _].
  destruct (Hto ltac:(vm_compute; reflexivity)) as [Hnil|Hall].
  - discriminate.
  - specialize (Hall 0%nat ltac:(simpl; lia)).
    exact (not_elem_of_empty (C := gset Z) _ Hall).
Qed.

(** C5. In the type gate a candidate of the target's type scores 10; a
    candidate of another type scores 5 when both types are among
    TEXT_BOX, AUTO_SHAPE and PLACEHOLDER; every other candidate is rejected
    and is never returned: a returned shape has the target's type or both
    are text-bearing, so a TABLE, PICTURE or GROUP is only ever matched
    with a shape of its own type. *)
Theorem type_compatibility_gate (target_shape candidate : Shape) :
  let rest :=
    text_score (get_shape_signature target_shape).1.2
               (get_shape_signature candidate).1.2
    + hash_score (get_shape_signature target_shape).2
                 (get_shape_signature candidate).2
    + position_score target_shape candidate in
  let text_bearing (s : Shape) :=
    shape_type s = TEXT_BOX \/ shape_type s = AUTO_SHAPE
    \/ shape_type s = PLACEHOLDER in
  (shape_type target_shape = shape_type candidate ->
     candidate_score target_shape candidate = Some (10 + rest))
  /\ (shape_type target_shape <> shape_type candidate ->
      text_bearing target_shape -> text_bearing candidate ->
      candidate_score target_shape candidate = Some (5 + rest))
  /\ (shape_type target_shape <> shape_type candidate ->
      ~ (text_bearing target_shape /\ text_bearing candidate) ->
      candidate_score target_shape candidate = None)
  /\ (forall cands (used : gset Z) idx,
        find_matching_shape target_shape cands used = (Some candidate, idx) ->
        shape_type target_shape = shape_type candidate
        \/ (text_bearing target_shape /\ text_bearing candidate)).
Proof.
  cbv zeta.
  assert (Htext : forall s : Shape,
             shape_type s ∈ TEXT_SHAPE_TYPES
             <-> (shape_type s = TEXT_BOX \/ shape_type s = AUTO_SHAPE
                  \/ shape_type s = PLACEHOLDER)).
  { intros s. unfold TEXT_SHAPE_TYPES.
    rewrite !elem_of_cons, elem_of_nil. tauto. }
  assert (Hgate : type_score (shape_type target_shape) (shape_type candidate) <> None ->
                  shape_type target_shape = shape_type candidate
                  \/ ((shape_type target_shape = TEXT_BOX
                       \/ shape_type target_shape = AUTO_SHAPE
                       \/ shape_type target_shape = PLACEHOLDER)
                      /\ (shape_type candidate = TEXT_BOX
                          \/ shape_type candidate = AUTO_SHAPE
                          \/ shape_type candidate = PLACEHOLDER))).
  { unfold type_score. case_bool_decide as Heq; [left; exact Heq|].
    case_bool_decide as Ht; [|intros []; reflexivity].
    case_bool_decide as Hc; [|intros []; reflexivity].
    intros _. right. split; apply Htext; assumption. }
  repeat split.
  - intros Heq. rewrite candidate_score_type. unfold type_score.
    rewrite bool_decide_eq_true_2 by exact Heq.
    cbn -[get_shape_signature position_score text_score hash_score].
    f_equal. lia.
  - intros Hne Ht Hc. rewrite candidate_score_type. unfold type_score.
    rewrite bool_decide_eq_false_2 by exact Hne.
    rewrite !bool_decide_eq_true_2 by (apply Htext; assumption).
    cbn -[get_shape_signature position_score text_score hash_score].
    f_equal. lia.
  - intros Hne Hnot. apply candidate_score_none.
    destruct (type_score (shape_type target_shape) (shape_type candidate)) eqn:Hts;
      [|reflexivity].
    destruct Hgate as [Heq|Hboth]; [congruence|contradiction|contradiction].
  - intros cands used idx Hfind.
    destruct (find_matching_shape_some _ _ _ _ _ Hfind) as (k & sc & _ & _ & _ & Hsc).
    apply Hgate. intros Hnone. apply candidate_score_none in Hnone. congruence.
Qed.

Lemma type_compatibility_gate_witness :
  candidate_score (ImpressSamples.picture "a" 0 0) (ImpressSamples.picture "a" 0 0)
  = Some 140
  /\ candidate_score (ImpressSamples.text_box "Title" 0 0)
       (ImpressSamples.auto_shape "Title" 0 0)
     = Some 115
  /\ candidate_score (ImpressSamples.picture "a" 0 0) (ImpressSamples.table_shape 0 0)
     = None
  /\ (shape_type (ImpressSamples.picture "a" 0 0)
      = shape_type (ImpressSamples.picture "a" 0 0)
      \/ ((shape_type (ImpressSamples.picture "a" 0 0) = TEXT_BOX
           \/ shape_type (ImpressSamples.picture "a" 0 0) = AUTO_SHAPE
           \/ shape_type (ImpressSamples.picture "a" 0 0) = PLACEHOLDER)
          /\ (shape_type (ImpressSamples.picture "a" 0 0) = TEXT_BOX
              \/ shape_type (ImpressSamples.picture "a" 0 0) = AUTO_SHAPE
              \/ shape_type (ImpressSamples.picture "a" 0 0) = PLACEHOLDER))).
Proof.
  split; [|split; [|split]].
  - exact (proj1 (type_compatibility_gate (ImpressSamples.picture "a" 0 0)
                    (ImpressSamples.picture "a" 0 0)) eq_refl).
  - apply (proj1 (proj2 (type_compatibility_gate
                    (ImpressSamples.text_box "Title" 0 0)
                    (ImpressSamples.auto_shape "Title" 0 0)))).
    + discriminate.
    + left. reflexivity.
    + right. left. reflexivity.
  - apply (proj1 (proj2 (proj2 (type_compatibility_gate
                    (ImpressSamples.picture "a" 0 0)
                    (ImpressSamples.table_shape 0 0))))).
    + discriminate.
    + intros [[H|[H|H]] _]; discriminate H.
  - apply (proj2 (proj2 (proj2 (type_compatibility_gate
                    (ImpressSamples.picture "a" 0 0)
                    (ImpressSamples.picture "a" 0 0))))
             [ImpressSamples.table_shape 0 0; ImpressSamples.picture "a" 0 0] ∅ 1).
    vm_compute. reflexivity.
Defined.

End MatcherFacts.

(** ** The structural comparator for presentations *)
Module ComparatorFacts.
Import Py Impress BasicFacts ToleranceFacts MatcherFacts.

Lemma returns_ret {A} (v : A) : returns (ret v) v.
Proof. intros log. exists log. reflexivity. Qed.

Lemma returns_bind {A B} (m : M A) (k : A -> M B) (a : A) (b : B) :
  returns m a -> returns (k a) b -> returns (bind m k) b.
Proof.
  intros Hm Hk log. destruct (Hm log) as [log1 H1].
  destruct (Hk log1) as [log2 H2]. exists log2.
  unfold bind. rewrite H1. exact H2.
Qed.

Lemma returns_mismatch {A} (message : string) (v : A) :
  returns (mismatch message v) v.
Proof. intros log. eexists. reflexivity. Qed.

Lemma returns_lift {A} (o : option A) (v : A) : o = Some v -> returns (lift o) v.
Proof. intros ->. apply returns_ret. Qed.

Lemma returns_for_each {A} (body : A -> M bool) (l : list A) :
  (forall x, x ∈ l -> returns (body x) true) -> returns (for_each body l) true.
Proof.
  induction l as [|x l IH]; intros Hall; simpl.
  - apply returns_ret.
  - eapply returns_bind; [apply Hall; left|].
    simpl. apply IH. intros y Hy. apply Hall. right. exact Hy.
Qed.

Lemma elem_of_zip_same {A} (l : list A) (x y : A) : (x, y) ∈ zip l l -> x = y.
Proof.
  induction l as [|a l IH]; simpl; intros H.
  - inversion H.
  - apply elem_of_cons in H as [[= -> ->]|H]; [reflexivity|exact (IH H)].
Qed.

Lemma either_differs_refl (a b : Z) : either_differs a a b b = Some false.
Proof. unfold either_differs. rewrite !is_approximately_equal_refl. reflexivity. Qed.

Lemma underline_differs_refl (u : option underline_value) :
  underline_differs u u = false.
Proof. destruct u as [u|]; simpl; [rewrite Z.eqb_refl|]; reflexivity. Qed.

Lemma fonts_effectively_equal_refl (v : option bool) (t : bool) :
  fonts_effectively_equal v v t = true.
Proof. unfold fonts_effectively_equal. rewrite bool_decide_refl. reflexivity. Qed.

Lemma compare_bullets_refl (bullets : list bullet) : compare_bullets bullets bullets = true.
Proof.
  unfold compare_bullets. rewrite bool_decide_refl. simpl.
  induction bullets as [|[[[lvl char] text] color] l IH]; [reflexivity|].
  simpl. rewrite !bool_decide_refl. simpl. exact IH.
Qed.

Lemma compare_picture_shape_refl (s : Shape) : returns (compare_picture_shape s s) 1.
Proof.
  unfold compare_picture_shape. rewrite !either_differs_refl.
  eapply returns_bind; [apply returns_lift; reflexivity|]. cbv beta iota.
  eapply returns_bind; [apply returns_lift; reflexivity|]. cbv beta iota.
  eapply (returns_bind _ _ true).
  { destruct (image_md5 s); [|apply returns_mismatch].
    rewrite bool_decide_refl. apply returns_ret. }
  cbn [negb].
  destruct (line s) as [l|]; [|apply returns_ret].
  rewrite bool_decide_refl. cbn [negb].
  eapply returns_bind; [apply returns_lift; apply is_approximately_equal_refl|].
  cbn [negb].
  destruct (line_color l) as [c|]; [|apply returns_ret].
  destruct (rgb c); rewrite bool_decide_refl; apply returns_ret.
Qed.

Lemma compare_table_run_refl (r : Run) : returns (compare_table_run r r) true.
Proof.
  unfold compare_table_run.
  assert (Hcolor : match rgb (color (font r)), rgb (color (font r)) with
                   | Some rgb1, Some rgb2 => negb (bool_decide (rgb1 = rgb2))
                   | _, _ => false
                   end = false).
  { destruct (rgb (color (font r))); [rewrite bool_decide_refl|]; reflexivity. }
  rewrite Hcolor, !fonts_effectively_equal_refl. cbn [negb].
  rewrite underline_differs_refl. cbn [andb].
  apply returns_ret.
Qed.

Lemma compare_table_paragraph_refl (p : Paragraph) :
  returns (compare_table_paragraph (p, p)) true.
Proof.
  unfold compare_table_paragraph. rewrite bool_decide_refl. cbn [negb].
  apply returns_for_each. intros [r1 r2] Hin.
  apply elem_of_zip_same in Hin as ->. apply compare_table_run_refl.
Qed.

Lemma well_formed_table_cell (t : Table) (row_idx col_idx : nat) :
  well_formed_table t = true ->
  (row_idx < rows t)%nat -> (col_idx < columns t)%nat ->
  exists c, cell t row_idx col_idx = Some c.
Proof.
  unfold well_formed_table. intros Hwf Hr Hc.
  rewrite forallb_forall in Hwf.
  specialize (Hwf row_idx ltac:(apply in_seq; lia)).
  rewrite forallb_forall in Hwf.
  specialize (Hwf col_idx ltac:(apply in_seq; lia)).
  destruct (cell t row_idx col_idx) as [c|]; [eauto|discriminate].
Qed.

Lemma compare_table_cell_refl (t : Table) (row_idx col_idx : nat) :
  well_formed_table t = true ->
  (row_idx < rows t)%nat -> (col_idx < columns t)%nat ->
  returns (compare_table_cell t t (row_idx, col_idx)) true.
Proof.
  intros Hwf Hr Hc.
  destruct (well_formed_table_cell t row_idx col_idx Hwf Hr Hc) as [c Hcell].
  unfold compare_table_cell. rewrite Hcell.
  eapply returns_bind; [apply returns_lift; reflexivity|].
  eapply returns_bind; [apply returns_lift; reflexivity|].
  rewrite !bool_decide_refl. cbn [negb].
  apply returns_for_each. intros [p1 p2] Hin.
  apply elem_of_zip_same in Hin as ->. apply compare_table_paragraph_refl.
Qed.

Lemma compare_table_shape_refl (s : Shape) (t : Table) :
  table s = Some t -> well_formed_table t = true ->
  returns (compare_table_shape s s) 1.
Proof.
  intros Ht Hwf. unfold compare_table_shape.
  rewrite !Z.sub_diag, either_differs_refl, Ht.
  change (POSITION_TOLERANCE_EMU <? Z.abs 0) with false. cbn [orb].
  eapply returns_bind; [apply returns_lift; reflexivity|]. cbv beta iota.
  eapply returns_bind; [apply returns_lift; reflexivity|].
  eapply returns_bind; [apply returns_lift; reflexivity|].
  rewrite !bool_decide_refl. cbn [negb orb].
  eapply (returns_bind _ _ true); [|apply returns_ret].
  apply returns_for_each. intros [r c] Hin.
  apply list_elem_of_In, in_flat_map in Hin as (r' & Hr' & Hin).
  apply in_map_iff in Hin as (c' & [= <- <-] & Hc').
  apply in_seq in Hr', Hc'.
  apply compare_table_cell_refl; [exact Hwf|lia|lia].
Qed.

Lemma compare_shape_geometry_refl (s : Shape) : returns (compare_shape_geometry s s) true.
Proof.
  unfold compare_shape_geometry. rewrite !either_differs_refl.
  eapply returns_bind; [apply returns_lift; reflexivity|]. apply returns_ret.
Qed.

Lemma bullets_accepted_refl (bullets : option (list bullet)) :
  bullets_accepted bullets bullets = true.
Proof. destruct bullets; [apply compare_bullets_refl|reflexivity]. Qed.

Lemma compare_text_run_refl (bullets1 bullets2 : option (list bullet)) (r : Run) :
  bullets_accepted bullets1 bullets2 = true ->
  returns (compare_text_run bullets1 bullets2 r r) true.
Proof.
  intros Hbullets. unfold compare_text_run. cbv zeta.
  assert (Hcolor : match rgb (color (font r)), rgb (color (font r)) with
                   | Some rgb1, Some rgb2 => negb (bool_decide (rgb1 = rgb2))
                   | _, _ => false
                   end = false).
  { destruct (rgb (color (font r))); [rewrite bool_decide_refl|]; reflexivity. }
  rewrite Hcolor, !fonts_effectively_equal_refl, !bool_decide_refl,
    !underline_differs_refl.
  cbn [negb andb].
  unfold bullets_accepted in Hbullets.
  destruct bullets1, bullets2; try apply returns_ret.
  rewrite Hbullets. apply returns_ret.
Qed.

Lemma compare_text_paragraph_refl (bullets1 bullets2 : option (list bullet))
    (p : Paragraph) :
  bullets_accepted bullets1 bullets2 = true ->
  returns (compare_text_paragraph bullets1 bullets2 (p, p)) true.
Proof.
  intros Hbullets.
  unfold compare_text_paragraph. cbv zeta. rewrite !bool_decide_refl. cbn [negb].
  apply returns_for_each. intros [r1 r2] Hin.
  apply elem_of_zip_same in Hin as ->. apply compare_text_run_refl. exact Hbullets.
Qed.

Lemma compare_text_shape_refl (bullets1 bullets2 : option (list bullet))
    (s : Shape) (tf : TextFrame) :
  bullets_accepted bullets1 bullets2 = true ->
  text_frame s = Some tf -> returns (compare_text_shape bullets1 bullets2 s s) 1.
Proof.
  intros Hbullets Htf. unfold compare_text_shape. rewrite Htf.
  eapply returns_bind; [apply returns_lift; reflexivity|].
  eapply returns_bind; [apply returns_lift; reflexivity|].
  rewrite !bool_decide_refl. cbn [negb].
  eapply (returns_bind _ _ true); [|apply returns_ret].
  apply returns_for_each. intros [p1 p2] Hin.
  apply elem_of_zip_same in Hin as ->. apply compare_text_paragraph_refl.
  exact Hbullets.
Qed.

Lemma compare_matched_shapes_refl (bullets1 bullets2 : option (list bullet))
    (s : Shape) :
  bullets_accepted bullets1 bullets2 = true ->
  well_formed_shape s = true ->
  returns (compare_matched_shapes bullets1 bullets2 s s) true.
Proof.
  intros Hbullets Hwf. unfold compare_matched_shapes.
  eapply (returns_bind _ _ 1).
  { case_bool_decide; [apply compare_picture_shape_refl|apply returns_ret]. }
  change (bool_decide (1 = 0)) with false. cbv beta iota.
  eapply (returns_bind _ _ 1).
  { unfold well_formed_shape in Hwf. case_bool_decide; [|apply returns_ret].
    destruct (table s) as [t|] eqn:Ht; [|discriminate].
    eapply compare_table_shape_refl; eauto. }
  change (bool_decide (1 = 0)) with false. cbv beta iota.
  eapply returns_bind; [apply compare_shape_geometry_refl|]. cbn [negb].
  destruct (text_frame s) as [tf|] eqn:Htf; [|apply returns_ret].
  eapply (returns_bind _ _ 1); [eapply compare_text_shape_refl; eauto|].
  apply returns_ret.
Qed.

(** A set holding exactly the indices below [n] has [n] elements. *)
Lemma size_index_range (used : gset Z) (n : nat) :
  (forall z, z ∈ used <-> 0 <= z < Z.of_nat n) -> size used = n.
Proof.
  intros Hused.
  assert (Heq : used = list_to_set (Z.of_nat <$> seq 0 n)).
  { apply set_eq. intros z. rewrite Hused, elem_of_list_to_set, list_elem_of_fmap.
    split.
    - intros Hz. exists (Z.to_nat z). split; [lia|]. apply elem_of_seq. lia.
    - intros (k & -> & Hk). apply elem_of_seq in Hk. lia. }
  rewrite Heq, size_list_to_set.
  - rewrite length_fmap, length_seq. reflexivity.
  - apply NoDup_fmap; [intros x y; lia|apply NoDup_seq].
Qed.

(** Matching a list of shapes against itself pairs every shape with
    itself. *)
Lemma match_shapes_self (bullets1 bullets2 : option (list bullet))
    (all_shapes : list Shape) :
  bullets_accepted bullets1 bullets2 = true ->
  forall (rest before : list Shape) (used : gset Z) (log : list string),
    all_shapes = (before ++ rest)%list ->
    (forall z, z ∈ used <-> 0 <= z < Z.of_nat (length before)) ->
    (forall s, s ∈ rest -> well_formed_shape s = true) ->
    exists used' log',
      match_shapes bullets1 bullets2 rest all_shapes used log
      = (Some (Some used'), log')
      /\ forall z, z ∈ used' <-> 0 <= z < Z.of_nat (length all_shapes).
Proof.
  intros Hbullets.
  induction rest as [|s rest IH]; intros before used log Hall Hused Hwf.
  - exists used, log. split; [reflexivity|].
    rewrite Hall, app_nil_r. exact Hused.
  - simpl.
    assert (Hlookup : all_shapes !! length before = Some s).
    { rewrite Hall. apply list_lookup_middle. reflexivity. }
    rewrite (find_matching_shape_self all_shapes (length before) s used Hlookup Hused).
    destruct (compare_matched_shapes_refl bullets1 bullets2 s Hbullets
                (Hwf s ltac:(left)) log) as [log1 Hcmp].
    unfold bind at 1. rewrite Hcmp.
    apply (IH (before ++ [s])%list).
    + rewrite <- app_assoc. exact Hall.
    + intros z. rewrite elem_of_union, elem_of_singleton, Hused, length_app. simpl. lia.
    + intros s' Hs'. apply Hwf. right. exact Hs'.
Qed.

Lemma compare_matched_text_shapes_refl (s : Shape) (tf : TextFrame) :
  text_frame s = Some tf -> returns (compare_matched_text_shapes s s) true.
Proof.
  intros Htf. unfold compare_matched_text_shapes. rewrite Htf.
  eapply returns_bind; [apply returns_lift; reflexivity|].
  eapply returns_bind; [apply returns_lift; reflexivity|].
  rewrite !bool_decide_refl. cbn [negb].
  apply returns_for_each. intros [p1 p2] Hin.
  apply elem_of_zip_same in Hin as ->. cbv zeta.
  rewrite bool_decide_refl. apply returns_ret.
Qed.

Lemma match_text_shapes_self (all_shapes : list Shape) :
  forall (rest before : list Shape) (used : gset Z),
    all_shapes = (before ++ rest)%list ->
    (forall z, z ∈ used <-> 0 <= z < Z.of_nat (length before)) ->
    (forall s, s ∈ rest -> exists tf, text_frame s = Some tf) ->
    returns (match_text_shapes rest all_shapes used) true.
Proof.
  induction rest as [|s rest IH]; intros before used Hall Hused Htf.
  - apply returns_ret.
  - simpl.
    assert (Hlookup : all_shapes !! length before = Some s).
    { rewrite Hall. apply list_lookup_middle. reflexivity. }
    rewrite (find_matching_shape_self all_shapes (length before) s used Hlookup Hused).
    destruct (Htf s ltac:(left)) as [tf Hs].
    eapply returns_bind; [eapply compare_matched_text_shapes_refl; exact Hs|].
    apply (IH (before ++ [s])%list).
    + rewrite <- app_assoc. exact Hall.
    + intros z. rewrite elem_of_union, elem_of_singleton, Hused, length_app. simpl. lia.
    + intros s' Hs'. apply Htf. right. exact Hs'.
Qed.

(** Induction over shapes and the children of their groups. *)
Lemma Shape_nested_ind (P : Shape -> Prop) :
  (forall ty x y w h tf img tbl ln children,
      Forall P children -> P (mkShape ty x y w h tf img tbl ln children)) ->
  forall s, P s.
Proof.
  intros Hstep.
  refine (fix IH (s : Shape) : P s :=
            match s with
            | mkShape ty x y w h tf img tbl ln children =>
                Hstep ty x y w h tf img tbl ln children
                  ((fix children_ok (l : list Shape) : Forall P l :=
                      match l with
                      | [] => @List.Forall_nil Shape P
                      | c :: l' => @List.Forall_cons Shape P c l' (IH c) (children_ok l')
                      end) children)
            end).
Qed.

Lemma extract_from_shape_text_frame (s x : Shape) :
  x ∈ _extract_from_shape s -> exists tf, text_frame x = Some tf.
Proof.
  revert x. induction s as [ty px py w h tf img tbl ln children IH] using Shape_nested_ind.
  intros x. simpl. rewrite elem_of_app. intros [Hself|Hchild].
  - destruct tf as [tf|]; [|inversion Hself].
    apply list_elem_of_singleton in Hself as ->. simpl. eauto.
  - case_bool_decide; [|inversion Hchild].
    apply list_elem_of_In, in_flat_map in Hchild as (c & Hc & Hx).
    rewrite Forall_forall in IH. apply (IH c); [apply list_elem_of_In; exact Hc|].
    apply list_elem_of_In. exact Hx.
Qed.

Lemma get_all_text_shapes_text_frame (slide : Slide) (x : Shape) :
  x ∈ get_all_text_shapes slide -> exists tf, text_frame x = Some tf.
Proof.
  unfold get_all_text_shapes. intros Hx.
  apply list_elem_of_In, in_flat_map in Hx as (s & _ & Hx).
  apply (extract_from_shape_text_frame s). apply list_elem_of_In. exact Hx.
Qed.

Lemma compare_slides_refl (slide : Slide) :
  well_formed_slide slide = true -> notes_read slide = true ->
  returns (compare_slides (slide, slide)) true.
Proof.
  unfold well_formed_slide, notes_read. intros Hwf Hnotes.
  destruct (get_slide_background_color slide) as [bg|] eqn:Hbg; [|discriminate].
  destruct (get_slide_notes slide) as [notes|] eqn:Hnotes1; [|discriminate].
  rewrite forallb_forall in Hwf.
  unfold compare_slides. rewrite Hbg, Hnotes1.
  eapply returns_bind; [apply returns_lift; reflexivity|].
  eapply returns_bind; [apply returns_lift; reflexivity|].
  rewrite bool_decide_refl. cbn [negb].
  eapply returns_bind; [apply returns_lift; reflexivity|].
  eapply returns_bind; [apply returns_lift; reflexivity|].
  cbv zeta. rewrite !bool_decide_refl. cbn [negb].
  intros log.
  destruct (match_shapes_self (part_bullets slide) (part_bullets slide)
              (slide_shapes slide) (bullets_accepted_refl _)
              (slide_shapes slide) [] ∅ log)
    as (used' & log1 & Hmatch & Hused').
  { reflexivity. }
  { intros z. rewrite elem_of_empty. simpl. lia. }
  { intros s Hs. apply Hwf, list_elem_of_In. exact Hs. }
  unfold bind at 1. rewrite Hmatch.
  rewrite (size_index_range used' _ Hused'), bool_decide_refl. cbn [negb].
  apply (match_text_shapes_self (get_all_text_shapes slide) _ []).
  - reflexivity.
  - intros z. rewrite elem_of_empty. simpl. lia.
  - intros s Hs. apply (get_all_text_shapes_text_frame slide). exact Hs.
Qed.

(** In the self-comparison the shape loop claims the indices in order. *)
Lemma claimed_indices_self (bullets1 bullets2 : option (list bullet))
    (all_shapes : list Shape) :
  bullets_accepted bullets1 bullets2 = true ->
  forall (rest before : list Shape) (used : gset Z) (log : list string),
    all_shapes = (before ++ rest)%list ->
    (forall z, z ∈ used <-> 0 <= z < Z.of_nat (length before)) ->
    (forall s, s ∈ rest -> well_formed_shape s = true) ->
    claimed_indices bullets1 bullets2 rest all_shapes used log
    = Z.of_nat <$> seq (length before) (length rest).
Proof.
  intros Hbullets.
  induction rest as [|s rest IH]; intros before used log Hall Hused Hwf.
  - reflexivity.
  - simpl.
    assert (Hlookup : all_shapes !! length before = Some s).
    { rewrite Hall. apply list_lookup_middle. reflexivity. }
    rewrite (find_matching_shape_self all_shapes (length before) s used Hlookup Hused).
    destruct (compare_matched_shapes_refl bullets1 bullets2 s Hbullets
                (Hwf s ltac:(left)) log) as [log1 Hcmp].
    rewrite Hcmp. f_equal.
    rewrite (IH (before ++ [s])%list).
    + rewrite length_app. simpl. rewrite Nat.add_1_r. reflexivity.
    + rewrite <- app_assoc. exact Hall.
    + intros z. rewrite elem_of_union, elem_of_singleton, Hused, length_app. simpl. lia.
    + intros s' Hs'. apply Hwf. right. exact Hs'.
Qed.

(** Comparing a presentation with itself returns 1 when every unguarded
    read of the evaluator succeeds on it: the slide counts agree, every
    tolerance and equality check passes on identical values, and on
    every slide the shape loop pairs each shape with itself, claiming
    the golden indices 0, 1, 2, ... in order. *)
Lemma compare_pptx_files_readable (prs : Presentation) (log : list string) :
  readable prs = true ->
  (compare_pptx_files prs prs log).1 = Some 1
  /\ forall slide log', slide ∈ prs ->
       claimed_indices (part_bullets slide) (part_bullets slide)
         (slide_shapes slide) (slide_shapes slide) ∅ log'
       = Z.of_nat <$> seq 0 (length (slide_shapes slide)).
Proof.
  unfold readable, well_formed. intros Hreadable.
  apply andb_true_iff in Hreadable as [Hwf Hnotes].
  rewrite forallb_forall in Hwf, Hnotes. split.
  - unfold compare_pptx_files. rewrite bool_decide_refl. cbn [negb].
    assert (Hloop : returns (for_each compare_slides (zip prs prs)) true).
    { apply returns_for_each. intros [s1 s2] Hin.
      pose proof (elem_of_zip_l _ _ _ _ Hin) as Hs1.
      apply elem_of_zip_same in Hin as ->.
      apply compare_slides_refl; [apply Hwf|apply Hnotes];
        apply list_elem_of_In; exact Hs1. }
    destruct (Hloop []) as [log' Hrun].
    unfold bind. rewrite Hrun. reflexivity.
  - intros slide log' Hin.
    specialize (Hwf slide ltac:(apply list_elem_of_In; exact Hin)).
    unfold well_formed_slide in Hwf.
    destruct (get_slide_background_color slide); [|discriminate].
    rewrite forallb_forall in Hwf.
    apply (claimed_indices_self _ _ (slide_shapes slide) (bullets_accepted_refl _)
             (slide_shapes slide) []).
    + reflexivity.
    + intros z. rewrite elem_of_empty. simpl. lia.
    + intros s Hs. apply Hwf, list_elem_of_In. exact Hs.
Qed.

(** C8. Self-comparison does not always match. On a valid presentation
    whose slide background is filled with a colour of the theme,
    [get_slide_background_color] raises: [compare_pptx_files] raises on
    the presentation compared with itself and [run_evaluator] reports
    the result 0 with the text of the exception. The same happens on a
    presentation whose notes slide has no notes placeholder, where
    [get_slide_notes] raises. *)
Theorem compare_pptx_files_self_raises :
  (compare_pptx_files OrderSamples.theme_background OrderSamples.theme_background []).1
  = None
  /\ ImpressSuite.run_evaluator (Some OrderSamples.theme_background)
       (Some OrderSamples.theme_background) []
     = ((0, ImpressSuite.exception_text), [])
  /\ (compare_pptx_files OrderSamples.notes_without_placeholder
        OrderSamples.notes_without_placeholder []).1 = None
  /\ ImpressSuite.run_evaluator (Some OrderSamples.notes_without_placeholder)
       (Some OrderSamples.notes_without_placeholder) []
     = ((0, ImpressSuite.exception_text), []).
Proof. repeat split; vm_compute; reflexivity. Qed.

Lemma claimed_indices_fresh (bullets1 bullets2 : option (list bullet))
    (test_shapes golden_shapes : list Shape) :
  forall (used : gset Z) (log : list string),
    NoDup (claimed_indices bullets1 bullets2 test_shapes golden_shapes used log)
    /\ forall idx,
         idx ∈ claimed_indices bullets1 bullets2 test_shapes golden_shapes used log ->
         idx ∉ used.
Proof.
  induction test_shapes as [|t rest IH]; intros used log; simpl.
  - split; [constructor|]. intros idx Hin. inversion Hin.
  - destruct (find_matching_shape t golden_shapes used) as [[g|] idx] eqn:Hfind.
    2:{ split; [constructor|]. intros i Hin. inversion Hin. }
    destruct (find_matching_shape_some _ _ _ _ _ Hfind) as (k & sc & _ & _ & Hfree & _).
    set (tail := match compare_matched_shapes bullets1 bullets2 t g log with
                 | (Some true, log') =>
                     claimed_indices bullets1 bullets2 rest golden_shapes
                       ({[idx]} ∪ used) log'
                 | _ => []
                 end).
    assert (Htail : NoDup tail /\ forall i, i ∈ tail -> i ∉ {[idx]} ∪ used).
    { unfold tail.
      destruct (compare_matched_shapes bullets1 bullets2 t g log) as [[[|]|] log'];
        try (split; [constructor|intros i Hin; inversion Hin]).
      apply IH. }
    destruct Htail as [Hnodup Hnew]. split.
    + constructor; [|exact Hnodup].
      intros Hin. apply (Hnew idx Hin), elem_of_union_l, elem_of_singleton.
      reflexivity.
    + intros i Hin. apply elem_of_cons in Hin as [->|Hin]; [exact Hfree|].
      intros Hu. apply (Hnew i Hin), elem_of_union_r, Hu.
Qed.

Lemma match_shapes_claimed (bullets1 bullets2 : option (list bullet))
    (test_shapes golden_shapes : list Shape) :
  forall (used : gset Z) (log : list string) (used' : gset Z) (log' : list string),
    match_shapes bullets1 bullets2 test_shapes golden_shapes used log
    = (Some (Some used'), log') ->
    used' = used ∪ list_to_set (claimed_indices bullets1 bullets2 test_shapes
                                  golden_shapes used log)
    /\ length (claimed_indices bullets1 bullets2 test_shapes golden_shapes used log)
       = length test_shapes.
Proof.
  induction test_shapes as [|t rest IH]; intros used log used' log'; simpl.
  - intros [= <- <-]. split; [|reflexivity].
    symmetry. apply (right_id_L ∅ (∪)).
  - destruct (find_matching_shape t golden_shapes used) as [[g|] idx] eqn:Hfind.
    2:{ intros H. discriminate H. }
    unfold bind at 1.
    destruct (compare_matched_shapes bullets1 bullets2 t g log) as [[[|]|] log1];
      try discriminate.
    intros Hrest. destruct (IH _ _ _ _ Hrest) as [Hset Hlen].
    split; [|simpl; rewrite Hlen; reflexivity].
    rewrite Hset. apply set_eq. intros z.
    rewrite list_to_set_cons, !elem_of_union. tauto.
Qed.

(** C10. A returned index is never in the used set (and is the index of
    the returned shape); hence the golden indices claimed by the
    successive test shapes in the shape loop are pairwise distinct and
    new, and a loop that runs to its end has claimed one index per test
    shape. *)
Theorem matcher_respects_used_indices :
  (forall target_shape cands (used : gset Z) s idx,
      find_matching_shape target_shape cands used = (Some s, idx) ->
      (idx ∉ used) /\ 0 <= idx /\ cands !! Z.to_nat idx = Some s)
  /\ (forall bullets1 bullets2 test_shapes golden_shapes (used : gset Z) log,
        NoDup (claimed_indices bullets1 bullets2 test_shapes golden_shapes used log)
        /\ forall idx,
             idx ∈ claimed_indices bullets1 bullets2 test_shapes golden_shapes used log ->
             idx ∉ used)
  /\ (forall bullets1 bullets2 test_shapes golden_shapes (used used' : gset Z) log log',
        match_shapes bullets1 bullets2 test_shapes golden_shapes used log
        = (Some (Some used'), log') ->
        used' = used ∪ list_to_set (claimed_indices bullets1 bullets2 test_shapes
                                      golden_shapes used log)
        /\ size used' = (size used + length test_shapes)%nat).
Proof.
  split; [|split].
  - intros target_shape cands used s idx Hfind.
    destruct (find_matching_shape_some _ _ _ _ _ Hfind) as (k & sc & -> & Hk & Hfree & _).
    split; [exact Hfree|]. split; [lia|]. rewrite Nat2Z.id. exact Hk.
  - intros. apply claimed_indices_fresh.
  - intros bullets1 bullets2 test_shapes golden_shapes used used' log log' Hrun.
    destruct (match_shapes_claimed _ _ _ _ _ _ _ _ Hrun) as [Hset Hlen].
    destruct (claimed_indices_fresh bullets1 bullets2 test_shapes golden_shapes used log)
      as [Hnodup Hnew].
    split; [exact Hset|].
    rewrite Hset, size_union, size_list_to_set, Hlen; [reflexivity|exact Hnodup|].
    apply elem_of_disjoint. intros z Hz Hin.
    apply elem_of_list_to_set in Hin. exact (Hnew z Hin Hz).
Qed.

Lemma matcher_respects_used_indices_witness :
  ((1 ∉ ({[0]} : gset Z)) /\ 0 <= 1
   /\ slide_shapes ImpressSamples.slide_1 !! Z.to_nat 1
      = Some (ImpressSamples.picture "9e107d9d372bb6826bd81d3542a419d6" 500000 1200000))
  /\ exists used' : gset Z,
       used' = ∅ ∪ list_to_set
                     (claimed_indices (part_bullets ImpressSamples.slide_1)
                        (part_bullets ImpressSamples.slide_1)
                        (slide_shapes ImpressSamples.slide_1)
                        (slide_shapes ImpressSamples.slide_1) ∅ [])
       /\ size used'
          = (size (∅ : gset Z) + length (slide_shapes ImpressSamples.slide_1))%nat.
Proof.
  split.
  - apply (proj1 matcher_respects_used_indices
             (ImpressSamples.picture "9e107d9d372bb6826bd81d3542a419d6" 500000 1200000)
             (slide_shapes ImpressSamples.slide_1) {[0]}).
    vm_compute. reflexivity.
  - eexists.
    eapply (proj2 (proj2 matcher_respects_used_indices)
              (part_bullets ImpressSamples.slide_1)
              (part_bullets ImpressSamples.slide_1)
              (slide_shapes ImpressSamples.slide_1)
              (slide_shapes ImpressSamples.slide_1) ∅ _ [] _).
    vm_compute. reflexivity.
Defined.

Lemma bind_returns_inv {A B} (m : M A) (k : A -> M B) (log : list string) (b : B) :
  (bind m k log).1 = Some b ->
  exists a log1, m log = (Some a, log1) /\ (k a log1).1 = Some b.
Proof.
  unfold bind. destruct (m log) as [[a|] log1]; [eauto|discriminate].
Qed.

Lemma or_else_false (a b : option bool) :
  or_else a b = Some false -> a = Some false /\ b = Some false.
Proof. destruct a as [[|]|]; simpl; [discriminate|auto|discriminate]. Qed.

Lemma compare_shape_geometry_true (shape1 shape2 : Shape) (log : list string) :
  (compare_shape_geometry shape1 shape2 log).1 = Some true ->
  is_approximately_equal (shape_left shape1) (shape_left shape2) float_0_005 = Some true
  /\ is_approximately_equal (shape_top shape1) (shape_top shape2) float_0_005 = Some true.
Proof.
  unfold compare_shape_geometry. intros Hres.
  apply bind_returns_inv in Hres as (differs & log1 & Hlift & Hres).
  destruct differs; [discriminate Hres|].
  unfold lift in Hlift.
  destruct (or_else _ _) as [[|]|] eqn:Hor; try discriminate Hlift.
  apply or_else_false in Hor as [Hpos _].
  unfold either_differs in Hpos. apply or_else_false in Hpos as [Hl Ht].
  destruct (is_approximately_equal (shape_left shape1) _ _) as [[|]|];
    destruct (is_approximately_equal (shape_top shape1) _ _) as [[|]|];
    try discriminate; auto.
Qed.

(** C6 (as amended). For table shapes the position check is absolute,
    with the threshold 2000 and no percentage fallback: a drift of more
    than 2000 units in left or top makes [compare_table_shape] return 0
    with a position mismatch, whatever the magnitudes, and makes the
    comparison of a matched pair of tables fail; a drift within 2000
    units counts as no drift, the result being the one for the table at
    the golden place. temp.py makes the same check. The policy is
    neither tighter nor looser than the hybrid tolerance of the generic
    geometry: the geometry comparison accepts pairs that the table check
    rejects, the table check accepts pairs that the geometry comparison
    rejects, and a matched pair of tables has to pass both. *)
Theorem table_position_tolerance :
  (forall shape1 shape2 log,
      2000 < Z.abs (shape_left shape1 - shape_left shape2)
      \/ 2000 < Z.abs (shape_top shape1 - shape_top shape2) ->
      compare_table_shape shape1 shape2 log
      = (Some 0, (log ++ ["(TABLE): Position mismatch"])%list)
      /\ (forall bullets1 bullets2,
            shape_type shape1 = TABLE ->
            (compare_matched_shapes bullets1 bullets2 shape1 shape2 log).1
            = Some false))
  /\ (forall shape1 shape2 log,
        Z.abs (shape_left shape1 - shape_left shape2) <= 2000 ->
        Z.abs (shape_top shape1 - shape_top shape2) <= 2000 ->
        compare_table_shape shape1 shape2 log
        = compare_table_shape (moved_onto shape2 shape1) shape2 log)
  /\ (forall opts shape1 shape2,
        (2000 < Z.abs (shape_left shape1 - shape_left shape2)
         \/ 2000 < Z.abs (shape_top shape1 - shape_top shape2) ->
         Temp.validate_table opts shape1 shape2 = Some false)
        /\ (Z.abs (shape_left shape1 - shape_left shape2) <= 2000 ->
            Z.abs (shape_top shape1 - shape_top shape2) <= 2000 ->
            Temp.validate_table opts shape1 shape2
            = Temp.validate_table opts (moved_onto shape2 shape1) shape2))
  /\ (forall bullets1 bullets2 shape1 shape2 log,
        shape_type shape1 = TABLE ->
        (compare_matched_shapes bullets1 bullets2 shape1 shape2 log).1 = Some true ->
        Z.abs (shape_left shape1 - shape_left shape2) <= 2000
        /\ Z.abs (shape_top shape1 - shape_top shape2) <= 2000
        /\ is_approximately_equal (shape_left shape1) (shape_left shape2)
             float_0_005 = Some true
        /\ is_approximately_equal (shape_top shape1) (shape_top shape2)
             float_0_005 = Some true)
  /\ (exists shape1 shape2,
        (compare_shape_geometry shape1 shape2 []).1 = Some true
        /\ (compare_table_shape shape1 shape2 []).1 = Some 0)
  /\ (exists shape1 shape2,
        (compare_table_shape shape1 shape2 []).1 = Some 1
        /\ (compare_shape_geometry shape1 shape2 []).1 = Some false).
Proof.
  assert (Hcheck : forall shape1 shape2,
             2000 < Z.abs (shape_left shape1 - shape_left shape2)
             \/ 2000 < Z.abs (shape_top shape1 - shape_top shape2) ->
             (2000 <? Z.abs (shape_left shape1 - shape_left shape2))
             || (2000 <? Z.abs (shape_top shape1 - shape_top shape2)) = true).
  { intros shape1 shape2 Hdrift. apply orb_true_iff.
    destruct Hdrift as [H|H]; [left|right]; apply Z.ltb_lt; exact H. }
  assert (Hwithin : forall shape1 shape2,
             Z.abs (shape_left shape1 - shape_left shape2) <= 2000 ->
             Z.abs (shape_top shape1 - shape_top shape2) <= 2000 ->
             (2000 <? Z.abs (shape_left shape1 - shape_left shape2))
             || (2000 <? Z.abs (shape_top shape1 - shape_top shape2)) = false).
  { intros shape1 shape2 Hleft Htop. apply orb_false_iff.
    split; apply Z.ltb_ge; assumption. }
  assert (Hdrift : forall shape1 shape2 log,
             2000 < Z.abs (shape_left shape1 - shape_left shape2)
             \/ 2000 < Z.abs (shape_top shape1 - shape_top shape2) ->
             compare_table_shape shape1 shape2 log
             = (Some 0, (log ++ ["(TABLE): Position mismatch"])%list)
             /\ (forall bullets1 bullets2,
                   shape_type shape1 = TABLE ->
                   (compare_matched_shapes bullets1 bullets2 shape1 shape2 log).1
                   = Some false)).
  { intros shape1 shape2 log Hbeyond.
    assert (Htable : compare_table_shape shape1 shape2 log
                     = (Some 0, (log ++ ["(TABLE): Position mismatch"])%list)).
    { unfold compare_table_shape, POSITION_TOLERANCE_EMU.
      rewrite (Hcheck _ _ Hbeyond). reflexivity. }
    split; [exact Htable|].
    intros bullets1 bullets2 Hty. unfold compare_matched_shapes.
    rewrite Hty. change (bool_decide (TABLE = PICTURE)) with false.
    rewrite bool_decide_refl. unfold bind at 1. cbn [ret].
    change (bool_decide (1 = 0)) with false. cbv beta iota.
    unfold bind at 1. rewrite Htable. reflexivity. }
  split; [exact Hdrift|]. split; [|split; [|split; [|split]]].
  - intros shape1 shape2 log Hleft Htop.
    unfold compare_table_shape, POSITION_TOLERANCE_EMU.
    rewrite (Hwithin _ _ Hleft Htop). cbn [moved_onto shape_left shape_top
      shape_width shape_height table]. rewrite !Z.sub_diag. reflexivity.
  - intros opts shape1 shape2. split.
    + intros Hbeyond. unfold Temp.validate_table, Temp.POSITION_TOLERANCE_EMU.
      cbv zeta. rewrite (Hcheck _ _ Hbeyond). reflexivity.
    + intros Hleft Htop. unfold Temp.validate_table, Temp.POSITION_TOLERANCE_EMU.
      cbv zeta. rewrite (Hwithin _ _ Hleft Htop).
      cbn [moved_onto shape_left shape_top shape_width shape_height].
      rewrite !Z.sub_diag. reflexivity.
  - intros bullets1 bullets2 shape1 shape2 log Hty Hres.
    assert (Hpos : Z.abs (shape_left shape1 - shape_left shape2) <= 2000
                   /\ Z.abs (shape_top shape1 - shape_top shape2) <= 2000).
    { destruct (Z_lt_le_dec 2000 (Z.abs (shape_left shape1 - shape_left shape2)))
        as [Hl|Hl].
      { destruct (Hdrift shape1 shape2 log (or_introl Hl)) as [_ Hfail].
        rewrite (Hfail bullets1 bullets2 Hty) in Hres. discriminate Hres. }
      destruct (Z_lt_le_dec 2000 (Z.abs (shape_top shape1 - shape_top shape2)))
        as [Ht|Ht].
      { destruct (Hdrift shape1 shape2 log (or_intror Ht)) as [_ Hfail].
        rewrite (Hfail bullets1 bullets2 Hty) in Hres. discriminate Hres. }
      split; assumption. }
    destruct Hpos as [Hl Ht]. split; [exact Hl|]. split; [exact Ht|].
    unfold compare_matched_shapes in Hres.
    apply bind_returns_inv in Hres as (r1 & log1 & _ & Hres).
    destruct (bool_decide (r1 = 0)); [discriminate Hres|].
    apply bind_returns_inv in Hres as (r2 & log2 & _ & Hres).
    destruct (bool_decide (r2 = 0)); [discriminate Hres|].
    apply bind_returns_inv in Hres as (same_geometry & log3 & Hgeo & Hres).
    destruct same_geometry; [|discriminate Hres].
    apply (compare_shape_geometry_true shape1 shape2 log2).
    rewrite Hgeo. reflexivity.
  - exists (ImpressSamples.table_shape 10000000 0), (ImpressSamples.table_shape 10003000 0).
    split; vm_compute; reflexivity.
  - exists (ImpressSamples.table_shape 100000 0), (ImpressSamples.table_shape 101500 0).
    split; vm_compute; reflexivity.
Qed.

Lemma table_position_tolerance_witness :
  (compare_table_shape (ImpressSamples.table_shape 10000000 0)
     (ImpressSamples.table_shape 10003000 0) []
   = (Some 0, ["(TABLE): Position mismatch"])
   /\ (compare_matched_shapes None None (ImpressSamples.table_shape 10000000 0)
         (ImpressSamples.table_shape 10003000 0) []).1 = Some false)
  /\ compare_table_shape (ImpressSamples.table_shape 10000000 0)
       (ImpressSamples.table_shape 10002000 0) []
     = compare_table_shape (ImpressSamples.table_shape 10002000 0)
         (ImpressSamples.table_shape 10002000 0) [].
Proof.
  split.
  - destruct (proj1 table_position_tolerance
                (ImpressSamples.table_shape 10000000 0)
                (ImpressSamples.table_shape 10003000 0) []) as [H1 H2].
    + left. simpl. lia.
    + split; [exact H1|]. apply H2. reflexivity.
  - apply (proj1 (proj2 table_position_tolerance)
             (ImpressSamples.table_shape 10000000 0)
             (ImpressSamples.table_shape 10002000 0) []); simpl; lia.
Defined.

(** The table check is not tighter than the generic geometry comparison:
    a table at left 100000 against a golden table at left 101500 passes
    [compare_table_shape], the drift of 1500 units being within 2000, and
    fails [compare_shape_geometry], the drift being above 1000 units and
    above 0.5 percent. *)
Lemma table_position_tolerance_counterexample :
  (compare_table_shape (ImpressSamples.table_shape 100000 0)
     (ImpressSamples.table_shape 101500 0) []).1 = Some 1
  /\ (compare_shape_geometry (ImpressSamples.table_shape 100000 0)
        (ImpressSamples.table_shape 101500 0) []).1 = Some false.
Proof. split; vm_compute; reflexivity. Qed.

End ComparatorFacts.

(** ** The run comparison for word documents *)
Module WriterFacts.
Import Py Writer BasicFacts.







Lemma compare_segments_refl (l : list run) :
  compare_segments (zip l l) = (true, None, None).
Proof.
  induction l as [|r l IH]; simpl; [reflexivity|].
  rewrite !bool_decide_refl. simpl. exact IH.
Qed.

(** Two adjacent runs with the same formatting merge into the segment a
    single run with the concatenated text gives. *)
Lemma merge_split_run (t1 t2 : string) (b i u : option bool)
    (fs fn : option string) :
  merge_consecutive_runs [Build_run t1 b i u fs fn; Build_run t2 b i u fs fn]
  = merge_consecutive_runs [Build_run (String.append t1 t2) b i u fs fn].
Proof.
  unfold merge_consecutive_runs, merge_from. cbv zeta.
  rewrite !bool_decide_refl. reflexivity.
Qed.

(** C4. A paragraph saved as two adjacent runs with the same formatting
    and its counterpart saved as one run merge into the same segments and
    compare as a match; for the golden runs "Hello " and "World" (bold)
    and the candidate run "Hello World" (bold) both sides reduce to the
    single bold segment "Hello World". *)
Theorem merge_then_compare_split_run (t1 t2 : string) (b i u : option bool)
    (fs fn : option string) (para_index : Z) :
  compare_runs_semantic [Build_run (String.append t1 t2) b i u fs fn]
    [Build_run t1 b i u fs fn; Build_run t2 b i u fs fn] para_index
  = (true, None, None)
  /\ merge_consecutive_runs [WriterSamples.segment "Hello " true;
                             WriterSamples.segment "World" true]
     = [WriterSamples.segment "Hello World" true]
  /\ merge_consecutive_runs [WriterSamples.segment "Hello World" true]
     = [WriterSamples.segment "Hello World" true]
  /\ compare_runs_semantic [WriterSamples.segment "Hello World" true]
       [WriterSamples.segment "Hello " true; WriterSamples.segment "World" true] 0
     = (true, None, None).
Proof.
  split; [|repeat split].
  unfold compare_runs_semantic. cbv zeta. rewrite merge_split_run.
  rewrite bool_decide_refl. cbn [negb]. apply compare_segments_refl.
Qed.




End WriterFacts.

Module DecideFacts.

Lemma bool_decide_eq_sym {A} `{EqDecision A} (x y : A) :
  bool_decide (x = y) = bool_decide (y = x).
Proof. apply bool_decide_ext. split; congruence. Qed.

End DecideFacts.

Module TextFacts.
Import Py PyText Impress Writer WriterScript BasicFacts WriterFacts ImpressNotions.

Lemma append_cons (x : ascii) (a b : string) :
  String.append (String x a) b = String x (String.append a b).
Proof. reflexivity. Qed.

Lemma append_assoc (a b c : string) :
  String.append (String.append a b) c = String.append a (String.append b c).
Proof.
  induction a as [|x a IH]; [reflexivity|]. rewrite !append_cons, IH. reflexivity.
Qed.

Lemma append_empty_r (a : string) : String.append a EmptyString = a.
Proof.
  induction a as [|x a IH]; [reflexivity|]. rewrite append_cons, IH. reflexivity.
Qed.

Lemma rstrip_cons_visible (c : ascii) (s : string) :
  isspace c = false -> rstrip (String c s) = String c (rstrip s).
Proof. intros Hc. simpl. rewrite Hc. destruct (rstrip s); reflexivity. Qed.

Lemma rstrip_cons_space (c : ascii) (s : string) :
  isspace c = true ->
  rstrip (String c s) = if truthy (rstrip s) then String c (rstrip s) else EmptyString.
Proof. intros Hc. simpl. rewrite Hc. destruct (rstrip s); reflexivity. Qed.

Lemma isspace_space : isspace " " = true.
Proof. reflexivity. Qed.

Lemma lstrip_collapse_true (s : string) :
  lstrip (collapse_whitespace true s) = collapse_whitespace true s.
Proof.
  induction s as [|c s IH]; [reflexivity|]. simpl.
  destruct (isspace c) eqn:Hc; [exact IH|]. simpl. rewrite Hc. reflexivity.
Qed.

Lemma lstrip_collapse_false (s : string) :
  lstrip (collapse_whitespace false s) = collapse_whitespace true s.
Proof.
  destruct s as [|c s]; [reflexivity|]. simpl.
  destruct (isspace c) eqn:Hc; simpl; [apply lstrip_collapse_true|].
  rewrite Hc. reflexivity.
Qed.

Lemma split_from_words (s : string) :
  forall word, Forall (fun w => truthy w = true) (split_from word s).
Proof.
  induction s as [|c s IH]; intros word; simpl.
  - destruct (truthy word) eqn:Hw; [|constructor]. constructor; [exact Hw|constructor].
  - destruct (isspace c); [|apply IH].
    destruct (truthy word) eqn:Hw; [|apply IH]. constructor; [exact Hw|apply IH].
Qed.

Lemma join_words_truthy (l : list string) :
  Forall (fun w => truthy w = true) l ->
  truthy (join " " l) = match l with [] => false | _ => true end.
Proof.
  destruct l as [|w l]; [reflexivity|]. intros Hl.
  apply Forall_cons in Hl as [Hw _]. unfold join. simpl.
  destruct w as [|x w]; [discriminate|]. destruct l; reflexivity.
Qed.

Lemma join_cons (w : string) (l : list string) :
  join " " (w :: l)
  = match l with
    | [] => w
    | _ => String.append w (String " " (join " " l))
    end.
Proof. destruct l; reflexivity. Qed.

Lemma truthy_snoc (word : string) (c : ascii) :
  truthy (String.append word (String c EmptyString)) = true.
Proof. destruct word; reflexivity. Qed.

Lemma split_from_join (s : string) :
  forall word,
    join " " (split_from word s)
    = if truthy word
      then String.append word (rstrip (collapse_whitespace false s))
      else rstrip (collapse_whitespace true s).
Proof.
  induction s as [|c s IH]; intros word.
  - simpl. destruct (truthy word) eqn:Hw; [|reflexivity].
    unfold join. simpl. rewrite append_empty_r. reflexivity.
  - cbn [split_from collapse_whitespace]. destruct (isspace c) eqn:Hc.
    + destruct (truthy word) eqn:Hw.
      * rewrite join_cons. pose proof (IH EmptyString) as IH0. cbn [truthy] in IH0.
        pose proof (join_words_truthy _ (split_from_words s EmptyString)) as Ht.
        rewrite IH0 in Ht. rewrite (rstrip_cons_space " " _ isspace_space), Ht.
        destruct (split_from EmptyString s) eqn:Hl.
        -- rewrite append_empty_r. reflexivity.
        -- rewrite <- IH0. reflexivity.
      * apply (IH EmptyString).
    + rewrite IH, truthy_snoc, (rstrip_cons_visible c _ Hc).
      destruct (truthy word) eqn:Hw.
      * rewrite append_assoc. reflexivity.
      * destruct word; [reflexivity|discriminate].
Qed.

(** X23. The paragraph text normalisation of the word-document script,
    [' '.join(text.split())], and the cell text normalisation of the
    presentation evaluator, [re.sub(r'\s+', ' ', text).strip()], are the
    same function: both replace every run of whitespace by one space and
    drop the whitespace at both ends. *)
Theorem text_normalized_normalize_cell_text (text : string) :
  text_normalized text = normalize_cell_text text.
Proof.
  unfold text_normalized, normalize_cell_text, split, strip.
  rewrite split_from_join, lstrip_collapse_false. reflexivity.
Qed.

Lemma collapse_single_spaced (s : string) :
  forall in_ws, single_spaced in_ws (collapse_whitespace in_ws s) = true.
Proof.
  induction s as [|c s IH]; intros in_ws; [reflexivity|]. simpl.
  destruct (isspace c) eqn:Hc.
  - destruct in_ws; [apply IH|]. simpl. apply IH.
  - simpl. rewrite Hc. apply IH.
Qed.

Lemma single_spaced_collapse (s : string) :
  forall in_ws,
    single_spaced in_ws s = true -> collapse_whitespace in_ws s = s.
Proof.
  induction s as [|c s IH]; intros in_ws H; [reflexivity|]. simpl in *.
  destruct (isspace c) eqn:Hc.
  - apply andb_true_iff in H as [H Hs]. apply andb_true_iff in H as [Heq Hws].
    apply bool_decide_eq_true in Heq. apply negb_true_iff in Hws. subst.
    rewrite (IH true Hs). reflexivity.
  - rewrite (IH false H). reflexivity.
Qed.

Lemma rstrip_single_spaced (s : string) :
  forall after_space,
    single_spaced after_space s = true ->
    single_spaced after_space (rstrip s) = true.
Proof.
  induction s as [|c s IH]; intros after_space H; [reflexivity|].
  cbn [single_spaced] in H. destruct (isspace c) eqn:Hc.
  - rewrite (rstrip_cons_space c s Hc).
    destruct (truthy (rstrip s)); [|reflexivity].
    cbn [single_spaced]. rewrite Hc.
    apply andb_true_iff in H as [H Hs]. rewrite H. apply (IH true Hs).
  - rewrite (rstrip_cons_visible c s Hc). cbn [single_spaced]. rewrite Hc.
    apply (IH false H).
Qed.

Lemma rstrip_idempotent (s : string) : rstrip (rstrip s) = rstrip s.
Proof.
  induction s as [|c s IH]; [reflexivity|].
  destruct (isspace c) eqn:Hc.
  - rewrite (rstrip_cons_space c s Hc).
    destruct (truthy (rstrip s)) eqn:Ht; [|reflexivity].
    rewrite (rstrip_cons_space c _ Hc), IH, Ht. reflexivity.
  - rewrite (rstrip_cons_visible c s Hc), (rstrip_cons_visible c _ Hc), IH.
    reflexivity.
Qed.

Lemma lstrip_visible (s : string) :
  match s with
  | EmptyString => True
  | String c _ => isspace c = false
  end ->
  lstrip s = s.
Proof. destruct s as [|c s]; [reflexivity|]. simpl. intros ->. reflexivity. Qed.

Lemma lstrip_head (s : string) :
  match lstrip s with
  | EmptyString => True
  | String c _ => isspace c = false
  end.
Proof.
  induction s as [|c s IH]; [exact I|]. simpl.
  destruct (isspace c) eqn:Hc; [exact IH|exact Hc].
Qed.

Lemma rstrip_head (s : string) :
  match s with
  | EmptyString => True
  | String c _ => isspace c = false
  end ->
  match rstrip s with
  | EmptyString => True
  | String c _ => isspace c = false
  end.
Proof.
  destruct s as [|c s]; [intros _; exact I|]. intros Hc.
  rewrite (rstrip_cons_visible c s Hc). exact Hc.
Qed.

Lemma strip_idempotent (s : string) : strip (strip s) = strip s.
Proof.
  unfold strip.
  rewrite (lstrip_visible (rstrip (lstrip s)) (rstrip_head _ (lstrip_head s))).
  apply rstrip_idempotent.
Qed.

(** X13. [normalize_cell_text] is idempotent, and its result is in
    canonical form: every whitespace character left is a single space
    between two visible characters, and there is none at either end. *)
Theorem normalize_cell_text_idempotent (text : string) :
  normalize_cell_text (normalize_cell_text text) = normalize_cell_text text
  /\ single_spaced true (normalize_cell_text text) = true
  /\ strip (normalize_cell_text text) = normalize_cell_text text.
Proof.
  assert (Hform : normalize_cell_text text
                  = rstrip (collapse_whitespace true text)).
  { unfold normalize_cell_text, strip. rewrite lstrip_collapse_false. reflexivity. }
  assert (Hs : single_spaced true (normalize_cell_text text) = true).
  { rewrite Hform. apply rstrip_single_spaced, collapse_single_spaced. }
  split; [|split; [exact Hs|apply strip_idempotent]].
  unfold normalize_cell_text at 1. unfold strip.
  rewrite lstrip_collapse_false, (single_spaced_collapse _ true Hs), Hform.
  apply rstrip_idempotent.
Qed.

(** X19. When [normalize_font_name] returns a name, the name is not empty
    and has no whitespace at either end: a font name is never normalized
    to the empty string, [None] is returned instead. *)
Theorem normalize_font_name_canonical (font : option string) (name : string)
    (Hname : normalize_font_name font = Some name) :
  truthy name = true /\ strip name = name.
Proof.
  unfold normalize_font_name in Hname.
  destruct font as [font|]; [|discriminate].
  destruct (negb (truthy font)); [discriminate|]. cbv zeta in Hname.
  destruct (truthy (strip _)) eqn:Ht in Hname; [|discriminate].
  injection Hname as <-. split; [exact Ht|apply strip_idempotent].
Qed.

Lemma normalize_font_name_canonical_witness :
  truthy "Calibri" = true /\ strip "Calibri" = "Calibri".
Proof.
  apply (normalize_font_name_canonical (Some "Calibri (Body)") "Calibri").
  vm_compute. reflexivity.
Defined.

End TextFacts.
Module MergeFacts.
Import Py Writer BasicFacts WriterNotions TextFacts.

Lemma formatting_test (current next : run) :
  bool_decide (norm_bold (normalize_formatting current) = norm_bold (normalize_formatting next))
  && bool_decide (norm_italic (normalize_formatting current) = norm_italic (normalize_formatting next))
  && bool_decide (norm_underline (normalize_formatting current) = norm_underline (normalize_formatting next))
  && bool_decide (norm_font_size (normalize_formatting current) = norm_font_size (normalize_formatting next))
  && bool_decide (norm_font_name (normalize_formatting current) = norm_font_name (normalize_formatting next))
  = bool_decide (normalize_formatting current = normalize_formatting next).
Proof.
  destruct (normalize_formatting current) as [b1 i1 u1 s1 n1].
  destruct (normalize_formatting next) as [b2 i2 u2 s2 n2]. simpl.
  destruct (decide (b1 = b2)) as [->|Hb];
    [rewrite bool_decide_refl|
     rewrite (bool_decide_eq_false_2 (b1 = b2)) by exact Hb; simpl;
     rewrite bool_decide_eq_false_2; [reflexivity|congruence]].
  destruct (decide (i1 = i2)) as [->|Hi];
    [rewrite bool_decide_refl|
     rewrite (bool_decide_eq_false_2 (i1 = i2)) by exact Hi; simpl;
     rewrite bool_decide_eq_false_2; [reflexivity|congruence]].
  destruct (decide (u1 = u2)) as [->|Hu];
    [rewrite bool_decide_refl|
     rewrite (bool_decide_eq_false_2 (u1 = u2)) by exact Hu; simpl;
     rewrite bool_decide_eq_false_2; [reflexivity|congruence]].
  destruct (decide (s1 = s2)) as [->|Hs];
    [rewrite bool_decide_refl|
     rewrite (bool_decide_eq_false_2 (s1 = s2)) by exact Hs; simpl;
     rewrite bool_decide_eq_false_2; [reflexivity|congruence]].
  destruct (decide (n1 = n2)) as [->|Hn];
    [rewrite !bool_decide_refl; reflexivity|
     rewrite (bool_decide_eq_false_2 (n1 = n2)) by exact Hn; simpl;
     rewrite bool_decide_eq_false_2; [reflexivity|congruence]].
Qed.

Lemma merge_from_nil (current : run) : merge_from [] current [] = pending current.
Proof. reflexivity. Qed.

Lemma merge_from_prefix (rest : list run) :
  forall merged current,
    merge_from merged current rest = (merged ++ merge_from [] current rest)%list.
Proof.
  induction rest as [|next rest IH]; intros merged current.
  - simpl. destruct (truthy (text current)); [reflexivity|]. rewrite app_nil_r. reflexivity.
  - cbn [merge_from]. rewrite formatting_test.
    destruct (bool_decide (normalize_formatting current = normalize_formatting next)).
    + apply IH.
    + rewrite (IH (if truthy (text current) then (merged ++ [current])%list else merged)).
      rewrite (IH (if truthy (text current) then [current] else [])).
      destruct (truthy (text current)); simpl; [rewrite <- app_assoc|]; reflexivity.
Qed.

Lemma merge_from_cons (current next : run) (rest : list run) :
  merge_from [] current (next :: rest)
  = if same_formatting current next
    then merge_from [] (set_text current (String.append (text current) (text next))) rest
    else (pending current ++ merge_from [] next rest)%list.
Proof.
  unfold same_formatting, pending. cbn [merge_from]. rewrite formatting_test.
  destruct (bool_decide _); [reflexivity|].
  rewrite merge_from_prefix. reflexivity.
Qed.

Lemma normalize_formatting_set_text (current : run) (value : string) :
  normalize_formatting (set_text current value) = normalize_formatting current.
Proof. reflexivity. Qed.

Lemma concat_empty_cons (x : string) (l : list string) :
  join EmptyString (x :: l) = String.append x (join EmptyString l).
Proof.
  unfold join. destruct l as [|y l]; simpl; [|reflexivity].
  rewrite append_empty_r. reflexivity.
Qed.

Lemma concat_empty_app (l1 l2 : list string) :
  join EmptyString (l1 ++ l2)
  = String.append (join EmptyString l1) (join EmptyString l2).
Proof.
  induction l1 as [|x l1 IH]; [reflexivity|].
  rewrite <- app_comm_cons, !concat_empty_cons, IH, append_assoc. reflexivity.
Qed.

Lemma pending_text (current : run) :
  join EmptyString (map text (pending current)) = text current.
Proof.
  unfold pending. destruct (text current) eqn:Ht; simpl; [reflexivity|].
  rewrite Ht. reflexivity.
Qed.

Lemma merge_from_text (rest : list run) :
  forall current,
    join EmptyString (map text (merge_from [] current rest))
    = String.append (text current) (join EmptyString (map text rest)).
Proof.
  induction rest as [|next rest IH]; intros current.
  - rewrite merge_from_nil, pending_text. simpl. rewrite append_empty_r. reflexivity.
  - rewrite merge_from_cons. destruct (same_formatting current next).
    + rewrite IH. simpl text. rewrite append_assoc.
      change (map text (next :: rest)) with (text next :: map text rest).
      rewrite concat_empty_cons. reflexivity.
    + rewrite map_app, concat_empty_app, pending_text, IH.
      change (map text (next :: rest)) with (text next :: map text rest).
      rewrite concat_empty_cons. reflexivity.
Qed.

(** X14. Merging keeps the text: the concatenation of the texts of the
    merged segments is the concatenation of the texts of the runs. *)
Theorem merge_consecutive_runs_keeps_text (runs_formatting : list run) :
  join EmptyString (map text (merge_consecutive_runs runs_formatting))
  = join EmptyString (map text runs_formatting).
Proof.
  destruct runs_formatting as [|first rest]; [reflexivity|].
  unfold merge_consecutive_runs. rewrite merge_from_text.
  change (map text (first :: rest)) with (text first :: map text rest).
  rewrite concat_empty_cons. reflexivity.
Qed.

Lemma pending_nonempty (current : run) :
  Forall (fun r => truthy (text r) = true) (pending current).
Proof.
  unfold pending. destruct (truthy (text current)) eqn:Ht; [|constructor].
  constructor; [exact Ht|constructor].
Qed.

Lemma pending_length (current : run) : (length (pending current) <= 1)%nat.
Proof. unfold pending. destruct (truthy (text current)); simpl; lia. Qed.

Lemma merge_from_nonempty (rest : list run) :
  forall current,
    Forall (fun r => truthy (text r) = true) (merge_from [] current rest).
Proof.
  induction rest as [|next rest IH]; intros current.
  - rewrite merge_from_nil. apply pending_nonempty.
  - rewrite merge_from_cons. destruct (same_formatting current next); [apply IH|].
    apply Forall_app. split; [apply pending_nonempty|apply IH].
Qed.

Lemma merge_from_length (rest : list run) :
  forall current, (length (merge_from [] current rest) <= S (length rest))%nat.
Proof.
  induction rest as [|next rest IH]; intros current.
  - rewrite merge_from_nil. apply pending_length.
  - rewrite merge_from_cons. destruct (same_formatting current next).
    + specialize (IH (set_text current (String.append (text current) (text next)))).
      simpl. lia.
    + rewrite length_app. specialize (IH next). pose proof (pending_length current).
      simpl. lia.
Qed.

(** X15. No merged segment has an empty text, and there are never more
    segments than runs. *)
Theorem merge_consecutive_runs_segments (runs_formatting : list run) :
  Forall (fun r => truthy (text r) = true) (merge_consecutive_runs runs_formatting)
  /\ (length (merge_consecutive_runs runs_formatting) <= length runs_formatting)%nat.
Proof.
  destruct runs_formatting as [|first rest]; [split; [constructor|reflexivity]|].
  split; [apply merge_from_nonempty|apply merge_from_length].
Qed.

Lemma truthy_append (a b : string) :
  truthy a = true -> truthy (String.append a b) = true.
Proof. destruct a; [discriminate|reflexivity]. Qed.

Lemma merge_from_head (rest : list run) :
  forall current,
    truthy (text current) = true ->
    exists first tail,
      merge_from [] current rest = first :: tail
      /\ normalize_formatting first = normalize_formatting current.
Proof.
  induction rest as [|next rest IH]; intros current Hc.
  - rewrite merge_from_nil. unfold pending. rewrite Hc. eauto.
  - rewrite merge_from_cons. destruct (same_formatting current next).
    + destruct (IH (set_text current (String.append (text current) (text next))))
        as (first & tail & Heq & Hfmt); [apply truthy_append, Hc|].
      exists first, tail. split; [exact Heq|]. rewrite Hfmt. reflexivity.
    + unfold pending. rewrite Hc. simpl. eauto.
Qed.

Lemma merge_from_distinct (rest : list run) :
  forall current,
    truthy (text current) = true ->
    Forall (fun r => truthy (text r) = true) rest ->
    distinct_neighbours (merge_from [] current rest) = true.
Proof.
  induction rest as [|next rest IH]; intros current Hc Hrest.
  - rewrite merge_from_nil. unfold pending. rewrite Hc. reflexivity.
  - apply Forall_cons in Hrest as [Hn Hrest].
    rewrite merge_from_cons. destruct (same_formatting current next) eqn:Hsame.
    + apply IH; [apply truthy_append, Hc|exact Hrest].
    + unfold pending. rewrite Hc.
      destruct (merge_from_head rest next Hn) as (first & tail & Heq & Hfmt).
      specialize (IH next Hn Hrest). rewrite Heq in *. simpl.
      simpl in IH. rewrite IH, andb_true_r.
      unfold same_formatting in *. rewrite Hfmt, Hsame. reflexivity.
Qed.

Lemma merge_from_fixed (rest : list run) :
  forall current,
    Forall (fun r => truthy (text r) = true) (current :: rest) ->
    distinct_neighbours (current :: rest) = true ->
    merge_from [] current rest = current :: rest.
Proof.
  induction rest as [|next rest IH]; intros current Hne Hd.
  - apply Forall_cons in Hne as [Hc _].
    rewrite merge_from_nil. unfold pending. rewrite Hc. reflexivity.
  - apply Forall_cons in Hne as [Hc Hne].
    simpl in Hd. apply andb_true_iff in Hd as [Hsame Hd].
    apply negb_true_iff in Hsame.
    rewrite merge_from_cons, Hsame. unfold pending. rewrite Hc.
    rewrite (IH next Hne Hd). reflexivity.
Qed.

(** X16. On runs that all have a non-empty text, as the extraction
    builds them, the merged segments alternate (no two adjacent segments
    have the same normalized formatting) and merging is idempotent. *)
Theorem merge_consecutive_runs_canonical (runs_formatting : list run)
    (Htext : Forall (fun r => truthy (text r) = true) runs_formatting) :
  distinct_neighbours (merge_consecutive_runs runs_formatting) = true
  /\ merge_consecutive_runs (merge_consecutive_runs runs_formatting)
     = merge_consecutive_runs runs_formatting.
Proof.
  destruct runs_formatting as [|first rest]; [split; reflexivity|].
  apply Forall_cons in Htext as [Hfirst Hrest].
  unfold merge_consecutive_runs at 1 3 4.
  pose proof (merge_from_distinct rest first Hfirst Hrest) as Hd.
  pose proof (merge_from_nonempty rest first) as Hne.
  split; [exact Hd|].
  destruct (merge_from [] first rest) as [|first' rest']; [reflexivity|].
  apply merge_from_fixed; assumption.
Qed.

Lemma merge_from_split (r : run) (t1 t2 : string) (l2 : list run) (l1 : list run) :
  forall current,
    merge_from [] current (l1 ++ set_text r t1 :: set_text r t2 :: l2)
    = merge_from [] current (l1 ++ set_text r (String.append t1 t2) :: l2).
Proof.
  induction l1 as [|next l1 IH]; intros current.
  - rewrite !app_nil_l, !(merge_from_cons current).
    unfold same_formatting. rewrite !normalize_formatting_set_text.
    destruct (bool_decide (normalize_formatting current = normalize_formatting r)) eqn:Hsame.
    + rewrite merge_from_cons. unfold same_formatting.
      rewrite !normalize_formatting_set_text, Hsame.
      cbn [text set_text]. rewrite append_assoc. reflexivity.
    + f_equal. rewrite merge_from_cons. unfold same_formatting.
      rewrite !normalize_formatting_set_text, bool_decide_refl. reflexivity.
  - rewrite <- !app_comm_cons, !(merge_from_cons current next).
    destruct (same_formatting current next); [apply IH|]. f_equal. apply IH.
Qed.

Lemma merge_consecutive_runs_split (l1 l2 : list run) (r : run)
    (t1 t2 : string) :
  merge_consecutive_runs (l1 ++ set_text r t1 :: set_text r t2 :: l2)
  = merge_consecutive_runs (l1 ++ set_text r (String.append t1 t2) :: l2).
Proof.
  destruct l1 as [|first l1].
  - rewrite !app_nil_l. unfold merge_consecutive_runs.
    rewrite merge_from_cons. unfold same_formatting.
    rewrite !normalize_formatting_set_text, bool_decide_refl. reflexivity.
  - rewrite <- !app_comm_cons. unfold merge_consecutive_runs. apply merge_from_split.
Qed.

(** X17. Splitting a run in two runs with the same formatting, anywhere
    in a paragraph, changes neither the merged segments nor the result of
    [compare_runs_semantic], on whichever side the paragraph is. *)
Theorem compare_runs_semantic_split_anywhere (l1 l2 other : list run) (r : run)
    (t1 t2 : string) (para_index : Z) :
  merge_consecutive_runs (l1 ++ set_text r t1 :: set_text r t2 :: l2)
  = merge_consecutive_runs (l1 ++ set_text r (String.append t1 t2) :: l2)
  /\ compare_runs_semantic (l1 ++ set_text r t1 :: set_text r t2 :: l2) other
       para_index
     = compare_runs_semantic (l1 ++ set_text r (String.append t1 t2) :: l2) other
         para_index
  /\ compare_runs_semantic other (l1 ++ set_text r t1 :: set_text r t2 :: l2)
       para_index
     = compare_runs_semantic other (l1 ++ set_text r (String.append t1 t2) :: l2)
         para_index.
Proof.
  unfold compare_runs_semantic.
  rewrite (merge_consecutive_runs_split l1 l2 r t1 t2). auto.
Qed.

(** Without the hypothesis on the texts merging is not idempotent: a run
    with an empty text and another formatting keeps its neighbours apart
    in the first pass and is dropped by it. *)
Lemma merge_consecutive_runs_empty_run :
  exists runs_formatting : list run,
    merge_consecutive_runs (merge_consecutive_runs runs_formatting)
    <> merge_consecutive_runs runs_formatting.
Proof.
  exists [WriterSamples.segment "Hello " true; WriterSamples.segment EmptyString false;
          WriterSamples.segment "World" true].
  vm_compute. discriminate.
Qed.

Lemma merge_consecutive_runs_canonical_witness :
  distinct_neighbours
    (merge_consecutive_runs
       [WriterSamples.segment "Hello " true; WriterSamples.segment "World" true;
        WriterSamples.segment "!" false]) = true
  /\ merge_consecutive_runs
       (merge_consecutive_runs
          [WriterSamples.segment "Hello " true; WriterSamples.segment "World" true;
           WriterSamples.segment "!" false])
     = merge_consecutive_runs
         [WriterSamples.segment "Hello " true; WriterSamples.segment "World" true;
          WriterSamples.segment "!" false].
Proof.
  apply (merge_consecutive_runs_canonical
           [WriterSamples.segment "Hello " true; WriterSamples.segment "World" true;
            WriterSamples.segment "!" false]).
  repeat constructor.
Defined.

End MergeFacts.
Module RunComparisonFacts.
Import Py Writer BasicFacts WriterFacts WriterNotions DecideFacts.

Lemma compare_segments_sym (l1 : list run) :
  forall l2, compare_segments (zip l1 l2) = compare_segments (zip l2 l1).
Proof.
  induction l1 as [|r1 l1 IH]; intros [|r2 l2]; try reflexivity.
  cbn [zip zip_with compare_segments].
  rewrite (bool_decide_eq_sym (strip (text r1))),
    (bool_decide_eq_sym (norm_bold (normalize_formatting r1))),
    (bool_decide_eq_sym (norm_italic (normalize_formatting r1))),
    (bool_decide_eq_sym (norm_underline (normalize_formatting r1))),
    (bool_decide_eq_sym (norm_font_size (normalize_formatting r1))),
    (bool_decide_eq_sym (norm_font_name (normalize_formatting r1))),
    IH.
  reflexivity.
Qed.

Lemma compare_runs_semantic_sym (actual_runs golden_runs : list run) (i j : Z) :
  compare_runs_semantic actual_runs golden_runs i
  = compare_runs_semantic golden_runs actual_runs j.
Proof.
  unfold compare_runs_semantic. cbv zeta.
  set (a := List.filter _ (merge_consecutive_runs actual_runs)).
  set (g := List.filter _ (merge_consecutive_runs golden_runs)).
  rewrite (bool_decide_eq_sym (length a)).
  destruct (bool_decide (length g = length a)); cbn [negb];
    [apply compare_segments_sym|].
  rewrite (bool_decide_eq_sym (strip (join EmptyString (map text a)))).
  destruct (bool_decide (strip (join EmptyString (map text g))
                         = strip (join EmptyString (map text a)))); [|reflexivity].
  cbn [andb].
  destruct a as [|a1 a], g as [|g1 g]; try reflexivity.
  rewrite (bool_decide_eq_sym (normalize_formatting a1)).
  rewrite (andb_comm (uniform a1 (a1 :: a))). reflexivity.
Qed.

(** X18. [compare_runs_semantic] is symmetric in its verdict and its code:
    exchanging the actual and the golden runs gives the same is_match and
    the same error code, whatever the paragraph indices. *)
Theorem compare_runs_semantic_symmetric (actual_runs golden_runs : list run)
    (i j : Z) :
  fst (compare_runs_semantic actual_runs golden_runs i)
  = fst (compare_runs_semantic golden_runs actual_runs j).
Proof. rewrite (compare_runs_semantic_sym actual_runs golden_runs i j). reflexivity. Qed.

Lemma compare_segments_codes (pairs : list (run * run)) :
  compare_segments pairs = (true, None, None)
  \/ exists code message,
       compare_segments pairs = (false, Some code, Some message) /\ code ∈ run_codes.
Proof.
  induction pairs as [|[r1 r2] pairs IH]; [left; reflexivity|].
  cbn [compare_segments]. unfold failure, run_codes.
  repeat (match goal with
          | |- context [negb (bool_decide ?P)] => destruct (bool_decide P); cbn [negb]
          end;
          [|right; do 2 eexists; split; [reflexivity|repeat constructor]]).
  exact IH.
Qed.

Lemma compare_runs_semantic_codes (actual_runs golden_runs : list run) (i : Z) :
  compare_runs_semantic actual_runs golden_runs i = (true, None, None)
  \/ exists code message,
       compare_runs_semantic actual_runs golden_runs i = (false, Some code, Some message)
       /\ code ∈ run_codes.
Proof.
  unfold compare_runs_semantic. cbv zeta.
  destruct (negb _); [|apply compare_segments_codes].
  destruct (_ && _); [left; reflexivity|].
  right. do 2 eexists. split; [reflexivity|]. unfold run_codes. repeat constructor.
Qed.

Lemma compare_runs_semantic_refl (runs : list run) (i : Z) :
  compare_runs_semantic runs runs i = (true, None, None).
Proof.
  unfold compare_runs_semantic. cbv zeta. rewrite bool_decide_refl. cbn [negb].
  apply compare_segments_refl.
Qed.

End RunComparisonFacts.
Module ScriptFacts.
Import Py PyText Writer WriterScript BasicFacts WriterFacts WriterNotions DecideFacts
  RunComparisonFacts.

Ltac in_codes := unfold codes; repeat constructor.

Lemma run_codes_codes (code : string) : code ∈ run_codes -> code ∈ codes.
Proof.
  unfold run_codes. intros H.
  repeat (apply elem_of_cons in H as [->|H]; [in_codes|]).
  apply elem_of_nil in H. destruct H.
Qed.

Lemma check_paragraph_spec (actual_para golden_para : paragraph) (i : Z) :
  (check_paragraph actual_para golden_para i = None
   /\ paragraphs_agree actual_para golden_para)
  \/ (exists code, check_paragraph actual_para golden_para i = Some code
                   /\ code ∈ codes /\ code <> "SUCCESS"
                   /\ ~ paragraphs_agree actual_para golden_para).
Proof.
  unfold check_paragraph, paragraphs_agree. cbv zeta.
  repeat (match goal with
          | |- context [negb (bool_decide ?P)] =>
              destruct (decide P);
              [rewrite (bool_decide_eq_true_2 P) by assumption
              |rewrite (bool_decide_eq_false_2 P) by assumption]; cbn [negb]
          end;
          [|right; eexists; split; [reflexivity|];
            split; [in_codes|split; [discriminate|tauto]]]).
  change (compare_runs_semantic (runs_formatting actual_para)
            (runs_formatting golden_para) 0)
    with (compare_runs_semantic (runs_formatting actual_para)
            (runs_formatting golden_para) i).
  destruct (compare_runs_semantic_codes (runs_formatting actual_para)
              (runs_formatting golden_para) i) as [->|(code & message & -> & Hcode)].
  - left. cbn. tauto.
  - right. exists code. cbn. split; [reflexivity|]. split; [apply run_codes_codes, Hcode|].
    split; [|intros (_ & _ & _ & _ & _ & _ & ?); discriminate].
    intros ->. unfold run_codes in Hcode.
    repeat (apply elem_of_cons in Hcode as [Hcode|Hcode]; [discriminate|]).
    apply elem_of_nil in Hcode. destruct Hcode.
Qed.

Lemma check_paragraphs_spec (actual_rest : list paragraph) :
  forall (i : nat) (golden_paragraphs : list paragraph),
    (length actual_rest + i = length golden_paragraphs)%nat ->
    (check_paragraphs i actual_rest golden_paragraphs = None
     /\ Forall2 paragraphs_agree actual_rest (drop i golden_paragraphs))
    \/ (exists code, check_paragraphs i actual_rest golden_paragraphs = Some code
                     /\ code ∈ codes /\ code <> "SUCCESS"
                     /\ ~ Forall2 paragraphs_agree actual_rest (drop i golden_paragraphs)).
Proof.
  induction actual_rest as [|actual_para rest IH]; intros i golden_paragraphs Hlen.
  - left. split; [reflexivity|]. rewrite drop_ge by (simpl in Hlen; lia). constructor.
  - cbn [check_paragraphs]. simpl in Hlen.
    destruct (golden_paragraphs !! i) as [golden_para|] eqn:Hg;
      [|apply lookup_ge_None in Hg; lia].
    rewrite (drop_S _ _ _ Hg).
    destruct (check_paragraph_spec actual_para golden_para (Z.of_nat i))
      as [[-> Hagree]|(code & -> & Hcode & Hne & Hdis)].
    + destruct (IH (S i) golden_paragraphs ltac:(lia))
        as [[-> Hrest]|(code & -> & Hcode & Hne & Hdis)].
      * left. split; [reflexivity|]. constructor; assumption.
      * right. exists code. repeat split; try assumption.
        intros H. apply Forall2_cons in H as [_ H]. exact (Hdis H).
    + right. exists code. repeat split; try assumption.
      intros H. apply Forall2_cons in H as [H _]. exact (Hdis H).
Qed.

Lemma check_headers_footers_spec (actual_hf golden_hf : headers_footers) :
  (check_headers_footers actual_hf golden_hf = None /\ actual_hf = golden_hf)
  \/ (exists code, check_headers_footers actual_hf golden_hf = Some code
                   /\ code ∈ codes /\ code <> "SUCCESS" /\ actual_hf <> golden_hf).
Proof.
  unfold check_headers_footers.
  repeat (match goal with
          | |- context [negb (bool_decide ?P)] =>
              destruct (decide P);
              [rewrite (bool_decide_eq_true_2 P) by assumption
              |rewrite (bool_decide_eq_false_2 P) by assumption]; cbn [negb]
          end;
          [|right; eexists; split; [reflexivity|];
            split; [in_codes|split; [discriminate|congruence]]]).
  left. split; [reflexivity|]. destruct actual_hf, golden_hf; simpl in *; congruence.
Qed.

Lemma check_structure_spec (actual_structure golden_structure : structure) :
  (check_structure actual_structure golden_structure = None
   /\ actual_structure = golden_structure)
  \/ (exists code, check_structure actual_structure golden_structure = Some code
                   /\ code ∈ codes /\ code <> "SUCCESS"
                   /\ actual_structure <> golden_structure).
Proof.
  unfold check_structure.
  repeat (match goal with
          | |- context [negb (bool_decide ?P)] =>
              destruct (decide P);
              [rewrite (bool_decide_eq_true_2 P) by assumption
              |rewrite (bool_decide_eq_false_2 P) by assumption]; cbn [negb]
          end;
          [|right; eexists; split; [reflexivity|];
            split; [in_codes|split; [discriminate|congruence]]]).
  left. split; [reflexivity|].
  destruct actual_structure, golden_structure; simpl in *; congruence.
Qed.

Lemma check_comment_pairs_spec (actual_comments : list comment) :
  forall golden_comments,
    length actual_comments = length golden_comments ->
    (check_comment_pairs (zip actual_comments golden_comments) = None
     /\ Forall2 comments_agree actual_comments golden_comments)
    \/ (exists code,
          check_comment_pairs (zip actual_comments golden_comments) = Some code
          /\ code ∈ codes /\ code <> "SUCCESS"
          /\ ~ Forall2 comments_agree actual_comments golden_comments).
Proof.
  induction actual_comments as [|a rest IH]; intros [|g golden] Hlen;
    try discriminate Hlen.
  - left. split; [reflexivity|constructor].
  - cbn [zip zip_with check_comment_pairs].
    assert (Hcut : forall code, code ∈ codes -> code <> "SUCCESS" ->
              ~ comments_agree a g ->
              exists code', Some code = Some code' /\ code' ∈ codes
                            /\ code' <> "SUCCESS"
                            /\ ~ Forall2 comments_agree (a :: rest) (g :: golden)).
    { intros code Hc Hn Hd. exists code. repeat split; try assumption.
      intros H. apply Forall2_cons in H as [H _]. exact (Hd H). }
    unfold comments_agree in *.
    repeat (match goal with
            | |- context [negb (bool_decide ?P)] =>
                destruct (decide P);
                [rewrite (bool_decide_eq_true_2 P) by assumption
                |rewrite (bool_decide_eq_false_2 P) by assumption]; cbn [negb]
            end;
            [|right; apply Hcut; [in_codes|discriminate|tauto]]).
    destruct (IH golden ltac:(simpl in Hlen; lia))
      as [[-> Hrest]|(code & -> & Hcode & Hne & Hdis)].
    + left. split; [reflexivity|]. constructor; [split; assumption|exact Hrest].
    + right. exists code. repeat split; try assumption.
      intros H. apply Forall2_cons in H as [_ H]. exact (Hdis H).
Qed.

Lemma check_comment_placement_spec (actual_paragraphs : list paragraph) :
  forall golden_paragraphs,
    length actual_paragraphs = length golden_paragraphs ->
    (check_comment_placement (zip actual_paragraphs golden_paragraphs) = None
     /\ map has_comment actual_paragraphs = map has_comment golden_paragraphs)
    \/ (check_comment_placement (zip actual_paragraphs golden_paragraphs)
        = Some "FAIL_COMMENT_PLACEMENT_CHANGED"
        /\ map has_comment actual_paragraphs <> map has_comment golden_paragraphs).
Proof.
  induction actual_paragraphs as [|a rest IH]; intros [|g golden] Hlen;
    try discriminate Hlen.
  - left. split; reflexivity.
  - cbn [zip zip_with check_comment_placement map].
    destruct (Bool.eqb (has_comment a) (has_comment g)) eqn:Heq; cbn [negb].
    + apply Bool.eqb_prop in Heq.
      destruct (IH golden ltac:(simpl in Hlen; lia)) as [[-> Hrest]|[-> Hdis]].
      * left. split; [reflexivity|]. congruence.
      * right. split; [reflexivity|]. congruence.
    + right. split; [reflexivity|]. intros H. injection H as H _.
      rewrite H, Bool.eqb_reflx in Heq. discriminate.
Qed.

Lemma check_comments_spec (actual_comments golden_comments : list comment)
    (actual_paragraphs golden_paragraphs : list paragraph) :
  length actual_paragraphs = length golden_paragraphs ->
  (check_comments actual_comments golden_comments actual_paragraphs
     golden_paragraphs = None
   /\ Forall2 comments_agree actual_comments golden_comments
   /\ map has_comment actual_paragraphs = map has_comment golden_paragraphs)
  \/ (exists code,
        check_comments actual_comments golden_comments actual_paragraphs
          golden_paragraphs = Some code
        /\ code ∈ codes /\ code <> "SUCCESS"
        /\ ~ (Forall2 comments_agree actual_comments golden_comments
              /\ map has_comment actual_paragraphs
                 = map has_comment golden_paragraphs)).
Proof.
  intros Hlen. unfold check_comments.
  destruct (decide (length actual_comments = length golden_comments)) as [Hc|Hc];
    [rewrite (bool_decide_eq_true_2 _ Hc)|rewrite (bool_decide_eq_false_2 _ Hc)];
    cbn [negb].
  - destruct (check_comment_pairs_spec actual_comments golden_comments Hc)
      as [[-> Hpairs]|(code & -> & Hcode & Hne & Hdis)].
    + destruct (check_comment_placement_spec actual_paragraphs golden_paragraphs Hlen)
        as [[-> Hplace]|[-> Hdis]].
      * left. repeat split; assumption.
      * right. eexists. split; [reflexivity|]. split; [in_codes|].
        split; [discriminate|tauto].
    + right. exists code. repeat split; try assumption. tauto.
  - right. eexists. split; [reflexivity|]. split; [in_codes|].
    split; [discriminate|]. intros [H _]. apply Forall2_length in H. exact (Hc H).
Qed.

(** X20. On two files that can be read, the script prints SUCCESS exactly
    when the paragraphs agree pairwise (normalized text, style, alignment,
    the three spacings, and a match of [compare_runs_semantic]), the
    headers and footers are equal, the six structure counts are equal, the
    comments agree pairwise in text and author, and the paragraphs carry
    comments at the same places. The comment ids are not compared. *)
Theorem evaluate_success (actual_paragraphs golden_paragraphs : list paragraph)
    (actual_hf golden_hf : headers_footers)
    (actual_structure golden_structure : structure)
    (actual_comments golden_comments : list comment) :
  evaluate (loaded actual_paragraphs actual_hf actual_structure actual_comments)
           (loaded golden_paragraphs golden_hf golden_structure golden_comments)
  = "SUCCESS"
  <-> Forall2 paragraphs_agree actual_paragraphs golden_paragraphs
      /\ actual_hf = golden_hf
      /\ actual_structure = golden_structure
      /\ Forall2 comments_agree actual_comments golden_comments
      /\ map has_comment actual_paragraphs = map has_comment golden_paragraphs.
Proof.
  unfold evaluate, loaded. cbn [extracted_paragraphs extracted_headers_footers
    extracted_structure extracted_comments].
  destruct (decide (length actual_paragraphs = length golden_paragraphs)) as [Hlen|Hlen];
    [rewrite (bool_decide_eq_true_2 _ Hlen)|rewrite (bool_decide_eq_false_2 _ Hlen)];
    cbn [negb].
  2:{ split; [discriminate|]. intros [H _]. apply Forall2_length in H. contradiction. }
  destruct (check_paragraphs_spec actual_paragraphs 0 golden_paragraphs ltac:(lia))
    as [[-> Hpar]|(code & -> & _ & Hne & Hdis)]; rewrite drop_0 in *.
  2:{ split; [contradiction|]. intros [H _]. contradiction. }
  destruct (check_headers_footers_spec actual_hf golden_hf)
    as [[-> Hhf]|(code & -> & _ & Hne & Hdis)].
  2:{ split; [contradiction|]. intros (_ & H & _). contradiction. }
  destruct (check_structure_spec actual_structure golden_structure)
    as [[-> Hst]|(code & -> & _ & Hne & Hdis)].
  2:{ split; [contradiction|]. intros (_ & _ & H & _). contradiction. }
  destruct (check_comments_spec actual_comments golden_comments _ _ Hlen)
    as [(-> & Hc & Hp)|(code & -> & _ & Hne & Hdis)].
  2:{ split; [contradiction|]. intros (_ & _ & _ & H). contradiction. }
  split; [|reflexivity]. intros _. repeat split; assumption.
Qed.

(** X21. Whatever the two files, the script prints exactly one of the 33
    known codes; in particular the code of a failed run comparison is
    never missing. *)
Theorem evaluate_prints_code (actual_file golden_file : option document) :
  evaluate actual_file golden_file ∈ codes.
Proof.
  unfold evaluate.
  destruct actual_file as [actual|]; [|in_codes].
  destruct golden_file as [golden|]; [|in_codes].
  destruct (extracted_paragraphs actual) as [actual_paragraphs|]; [|in_codes].
  destruct (extracted_paragraphs golden) as [golden_paragraphs|]; [|in_codes].
  destruct (decide (length actual_paragraphs = length golden_paragraphs)) as [Hlen|Hlen];
    [rewrite (bool_decide_eq_true_2 _ Hlen)|rewrite (bool_decide_eq_false_2 _ Hlen)];
    cbn [negb]; [|in_codes].
  destruct (check_paragraphs_spec actual_paragraphs 0 golden_paragraphs ltac:(lia))
    as [[-> _]|(code & -> & Hcode & _)]; [|exact Hcode].
  destruct (extracted_headers_footers actual) as [actual_hf|]; [|in_codes].
  destruct (extracted_headers_footers golden) as [golden_hf|]; [|in_codes].
  destruct (check_headers_footers_spec actual_hf golden_hf)
    as [[-> _]|(code & -> & Hcode & _)]; [|exact Hcode].
  destruct (extracted_structure actual) as [actual_structure|]; [|in_codes].
  destruct (extracted_structure golden) as [golden_structure|]; [|in_codes].
  destruct (check_structure_spec actual_structure golden_structure)
    as [[-> _]|(code & -> & Hcode & _)]; [|exact Hcode].
  destruct (extracted_comments actual) as [actual_comments|]; [|in_codes].
  destruct (extracted_comments golden) as [golden_comments|]; [|in_codes].
  destruct (check_comments_spec actual_comments golden_comments _ _ Hlen)
    as [(-> & _)|(code & -> & Hcode & _)]; [in_codes|exact Hcode].
Qed.

Lemma check_paragraph_sym (actual_para golden_para : paragraph) (i : Z) :
  check_paragraph actual_para golden_para i = check_paragraph golden_para actual_para i.
Proof.
  unfold check_paragraph. cbv zeta.
  rewrite (bool_decide_eq_sym (text_normalized (para_text actual_para))),
    (bool_decide_eq_sym (style actual_para)),
    (bool_decide_eq_sym (alignment actual_para)),
    (bool_decide_eq_sym (spacing_before actual_para)),
    (bool_decide_eq_sym (spacing_after actual_para)),
    (bool_decide_eq_sym (line_spacing actual_para)),
    (compare_runs_semantic_sym (runs_formatting actual_para)
       (runs_formatting golden_para) i i).
  reflexivity.
Qed.

Lemma check_paragraphs_sym (actual_rest : list paragraph) :
  forall golden_rest actual_done golden_done,
    length actual_done = length golden_done ->
    length actual_rest = length golden_rest ->
    check_paragraphs (length actual_done) actual_rest (golden_done ++ golden_rest)
    = check_paragraphs (length golden_done) golden_rest (actual_done ++ actual_rest).
Proof.
  induction actual_rest as [|a actual_rest IH];
    intros [|g golden_rest] actual_done golden_done Hdone Hrest;
    try discriminate Hrest; [reflexivity|].
  cbn [check_paragraphs]. rewrite <- Hdone.
  rewrite (list_lookup_middle golden_done _ g (length actual_done) Hdone),
    (list_lookup_middle actual_done _ a (length actual_done) eq_refl),
    (check_paragraph_sym a g).
  destruct (check_paragraph g a (Z.of_nat (length actual_done))); [reflexivity|].
  specialize (IH golden_rest (actual_done ++ [a])%list (golden_done ++ [g])%list).
  rewrite !length_app, <- !app_assoc in IH. cbn [length app] in IH.
  rewrite <- Hdone, !Nat.add_1_r in IH. apply IH; [reflexivity|]. simpl in Hrest. lia.
Qed.

Lemma check_headers_footers_sym (actual_hf golden_hf : headers_footers) :
  check_headers_footers actual_hf golden_hf = check_headers_footers golden_hf actual_hf.
Proof.
  unfold check_headers_footers.
  rewrite (bool_decide_eq_sym (headers actual_hf)),
    (bool_decide_eq_sym (footers actual_hf)). reflexivity.
Qed.

Lemma check_structure_sym (actual_structure golden_structure : structure) :
  check_structure actual_structure golden_structure
  = check_structure golden_structure actual_structure.
Proof.
  unfold check_structure.
  rewrite (bool_decide_eq_sym (tables actual_structure)),
    (bool_decide_eq_sym (images actual_structure)),
    (bool_decide_eq_sym (sections actual_structure)),
    (bool_decide_eq_sym (bookmarks actual_structure)),
    (bool_decide_eq_sym (footnotes actual_structure)),
    (bool_decide_eq_sym (endnotes actual_structure)). reflexivity.
Qed.

Lemma check_comment_pairs_sym (actual_comments : list comment) :
  forall golden_comments,
    check_comment_pairs (zip actual_comments golden_comments)
    = check_comment_pairs (zip golden_comments actual_comments).
Proof.
  induction actual_comments as [|a rest IH]; intros [|g golden]; try reflexivity.
  cbn [zip zip_with check_comment_pairs].
  rewrite (bool_decide_eq_sym (comment_text a)), (bool_decide_eq_sym (author a)), IH.
  reflexivity.
Qed.

Lemma check_comment_placement_sym (actual_paragraphs : list paragraph) :
  forall golden_paragraphs,
    check_comment_placement (zip actual_paragraphs golden_paragraphs)
    = check_comment_placement (zip golden_paragraphs actual_paragraphs).
Proof.
  induction actual_paragraphs as [|a rest IH]; intros [|g golden]; try reflexivity.
  cbn [zip zip_with check_comment_placement].
  rewrite IH. destruct (has_comment a), (has_comment g); reflexivity.
Qed.

(** X22. On two files that exist, the printed code does not depend on
    which one is the solution and which one the reference. *)
Theorem evaluate_symmetric (actual golden : document) :
  evaluate (Some actual) (Some golden) = evaluate (Some golden) (Some actual).
Proof.
  unfold evaluate.
  destruct (extracted_paragraphs actual) as [actual_paragraphs|],
    (extracted_paragraphs golden) as [golden_paragraphs|]; try reflexivity.
  rewrite (bool_decide_eq_sym (length actual_paragraphs)).
  destruct (decide (length golden_paragraphs = length actual_paragraphs)) as [Hlen|Hlen];
    [rewrite (bool_decide_eq_true_2 _ Hlen)|rewrite (bool_decide_eq_false_2 _ Hlen)];
    cbn [negb]; [|reflexivity].
  pose proof (check_paragraphs_sym actual_paragraphs golden_paragraphs [] [] eq_refl
                (eq_sym Hlen)) as Hsym.
  cbn [length app] in Hsym. rewrite Hsym.
  destruct (check_paragraphs 0 golden_paragraphs actual_paragraphs); [reflexivity|].
  destruct (extracted_headers_footers actual) as [actual_hf|],
    (extracted_headers_footers golden) as [golden_hf|]; try reflexivity.
  rewrite (check_headers_footers_sym actual_hf golden_hf).
  destruct (check_headers_footers golden_hf actual_hf); [reflexivity|].
  destruct (extracted_structure actual) as [actual_structure|],
    (extracted_structure golden) as [golden_structure|]; try reflexivity.
  rewrite (check_structure_sym actual_structure golden_structure).
  destruct (check_structure golden_structure actual_structure); [reflexivity|].
  destruct (extracted_comments actual) as [actual_comments|],
    (extracted_comments golden) as [golden_comments|]; try reflexivity.
  unfold check_comments.
  rewrite (bool_decide_eq_sym (length actual_comments)),
    (check_comment_pairs_sym actual_comments golden_comments),
    (check_comment_placement_sym actual_paragraphs golden_paragraphs).
  reflexivity.
Qed.

End ScriptFacts.
Module LogFacts.
Import Py Impress BasicFacts MatcherFacts ComparatorFacts ImpressNotions.
Local Open Scope M_scope.

Lemma at_ret {A} (forbidden : string) (failed : A -> bool) (v : A)
    (log : list string) :
  failed v = false -> attributes_at forbidden failed (ret v) log.
Proof.
  intros Hv. exists []. simpl. rewrite app_nil_r.
  split; [reflexivity|]. split; [apply not_elem_of_nil|].
  intros a [= <-] Ha. congruence.
Qed.

Lemma at_mismatch {A} (forbidden : string) (failed : A -> bool) (message : string)
    (v : A) (log : list string) :
  message <> forbidden ->
  attributes_at forbidden failed (mismatch message v) log.
Proof.
  intros Hm. exists [message]. simpl.
  split; [reflexivity|]. split.
  - intros Hin. apply list_elem_of_singleton in Hin. congruence.
  - intros _ _ _. discriminate.
Qed.

Lemma at_bind {A B} (forbidden : string) (failedA : A -> bool) (failed : B -> bool)
    (m : M A) (k : A -> M B) (log : list string) :
  attributes_at forbidden failedA m log ->
  (forall a log1, m log = (Some a, log1) ->
     attributes_at forbidden (fun b => failed b && negb (failedA a)) (k a) log1) ->
  attributes_at forbidden failed (bind m k) log.
Proof.
  intros (ms1 & Hlog1 & Hall1 & Hfail1) Hk. unfold attributes_at, bind.
  destruct (m log) as [[a|] log1] eqn:Hm; simpl in *.
  - destruct (Hk a log1 eq_refl) as (ms2 & Hlog2 & Hall2 & Hfail2).
    exists (ms1 ++ ms2)%list. subst log1.
    split; [rewrite app_assoc; exact Hlog2|].
    split; [intros Hin; apply elem_of_app in Hin as [Hin|Hin]; contradiction|].
    intros b Hb Hfailed Hnil. apply app_eq_nil in Hnil as [-> ->].
    destruct (failedA a) eqn:Ha.
    + exact (Hfail1 a eq_refl Ha eq_refl).
    + apply (Hfail2 b Hb); [rewrite Hfailed; reflexivity|reflexivity].
  - exists ms1. split; [exact Hlog1|]. split; [exact Hall1|]. intros a [=].
Qed.

Lemma at_lift {A B} (forbidden : string) (failed : B -> bool) (o : option A)
    (k : A -> M B) (log : list string) :
  (forall a, o = Some a -> attributes_at forbidden failed (k a) log) ->
  attributes_at forbidden failed (bind (lift o) k) log.
Proof.
  intros Hk. destruct o as [a|]; simpl.
  - unfold bind, lift, ret. apply Hk. reflexivity.
  - exists []. unfold bind, lift, raise. simpl. rewrite app_nil_r.
    split; [reflexivity|]. split; [apply not_elem_of_nil|]. intros a [=].
Qed.

Lemma at_weaken {A} (forbidden : string) (failed failed' : A -> bool) (m : M A)
    (log : list string) :
  (forall a, failed' a = true -> failed a = true) ->
  attributes_at forbidden failed m log -> attributes_at forbidden failed' m log.
Proof.
  intros Himp (ms & Hlog & Hall & Hfail). exists ms.
  split; [exact Hlog|]. split; [exact Hall|].
  intros a Ha Hf. apply (Hfail a Ha). apply Himp, Hf.
Qed.

Lemma at_rest {A} (forbidden : string) (failed : A -> bool) (x : bool) (m : M A)
    (log : list string) :
  attributes_at forbidden failed m log ->
  attributes_at forbidden (fun b => failed b && x) m log.
Proof.
  apply at_weaken. intros a Ha. apply andb_true_iff in Ha as [Ha _]. exact Ha.
Qed.

Lemma at_for_each {A} (forbidden : string) (body : A -> M bool) (l : list A) :
  (forall x log, attributes_at forbidden negb (body x) log) ->
  forall log, attributes_at forbidden negb (for_each body l) log.
Proof.
  intros Hbody. induction l as [|x l IH]; intros log; simpl.
  - apply at_ret. reflexivity.
  - apply (at_bind forbidden negb); [apply Hbody|].
    intros [|] log1 _; [apply at_rest, IH|apply at_ret; reflexivity].
Qed.

Lemma at_finished (forbidden : string) (m : M bool) (log : list string) :
  attributes_at forbidden negb m log ->
  attributes_at forbidden is_zero
    (finished ← m; ret (if (finished : bool) then 1 else 0)) log.
Proof.
  intros Hm. apply (at_bind forbidden negb); [exact Hm|].
  intros [|] log1 _; apply at_ret; reflexivity.
Qed.

Lemma other_message (forbidden message : string) :
  forbidden ∈ matching_messages ->
  bool_decide (message ∈ matching_messages) = false ->
  message <> forbidden.
Proof.
  intros Hf Hm ->. apply bool_decide_eq_false_1 in Hm. contradiction.
Qed.

Ltac at_step :=
  lazymatch goal with
  | |- attributes_at _ _ (mismatch _ _) _ =>
      apply at_mismatch;
      first [ discriminate | eapply other_message; [eassumption|reflexivity] ]
  | |- attributes_at _ _ (ret _) _ => apply at_ret; reflexivity
  | |- attributes_at _ _ (if ?c then _ else _) _ => destruct c
  | |- attributes_at _ _ (bind (lift _) _) _ => apply at_lift; intros ? _
  end.

Section Comparators.
Variable forbidden : string.
Hypothesis Hforbidden : forbidden ∈ matching_messages.
Variables bullets1 bullets2 : option (list bullet).

Lemma compare_picture_shape_attributes (shape1 shape2 : Shape) (log : list string) :
  attributes_at forbidden is_zero (compare_picture_shape shape1 shape2) log.
Proof.
  unfold compare_picture_shape.
  repeat at_step.
  apply (at_bind forbidden negb).
  { destruct (image_md5 shape1), (image_md5 shape2); repeat at_step. }
  intros [|] log1 _; cbn [negb]; [|at_step].
  destruct (line shape1) as [line1|], (line shape2) as [line2|]; repeat at_step.
  destruct (line_color line1) as [color1|], (line_color line2) as [color2|];
    repeat at_step.
  destruct (rgb color1), (rgb color2); repeat at_step.
Qed.

Lemma compare_table_run_attributes (run1 run2 : Run) (log : list string) :
  attributes_at forbidden negb (compare_table_run run1 run2) log.
Proof. unfold compare_table_run. cbv zeta. repeat at_step. Qed.

Lemma compare_table_paragraph_attributes (para12 : Paragraph * Paragraph)
    (log : list string) :
  attributes_at forbidden negb (compare_table_paragraph para12) log.
Proof.
  destruct para12 as [para1 para2]. unfold compare_table_paragraph.
  at_step; [at_step|]. apply at_for_each. intros [run1 run2] log1.
  apply compare_table_run_attributes.
Qed.

Lemma compare_table_cell_attributes (table1 table2 : Table) (pos : nat * nat)
    (log : list string) :
  attributes_at forbidden negb (compare_table_cell table1 table2 pos) log.
Proof.
  destruct pos as [row_idx col_idx]. unfold compare_table_cell.
  repeat at_step. apply at_for_each. apply compare_table_paragraph_attributes.
Qed.

Lemma compare_table_shape_attributes (shape1 shape2 : Shape) (log : list string) :
  attributes_at forbidden is_zero (compare_table_shape shape1 shape2) log.
Proof.
  unfold compare_table_shape. repeat at_step.
  apply at_finished, at_for_each. apply compare_table_cell_attributes.
Qed.

Lemma compare_shape_geometry_attributes (shape1 shape2 : Shape) (log : list string) :
  attributes_at forbidden negb (compare_shape_geometry shape1 shape2) log.
Proof. unfold compare_shape_geometry. repeat at_step. Qed.

Lemma compare_text_run_attributes (run1 run2 : Run) (log : list string) :
  attributes_at forbidden negb (compare_text_run bullets1 bullets2 run1 run2) log.
Proof.
  unfold compare_text_run. cbv zeta. repeat at_step.
  destruct bullets1, bullets2; repeat at_step.
Qed.

Lemma compare_text_paragraph_attributes (para12 : Paragraph * Paragraph)
    (log : list string) :
  attributes_at forbidden negb (compare_text_paragraph bullets1 bullets2 para12) log.
Proof.
  destruct para12 as [para1 para2]. unfold compare_text_paragraph. cbv zeta.
  repeat at_step. apply at_for_each. intros [run1 run2] log1.
  apply compare_text_run_attributes.
Qed.

Lemma compare_text_shape_attributes (shape1 shape2 : Shape) (log : list string) :
  attributes_at forbidden is_zero (compare_text_shape bullets1 bullets2 shape1 shape2) log.
Proof.
  unfold compare_text_shape. repeat at_step.
  apply at_finished, at_for_each. apply compare_text_paragraph_attributes.
Qed.

Lemma compare_matched_shapes_attributes (shape1 shape2 : Shape) (log : list string) :
  attributes_at forbidden negb
    (compare_matched_shapes bullets1 bullets2 shape1 shape2) log.
Proof.
  unfold compare_matched_shapes.
  apply (at_bind forbidden is_zero).
  { at_step; [apply compare_picture_shape_attributes|at_step]. }
  intros result log1 _. unfold is_zero. destruct (bool_decide (result = 0)); [at_step|].
  apply (at_bind forbidden is_zero).
  { at_step; [apply compare_table_shape_attributes|at_step]. }
  intros result' log2 _. unfold is_zero.
  destruct (bool_decide (result' = 0)); [at_step|].
  apply (at_bind forbidden negb).
  { apply compare_shape_geometry_attributes. }
  intros [|] log3 _; cbn [negb]; [|at_step].
  destruct (text_frame shape1), (text_frame shape2); try at_step.
  apply (at_bind forbidden is_zero); [apply compare_text_shape_attributes|].
  intros result'' log4 _. unfold is_zero.
  destruct (bool_decide (result'' = 0)); at_step.
Qed.

Lemma compare_matched_text_shapes_attributes (tshape1 tshape2 : Shape)
    (log : list string) :
  attributes_at forbidden negb (compare_matched_text_shapes tshape1 tshape2) log.
Proof.
  unfold compare_matched_text_shapes. repeat at_step.
  apply at_for_each. intros [para1 para2] log1. cbv zeta. repeat at_step.
Qed.

Lemma match_text_shapes_attributes (text_shapes1 text_shapes2 : list Shape) :
  forall (used : gset Z) (log : list string),
    attributes_at forbidden negb
      (match_text_shapes text_shapes1 text_shapes2 used) log.
Proof.
  induction text_shapes1 as [|tshape1 rest IH]; intros used log; simpl.
  - at_step.
  - destruct (find_matching_shape tshape1 text_shapes2 used) as [[tshape2|] idx];
      [|at_step].
    apply (at_bind forbidden negb); [apply compare_matched_text_shapes_attributes|].
    intros [|] log1 _; [apply at_rest, IH|at_step].
Qed.

End Comparators.

Lemma unmatched_golden_matching : unmatched_golden_message ∈ matching_messages.
Proof. left. Qed.

Lemma no_match_matching : no_match_message ∈ matching_messages.
Proof. right. left. Qed.

Lemma match_shapes_attributes (bullets1 bullets2 : option (list bullet))
    (test_shapes golden_shapes : list Shape) :
  forall (used : gset Z) (log : list string),
    attributes_at unmatched_golden_message is_none
      (match_shapes bullets1 bullets2 test_shapes golden_shapes used) log.
Proof.
  induction test_shapes as [|test_shape rest IH]; intros used log; simpl.
  - at_step.
  - destruct (find_matching_shape test_shape golden_shapes used) as [[golden_shape|] idx];
      [|at_step].
    apply (at_bind _ negb);
      [apply compare_matched_shapes_attributes, unmatched_golden_matching|].
    intros [|] log1 _; [apply at_rest, IH|at_step].
Qed.

(** Once the shape loop has run to its end on slides with the same number
    of shapes, every golden index has been used. *)
Lemma match_shapes_all_used (bullets1 bullets2 : option (list bullet))
    (test_shapes golden_shapes : list Shape)
    (log log' : list string) (used : gset Z) :
  length test_shapes = length golden_shapes ->
  match_shapes bullets1 bullets2 test_shapes golden_shapes ∅ log
  = (Some (Some used), log') ->
  size used = length golden_shapes.
Proof.
  intros Hlen Hrun.
  destruct (match_shapes_claimed _ _ _ _ _ _ _ _ Hrun) as [-> Hclaimed].
  destruct (claimed_indices_fresh bullets1 bullets2 test_shapes golden_shapes ∅ log)
    as [Hnodup _].
  rewrite (left_id_L ∅ (∪)), size_list_to_set by exact Hnodup.
  congruence.
Qed.

Lemma compare_slides_attributes (slide12 : Slide * Slide) (log : list string) :
  attributes_at unmatched_golden_message negb (compare_slides slide12) log.
Proof.
  destruct slide12 as [slide1 slide2]. unfold compare_slides. cbv zeta.
  destruct (decide (length (slide_shapes slide1) = length (slide_shapes slide2)))
    as [Hlen|Hlen];
    [rewrite (bool_decide_eq_true_2 _ Hlen)|rewrite (bool_decide_eq_false_2 _ Hlen)];
    cbn [negb]; repeat at_step.
  apply (at_bind _ is_none); [apply match_shapes_attributes|].
  intros [used|] log1 Hrun; [|at_step].
  rewrite (bool_decide_eq_true_2 _ (match_shapes_all_used _ _ _ _ _ _ _ Hlen Hrun)).
  cbn [negb]. at_step; [at_step|].
  apply at_rest, match_text_shapes_attributes, unmatched_golden_matching.
Qed.

Lemma compare_pptx_files_attributes_at (prs1 prs2 : Presentation) :
  attributes_at unmatched_golden_message is_zero
    (if negb (bool_decide (length prs1 = length prs2))
     then mismatch "Slide count mismatch" 0
     else finished ← for_each compare_slides (zip prs1 prs2);
          ret (if (finished : bool) then 1 else 0)) [].
Proof.
  at_step; [at_step|].
  apply at_finished, at_for_each. apply compare_slides_attributes.
Qed.

Lemma for_each_result {A} (body : A -> M bool) (l : list A) (log : list string)
    (v : Z) :
  ((finished ← for_each body l; ret (if (finished : bool) then 1 else 0)) log).1
  = Some v -> v = 0 \/ v = 1.
Proof.
  unfold bind. destruct (for_each body l log) as [[[|]|] log1]; simpl;
    intros [=]; auto.
Qed.

Lemma compare_pptx_files_outcome (prs1 prs2 : Presentation) (log : list string) :
  (forall result, (compare_pptx_files prs1 prs2 log).1 = Some result ->
                  result = 0 \/ result = 1)
  /\ ((compare_pptx_files prs1 prs2 log).1 = Some 0 ->
      (compare_pptx_files prs1 prs2 log).2 <> [])
  /\ unmatched_golden_message ∉ (compare_pptx_files prs1 prs2 log).2.
Proof.
  unfold compare_pptx_files.
  destruct (compare_pptx_files_attributes_at prs1 prs2)
    as (messages & Hlog & Hall & Hfail).
  rewrite app_nil_l in Hlog. split; [|split].
  - intros result. destruct (negb _).
    + intros [= <-]. left. reflexivity.
    + apply for_each_result.
  - intros H0. rewrite Hlog. apply (Hfail 0 H0). reflexivity.
  - rewrite Hlog. exact Hall.
Qed.

(** X1. [compare_pptx_files] returns 0 or 1 when it returns; whenever it
    returns 0 the mismatch log is not empty, so that a reason can be
    reported; and the message of the check on unmatched golden shapes is
    never logged: once the shape loop has run to its end on slides with
    the same number of shapes, every golden index has been used. *)
Theorem compare_pptx_files_attributes (prs1 prs2 : Presentation)
    (log : list string) :
  let outcome := compare_pptx_files prs1 prs2 log in
  (forall result, outcome.1 = Some result -> result = 0 \/ result = 1)
  /\ (outcome.1 = Some 0 -> outcome.2 <> [])
  /\ unmatched_golden_message ∉ outcome.2.
Proof. exact (compare_pptx_files_outcome prs1 prs2 log). Qed.

End LogFacts.
Module SuiteFacts.
Import Py Impress ImpressSuite BasicFacts MatcherFacts ComparatorFacts ImpressNotions
  LogFacts OrderSamples.
Local Open Scope M_scope.

(** X2. [run_evaluator] never raises and returns 0 or 1; with the result 0
    it always returns a reason (the first logged mismatch, or the text of
    the exception); it returns 1 only when both files were loaded and
    [compare_pptx_files] returned 1; a file that cannot be loaded gives
    the result 0 with the text of the exception. *)
Theorem run_evaluator_reports (test_file golden_file : option Presentation)
    (log : list string) :
  let '(result, reason, _) := run_evaluator test_file golden_file log in
  (result = 0 \/ result = 1)
  /\ (result = 0 -> reason <> no_reason)
  /\ (result = 1 ->
      exists prs1 prs2,
        test_file = Some prs1 /\ golden_file = Some prs2
        /\ (compare_pptx_files prs1 prs2 log).1 = Some 1)
  /\ (test_file = None \/ golden_file = None ->
      result = 0 /\ reason = exception_text).
Proof.
  unfold run_evaluator, compare_pptx_paths.
  destruct test_file as [prs1|], golden_file as [prs2|];
    try (split; [left; reflexivity|]; split; [discriminate|];
         split; [discriminate|]; intros _; split; reflexivity).
  change (compare_pptx_files prs1 prs2 []) with (compare_pptx_files prs1 prs2 log).
  destruct (compare_pptx_files_outcome prs1 prs2 log) as (Hrange & Hlogged & _).
  destruct (compare_pptx_files prs1 prs2 log) as [[result|] mismatch_log] eqn:Hrun;
    simpl in *.
  - split; [apply Hrange; reflexivity|]. split; [|split].
    + intros ->. destruct mismatch_log as [|first rest].
      * exfalso. exact (Hlogged eq_refl eq_refl).
      * intros H. discriminate H.
    + intros ->. exists prs1, prs2. rewrite ?Hrun. repeat split; reflexivity.
    + intros [H|H]; discriminate H.
  - split; [left; reflexivity|]. split; [discriminate|]. split; [discriminate|].
    intros [H|H]; discriminate H.
Qed.

(** X5. The verdict of [compare_pptx_files] depends on which file is the
    test file: there are two well-formed presentations that match in one
    order and do not match in the other. The greedy pairing of the shapes
    is made from the side of the test file. *)
Theorem compare_pptx_files_not_symmetric :
  exists prs1 prs2 : Presentation,
    well_formed prs1 = true /\ well_formed prs2 = true
    /\ (compare_pptx_files prs1 prs2 []).1 = Some 1
    /\ (compare_pptx_files prs2 prs1 []).1 = Some 0.
Proof.
  exists captions_test, captions_golden. repeat split; vm_compute; reflexivity.
Qed.

End SuiteFacts.
Module MatchFacts.
Import Py Impress BasicFacts MatcherFacts ComparatorFacts ImpressNotions.
Local Open Scope M_scope.

Lemma lift_inv {A} (o : option A) (log log1 : list string) (a : A) :
  lift o log = (Some a, log1) -> o = Some a.
Proof. destruct o; simpl; unfold ret, raise; congruence. Qed.

Lemma bind_lift_inv {A B} (o : option A) (k : A -> M B) (log : list string) (b : B) :
  (bind (lift o) k log).1 = Some b ->
  exists a, o = Some a /\ (k a log).1 = Some b.
Proof.
  destruct o as [a|]; simpl; [|discriminate]. intros H. exists a. split; [reflexivity|exact H].
Qed.

Lemma mismatch_result {A} (message : string) (v : A) (log : list string) :
  (mismatch message v log).1 = Some v.
Proof. reflexivity. Qed.

Lemma for_each_true_inv {A} (body : A -> M bool) (l : list A) :
  forall log,
    (for_each body l log).1 = Some true ->
    forall x, x ∈ l -> exists log1, (body x log1).1 = Some true.
Proof.
  induction l as [|y l IH]; intros log Hrun x Hx.
  - apply elem_of_nil in Hx. destruct Hx.
  - cbn [for_each] in Hrun.
    apply bind_returns_inv in Hrun as ([|] & log1 & Hbody & Hrest);
      [|discriminate Hrest].
    apply elem_of_cons in Hx as [->|Hx].
    + exists log. rewrite Hbody. reflexivity.
    + exact (IH log1 Hrest x Hx).
Qed.

Lemma either_differs_false (a1 b1 a2 b2 : Z) :
  either_differs a1 b1 a2 b2 = Some false ->
  is_approximately_equal a1 b1 float_0_005 = Some true
  /\ is_approximately_equal a2 b2 float_0_005 = Some true.
Proof.
  unfold either_differs. intros H. apply or_else_false in H as [H1 H2].
  destruct (is_approximately_equal a1 b1 _) as [[|]|],
    (is_approximately_equal a2 b2 _) as [[|]|]; try discriminate; auto.
Qed.

Lemma compare_shape_geometry_accepts (shape1 shape2 : Shape) (log : list string) :
  (compare_shape_geometry shape1 shape2 log).1 = Some true ->
  is_approximately_equal (shape_left shape1) (shape_left shape2) float_0_005 = Some true
  /\ is_approximately_equal (shape_top shape1) (shape_top shape2) float_0_005 = Some true
  /\ is_approximately_equal (shape_width shape1) (shape_width shape2) float_0_005
     = Some true
  /\ is_approximately_equal (shape_height shape1) (shape_height shape2) float_0_005
     = Some true.
Proof.
  unfold compare_shape_geometry. intros Hres.
  apply bind_lift_inv in Hres as ([|] & Hor & Hres); [discriminate Hres|].
  apply or_else_false in Hor as [Hpos Hdim].
  apply either_differs_false in Hpos as [Hl Ht].
  apply either_differs_false in Hdim as [Hw Hh]. auto.
Qed.

Lemma compare_text_shape_accepts (bullets1 bullets2 : option (list bullet))
    (shape1 shape2 : Shape) (log : list string) (result : Z) :
  (compare_text_shape bullets1 bullets2 shape1 shape2 log).1 = Some result ->
  result <> 0 ->
  exists tf1 tf2,
    text_frame shape1 = Some tf1 /\ text_frame shape2 = Some tf2
    /\ strip (text tf1) = strip (text tf2)
    /\ length (paragraphs tf1) = length (paragraphs tf2).
Proof.
  unfold compare_text_shape. intros Hres Hne.
  apply bind_lift_inv in Hres as (tf1 & Htf1 & Hres).
  apply bind_lift_inv in Hres as (tf2 & Htf2 & Hres).
  exists tf1, tf2.
  destruct (decide (strip (text tf1) = strip (text tf2))) as [Htext|Htext];
    [rewrite (bool_decide_eq_true_2 _ Htext) in Hres
    |rewrite (bool_decide_eq_false_2 _ Htext) in Hres]; cbn [negb] in Hres;
    [|rewrite mismatch_result in Hres; congruence].
  destruct (decide (length (paragraphs tf1) = length (paragraphs tf2))) as [Hlen|Hlen];
    [rewrite (bool_decide_eq_true_2 _ Hlen) in Hres
    |rewrite (bool_decide_eq_false_2 _ Hlen) in Hres]; cbn [negb] in Hres;
    [|rewrite mismatch_result in Hres; congruence].
  auto.
Qed.

Lemma compare_picture_shape_accepts (shape1 shape2 : Shape) (log : list string)
    (result : Z) (hash1 hash2 : string) :
  (compare_picture_shape shape1 shape2 log).1 = Some result -> result <> 0 ->
  image_md5 shape1 = Some hash1 -> image_md5 shape2 = Some hash2 ->
  hash1 = hash2.
Proof.
  unfold compare_picture_shape. intros Hres Hne Hh1 Hh2.
  apply bind_lift_inv in Hres as ([|] & _ & Hres);
    [rewrite mismatch_result in Hres; congruence|].
  apply bind_lift_inv in Hres as ([|] & _ & Hres);
    [rewrite mismatch_result in Hres; congruence|].
  rewrite Hh1, Hh2 in Hres.
  destruct (decide (hash1 = hash2)) as [Heq|Hdiff]; [exact Heq|].
  rewrite (bool_decide_eq_false_2 _ Hdiff) in Hres. cbn [negb] in Hres.
  apply bind_returns_inv in Hres as (same & log1 & Hsame & Hres).
  unfold mismatch, log_mismatch, bind, ret in Hsame. injection Hsame as <- _.
  cbn in Hres. congruence.
Qed.

Lemma compare_matched_shapes_accepts (bullets1 bullets2 : option (list bullet))
    (shape1 shape2 : Shape) (log : list string) :
  (compare_matched_shapes bullets1 bullets2 shape1 shape2 log).1 = Some true ->
  type_score (shape_type shape1) (shape_type shape2) <> None ->
  shapes_agree shape1 shape2.
Proof.
  unfold compare_matched_shapes. intros Hres Htype.
  apply bind_returns_inv in Hres as (result1 & log1 & Hpicture & Hres).
  destruct (decide (result1 = 0)) as [H1|H1];
    [rewrite (bool_decide_eq_true_2 _ H1) in Hres; discriminate Hres
    |rewrite (bool_decide_eq_false_2 _ H1) in Hres].
  apply bind_returns_inv in Hres as (result2 & log2 & _ & Hres).
  destruct (bool_decide (result2 = 0)); [discriminate Hres|].
  apply bind_returns_inv in Hres as ([|] & log3 & Hgeometry & Hres);
    [|discriminate Hres].
  cbn [negb] in Hres.
  pose proof (compare_shape_geometry_accepts shape1 shape2 log2) as Hgeo.
  rewrite Hgeometry in Hgeo. destruct (Hgeo eq_refl) as (Hl & Ht & Hw & Hh).
  repeat (split; [assumption|]). split.
  - intros tf1 tf2 Htf1 Htf2. rewrite Htf1, Htf2 in Hres.
    apply bind_returns_inv in Hres as (result3 & log4 & Htext & Hres).
    destruct (decide (result3 = 0)) as [H3|H3];
      [rewrite (bool_decide_eq_true_2 _ H3) in Hres; discriminate Hres|].
    pose proof (compare_text_shape_accepts bullets1 bullets2 shape1 shape2 log3 result3)
      as Hacc.
    rewrite Htext in Hacc.
    destruct (Hacc eq_refl H3) as (tf1' & tf2' & Htf1' & Htf2' & Hstrip & Hlen).
    assert (tf1' = tf1) by congruence. assert (tf2' = tf2) by congruence.
    subst. auto.
  - intros hash1 hash2 Hpic Hh1 Hh2.
    rewrite (bool_decide_eq_true_2 _ Hpic) in Hpicture.
    apply (compare_picture_shape_accepts shape1 shape2 log result1);
      [rewrite Hpicture; reflexivity|assumption..].
Qed.

Lemma match_shapes_pairing (bullets1 bullets2 : option (list bullet))
    (test_shapes golden_shapes : list Shape) :
  forall (used : gset Z) (log : list string) (used' : gset Z) (log' : list string),
    match_shapes bullets1 bullets2 test_shapes golden_shapes used log
    = (Some (Some used'), log') ->
    exists pairing : list nat,
      NoDup pairing
      /\ (forall k, k ∈ pairing -> Z.of_nat k ∉ used)
      /\ Forall2 (fun test_shape k =>
                    exists golden_shape,
                      golden_shapes !! k = Some golden_shape
                      /\ shapes_agree test_shape golden_shape)
                 test_shapes pairing.
Proof.
  induction test_shapes as [|t rest IH]; intros used log used' log'; simpl.
  - intros _. exists []. split; [constructor|]. split; [|constructor].
    intros k Hk. apply elem_of_nil in Hk. destruct Hk.
  - destruct (find_matching_shape t golden_shapes used) as [[g|] idx] eqn:Hfind.
    2:{ intros H. discriminate H. }
    destruct (find_matching_shape_some _ _ _ _ _ Hfind)
      as (k & sc & -> & Hk & Hfresh & Hscore).
    unfold bind at 1.
    destruct (compare_matched_shapes bullets1 bullets2 t g log) as [[[|]|] log1]
      eqn:Hcmp; try discriminate.
    intros Hrest. destruct (IH _ _ _ _ Hrest) as (pairing & Hnodup & Hunused & Hall).
    exists (k :: pairing). split; [|split].
    + constructor; [|exact Hnodup]. intros Hin. apply (Hunused k Hin).
      apply elem_of_union. left. apply elem_of_singleton. reflexivity.
    + intros k' Hk'. apply elem_of_cons in Hk' as [->|Hk']; [exact Hfresh|].
      intros Hin. apply (Hunused k' Hk'). apply elem_of_union. right. exact Hin.
    + constructor; [|exact Hall]. exists g. split; [exact Hk|].
      apply (compare_matched_shapes_accepts bullets1 bullets2 t g log);
        [rewrite Hcmp; reflexivity|].
      intros Hnone. apply candidate_score_none in Hnone. congruence.
Qed.

Lemma compare_slides_accepts (slide1 slide2 : Slide) (log : list string) :
  (compare_slides (slide1, slide2) log).1 = Some true -> slides_agree slide1 slide2.
Proof.
  unfold compare_slides. cbv zeta. intros Hres.
  apply bind_lift_inv in Hres as (background1 & Hb1 & Hres).
  apply bind_lift_inv in Hres as (background2 & Hb2 & Hres).
  destruct (decide (background1 = background2)) as [Hb|Hb];
    [rewrite (bool_decide_eq_true_2 _ Hb) in Hres
    |rewrite (bool_decide_eq_false_2 _ Hb) in Hres]; cbn [negb] in Hres;
    [|discriminate Hres].
  apply bind_lift_inv in Hres as (notes1 & Hn1 & Hres).
  apply bind_lift_inv in Hres as (notes2 & Hn2 & Hres).
  destruct (decide (notes1 = notes2)) as [Hn|Hn];
    [rewrite (bool_decide_eq_true_2 _ Hn) in Hres
    |rewrite (bool_decide_eq_false_2 _ Hn) in Hres]; cbn [negb] in Hres;
    [|discriminate Hres].
  apply fmap_Some in Hn1 as (text1 & Hn1 & ->).
  apply fmap_Some in Hn2 as (text2 & Hn2 & Hn2').
  destruct (decide (length (slide_shapes slide1) = length (slide_shapes slide2)))
    as [Hlen|Hlen];
    [rewrite (bool_decide_eq_true_2 _ Hlen) in Hres
    |rewrite (bool_decide_eq_false_2 _ Hlen) in Hres]; cbn [negb] in Hres;
    [|discriminate Hres].
  apply bind_returns_inv in Hres as ([used|] & log1 & Hmatch & Hres);
    [|discriminate Hres].
  destruct (bool_decide (size used = length (slide_shapes slide2)));
    cbn [negb] in Hres; [|discriminate Hres].
  destruct (decide (length (get_all_text_shapes slide1)
                    = length (get_all_text_shapes slide2))) as [Ht|Ht];
    [rewrite (bool_decide_eq_true_2 _ Ht) in Hres
    |rewrite (bool_decide_eq_false_2 _ Ht) in Hres]; cbn [negb] in Hres;
    [|discriminate Hres].
  destruct (match_shapes_pairing _ _ _ _ _ _ _ _ Hmatch)
    as (pairing & Hnodup & _ & Hall).
  split; [exists background1; subst; auto|].
  split; [exists text1, text2; subst; auto|]. split; [exact Ht|].
  exists pairing. split; [exact Hnodup|]. split; [|exact Hall].
  apply Forall2_length in Hall. congruence.
Qed.

Lemma Forall2_zip {A B} (P : A -> B -> Prop) (l1 : list A) :
  forall l2 : list B,
    length l1 = length l2 ->
    (forall x y, (x, y) ∈ zip l1 l2 -> P x y) ->
    Forall2 P l1 l2.
Proof.
  induction l1 as [|x l1 IH]; intros [|y l2] Hlen Hall; try discriminate Hlen.
  - constructor.
  - constructor.
    + apply Hall. simpl. left.
    + apply IH; [simpl in Hlen; lia|]. intros x' y' Hin. apply Hall. simpl. right.
      exact Hin.
Qed.

(** X3. What the result 1 guarantees: the presentations have the same
    number of slides and, slide by slide, the same background colour, the
    same notes up to surrounding whitespace, the same number of text
    shapes, and a one-to-one pairing of the test shapes with the golden
    shapes in which the paired shapes have compatible types, left, top,
    width and height within the tolerance, equal stripped texts and
    paragraph counts when both have a text frame, and equal image hashes
    when the test shape is a picture and both hashes can be read. *)
Theorem compare_pptx_files_match (prs1 prs2 : Presentation) (log : list string)
    (Hmatch : (compare_pptx_files prs1 prs2 log).1 = Some 1) :
  Forall2 slides_agree prs1 prs2.
Proof.
  unfold compare_pptx_files in Hmatch.
  destruct (decide (length prs1 = length prs2)) as [Hlen|Hlen];
    [rewrite (bool_decide_eq_true_2 _ Hlen) in Hmatch
    |rewrite (bool_decide_eq_false_2 _ Hlen) in Hmatch]; cbn [negb] in Hmatch;
    [|discriminate Hmatch].
  apply bind_returns_inv in Hmatch as ([|] & log1 & Hloop & Hres);
    [|discriminate Hres].
  apply Forall2_zip; [exact Hlen|].
  intros slide1 slide2 Hin.
  destruct (for_each_true_inv compare_slides (zip prs1 prs2) []
              ltac:(rewrite Hloop; reflexivity) _ Hin) as (log2 & Hslide).
  exact (compare_slides_accepts slide1 slide2 log2 Hslide).
Qed.

Lemma compare_pptx_files_match_witness :
  Forall2 slides_agree ImpressSamples.deck ImpressSamples.deck.
Proof.
  apply (compare_pptx_files_match ImpressSamples.deck ImpressSamples.deck []).
  vm_compute. reflexivity.
Defined.

End MatchFacts.
Module SymmetryFacts.
Import Py Impress BasicFacts MatcherFacts ComparatorFacts DecideFacts.
Local Open Scope M_scope.

Lemma is_approximately_equal_comm (a b : Z) (tolerance : spec_float) :
  is_approximately_equal a b tolerance = is_approximately_equal b a tolerance.
Proof.
  unfold is_approximately_equal.
  rewrite (bool_decide_eq_sym a b), (Z.max_comm (Z.abs a)),
    (andb_comm (bool_decide (a = 0))), (orb_comm (bool_decide (a = 0))).
  replace (Z.abs (a - b)) with (Z.abs (b - a)) by lia. reflexivity.
Qed.

Lemma either_differs_comm (a1 b1 a2 b2 : Z) :
  either_differs a1 b1 a2 b2 = either_differs b1 a1 b2 a2.
Proof.
  unfold either_differs.
  rewrite (is_approximately_equal_comm a1), (is_approximately_equal_comm a2).
  reflexivity.
Qed.

Lemma fonts_effectively_equal_comm (v1 v2 : option bool) (t : bool) :
  fonts_effectively_equal v1 v2 t = fonts_effectively_equal v2 v1 t.
Proof. destruct v1 as [[|]|], v2 as [[|]|], t; reflexivity. Qed.

Lemma underline_differs_comm (u1 u2 : option underline_value) :
  underline_differs u1 u2 = underline_differs u2 u1.
Proof.
  destruct u1 as [u1|], u2 as [u2|]; simpl; try reflexivity.
  rewrite Z.eqb_sym. reflexivity.
Qed.

Lemma compare_bullets_comm (bullets1 : list bullet) :
  forall bullets2, compare_bullets bullets1 bullets2 = compare_bullets bullets2 bullets1.
Proof.
  unfold compare_bullets. intros bullets2.
  rewrite (bool_decide_eq_sym (length bullets1)).
  destruct (bool_decide (length bullets2 = length bullets1)); cbn [negb]; [|reflexivity].
  revert bullets2.
  induction bullets1 as [|[[[lvl1 char1] text1] color1] bullets1 IH];
    intros [|[[[lvl2 char2] text2] color2] bullets2]; try reflexivity.
  cbn [zip zip_with forallb]. rewrite IH.
  rewrite (bool_decide_eq_sym text1), (bool_decide_eq_sym char1),
    (bool_decide_eq_sym (default "0" lvl1)). reflexivity.
Qed.

Lemma for_each_swap {A} (body : A * A -> M bool) (l1 : list A) :
  (forall x y, body (x, y) = body (y, x)) ->
  forall l2, for_each body (zip l1 l2) = for_each body (zip l2 l1).
Proof.
  intros Hbody. induction l1 as [|x l1 IH]; intros [|y l2]; try reflexivity.
  cbn [zip zip_with for_each]. rewrite Hbody, IH. reflexivity.
Qed.

Lemma colors_differ_comm (rgb1 rgb2 : option RGBColor) :
  match rgb1, rgb2 with
  | Some rgb1, Some rgb2 => negb (bool_decide (rgb1 = rgb2))
  | _, _ => false
  end
  = match rgb2, rgb1 with
    | Some rgb1, Some rgb2 => negb (bool_decide (rgb1 = rgb2))
    | _, _ => false
    end.
Proof.
  destruct rgb1 as [c1|], rgb2 as [c2|]; try reflexivity.
  rewrite (bool_decide_eq_sym c1). reflexivity.
Qed.

Lemma compare_table_run_comm (run1 run2 : Run) :
  compare_table_run run1 run2 = compare_table_run run2 run1.
Proof.
  unfold compare_table_run. cbv zeta.
  rewrite (fonts_effectively_equal_comm (bold (font run1))),
    (fonts_effectively_equal_comm (italic (font run1))),
    (underline_differs_comm (underline (font run1))),
    (andb_comm (bool_decide (underline (font run1) = None))),
    (xorb_comm (bool_decide (underline (font run1) = None))),
    (xorb_comm (bool_decide (underline (font run1) = Some (U_bool true)))),
    (colors_differ_comm (rgb (color (font run1)))).
  reflexivity.
Qed.

Lemma compare_table_paragraph_comm (para1 para2 : Paragraph) :
  compare_table_paragraph (para1, para2) = compare_table_paragraph (para2, para1).
Proof.
  unfold compare_table_paragraph.
  rewrite (bool_decide_eq_sym (length (runs para1))).
  rewrite (for_each_swap (fun '(run1, run2) => compare_table_run run1 run2)
             (runs para1) compare_table_run_comm).
  reflexivity.
Qed.

Lemma compare_table_cell_comm (table1 table2 : Table) (pos : nat * nat) :
  compare_table_cell table1 table2 pos = compare_table_cell table2 table1 pos.
Proof.
  destruct pos as [row_idx col_idx]. unfold compare_table_cell.
  destruct (cell table1 row_idx col_idx) as [cell1|],
    (cell table2 row_idx col_idx) as [cell2|]; try reflexivity.
  cbv [lift bind ret].
  rewrite (bool_decide_eq_sym (normalize_cell_text (cell_text cell1))),
    (bool_decide_eq_sym (length (cell_paragraphs cell1))),
    (for_each_swap compare_table_paragraph (cell_paragraphs cell1)
       compare_table_paragraph_comm).
  reflexivity.
Qed.

Lemma for_each_ext {A} (body1 body2 : A -> M bool) (l : list A) :
  (forall x, body1 x = body2 x) -> for_each body1 l = for_each body2 l.
Proof.
  intros Hbody. induction l as [|x l IH]; [reflexivity|].
  cbn [for_each]. rewrite Hbody, IH. reflexivity.
Qed.

Lemma compare_table_shape_comm (shape1 shape2 : Shape) :
  compare_table_shape shape1 shape2 = compare_table_shape shape2 shape1.
Proof.
  unfold compare_table_shape.
  replace (Z.abs (shape_left shape1 - shape_left shape2))
    with (Z.abs (shape_left shape2 - shape_left shape1)) by lia.
  replace (Z.abs (shape_top shape1 - shape_top shape2))
    with (Z.abs (shape_top shape2 - shape_top shape1)) by lia.
  rewrite (either_differs_comm (shape_width shape1)).
  destruct (table shape1) as [table1|], (table shape2) as [table2|]; try reflexivity.
  cbv [lift bind ret].
  rewrite (bool_decide_eq_sym (rows table1)), (bool_decide_eq_sym (columns table1)).
  destruct (decide (rows table2 = rows table1)) as [Hr|Hr];
    [rewrite (bool_decide_eq_true_2 _ Hr)|rewrite (bool_decide_eq_false_2 _ Hr)];
    cbn [negb orb]; [|reflexivity].
  destruct (decide (columns table2 = columns table1)) as [Hc|Hc];
    [rewrite (bool_decide_eq_true_2 _ Hc)|rewrite (bool_decide_eq_false_2 _ Hc)];
    cbn [negb]; [|reflexivity].
  rewrite Hr, Hc.
  rewrite (for_each_ext (compare_table_cell table1 table2)
             (compare_table_cell table2 table1)
             _ (compare_table_cell_comm table1 table2)).
  reflexivity.
Qed.

Lemma compare_picture_shape_comm (shape1 shape2 : Shape) :
  compare_picture_shape shape1 shape2 = compare_picture_shape shape2 shape1.
Proof.
  unfold compare_picture_shape.
  rewrite (either_differs_comm (shape_left shape1)),
    (either_differs_comm (shape_width shape1)).
  assert (Himage :
    match image_md5 shape1, image_md5 shape2 with
    | Some hash1, Some hash2 =>
        if negb (bool_decide (hash1 = hash2))
        then mismatch "(PICTURE): Image content mismatch" false
        else ret true
    | _, _ => mismatch "(PICTURE): Image hash comparison failed" true
    end
    = match image_md5 shape2, image_md5 shape1 with
      | Some hash1, Some hash2 =>
          if negb (bool_decide (hash1 = hash2))
          then mismatch "(PICTURE): Image content mismatch" false
          else ret true
      | _, _ => mismatch "(PICTURE): Image hash comparison failed" true
      end).
  { destruct (image_md5 shape1) as [hash1|], (image_md5 shape2) as [hash2|];
      try reflexivity.
    rewrite (bool_decide_eq_sym hash1). reflexivity. }
  rewrite Himage. clear Himage.
  assert (Hline :
    match line shape1, line shape2 with
    | Some line1, Some line2 =>
        if negb (bool_decide (dash_style line1 = dash_style line2))
        then mismatch "(PICTURE): Border style mismatch" 0 else
        close ← lift (is_approximately_equal (default 0 (line_width line1))
                        (default 0 (line_width line2)) float_0_01);
        if negb close then mismatch "(PICTURE): Border width mismatch" 0 else
        match line_color line1, line_color line2 with
        | Some color1, Some color2 =>
            match rgb color1, rgb color2 with
            | Some rgb1, Some rgb2 =>
                if negb (bool_decide (rgb1 = rgb2))
                then mismatch "(PICTURE): Border color mismatch" 0
                else ret 1
            | _, _ =>
                if negb (bool_decide (color_type color1 = color_type color2))
                then mismatch "(PICTURE): Border color type mismatch" 0
                else ret 1
            end
        | _, _ => ret 1
        end
    | _, _ => ret 1
    end
    = match line shape2, line shape1 with
      | Some line1, Some line2 =>
          if negb (bool_decide (dash_style line1 = dash_style line2))
          then mismatch "(PICTURE): Border style mismatch" 0 else
          close ← lift (is_approximately_equal (default 0 (line_width line1))
                          (default 0 (line_width line2)) float_0_01);
          if negb close then mismatch "(PICTURE): Border width mismatch" 0 else
          match line_color line1, line_color line2 with
          | Some color1, Some color2 =>
              match rgb color1, rgb color2 with
              | Some rgb1, Some rgb2 =>
                  if negb (bool_decide (rgb1 = rgb2))
                  then mismatch "(PICTURE): Border color mismatch" 0
                  else ret 1
              | _, _ =>
                  if negb (bool_decide (color_type color1 = color_type color2))
                  then mismatch "(PICTURE): Border color type mismatch" 0
                  else ret 1
              end
          | _, _ => ret 1
          end
      | _, _ => ret 1
      end).
  { destruct (line shape1) as [line1|], (line shape2) as [line2|]; try reflexivity.
    rewrite (bool_decide_eq_sym (dash_style line1)),
      (is_approximately_equal_comm (default 0 (line_width line1))).
    destruct (line_color line1) as [color1|], (line_color line2) as [color2|];
      try reflexivity.
    rewrite (bool_decide_eq_sym (color_type color1)).
    destruct (rgb color1) as [rgb1|], (rgb color2) as [rgb2|]; try reflexivity.
    rewrite (bool_decide_eq_sym rgb1). reflexivity. }
  rewrite Hline. reflexivity.
Qed.

Lemma compare_shape_geometry_comm (shape1 shape2 : Shape) :
  compare_shape_geometry shape1 shape2 = compare_shape_geometry shape2 shape1.
Proof.
  unfold compare_shape_geometry.
  rewrite (either_differs_comm (shape_left shape1)),
    (either_differs_comm (shape_width shape1)). reflexivity.
Qed.

Lemma for_each_exchange {A} (body1 body2 : A * A -> M bool) (l1 : list A) :
  (forall x y, body1 (x, y) = body2 (y, x)) ->
  forall l2, for_each body1 (zip l1 l2) = for_each body2 (zip l2 l1).
Proof.
  intros Hbody. induction l1 as [|x l1 IH]; intros [|y l2]; try reflexivity.
  cbn [zip zip_with for_each]. rewrite Hbody, IH. reflexivity.
Qed.

Lemma compare_text_run_comm (bullets1 bullets2 : option (list bullet))
    (run1 run2 : Run) :
  compare_text_run bullets1 bullets2 run1 run2
  = compare_text_run bullets2 bullets1 run2 run1.
Proof.
  unfold compare_text_run. cbv zeta.
  assert (Hbullets :
    match bullets1, bullets2 with
    | Some bullets1, Some bullets2 =>
        if negb (compare_bullets bullets1 bullets2)
        then mismatch "Bullets mismatch" false
        else ret true
    | _, _ => ret true
    end
    = match bullets2, bullets1 with
      | Some bullets1, Some bullets2 =>
          if negb (compare_bullets bullets1 bullets2)
          then mismatch "Bullets mismatch" false
          else ret true
      | _, _ => ret true
      end).
  { destruct bullets1 as [bullets1|], bullets2 as [bullets2|]; try reflexivity.
    rewrite (compare_bullets_comm bullets1). reflexivity. }
  rewrite Hbullets. clear Hbullets.
  rewrite (bool_decide_eq_sym (font_name (font run1))),
    (bool_decide_eq_sym (font_size (font run1))),
    (fonts_effectively_equal_comm (bold (font run1))),
    (fonts_effectively_equal_comm (italic (font run1))),
    (colors_differ_comm (rgb (color (font run1)))),
    (underline_differs_comm (underline (font run1))),
    (bool_decide_eq_sym (default "noStrike" (strike (font run1)))).
  assert (Hu1 : forall d a b : bool, d && negb a && negb b = d && negb b && negb a)
    by (intros [|] [|] [|]; reflexivity).
  assert (Hu2 : forall a b c d : bool, a && b || c && d = d && c || b && a)
    by (intros [|] [|] [|] [|]; reflexivity).
  rewrite (Hu1 _ (bool_decide (underline (font run1) = None))),
    (Hu2 (bool_decide (underline (font run1) = None))).
  reflexivity.
Qed.

Lemma compare_text_paragraph_comm (bullets1 bullets2 : option (list bullet))
    (para1 para2 : Paragraph) :
  compare_text_paragraph bullets1 bullets2 (para1, para2)
  = compare_text_paragraph bullets2 bullets1 (para2, para1).
Proof.
  unfold compare_text_paragraph. cbv zeta.
  rewrite (bool_decide_eq_sym (normalize_alignment (alignment para1))),
    (bool_decide_eq_sym (para_text para1)), (bool_decide_eq_sym (level para1)),
    (bool_decide_eq_sym (length (runs para1))),
    (for_each_exchange
       (fun '(run1, run2) => compare_text_run bullets1 bullets2 run1 run2)
       (fun '(run1, run2) => compare_text_run bullets2 bullets1 run1 run2)
       (runs para1) (compare_text_run_comm bullets1 bullets2)).
  reflexivity.
Qed.

Lemma compare_text_shape_comm (bullets1 bullets2 : option (list bullet))
    (shape1 shape2 : Shape) :
  compare_text_shape bullets1 bullets2 shape1 shape2
  = compare_text_shape bullets2 bullets1 shape2 shape1.
Proof.
  unfold compare_text_shape.
  destruct (text_frame shape1) as [tf1|], (text_frame shape2) as [tf2|];
    try reflexivity.
  cbv [lift bind ret].
  rewrite (bool_decide_eq_sym (strip (text tf1))),
    (bool_decide_eq_sym (length (paragraphs tf1))),
    (for_each_exchange (compare_text_paragraph bullets1 bullets2)
       (compare_text_paragraph bullets2 bullets1) (paragraphs tf1)
       (compare_text_paragraph_comm bullets1 bullets2)).
  reflexivity.
Qed.

Lemma type_score_picture (type1 type2 : MSO_SHAPE_TYPE) :
  type_score type1 type2 <> None ->
  bool_decide (type1 = PICTURE) = bool_decide (type2 = PICTURE)
  /\ bool_decide (type1 = TABLE) = bool_decide (type2 = TABLE).
Proof. destruct type1, type2; vm_compute; intros H; try (split; reflexivity); congruence. Qed.

Lemma compare_matched_shapes_comm (bullets1 bullets2 : option (list bullet))
    (shape1 shape2 : Shape) :
  type_score (shape_type shape1) (shape_type shape2) <> None ->
  compare_matched_shapes bullets1 bullets2 shape1 shape2
  = compare_matched_shapes bullets2 bullets1 shape2 shape1.
Proof.
  intros Htype. apply type_score_picture in Htype as [Hp Ht].
  unfold compare_matched_shapes.
  rewrite Hp, Ht, (compare_picture_shape_comm shape1),
    (compare_table_shape_comm shape1), (compare_shape_geometry_comm shape1),
    (compare_text_shape_comm bullets1 bullets2 shape1).
  destruct (text_frame shape1), (text_frame shape2); reflexivity.
Qed.

(** X6. On a pair of shapes that the matcher can pair, the comparison of
    the pair gives the same verdict in both directions: with the shape
    of the golden slide as the test shape and the shape of the test
    slide as the golden shape, whatever [extract_bullets] lists for the
    parts of the two slides. *)
Theorem compare_matched_shapes_symmetric (bullets1 bullets2 : option (list bullet))
    (shape1 shape2 : Shape) (log : list string)
    (Htype : type_score (shape_type shape1) (shape_type shape2) <> None) :
  (compare_matched_shapes bullets1 bullets2 shape1 shape2 log).1
  = (compare_matched_shapes bullets2 bullets1 shape2 shape1 log).1.
Proof.
  rewrite (compare_matched_shapes_comm bullets1 bullets2 shape1 shape2 Htype).
  reflexivity.
Qed.

Lemma compare_matched_shapes_symmetric_witness :
  (compare_matched_shapes None None (ImpressSamples.picture "a" 0 0)
     (ImpressSamples.picture "b" 0 0) []).1
  = (compare_matched_shapes None None (ImpressSamples.picture "b" 0 0)
       (ImpressSamples.picture "a" 0 0) []).1.
Proof.
  apply (compare_matched_shapes_symmetric None None (ImpressSamples.picture "a" 0 0)
           (ImpressSamples.picture "b" 0 0) []).
  vm_compute. discriminate.
Defined.

End SymmetryFacts.
Module BestFacts.
Import Py Impress Rounding BasicFacts RoundingFacts ToleranceFacts MatcherFacts
  ComparatorFacts ImpressNotions.

Lemma candidate_score_upper (target_shape candidate : Shape) (sc : Z) :
  candidate_score target_shape candidate = Some sc -> sc <= 220.
Proof.
  rewrite candidate_score_type.
  destruct (type_score _ _) as [ts|] eqn:Hts;
    cbn -[get_shape_signature position_score text_score hash_score];
    [|discriminate].
  intros Heq. apply (inj Some) in Heq. subst sc.
  pose proof (type_score_range _ _ _ Hts).
  pose proof (text_score_range (get_shape_signature target_shape).1.2
                (get_shape_signature candidate).1.2).
  pose proof (hash_score_range (get_shape_signature target_shape).2
                (get_shape_signature candidate).2).
  pose proof (position_score_range target_shape candidate). lia.
Qed.

(** X8. The shape [find_matching_shape] returns is the first of the
    unused candidates with the highest score: it stands in the list at
    the returned index, the index is unused, its score is between 5 and
    220, no unused candidate scores higher and every unused candidate
    before it scores lower. *)
Theorem find_matching_shape_best (target_shape : Shape) (candidate_shapes : list Shape)
    (used_indices : gset Z) (best_match : Shape) (best_match_idx : Z)
    (Hfound : find_matching_shape target_shape candidate_shapes used_indices
              = (Some best_match, best_match_idx)) :
  exists (k : nat) (best_score : Z),
    best_match_idx = Z.of_nat k
    /\ candidate_shapes !! k = Some best_match
    /\ (best_match_idx ∉ used_indices)
    /\ candidate_score target_shape best_match = Some best_score
    /\ 5 <= best_score <= 220
    /\ forall (k' : nat) (candidate : Shape) (score : Z),
         candidate_shapes !! k' = Some candidate ->
         Z.of_nat k' ∉ used_indices ->
         candidate_score target_shape candidate = Some score ->
         score <= best_score /\ ((k' < k)%nat -> score < best_score).
Proof.
  destruct (find_matching_shape_cases target_shape candidate_shapes used_indices)
    as [[Hnone _]|(k & c & sc & Hk & Hfresh & Hscore & Hsome & Hbest)];
    [congruence|].
  rewrite Hsome in Hfound. injection Hfound as -> <-.
  exists k, sc. repeat split; try assumption.
  - exact (candidate_score_lower _ _ _ Hscore).
  - exact (candidate_score_upper _ _ _ Hscore).
  - apply (Hbest k' candidate score); assumption.
  - apply (Hbest k' candidate score); assumption.
Qed.

Lemma type_score_exact (target_type cand_type : MSO_SHAPE_TYPE) :
  type_score target_type cand_type = Some 10 -> target_type = cand_type.
Proof.
  unfold type_score. case_bool_decide as Heq; [intros _; exact Heq|].
  destruct (_ && _); discriminate.
Qed.

Lemma text_score_exact (target_text cand_text : string) :
  text_score target_text target_text <= text_score target_text cand_text ->
  target_text = cand_text.
Proof.
  unfold text_score. rewrite (bool_decide_eq_true_2 (target_text = target_text)) by reflexivity.
  destruct target_text as [|a t], cand_text as [|b c]; cbn [truthy andb negb];
    try reflexivity; try lia.
  case_bool_decide as Heq; [intros _; exact Heq|]. destruct (_ || _); lia.
Qed.

Lemma hash_score_exact (target_hash cand_hash : string) :
  truthy target_hash = true ->
  hash_score target_hash target_hash <= hash_score target_hash cand_hash ->
  target_hash = cand_hash.
Proof.
  unfold hash_score. intros ->.
  rewrite (bool_decide_eq_true_2 (target_hash = target_hash)) by reflexivity.
  cbn [andb]. destruct (truthy cand_hash); [|lia].
  case_bool_decide as Heq; [intros _; exact Heq|lia].
Qed.

Lemma text_score_self (target_text cand_text : string) :
  text_score target_text cand_text <= text_score target_text target_text.
Proof.
  unfold text_score. rewrite (bool_decide_eq_true_2 (target_text = target_text)) by reflexivity.
  destruct (truthy target_text), (truthy cand_text); simpl; repeat case_match; lia.
Qed.

Lemma hash_score_self (target_hash cand_hash : string) :
  hash_score target_hash cand_hash <= hash_score target_hash target_hash.
Proof.
  unfold hash_score. rewrite (bool_decide_eq_true_2 (target_hash = target_hash)) by reflexivity.
  destruct (truthy target_hash), (truthy cand_hash); simpl; repeat case_match; lia.
Qed.

Lemma position_score_self (shape : Shape) : position_score shape shape = 10.
Proof. unfold position_score. rewrite !Z.sub_diag. reflexivity. Qed.

Lemma position_score_near (target_shape candidate : Shape) :
  position_score target_shape candidate = 10 ->
  Z.abs (shape_left target_shape - shape_left candidate)
  + Z.abs (shape_top target_shape - shape_top candidate) < 100000.
Proof.
  unfold position_score. cbv zeta.
  destruct (Z.ltb_spec (Z.abs (shape_left target_shape - shape_left candidate)
                        + Z.abs (shape_top target_shape - shape_top candidate)) 100000);
    [intros _; assumption|].
  destruct (_ <? 500000); discriminate.
Qed.

(** X9. An unused copy of the target among the candidates is never passed
    over for a worse candidate: the shape returned stands at or before
    the copy, scores as the copy does, has the type and the signature
    text of the target, its image hash when the target has one, and lies
    within 100000 units of it. *)
Theorem find_matching_shape_prefers_copy (target_shape : Shape)
    (candidate_shapes : list Shape) (used_indices : gset Z) (i : nat)
    (Hcopy : candidate_shapes !! i = Some target_shape)
    (Hunused : Z.of_nat i ∉ used_indices) :
  exists (best_match : Shape) (k : nat),
    find_matching_shape target_shape candidate_shapes used_indices
    = (Some best_match, Z.of_nat k)
    /\ candidate_shapes !! k = Some best_match
    /\ (k <= i)%nat
    /\ candidate_score target_shape best_match
       = candidate_score target_shape target_shape
    /\ shape_type best_match = shape_type target_shape
    /\ (get_shape_signature best_match).1.2 = (get_shape_signature target_shape).1.2
    /\ (truthy (get_shape_signature target_shape).2 = true ->
        (get_shape_signature best_match).2 = (get_shape_signature target_shape).2)
    /\ Z.abs (shape_left target_shape - shape_left best_match)
       + Z.abs (shape_top target_shape - shape_top best_match) < 100000.
Proof.
  destruct (candidate_score_self target_shape) as (self & Hself & Hmax).
  destruct (find_matching_shape_cases target_shape candidate_shapes used_indices)
    as [[_ Hnone]|(k & c & sc & Hk & Hfresh & Hscore & Hsome & Hbest)].
  { destruct (Hnone i target_shape Hcopy) as [Hin|Hno]; [contradiction|congruence]. }
  destruct (Hbest i target_shape self Hcopy Hunused Hself) as [Hle Hlt].
  pose proof (Hmax c sc Hscore) as Hge.
  assert (sc = self) by lia. subst sc.
  assert (Hki : (k <= i)%nat).
  { destruct (Nat.le_gt_cases k i) as [Hok|Hgt]; [exact Hok|]. specialize (Hlt Hgt). lia. }
  exists c, k. split; [exact Hsome|]. split; [exact Hk|]. split; [exact Hki|].
  split; [congruence|].
  rewrite candidate_score_type in Hscore, Hself.
  assert (Hty : type_score (shape_type target_shape) (shape_type target_shape) = Some 10).
  { unfold type_score. rewrite bool_decide_eq_true_2; reflexivity. }
  rewrite Hty in Hself.
  destruct (type_score (shape_type target_shape) (shape_type c)) as [ts|] eqn:Hts;
    [|discriminate Hscore].
  cbn -[get_shape_signature position_score text_score hash_score] in Hscore, Hself.
  apply (inj Some) in Hscore, Hself.
  pose proof (type_score_range _ _ _ Hts) as Hr.
  pose proof (text_score_self (get_shape_signature target_shape).1.2
                (get_shape_signature c).1.2) as Htx.
  pose proof (hash_score_self (get_shape_signature target_shape).2
                (get_shape_signature c).2) as Hhs.
  pose proof (position_score_range target_shape c) as Hps.
  rewrite position_score_self in Hself.
  assert (ts = 10) by lia. subst ts.
  split; [symmetry; apply type_score_exact, Hts|].
  split; [symmetry; apply text_score_exact; lia|].
  split; [intros Hh; symmetry; apply hash_score_exact; [exact Hh|lia]|].
  apply position_score_near. lia.
Qed.

Lemma compare_bullets_loop (bullets1 : list bullet) :
  forall bullets2,
    length bullets1 = length bullets2 ->
    forallb
      (fun '((lvl1, char1, text1, _), (lvl2, char2, text2, _)) =>
         if negb (bool_decide (text1 = text2)) || negb (bool_decide (char1 = char2))
         then false
         else bool_decide (default "0" lvl1 = default "0" lvl2))
      (zip bullets1 bullets2)
    = bool_decide (map bullet_key bullets1 = map bullet_key bullets2).
Proof.
  induction bullets1 as [|[[[lvl1 char1] text1] color1] bullets1 IH];
    intros [|[[[lvl2 char2] text2] color2] bullets2] Hlen; try discriminate Hlen.
  - reflexivity.
  - cbn [zip zip_with forallb map bullet_key].
    rewrite (IH bullets2) by (simpl in Hlen; lia).
    destruct (decide (text1 = text2)) as [->|Ht];
      [rewrite bool_decide_refl
      |rewrite (bool_decide_eq_false_2 _ Ht); cbn;
       symmetry; apply bool_decide_eq_false_2; congruence].
    destruct (decide (char1 = char2)) as [->|Hc];
      [rewrite bool_decide_refl
      |rewrite (bool_decide_eq_false_2 _ Hc); cbn;
       symmetry; apply bool_decide_eq_false_2; congruence].
    cbn [negb orb].
    destruct (decide (default "0" lvl1 = default "0" lvl2)) as [Hl|Hl];
      [rewrite (bool_decide_eq_true_2 _ Hl), Hl
      |rewrite (bool_decide_eq_false_2 _ Hl); cbn;
       symmetry; apply bool_decide_eq_false_2; congruence].
    cbn [andb]. apply bool_decide_ext. split; congruence.
Qed.

(** X11. [compare_bullets] accepts two lists of bullets exactly when they
    have the same levels, characters and texts in the same order, where a
    missing level counts as level '0'; the colours are not compared. *)
Theorem compare_bullets_keys (bullets1 bullets2 : list bullet) :
  compare_bullets bullets1 bullets2
  = bool_decide (map bullet_key bullets1 = map bullet_key bullets2).
Proof.
  unfold compare_bullets.
  destruct (decide (length bullets1 = length bullets2)) as [Hlen|Hlen];
    [rewrite (bool_decide_eq_true_2 _ Hlen)|rewrite (bool_decide_eq_false_2 _ Hlen)];
    cbn [negb].
  - apply compare_bullets_loop, Hlen.
  - symmetry. apply bool_decide_eq_false_2. intros Heq.
    apply (f_equal length) in Heq. rewrite !length_map in Heq. contradiction.
Qed.

(** X10. The tolerance has no gaps: when a and c compare equal, every
    value between them compares equal to both. *)
Theorem is_approximately_equal_between (a b c : Z)
    (Hab : a <= b) (Hbc : b <= c)
    (Hclose : is_approximately_equal a c float_0_005 = Some true) :
  is_approximately_equal a b float_0_005 = Some true
  /\ is_approximately_equal b c float_0_005 = Some true.
Proof.
  rewrite is_approximately_equal_0_005 in Hclose.
  rewrite !is_approximately_equal_0_005.
  unfold threshold_den, threshold_num in *.
  apply (inj Some) in Hclose.
  destruct (Z.leb_spec (Z.abs (a - c)) 1000) as [Hsmall|Hlarge].
  { rewrite !(proj2 (Z.leb_le _ _)) by lia. split; reflexivity. }
  destruct (bool_decide (a = 0) || bool_decide (c = 0)) eqn:Hz; [discriminate|].
  apply orb_false_elim in Hz as [Ha Hc]. apply bool_decide_eq_false_1 in Ha, Hc.
  apply Z.ltb_lt in Hclose.
  assert (Hsign : 0 < a \/ c < 0) by lia.
  split.
  - destruct (Z.leb_spec (Z.abs (a - b)) 1000); [reflexivity|].
    rewrite (bool_decide_eq_false_2 (a = 0)), (bool_decide_eq_false_2 (b = 0)) by lia.
    cbn [orb]. f_equal. apply Z.ltb_lt. lia.
  - destruct (Z.leb_spec (Z.abs (b - c)) 1000); [reflexivity|].
    rewrite (bool_decide_eq_false_2 (b = 0)), (bool_decide_eq_false_2 (c = 0)) by lia.
    cbn [orb]. f_equal. apply Z.ltb_lt. lia.
Qed.

Lemma extract_from_shape_head (shape : Shape) :
  exists children,
    _extract_from_shape shape
    = ((if has_text_frame shape then [shape] else []) ++ children)%list
    /\ (shape_type shape <> GROUP -> children = []).
Proof.
  destruct shape as [ty px py w h tf img tbl ln children].
  exists (if bool_decide (ty = GROUP)
          then flat_map _extract_from_shape children else []).
  split.
  - unfold has_text_frame. simpl. destruct tf; reflexivity.
  - simpl. intros Hty. rewrite (bool_decide_eq_false_2 _ Hty). reflexivity.
Qed.

(** X12. [get_all_text_shapes] returns only shapes with a text frame; the
    top-level shapes with a text frame are all in the result, in their
    order; and on a slide without group shapes they are the whole result. *)
Theorem get_all_text_shapes_top_level (slide : Slide) :
  Forall (fun shape => has_text_frame shape = true) (get_all_text_shapes slide)
  /\ List.filter has_text_frame (slide_shapes slide)
       `sublist_of` get_all_text_shapes slide
  /\ (Forall (fun shape => shape_type shape <> GROUP) (slide_shapes slide) ->
      get_all_text_shapes slide = List.filter has_text_frame (slide_shapes slide)).
Proof.
  split; [|split].
  - apply Forall_forall. intros x Hx.
    destruct (get_all_text_shapes_text_frame slide x Hx) as [tf Htf].
    unfold has_text_frame. rewrite Htf. reflexivity.
  - unfold get_all_text_shapes.
    induction (slide_shapes slide) as [|shape rest IH]; [constructor|].
    cbn [flat_map List.filter].
    destruct (extract_from_shape_head shape) as (children & -> & _).
    destruct (has_text_frame shape).
    + cbn [app]. constructor. apply sublist_inserts_l, IH.
    + cbn [app]. apply sublist_inserts_l, IH.
  - unfold get_all_text_shapes.
    induction (slide_shapes slide) as [|shape rest IH]; intros Hall; [reflexivity|].
    apply Forall_cons in Hall as [Hshape Hrest].
    cbn [flat_map List.filter].
    destruct (extract_from_shape_head shape) as (children & -> & Hnone).
    rewrite (Hnone Hshape), app_nil_r, (IH Hrest).
    destruct (has_text_frame shape); reflexivity.
Qed.

Lemma find_matching_shape_best_witness :
  exists (k : nat) (best_score : Z),
    1 = Z.of_nat k
    /\ [ImpressSamples.picture "a" 0 0; ImpressSamples.auto_shape "Title" 0 0;
        ImpressSamples.text_box "Title" 200000 0] !! k
       = Some (ImpressSamples.auto_shape "Title" 0 0)
    /\ (1 ∉ (∅ : gset Z))
    /\ candidate_score (ImpressSamples.text_box "Title" 0 0)
         (ImpressSamples.auto_shape "Title" 0 0) = Some best_score
    /\ 5 <= best_score <= 220
    /\ forall (k' : nat) (candidate : Shape) (score : Z),
         [ImpressSamples.picture "a" 0 0; ImpressSamples.auto_shape "Title" 0 0;
          ImpressSamples.text_box "Title" 200000 0] !! k' = Some candidate ->
         Z.of_nat k' ∉ (∅ : gset Z) ->
         candidate_score (ImpressSamples.text_box "Title" 0 0) candidate
         = Some score ->
         score <= best_score /\ ((k' < k)%nat -> score < best_score).
Proof.
  apply (find_matching_shape_best (ImpressSamples.text_box "Title" 0 0)
           [ImpressSamples.picture "a" 0 0; ImpressSamples.auto_shape "Title" 0 0;
            ImpressSamples.text_box "Title" 200000 0] ∅
           (ImpressSamples.auto_shape "Title" 0 0) 1).
  vm_compute. reflexivity.
Defined.

Lemma find_matching_shape_prefers_copy_witness :
  exists (best_match : Shape) (k : nat),
    find_matching_shape (ImpressSamples.text_box "Title" 0 0)
      [ImpressSamples.picture "a" 0 0; ImpressSamples.auto_shape "Title" 0 0;
       ImpressSamples.text_box "Title" 0 0] ∅
    = (Some best_match, Z.of_nat k)
    /\ [ImpressSamples.picture "a" 0 0; ImpressSamples.auto_shape "Title" 0 0;
        ImpressSamples.text_box "Title" 0 0] !! k = Some best_match
    /\ (k <= 2)%nat
    /\ candidate_score (ImpressSamples.text_box "Title" 0 0) best_match
       = candidate_score (ImpressSamples.text_box "Title" 0 0)
           (ImpressSamples.text_box "Title" 0 0)
    /\ shape_type best_match = shape_type (ImpressSamples.text_box "Title" 0 0)
    /\ (get_shape_signature best_match).1.2
       = (get_shape_signature (ImpressSamples.text_box "Title" 0 0)).1.2
    /\ (truthy (get_shape_signature (ImpressSamples.text_box "Title" 0 0)).2 = true ->
        (get_shape_signature best_match).2
        = (get_shape_signature (ImpressSamples.text_box "Title" 0 0)).2)
    /\ Z.abs (shape_left (ImpressSamples.text_box "Title" 0 0) - shape_left best_match)
       + Z.abs (shape_top (ImpressSamples.text_box "Title" 0 0) - shape_top best_match)
       < 100000.
Proof.
  apply (find_matching_shape_prefers_copy (ImpressSamples.text_box "Title" 0 0)
           [ImpressSamples.picture "a" 0 0; ImpressSamples.auto_shape "Title" 0 0;
            ImpressSamples.text_box "Title" 0 0] ∅ 2).
  - reflexivity.
  - apply not_elem_of_empty.
Defined.

Lemma is_approximately_equal_between_witness :
  is_approximately_equal 1000000 1002000 float_0_005 = Some true
  /\ is_approximately_equal 1002000 1005000 float_0_005 = Some true.
Proof.
  apply (is_approximately_equal_between 1000000 1002000 1005000).
  - lia.
  - lia.
  - vm_compute. reflexivity.
Defined.

End BestFacts.
Module GreedyFacts.
Import Py Impress BasicFacts MatcherFacts ComparatorFacts ImpressNotions LogFacts.
Local Open Scope M_scope.

Lemma type_score_class (type1 type2 : MSO_SHAPE_TYPE) :
  type_score type1 type2 <> None <-> type_class type1 = type_class type2.
Proof.
  destruct type1, type2; vm_compute; split; intros H;
    first [reflexivity | discriminate H | congruence | (exfalso; apply H; reflexivity)].
Qed.

Lemma compatible_class (test_shape golden_shape : Shape) :
  compatible test_shape golden_shape
  <-> type_class (shape_type test_shape) = type_class (shape_type golden_shape).
Proof. apply type_score_class. Qed.

Lemma Forall2_fmap_in {A} (P P' : A -> nat -> Prop) (g : nat -> nat)
    (l : list A) (k : list nat) :
  Forall2 P l k ->
  (forall x y, y ∈ k -> P x y -> P' x (g y)) ->
  Forall2 P' l (g <$> k).
Proof.
  induction 1 as [|x y l k Hxy Hrest IH]; intros Himp; [constructor|].
  rewrite fmap_cons. constructor.
  - apply Himp; [left|exact Hxy].
  - apply IH. intros x' y' Hin. apply Himp. right. exact Hin.
Qed.

(** The shape loop with an assignment of the remaining test shapes to
    distinct unused golden shapes of their class. *)
Lemma match_shapes_assigned (bullets1 bullets2 : option (list bullet))
    (golden_shapes : list Shape) (test_shapes : list Shape) :
  forall (used : gset Z) (log : list string) (assign : list nat),
    NoDup assign ->
    Forall2 (fun test_shape k =>
               (Z.of_nat k ∉ used)
               /\ exists golden_shape,
                    golden_shapes !! k = Some golden_shape
                    /\ compatible test_shape golden_shape)
            test_shapes assign ->
    attributes_at no_match_message (fun _ => false)
      (match_shapes bullets1 bullets2 test_shapes golden_shapes used) log.
Proof.
  induction test_shapes as [|t rest IH]; intros used log assign Hnodup Hassign;
    cbn [match_shapes].
  - apply at_ret. reflexivity.
  - apply Forall2_cons_inv_l in Hassign
      as (a0 & assign' & (Ha0 & g0 & Hg0 & Hc0) & Hrest & ->).
    apply NoDup_cons in Hnodup as [Hfresh0 Hnodup].
    destruct (find_matching_shape_cases t golden_shapes used)
      as [[_ Hnone]|(k & c & sc & Hk & Hfresh & Hscore & -> & _)].
    { destruct (Hnone a0 g0 Hg0) as [Hin|Hno]; [contradiction|].
      apply candidate_score_none in Hno. contradiction. }
    assert (Hc : compatible t c).
    { unfold compatible. intros Hno. apply candidate_score_none in Hno. congruence. }
    apply (at_bind _ negb);
      [apply compare_matched_shapes_attributes, no_match_matching|].
    intros [|] log1 _; [|apply at_ret; reflexivity].
    apply (at_weaken _ (fun _ => false)); [intros a Ha; discriminate Ha|].
    apply (IH _ _ ((fun x => if decide (x = k) then a0 else x) <$> assign')).
    + apply NoDup_fmap_2_strong; [|exact Hnodup].
      intros x y Hx Hy. repeat case_decide; intros Heq; subst; try congruence;
        contradiction.
    + apply (Forall2_fmap_in _ _ _ _ _ Hrest).
      intros r y Hy (Hunused & g & Hg & Hcomp).
      case_decide as Hyk.
      * subst y. split.
        -- intros Hin. apply elem_of_union in Hin as [Hin|Hin]; [|contradiction].
           apply elem_of_singleton in Hin. apply (inj Z.of_nat) in Hin. subst a0.
           contradiction.
        -- exists g0. split; [exact Hg0|].
           assert (g = c) by congruence. subst g.
           apply compatible_class. apply compatible_class in Hcomp, Hc, Hc0.
           congruence.
      * split.
        -- intros Hin. apply elem_of_union in Hin as [Hin|Hin]; [|contradiction].
           apply elem_of_singleton in Hin. apply (inj Z.of_nat) in Hin. contradiction.
        -- exists g. split; assumption.
Qed.

(** X7. The greedy pairing is never stuck on the types: when the golden
    shapes can be put in an order in which each one is type-compatible
    with the test shape at its place (in particular when they are the
    test shapes in another order), the shape loop never reports that no
    matching shape was found. *)
Theorem match_shapes_never_stuck (bullets1 bullets2 : option (list bullet))
    (test_shapes golden_shapes reordered : list Shape)
    (Hreordered : reordered ≡ₚ golden_shapes)
    (Hcompatible : Forall2 compatible test_shapes reordered) :
  no_match_message
  ∉ (match_shapes bullets1 bullets2 test_shapes golden_shapes ∅ []).2.
Proof.
  apply Permutation_inj in Hreordered as (Hlen & f & Hinj & Hf).
  destruct (match_shapes_assigned bullets1 bullets2 golden_shapes test_shapes ∅ []
              (f <$> seq 0 (length test_shapes))) as (messages & -> & Hnot & _).
  - apply NoDup_fmap_2; [exact Hinj|apply NoDup_seq].
  - apply Forall2_fmap_r. apply Forall2_same_length_lookup_2.
    + rewrite length_seq. reflexivity.
    + intros i t k Ht Hk. apply lookup_seq in Hk as [-> Hi]. simpl.
      split; [apply not_elem_of_empty|].
      destruct (Forall2_lookup_l _ _ _ _ _ Hcompatible Ht) as (g & Hg & Hc).
      exists g. split; [rewrite <- Hf; exact Hg|exact Hc].
  - exact Hnot.
Qed.

Lemma match_shapes_never_stuck_witness :
  Forall2 compatible
    [ImpressSamples.text_box "Title" 0 0; ImpressSamples.picture "a" 0 900000]
    [ImpressSamples.auto_shape "Title" 0 0; ImpressSamples.picture "b" 0 900000]
  /\ no_match_message
     ∉ (match_shapes (Some [ImpressSamples.plain_bullet "Title"])
          (Some [ImpressSamples.plain_bullet "Title"])
          [ImpressSamples.text_box "Title" 0 0; ImpressSamples.picture "a" 0 900000]
          [ImpressSamples.picture "b" 0 900000; ImpressSamples.auto_shape "Title" 0 0]
          ∅ []).2.
Proof.
  assert (Hcompatible :
    Forall2 compatible
      [ImpressSamples.text_box "Title" 0 0; ImpressSamples.picture "a" 0 900000]
      [ImpressSamples.auto_shape "Title" 0 0; ImpressSamples.picture "b" 0 900000]).
  { constructor; [vm_compute; discriminate|].
    constructor; [vm_compute; discriminate|constructor]. }
  split; [exact Hcompatible|].
  apply (match_shapes_never_stuck _ _ _ _
           [ImpressSamples.auto_shape "Title" 0 0; ImpressSamples.picture "b" 0 900000]).
  - apply perm_swap.
  - exact Hcompatible.
Defined.

End GreedyFacts.
Module ReorderFacts.
Import Py Impress BasicFacts MatcherFacts ComparatorFacts ImpressNotions LogFacts.
Local Open Scope M_scope.

Lemma find_matching_shape_copy (target_shape : Shape) (golden_shapes : list Shape)
    (used : gset Z) (i : nat) :
  golden_shapes !! i = Some target_shape ->
  Z.of_nat i ∉ used ->
  distinguishable golden_shapes ->
  find_matching_shape target_shape golden_shapes used
  = (Some target_shape, Z.of_nat i).
Proof.
  intros Hi Hunused Hdist.
  destruct (candidate_score_self target_shape) as (self & Hself & _).
  destruct (find_matching_shape_cases target_shape golden_shapes used)
    as [[_ Hnone]|(k & c & sc & Hk & Hfresh & Hscore & Hsome & Hbest)].
  { destruct (Hnone i target_shape Hi) as [Hin|Hno]; [contradiction|congruence]. }
  destruct (decide (i = k)) as [->|Hne].
  { rewrite Hsome. congruence. }
  pose proof (Hdist i k target_shape c Hi Hk Hne) as Hout.
  unfold outscored_by_copy in Hout. rewrite Hscore, Hself in Hout.
  apply Z.ltb_lt in Hout.
  destruct (Hbest i target_shape self Hi Hunused Hself) as [Hle _]. lia.
Qed.

Lemma returns_for_each_all {A} (body : A -> M bool) (verdict : A -> bool)
    (l : list A) :
  (forall x, x ∈ l -> returns (body x) (verdict x)) ->
  returns (for_each body l) (forallb verdict l).
Proof.
  induction l as [|x l IH]; intros Hall; simpl.
  - apply returns_ret.
  - eapply returns_bind; [apply Hall; left|].
    destruct (verdict x); simpl; [|apply returns_ret].
    apply IH. intros y Hy. apply Hall. right. exact Hy.
Qed.

Lemma forallb_zip_same {A} (verdict : A -> bool) (l : list A) :
  forallb (fun '(x, _) => verdict x) (zip l l) = forallb verdict l.
Proof. induction l as [|x l IH]; [reflexivity|]. simpl. rewrite IH. reflexivity. Qed.

Lemma forallb_or (A : Type) (has : A -> bool) (accepted : bool) (l : list A) :
  forallb (fun x => negb (has x) || accepted) l = negb (existsb has l) || accepted.
Proof.
  induction l as [|x l IH]; [reflexivity|]. simpl. rewrite IH.
  destruct (has x), (existsb has l), accepted; reflexivity.
Qed.

Section Copies.
Variables bullets1 bullets2 : option (list bullet).

(** The comparison of a shape with a copy of itself fails only on the
    bullets, and only if a run is compared. *)
Lemma compare_text_run_copy (r : Run) :
  returns (compare_text_run bullets1 bullets2 r r) (bullets_accepted bullets1 bullets2).
Proof.
  unfold compare_text_run. cbv zeta.
  assert (Hcolor : match rgb (color (font r)), rgb (color (font r)) with
                   | Some rgb1, Some rgb2 => negb (bool_decide (rgb1 = rgb2))
                   | _, _ => false
                   end = false).
  { destruct (rgb (color (font r))); [rewrite bool_decide_refl|]; reflexivity. }
  rewrite Hcolor, !fonts_effectively_equal_refl, !bool_decide_refl,
    !underline_differs_refl.
  cbn [negb andb]. unfold bullets_accepted.
  destruct bullets1 as [l1|], bullets2 as [l2|]; try apply returns_ret.
  destruct (compare_bullets l1 l2); [apply returns_ret|apply returns_mismatch].
Qed.

Lemma compare_text_paragraph_copy (p : Paragraph) :
  returns (compare_text_paragraph bullets1 bullets2 (p, p))
    (negb (negb (bool_decide (runs p = []))) || bullets_accepted bullets1 bullets2).
Proof.
  unfold compare_text_paragraph. cbv zeta. rewrite !bool_decide_refl. cbn [negb].
  assert (Hverdict :
    forallb (fun _ : Run * Run => bullets_accepted bullets1 bullets2)
      (zip (runs p) (runs p))
    = negb (negb (bool_decide (runs p = []))) || bullets_accepted bullets1 bullets2).
  { destruct (runs p) as [|r l]; [reflexivity|].
    rewrite (bool_decide_eq_false_2 (r :: l = [])) by discriminate. simpl.
    destruct (bullets_accepted bullets1 bullets2); [|reflexivity]. simpl.
    induction (zip l l) as [|x rest IH]; [reflexivity|exact IH]. }
  rewrite <- Hverdict. apply returns_for_each_all. intros [r1 r2] Hin.
  apply elem_of_zip_same in Hin as ->. apply compare_text_run_copy.
Qed.

Lemma compare_text_shape_copy (s : Shape) (tf : TextFrame) :
  text_frame s = Some tf ->
  returns (compare_text_shape bullets1 bullets2 s s)
    (if negb (shape_has_run s) || bullets_accepted bullets1 bullets2 then 1 else 0).
Proof.
  intros Htf. unfold compare_text_shape, shape_has_run. rewrite Htf.
  eapply returns_bind; [apply returns_lift; reflexivity|].
  eapply returns_bind; [apply returns_lift; reflexivity|].
  rewrite !bool_decide_refl. cbn [negb].
  rewrite <- forallb_or, <- forallb_zip_same.
  eapply returns_bind; [|apply returns_ret].
  apply returns_for_each_all. intros [p1 p2] Hin.
  apply elem_of_zip_same in Hin as ->. apply compare_text_paragraph_copy.
Qed.

Lemma compare_matched_shapes_copy (s : Shape) :
  well_formed_shape s = true ->
  returns (compare_matched_shapes bullets1 bullets2 s s)
    (negb (shape_has_run s) || bullets_accepted bullets1 bullets2).
Proof.
  intros Hwf. unfold compare_matched_shapes.
  eapply (returns_bind _ _ 1).
  { case_bool_decide; [apply compare_picture_shape_refl|apply returns_ret]. }
  change (bool_decide (1 = 0)) with false. cbv beta iota.
  eapply (returns_bind _ _ 1).
  { unfold well_formed_shape in Hwf. case_bool_decide; [|apply returns_ret].
    destruct (table s) as [t|] eqn:Ht; [|discriminate].
    eapply compare_table_shape_refl; eauto. }
  change (bool_decide (1 = 0)) with false. cbv beta iota.
  eapply returns_bind; [apply compare_shape_geometry_refl|]. cbn [negb].
  destruct (text_frame s) as [tf|] eqn:Htf.
  - eapply returns_bind; [eapply compare_text_shape_copy; exact Htf|].
    destruct (negb (shape_has_run s) || bullets_accepted bullets1 bullets2);
      apply returns_ret.
  - unfold shape_has_run. rewrite Htf. apply returns_ret.
Qed.

Lemma match_shapes_copies (golden_shapes : list Shape) (test_shapes : list Shape) :
  forall (used : gset Z) (log : list string) (assign : list nat),
    distinguishable golden_shapes ->
    NoDup assign ->
    Forall2 (fun test_shape k =>
               (Z.of_nat k ∉ used) /\ golden_shapes !! k = Some test_shape
               /\ well_formed_shape test_shape = true)
            test_shapes assign ->
    exists matched log',
      match_shapes bullets1 bullets2 test_shapes golden_shapes used log
      = (Some matched, log')
      /\ is_none matched
         = negb (negb (existsb shape_has_run test_shapes)
                 || bullets_accepted bullets1 bullets2).
Proof.
  induction test_shapes as [|t rest IH]; intros used log assign Hdist Hnodup Hassign;
    cbn [match_shapes].
  - eexists _, _. split; reflexivity.
  - apply Forall2_cons_inv_l in Hassign
      as (a0 & assign' & (Ha0 & Hg0 & Hwf) & Hrest & ->).
    apply NoDup_cons in Hnodup as [Hfresh0 Hnodup].
    rewrite (find_matching_shape_copy t golden_shapes used a0 Hg0 Ha0 Hdist).
    destruct (compare_matched_shapes_copy t Hwf log) as [log1 Hcmp].
    unfold bind at 1. rewrite Hcmp. cbn [existsb].
    destruct (shape_has_run t) eqn:Hrun; cbn [negb orb].
    + destruct (bullets_accepted bullets1 bullets2) eqn:Haccepted.
      * destruct (IH ({[Z.of_nat a0]} ∪ used) log1 assign' Hdist Hnodup)
          as (matched & log' & Hmatch & Hnone).
        { apply Forall2_same_length_lookup.
          split; [exact (Forall2_length _ _ _ Hrest)|].
          intros i r k Hr Hk.
          destruct (Forall2_lookup_lr _ _ _ _ _ _ Hrest Hr Hk) as (Hunused & Hg & Hw).
          split; [|split; assumption].
          intros Hin. apply elem_of_union in Hin as [Hin|Hin]; [|contradiction].
          apply elem_of_singleton in Hin. apply (inj Z.of_nat) in Hin. subst k.
          apply Hfresh0. apply (list_elem_of_lookup_2 _ i). exact Hk. }
        exists matched, log'. split; [exact Hmatch|].
        rewrite Hnone, orb_true_r. reflexivity.
      * eexists _, _. split; reflexivity.
    + destruct (IH ({[Z.of_nat a0]} ∪ used) log1 assign' Hdist Hnodup)
        as (matched & log' & Hmatch & Hnone).
      { apply Forall2_same_length_lookup.
        split; [exact (Forall2_length _ _ _ Hrest)|].
        intros i r k Hr Hk.
        destruct (Forall2_lookup_lr _ _ _ _ _ _ Hrest Hr Hk) as (Hunused & Hg & Hw).
        split; [|split; assumption].
        intros Hin. apply elem_of_union in Hin as [Hin|Hin]; [|contradiction].
        apply elem_of_singleton in Hin. apply (inj Z.of_nat) in Hin. subst k.
        apply Hfresh0. apply (list_elem_of_lookup_2 _ i). exact Hk. }
      exists matched, log'. split; [exact Hmatch|exact Hnone].
Qed.

End Copies.

Lemma match_text_shapes_copies (text_shapes2 : list Shape) (text_shapes1 : list Shape) :
  forall (used : gset Z) (log : list string) (assign : list nat),
    distinguishable text_shapes2 ->
    NoDup assign ->
    Forall2 (fun tshape1 k =>
               (Z.of_nat k ∉ used) /\ text_shapes2 !! k = Some tshape1
               /\ exists tf, text_frame tshape1 = Some tf)
            text_shapes1 assign ->
    exists log', match_text_shapes text_shapes1 text_shapes2 used log = (Some true, log').
Proof.
  induction text_shapes1 as [|t rest IH]; intros used log assign Hdist Hnodup Hassign;
    cbn [match_text_shapes].
  - eexists. reflexivity.
  - apply Forall2_cons_inv_l in Hassign
      as (a0 & assign' & (Ha0 & Hg0 & tf & Htf) & Hrest & ->).
    apply NoDup_cons in Hnodup as [Hfresh0 Hnodup].
    rewrite (find_matching_shape_copy t text_shapes2 used a0 Hg0 Ha0 Hdist).
    destruct (compare_matched_text_shapes_refl t tf Htf log) as [log1 Hcmp].
    unfold bind at 1. rewrite Hcmp.
    apply (IH _ _ assign' Hdist Hnodup).
    apply Forall2_same_length_lookup. split; [exact (Forall2_length _ _ _ Hrest)|].
    intros i r k Hr Hk.
    destruct (Forall2_lookup_lr _ _ _ _ _ _ Hrest Hr Hk) as (Hunused & Hg & Hw).
    split; [|split; assumption].
    intros Hin. apply elem_of_union in Hin as [Hin|Hin]; [|contradiction].
    apply elem_of_singleton in Hin. apply (inj Z.of_nat) in Hin. subst k.
    apply Hfresh0. apply (list_elem_of_lookup_2 _ i). exact Hk.
Qed.

Lemma permutation_assignment {A} (P : A -> Prop) (l1 l2 : list A) :
  l1 ≡ₚ l2 -> Forall P l1 ->
  exists assign : list nat,
    NoDup assign
    /\ Forall2 (fun x k => (Z.of_nat k ∉ (∅ : gset Z)) /\ l2 !! k = Some x /\ P x)
               l1 assign.
Proof.
  intros Hperm HP. apply Permutation_inj in Hperm as (Hlen & f & Hinj & Hf).
  exists (f <$> seq 0 (length l1)). split.
  - apply NoDup_fmap_2; [exact Hinj|apply NoDup_seq].
  - apply Forall2_fmap_r. apply Forall2_same_length_lookup_2.
    + rewrite length_seq. reflexivity.
    + intros i x k Hx Hk. apply lookup_seq in Hk as [-> Hi]. simpl.
      split; [apply not_elem_of_empty|]. split; [rewrite <- Hf; exact Hx|].
      apply (proj1 (Forall_forall _ _) HP). apply (list_elem_of_lookup_2 _ i). exact Hx.
Qed.

Lemma compare_slides_reordered (slide1 slide2 : Slide) :
  reordered slide1 slide2 ->
  well_formed_slide slide1 = true ->
  notes_read slide1 = true ->
  distinguishable (slide_shapes slide2) ->
  distinguishable (get_all_text_shapes slide2) ->
  returns (compare_slides (slide1, slide2)) (bullets_allow slide1 slide2).
Proof.
  intros (Hfill & Hmaster & Hnotes & Hperm) Hwf Hread Hdist Hdist_text.
  unfold well_formed_slide in Hwf. unfold notes_read in Hread.
  destruct (get_slide_background_color slide1) as [bg|] eqn:Hbg; [|discriminate].
  destruct (get_slide_notes slide1) as [notes|] eqn:Hnotes1; [|discriminate].
  assert (Hbg2 : get_slide_background_color slide2 = Some bg).
  { unfold get_slide_background_color in *. rewrite Hfill, Hmaster. exact Hbg. }
  assert (Hnotes2 : get_slide_notes slide2 = Some notes).
  { unfold get_slide_notes in *. rewrite Hnotes. exact Hnotes1. }
  rewrite forallb_forall in Hwf.
  unfold compare_slides. rewrite Hbg, Hbg2, Hnotes1, Hnotes2.
  eapply returns_bind; [apply returns_lift; reflexivity|].
  eapply returns_bind; [apply returns_lift; reflexivity|].
  rewrite bool_decide_refl. cbn [negb].
  eapply returns_bind; [apply returns_lift; reflexivity|].
  eapply returns_bind; [apply returns_lift; reflexivity|].
  cbv zeta. rewrite !bool_decide_refl.
  rewrite (bool_decide_eq_true_2 _ (Permutation_length Hperm)). cbn [negb].
  intros log.
  destruct (permutation_assignment (fun s => well_formed_shape s = true) _ _ Hperm)
    as (assign & Hnodup & Hassign).
  { apply Forall_forall. intros s Hs. apply Hwf, list_elem_of_In. exact Hs. }
  destruct (match_shapes_copies (part_bullets slide1) (part_bullets slide2)
              (slide_shapes slide2) (slide_shapes slide1) ∅ log
              assign Hdist Hnodup Hassign) as (matched & log1 & Hmatch & Hnone).
  unfold bind at 1. rewrite Hmatch.
  unfold bullets_allow, has_run, bullets_pass.
  destruct matched as [used'|]; cbn [is_none] in Hnone.
  2:{ apply (f_equal negb) in Hnone. rewrite negb_involutive in Hnone.
      rewrite <- Hnone. eexists. reflexivity. }
  apply (f_equal negb) in Hnone. rewrite negb_involutive in Hnone.
  rewrite <- Hnone. cbn [negb].
  rewrite (bool_decide_eq_true_2 _
             (match_shapes_all_used _ _ _ _ _ _ _ (Permutation_length Hperm) Hmatch)).
  cbn [negb].
  assert (Hperm_text : get_all_text_shapes slide1 ≡ₚ get_all_text_shapes slide2).
  { unfold get_all_text_shapes. apply Permutation_flat_map. exact Hperm. }
  rewrite (bool_decide_eq_true_2 _ (Permutation_length Hperm_text)). cbn [negb].
  destruct (permutation_assignment (fun s => exists tf, text_frame s = Some tf)
              _ _ Hperm_text) as (assign_text & Hnodup_text & Hassign_text).
  { apply Forall_forall. intros s Hs.
    apply (get_all_text_shapes_text_frame slide1). exact Hs. }
  apply (match_text_shapes_copies _ _ ∅ log1 assign_text Hdist_text Hnodup_text
           Hassign_text).
Qed.

(** X4. What reordering the shapes of the slides does to the verdict
    when the shapes can be told apart. Let the golden presentation be
    the test presentation, on which every read succeeds, with the shapes
    of each slide in another order, and let no shape, and no text shape,
    of a golden slide score as high against another one as against
    itself. Then every shape is paired with its copy and every check
    passes but the one on the bullets, which does not look at the
    shapes: it compares the paragraphs of the two parts in the order of
    the files. [compare_pptx_files] returns 1 if on every slide no run
    is compared or the bullet lists of the two parts agree, and 0
    otherwise. *)
Theorem compare_pptx_files_reordered (prs1 prs2 : Presentation) (log : list string)
    (Hreordered : Forall2 reordered prs1 prs2)
    (Hreadable : readable prs1 = true)
    (Hshapes : Forall (fun slide => distinguishable (slide_shapes slide)) prs2)
    (Htext : Forall (fun slide => distinguishable (get_all_text_shapes slide)) prs2) :
  (compare_pptx_files prs1 prs2 log).1
  = Some (if forallb (fun '(slide1, slide2) => bullets_allow slide1 slide2)
                     (zip prs1 prs2)
          then 1 else 0).
Proof.
  unfold readable, well_formed in Hreadable.
  apply andb_true_iff in Hreadable as [Hwf Hnotes].
  rewrite forallb_forall in Hwf, Hnotes.
  unfold compare_pptx_files.
  rewrite (bool_decide_eq_true_2 _ (Forall2_length _ _ _ Hreordered)). cbn [negb].
  assert (Hloop : returns (for_each compare_slides (zip prs1 prs2))
                    (forallb (fun '(slide1, slide2) => bullets_allow slide1 slide2)
                             (zip prs1 prs2))).
  { apply returns_for_each_all. intros [s1 s2] Hin.
    apply list_elem_of_lookup_1 in Hin as [i Hi].
    apply lookup_zip_with_Some in Hi as (x & y & [= <- <-] & H1 & H2).
    apply compare_slides_reordered.
    - exact (Forall2_lookup_lr _ _ _ _ _ _ Hreordered H1 H2).
    - apply Hwf, list_elem_of_In. apply (list_elem_of_lookup_2 _ i). exact H1.
    - apply Hnotes, list_elem_of_In. apply (list_elem_of_lookup_2 _ i). exact H1.
    - apply (proj1 (Forall_forall _ _) Hshapes). apply (list_elem_of_lookup_2 _ i).
      exact H2.
    - apply (proj1 (Forall_forall _ _) Htext). apply (list_elem_of_lookup_2 _ i).
      exact H2. }
  destruct (Hloop []) as [log' Hrun].
  unfold bind. rewrite Hrun. reflexivity.
Qed.

Lemma two_shapes_distinguishable (shape1 shape2 : Shape) :
  outscored_by_copy shape1 shape2 = true ->
  outscored_by_copy shape2 shape1 = true ->
  distinguishable [shape1; shape2].
Proof.
  intros H12 H21 [|[|i]] [|[|j]] shape other Hi Hj Hne; simpl in Hi, Hj;
    try discriminate; try congruence;
    injection Hi as <-; injection Hj as <-; assumption.
Qed.

Lemma one_shape_distinguishable (shape1 : Shape) : distinguishable [shape1].
Proof.
  intros [|i] [|j] shape other Hi Hj Hne; simpl in Hi, Hj;
    try discriminate; congruence.
Qed.

Lemma compare_pptx_files_reordered_witness :
  (compare_pptx_files [OrderSamples.title_then_picture]
     [OrderSamples.picture_then_title] []).1 = Some 1
  /\ (compare_pptx_files [OrderSamples.title_then_caption]
        [OrderSamples.caption_then_title] []).1 = Some 0.
Proof.
  split.
  - apply (compare_pptx_files_reordered [OrderSamples.title_then_picture]
             [OrderSamples.picture_then_title] []).
    + constructor; [|constructor]. repeat split; try reflexivity. apply perm_swap.
    + vm_compute. reflexivity.
    + constructor; [|constructor].
      apply two_shapes_distinguishable; vm_compute; reflexivity.
    + constructor; [|constructor]. apply one_shape_distinguishable.
  - apply (compare_pptx_files_reordered [OrderSamples.title_then_caption]
             [OrderSamples.caption_then_title] []).
    + constructor; [|constructor]. repeat split; try reflexivity. apply perm_swap.
    + vm_compute. reflexivity.
    + constructor; [|constructor].
      apply two_shapes_distinguishable; vm_compute; reflexivity.
    + constructor; [|constructor].
      apply two_shapes_distinguishable; vm_compute; reflexivity.
Defined.

End ReorderFacts.

(** ** temp.py *)
Module PositionalFacts.
Import Py Impress Temp TempNotions ToleranceFacts DecideFacts.

(** *** Loops *)

Lemma loop_true {A} (body : A -> option bool) (l : list A) :
  loop body l = Some true <-> Forall (fun x => body x = Some true) l.
Proof.
  induction l as [|x l IH]; simpl.
  - split; [constructor|reflexivity].
  - destruct (body x) as [[|]|] eqn:Hx; simpl.
    + rewrite IH. split; [intros H; constructor; assumption|].
      intros H. apply Forall_cons in H as [_ H]. exact H.
    + split; [discriminate|]. intros H. apply Forall_cons in H as [H _].
      congruence.
    + split; [discriminate|]. intros H. apply Forall_cons in H as [H _].
      congruence.
Qed.

Lemma loop_zip {A B} (body : A * B -> option bool) (l1 : list A) (l2 : list B) :
  length l1 = length l2 ->
  loop body (zip l1 l2) = Some true ->
  Forall2 (fun x y => body (x, y) = Some true) l1 l2.
Proof.
  revert l2. induction l1 as [|x l1 IH]; intros [|y l2] Hlen Hloop;
    try discriminate Hlen; [constructor|].
  apply loop_true in Hloop. simpl in Hloop.
  apply Forall_cons in Hloop as [Hx Hloop].
  constructor; [exact Hx|]. apply IH; [simpl in Hlen; lia|].
  apply loop_true. exact Hloop.
Qed.

Lemma loop_positions (rows columns : nat) (body : nat * nat -> option bool) :
  loop body (flat_map (fun row_idx => map (fun col_idx => (row_idx, col_idx))
                                          (seq 0 columns))
                      (seq 0 rows)) = Some true ->
  forall row_idx col_idx, (row_idx < rows)%nat -> (col_idx < columns)%nat ->
    body (row_idx, col_idx) = Some true.
Proof.
  intros Hloop row_idx col_idx Hr Hc.
  apply loop_true in Hloop. rewrite Forall_forall in Hloop.
  apply Hloop. apply list_elem_of_In, in_flat_map. exists row_idx.
  split; [apply in_seq; lia|].
  apply in_map_iff. exists col_idx. split; [reflexivity|apply in_seq; lia].
Qed.

(** *** Guards *)

Lemma guard_off (P : Prop) `{Decision P} (flag : bool) :
  negb (bool_decide P) && flag = false -> flag = true -> P.
Proof.
  intros Hguard ->. rewrite andb_true_r in Hguard.
  apply negb_false_iff, bool_decide_eq_true in Hguard. exact Hguard.
Qed.

Lemma differs_false (opts : options) (a b : Z) :
  differs opts a b = Some false <-> close opts a b.
Proof.
  unfold differs, close.
  destruct (is_approximately_equal a b _) as [[|]|]; simpl; split; congruence.
Qed.

Lemma or_else_neither (a b : option bool) :
  or_else a b = Some false <-> a = Some false /\ b = Some false.
Proof.
  destruct a as [[|]|], b as [[|]|]; simpl; intuition congruence.
Qed.

Lemma fail_when_true (test : option bool) :
  fail_when test = Some true <-> test = Some false.
Proof. destruct test as [[|]|]; simpl; split; congruence. Qed.

Lemma geometry_differs_false (opts : options) (shape1 shape2 : Shape) :
  geometry_differs opts shape1 shape2 = Some false <-> same_place opts shape1 shape2.
Proof.
  unfold geometry_differs, same_place.
  rewrite !or_else_neither, !differs_false. tauto.
Qed.

(** *** What a passed check tells *)

Ltac peel H :=
  match type of H with
  | (if ?b then _ else _) = _ =>
      let E := fresh "Hguard" in destruct b eqn:E; [discriminate H|]
  end.

Ltac peel_bind H E :=
  match type of H with
  | mbind _ ?m = _ => destruct m as [[|]|] eqn:E; simpl in H; try discriminate H
  | match ?m with Some _ => _ | None => _ end = _ =>
      destruct m as [[|]|] eqn:E; simpl in H; try discriminate H
  end.

Lemma effectively_equal (v1 v2 : option bool) (flag : bool) :
  negb (bool_decide (v1 = v2)) && flag
  && negb ((bool_decide (v1 = None) || bool_decide (v1 = Some false))
           && (bool_decide (v2 = None) || bool_decide (v2 = Some false))) = false ->
  flag = true -> default false v1 = default false v2.
Proof.
  intros Hguard ->. destruct v1 as [[|]|], v2 as [[|]|];
    solve [reflexivity | vm_compute in Hguard; discriminate Hguard].
Qed.

Lemma compare_run_sound (opts : options) (bullets1 bullets2 : option (list bullet))
    (run1 run2 : Run) :
  compare_run opts bullets1 bullets2 (run1, run2) = Some true ->
  run_pair_agrees opts run1 run2.
Proof.
  unfold compare_run, run_pair_agrees. cbv zeta. intros H.
  do 7 peel H. clear H.
  repeat split.
  - exact (guard_off _ _ Hguard).
  - exact (guard_off _ _ Hguard0).
  - apply effectively_equal. exact Hguard1.
  - apply effectively_equal. exact Hguard2.
  - intros Hflag rgb1 rgb2 H1 H2. rewrite H1, H2 in Hguard3.
    apply (guard_off _ _ Hguard3 Hflag).
  - exact (guard_off _ _ Hguard5).
Qed.

Lemma compare_paragraph_sound (opts : options) (bullets1 bullets2 : option (list bullet))
    (para1 para2 : Paragraph) :
  compare_paragraph opts bullets1 bullets2 (para1, para2) = Some true ->
  paragraph_pair_agrees opts para1 para2.
Proof.
  unfold compare_paragraph, paragraph_pair_agrees. intros H.
  do 4 peel H.
  apply negb_false_iff, bool_decide_eq_true in Hguard2.
  repeat split.
  - intros Hflag. rewrite Hflag in Hguard. simpl in Hguard.
    apply negb_false_iff, bool_decide_eq_true in Hguard. exact Hguard.
  - exact (guard_off _ _ Hguard0).
  - exact (guard_off _ _ Hguard1).
  - eapply Forall2_impl; [apply loop_zip; eassumption|].
    intros run1 run2. apply compare_run_sound.
Qed.

Lemma compare_text_sound (opts : options) (bullets1 bullets2 : option (list bullet))
    (shape1 shape2 : Shape) (text_frame1 text_frame2 : TextFrame) :
  compare_text opts bullets1 bullets2 shape1 shape2 = Some true ->
  text_frame shape1 = Some text_frame1 -> text_frame shape2 = Some text_frame2 ->
  (examine_text opts = true -> strip (text text_frame1) = strip (text text_frame2))
  /\ Forall2 (paragraph_pair_agrees opts)
             (paragraphs text_frame1) (paragraphs text_frame2).
Proof.
  unfold compare_text. intros H H1 H2. rewrite H1, H2 in H.
  do 2 peel H.
  apply negb_false_iff, bool_decide_eq_true in Hguard0.
  split.
  - exact (guard_off _ _ Hguard).
  - eapply Forall2_impl; [apply loop_zip; eassumption|].
    intros para1 para2. apply compare_paragraph_sound.
Qed.

Lemma compare_tables_sound (opts : options) (shape1 shape2 : Shape) :
  compare_tables opts shape1 shape2 = Some true ->
  exists table1 table2,
    table shape1 = Some table1 /\ table shape2 = Some table2
    /\ tables_agree table1 table2.
Proof.
  unfold compare_tables. intros H.
  destruct (table shape1) as [table1|]; [|discriminate H].
  destruct (table shape2) as [table2|]; [|discriminate H].
  simpl in H. peel H.
  apply orb_false_iff in Hguard as [Hrows Hcolumns].
  apply negb_false_iff, bool_decide_eq_true in Hrows, Hcolumns.
  peel_bind H Htexts.
  exists table1, table2. repeat split; try assumption.
  intros row_idx col_idx Hr Hc.
  pose proof (loop_positions _ _ _ Htexts row_idx col_idx Hr Hc) as Htext.
  pose proof (loop_positions _ _ _ H row_idx col_idx Hr Hc) as Hformat.
  unfold compare_cell_text in Htext. unfold compare_cell_formatting in Hformat.
  destruct (cell table1 row_idx col_idx) as [cell1|]; [|discriminate Htext].
  destruct (cell table2 row_idx col_idx) as [cell2|]; [|discriminate Htext].
  simpl in Htext, Hformat. peel Htext. peel Hformat.
  apply negb_false_iff, bool_decide_eq_true in Hguard, Hguard0.
  exists cell1, cell2. repeat split; assumption.
Qed.

Lemma validate_picture_sound (opts : options) (shape1 shape2 : Shape) :
  validate_picture opts shape1 shape2 = Some true ->
  same_place opts shape1 shape2
  /\ forall hash1 hash2, image_md5 shape1 = Some hash1 ->
                         image_md5 shape2 = Some hash2 -> hash1 = hash2.
Proof.
  unfold validate_picture. intros H.
  peel_bind H Hmoved. peel_bind H Hresized. peel H. clear H.
  apply or_else_neither in Hmoved as [Hleft Htop].
  apply or_else_neither in Hresized as [Hwidth Hheight].
  rewrite differs_false in Hleft, Htop, Hwidth, Hheight.
  split; [repeat split; assumption|].
  intros hash1 hash2 H1 H2. rewrite H1, H2 in Hguard.
  apply negb_false_iff, bool_decide_eq_true in Hguard. exact Hguard.
Qed.

Lemma validate_table_sound (opts : options) (shape1 shape2 : Shape) :
  validate_table opts shape1 shape2 = Some true ->
  Z.abs (shape_left shape1 - shape_left shape2) <= 2000
  /\ Z.abs (shape_top shape1 - shape_top shape2) <= 2000
  /\ close opts (shape_width shape1) (shape_width shape2)
  /\ close opts (shape_height shape1) (shape_height shape2).
Proof.
  unfold validate_table, POSITION_TOLERANCE_EMU. cbv zeta. intros H.
  peel H. apply orb_false_iff in Hguard as [Hleft Htop].
  apply fail_when_true, or_else_neither in H as [Hwidth Hheight].
  rewrite differs_false in Hwidth, Hheight.
  repeat split; try assumption; lia.
Qed.

Lemma same_text_texts (shape1 shape2 : Shape) (text_frame1 text_frame2 : TextFrame) :
  text_frame shape1 = Some text_frame1 -> text_frame shape2 = Some text_frame2 ->
  same_text shape1 shape2 = bool_decide (text text_frame1 = text text_frame2).
Proof. unfold same_text. intros -> ->. reflexivity. Qed.

Lemma examine_positions_sound (opts : options) (slide_idx : Z)
    (shape1 shape2 : Shape) :
  examine_positions opts slide_idx shape1 shape2 = Some true ->
  (examine_shape opts = true -> same_place opts shape1 shape2)
  /\ moved opts slide_idx shape1 shape2.
Proof.
  unfold examine_positions. intros H.
  peel_bind H Htitle. peel_bind H Htable. do 2 peel H. peel_bind H Hshift.
  assert (Hmoved : moved opts slide_idx shape1 shape2).
  { clear H Hshift. unfold moved. split; [|split; [|split]].
    - intros Hflag text_frame1 text_frame2 H1 H2 Ht1 Ht2.
      rewrite Hflag, (same_text_texts _ _ _ _ H1 H2), Ht1, Ht2 in Htitle.
      unfold text_is in Htitle. rewrite H1, Ht1, !bool_decide_eq_true_2 in Htitle
        by reflexivity.
      cbn [andb] in Htitle.
      destruct ((shape_top shape1 <=? shape_top shape2)
                || (shape_top shape1 <? 3600000)) eqn:Hwhere;
        [discriminate Htitle|].
      apply orb_false_iff in Hwhere as [Hle Hlt]. lia.
    - intros Hflag Hidx Ht1 Ht2.
      rewrite Hflag, !bool_decide_eq_true_2 in Htable by assumption.
      cbn [andb] in Htable.
      destruct ((shape_top shape1 <=? shape_top shape2)
                || (shape_top shape1 <? 3600000)) eqn:Hwhere;
        [discriminate Htable|].
      apply orb_false_iff in Hwhere as [Hle Hlt]. lia.
    - intros Hflag Hidx H1 H2. unfold no_text in Hguard.
      rewrite Hflag, H1, H2, bool_decide_eq_true_2 in Hguard by assumption.
      cbn [andb] in Hguard. apply orb_false_iff in Hguard as [Hle Hlt]. lia.
    - intros Hflag Hidx Ht1 Ht2.
      rewrite Hflag, !bool_decide_eq_true_2 in Hguard0 by assumption.
      cbn [andb] in Hguard0. apply orb_false_iff in Hguard0 as [Hle Hlt]. lia. }
  clear Htitle Htable Hguard Hguard0 Hshift.
  peel_bind H Hplace.
  - peel H. simpl in Hguard. split; [congruence|exact Hmoved].
  - split; [|exact Hmoved]. intros _. apply geometry_differs_false. exact Hplace.
Qed.


Lemma compare_shapes_sound (opts : options) (bullets1 bullets2 : option (list bullet))
    (slide_idx : Z) (shape1 shape2 : Shape) :
  compare_shapes opts bullets1 bullets2 slide_idx (shape1, shape2) = Some true ->
  shape_pair_agrees opts shape1 shape2 /\ moved opts slide_idx shape1 shape2.
Proof.
  unfold compare_shapes. intros H.
  peel H. apply negb_false_iff, bool_decide_eq_true in Hguard.
  peel_bind H Hpicture. peel_bind H Htable. peel_bind H Hpositions.
  peel_bind H Hcells.
  apply examine_positions_sound in Hpositions as [Hplace Hmoved].
  split; [|exact Hmoved].
  unfold shape_pair_agrees. repeat apply conj.
  - exact Hguard.
  - exact Hplace.
  - intros Htype. rewrite bool_decide_eq_true_2 in Hpicture by exact Htype.
    apply validate_picture_sound. exact Hpicture.
  - intros Htype. rewrite bool_decide_eq_true_2 in Htable, Hcells by exact Htype.
    apply validate_table_sound in Htable as (Hleft & Htop & Hwidth & Hheight).
    repeat apply conj; try assumption.
    apply (compare_tables_sound opts). exact Hcells.
  - intros text_frame1 text_frame2.
    apply (compare_text_sound opts bullets1 bullets2). exact H.
Qed.

Lemma compare_slides_sound (opts : options) (slide_idx : Z) (slide1 slide2 : Slide) :
  compare_slides opts slide_idx (slide1, slide2) = Some true ->
  slide_pair_agrees opts slide1 slide2
  /\ Forall2 (moved opts slide_idx) (slide_shapes slide1) (slide_shapes slide2).
Proof.
  unfold compare_slides. intros H.
  change (get_slide_notes slide1 ≫= fmap strip) with (stripped_notes slide1) in H.
  change (get_slide_notes slide2 ≫= fmap strip) with (stripped_notes slide2) in H.
  destruct (get_slide_background_color slide1) as [background1|] eqn:Hb1;
    [|discriminate H].
  destruct (get_slide_background_color slide2) as [background2|] eqn:Hb2;
    [|discriminate H].
  simpl in H. peel H.
  destruct (stripped_notes slide1) as [notes1|] eqn:Hn1; [|discriminate H].
  destruct (stripped_notes slide2) as [notes2|] eqn:Hn2; [|discriminate H].
  simpl in H. do 2 peel H.
  apply negb_false_iff, bool_decide_eq_true in Hguard1.
  peel_bind H Hshapes.
  apply (loop_zip _ _ _ Hguard1) in Hshapes.
  assert (Htexts : length (get_all_text_shapes slide1)
                   = length (get_all_text_shapes slide2)).
  { destruct (decide (length (get_all_text_shapes slide1)
                      = length (get_all_text_shapes slide2))) as [|Hne];
      [assumption|].
    rewrite (bool_decide_eq_false_2 _ Hne), andb_false_r in H. discriminate H. }
  clear H. split.
  - unfold slide_pair_agrees. repeat apply conj.
    + exists notes1, notes2.
      split; [exact Hn1|split; [exact Hn2|exact (guard_off _ _ Hguard0)]].
    + exists background1, background2.
      split; [exact Hb1|split; [exact Hb2|exact (guard_off _ _ Hguard)]].
    + eapply Forall2_impl; [exact Hshapes|].
      intros shape1 shape2 Hpair. apply (compare_shapes_sound _ _ _ _ _ _ Hpair).
    + exact Htexts.
  - eapply Forall2_impl; [exact Hshapes|].
    intros shape1 shape2 Hpair. apply (compare_shapes_sound _ _ _ _ _ _ Hpair).
Qed.

Lemma compare_all_slides_sound (opts : options) (slides : list (Slide * Slide)) :
  forall (slide_idx : Z) (i : nat) (slide1 slide2 : Slide),
    compare_all_slides opts slide_idx slides = Some true ->
    slides !! i = Some (slide1, slide2) ->
    compare_slides opts (slide_idx + Z.of_nat i + 1) (slide1, slide2) = Some true.
Proof.
  induction slides as [|slide12 slides IH]; intros slide_idx i slide1 slide2 H Hi;
    [discriminate Hi|].
  simpl in H. peel_bind H Hfirst.
  destruct i as [|i]; simpl in Hi.
  - injection Hi as ->. replace (slide_idx + Z.of_nat 0 + 1) with (slide_idx + 1) by lia.
    exact Hfirst.
  - replace (slide_idx + Z.of_nat (S i) + 1) with (slide_idx + 1 + Z.of_nat i + 1)
      by lia.
    apply IH; assumption.
Qed.

Lemma compare_pptx_files_slides (opts : options) (prs1 prs2 : Presentation)
    (i : nat) (slide1 slide2 : Slide) :
  compare_pptx_files opts prs1 prs2 = Some 1 ->
  prs1 !! i = Some slide1 -> prs2 !! i = Some slide2 ->
  compare_slides opts (Z.of_nat i + 1) (slide1, slide2) = Some true.
Proof.
  unfold compare_pptx_files. intros H H1 H2.
  destruct (negb (bool_decide (length prs1 = length prs2))
            && examine_number_of_slides opts); [discriminate H|].
  peel_bind H Hslides.
  apply (compare_all_slides_sound opts (zip prs1 prs2) 0 i); [exact Hslides|].
  apply lookup_zip_with_Some. exists slide1, slide2. auto.
Qed.

(** X24. The comparator of temp.py answers 1 only for presentations that
    agree place by place: with [examine_number_of_slides] they have the
    same number of slides, and for the slides at the same index the
    notes and the background colour were read without an exception (and
    agree as far as the options ask), the numbers of shapes and of text
    shapes are the same, and the shapes agree pairwise in the order of
    the files: same type, places within the tolerance, the same picture,
    the same table texts, the same text, paragraphs and runs, as far as
    the options ask. *)
Theorem compare_pptx_files_positional (opts : options) (prs1 prs2 : Presentation) :
  compare_pptx_files opts prs1 prs2 = Some 1 ->
  (examine_number_of_slides opts = true -> length prs1 = length prs2)
  /\ forall (i : nat) (slide1 slide2 : Slide),
       prs1 !! i = Some slide1 -> prs2 !! i = Some slide2 ->
       slide_pair_agrees opts slide1 slide2.
Proof.
  intros H. split.
  - unfold compare_pptx_files in H.
    destruct (negb (bool_decide (length prs1 = length prs2))
              && examine_number_of_slides opts) eqn:Hguard; [discriminate H|].
    exact (guard_off _ _ Hguard).
  - intros i slide1 slide2 H1 H2.
    apply (compare_slides_sound opts (Z.of_nat i + 1)).
    apply (compare_pptx_files_slides opts prs1 prs2); assumption.
Qed.

Lemma compare_pptx_files_positional_witness :
  length TempSamples.raised_test = length TempSamples.raised_golden
  /\ slide_pair_agrees default_options
       (TempSamples.picture_slide 1200000) (TempSamples.picture_slide 1200500).
Proof.
  destruct (compare_pptx_files_positional default_options
              TempSamples.raised_test TempSamples.raised_golden) as [Hlength Hslides].
  - vm_compute. reflexivity.
  - split; [apply Hlength; reflexivity|].
    apply (Hslides 1%nat); reflexivity.
Defined.

(** X25. With an option that asks for a moved shape, the comparator of
    temp.py answers 1 only if the shape of the test file lies strictly
    beyond its golden place and beyond the fixed mark: a title "Product
    Comparison" or a table of slide 3 lower than 3600000, a shape without
    text of slide 2 further right than 4320000, a picture of slide 2
    higher than 1980000. *)
Theorem compare_pptx_files_moved (opts : options) (prs1 prs2 : Presentation)
    (i j : nat) (slide1 slide2 : Slide) (shape1 shape2 : Shape) :
  compare_pptx_files opts prs1 prs2 = Some 1 ->
  prs1 !! i = Some slide1 -> prs2 !! i = Some slide2 ->
  slide_shapes slide1 !! j = Some shape1 -> slide_shapes slide2 !! j = Some shape2 ->
  moved opts (Z.of_nat i + 1) shape1 shape2.
Proof.
  intros H H1 H2 Hs1 Hs2.
  pose proof (compare_pptx_files_slides opts prs1 prs2 i slide1 slide2 H H1 H2)
    as Hslide.
  apply compare_slides_sound in Hslide as [_ Hmoved].
  exact (Forall2_lookup_lr _ _ _ _ _ _ Hmoved Hs1 Hs2).
Qed.

Lemma compare_pptx_files_moved_witness :
  moved TempSamples.top_position_options 2
    (ImpressSamples.picture "9e107d9d372bb6826bd81d3542a419d6" 500000 1200000)
    (ImpressSamples.picture "9e107d9d372bb6826bd81d3542a419d6" 500000 1200500).
Proof.
  apply (compare_pptx_files_moved TempSamples.top_position_options
           TempSamples.raised_test TempSamples.raised_golden 1 1
           (TempSamples.picture_slide 1200000) (TempSamples.picture_slide 1200500)).
  - vm_compute. reflexivity.
  - reflexivity.
  - reflexivity.
  - reflexivity.
  - reflexivity.
Defined.

End PositionalFacts.

Module SameFacts.
Import Py Impress Temp TempNotions BasicFacts ToleranceFacts ComparatorFacts DecideFacts
  PositionalFacts.

(** X26. The bullet comparison nested in the comparator of temp.py and
    [compare_bullets] of impress_test_evaluator.py are the same function:
    the two evaluators accept the same pairs of bullet lists. *)
Theorem compare_bullets_with_tolerance_compare_bullets (bullets1 bullets2 : list bullet) :
  _compare_bullets_with_tolerance bullets1 bullets2 = compare_bullets bullets1 bullets2.
Proof.
  unfold _compare_bullets_with_tolerance, compare_bullets.
  destruct (negb (bool_decide (length bullets1 = length bullets2))); [reflexivity|].
  generalize (zip bullets1 bullets2). intros pairs.
  induction pairs as [|[[[[lvl1 char1] text1] color1] [[[lvl2 char2] text2] color2]]
                       pairs IH]; [reflexivity|].
  cbn [forallb]. rewrite IH. f_equal.
  destruct (bool_decide (text1 = text2)), (bool_decide (char1 = char2)); reflexivity.
Qed.

Lemma compare_bullets_with_tolerance_refl (bullets : list bullet) :
  _compare_bullets_with_tolerance bullets bullets = true.
Proof.
  unfold _compare_bullets_with_tolerance. rewrite bool_decide_refl. simpl.
  induction bullets as [|[[[lvl char] text] color] l IH]; [reflexivity|].
  simpl. rewrite !bool_decide_refl. simpl. exact IH.
Qed.

Lemma loop_same {A} (body : A * A -> option bool) (l : list A) :
  (forall x, x ∈ l -> body (x, x) = Some true) ->
  loop body (zip l l) = Some true.
Proof.
  intros Hbody. apply loop_true, Forall_forall. intros [x y] Hin.
  pose proof (elem_of_zip_l _ _ _ _ Hin) as Hx.
  apply elem_of_zip_same in Hin as ->. apply Hbody. exact Hx.
Qed.

Section Same.
Variable opts : options.

Lemma differs_refl (a : Z) : differs opts a a = Some false.
Proof. unfold differs. rewrite is_approximately_equal_refl. reflexivity. Qed.

Lemma geometry_differs_refl (shape : Shape) :
  geometry_differs opts shape shape = Some false.
Proof. unfold geometry_differs. rewrite !differs_refl. reflexivity. Qed.

Lemma validate_picture_refl (shape : Shape) :
  validate_picture opts shape shape = Some true.
Proof.
  unfold validate_picture. rewrite !differs_refl. simpl.
  assert (Himage : match image_md5 shape, image_md5 shape with
                   | Some hash1, Some hash2 => negb (bool_decide (hash1 = hash2))
                   | _, _ => false
                   end = false).
  { destruct (image_md5 shape); [rewrite bool_decide_refl|]; reflexivity. }
  rewrite Himage.
  destruct (line shape) as [line1|]; [|reflexivity].
  rewrite !bool_decide_refl. simpl.
  destruct (line_color line1) as [color1|]; [|reflexivity].
  destruct (rgb color1); rewrite bool_decide_refl; reflexivity.
Qed.

Lemma validate_table_refl (shape : Shape) :
  validate_table opts shape shape = Some true.
Proof.
  unfold validate_table. cbv zeta. rewrite !Z.sub_diag, !differs_refl. reflexivity.
Qed.

Lemma examine_positions_refl (slide_idx : Z) (shape : Shape) :
  in_place opts -> examine_positions opts slide_idx shape shape = Some true.
Proof.
  intros (Htitle & Htable & Hright & Htop). unfold examine_positions.
  rewrite Htitle, Htable, Hright, Htop, !geometry_differs_refl, !differs_refl.
  simpl.
  destruct (examine_shape_for_shift_size opts), (examine_image_size opts),
    (examine_modify_height opts); simpl;
    repeat match goal with
           | |- context [if ?b then _ else _] => destruct b
           end; reflexivity.
Qed.

Lemma compare_cell_run_refl (run : Run) : compare_cell_run opts (run, run) = Some true.
Proof.
  unfold compare_cell_run. cbv zeta.
  rewrite !bool_decide_refl, underline_differs_refl. simpl.
  destruct (rgb (color (font run))); [rewrite bool_decide_refl|]; reflexivity.
Qed.

Lemma compare_tables_refl (shape : Shape) :
  well_formed_shape shape = true -> shape_type shape = TABLE ->
  compare_tables opts shape shape = Some true.
Proof.
  unfold well_formed_shape. intros Hwf Htype.
  rewrite bool_decide_eq_true_2 in Hwf by exact Htype.
  unfold compare_tables.
  destruct (table shape) as [table1|]; [|discriminate Hwf]. simpl.
  rewrite !bool_decide_refl. simpl.
  assert (Hpositions : forall pos,
             pos ∈ flat_map (fun row_idx => map (fun col_idx => (row_idx, col_idx))
                                              (seq 0 (columns table1)))
                            (seq 0 (rows table1)) ->
             exists cell1, cell table1 pos.1 pos.2 = Some cell1).
  { intros [row_idx col_idx] Hin.
    apply list_elem_of_In, in_flat_map in Hin as (r & Hr & Hin).
    apply in_map_iff in Hin as (c & [= <- <-] & Hc).
    apply in_seq in Hr, Hc.
    apply (well_formed_table_cell table1 r c Hwf); lia. }
  assert (Htexts : loop (compare_cell_text table1 table1)
                     (flat_map (fun row_idx => map (fun col_idx => (row_idx, col_idx))
                                                 (seq 0 (columns table1)))
                               (seq 0 (rows table1))) = Some true).
  { apply loop_true, Forall_forall. intros [row_idx col_idx] Hin.
    destruct (Hpositions _ Hin) as [cell1 Hcell]. simpl in Hcell.
    unfold compare_cell_text. rewrite Hcell. simpl.
    rewrite bool_decide_refl. reflexivity. }
  rewrite Htexts. simpl.
  apply loop_true, Forall_forall. intros [row_idx col_idx] Hin.
  destruct (Hpositions _ Hin) as [cell1 Hcell]. simpl in Hcell.
  unfold compare_cell_formatting. rewrite Hcell. simpl.
  rewrite bool_decide_refl. simpl.
  apply loop_same. intros para _. rewrite bool_decide_refl. simpl.
  apply loop_same. intros run _. apply compare_cell_run_refl.
Qed.

Lemma compare_run_refl (bullets : option (list bullet)) (run : Run) :
  compare_run opts bullets bullets (run, run) = Some true.
Proof.
  unfold compare_run. cbv zeta.
  rewrite !bool_decide_refl, underline_differs_refl. simpl.
  assert (Hcolor : match rgb (color (font run)), rgb (color (font run)) with
                   | Some rgb1, Some rgb2 =>
                       negb (bool_decide (rgb1 = rgb2)) && examine_color_rgb opts
                   | _, _ => false
                   end = false).
  { destruct (rgb (color (font run))); [rewrite bool_decide_refl|]; reflexivity. }
  rewrite Hcolor.
  destruct (examine_bullets opts); [|reflexivity].
  destruct bullets as [bullets|]; [|reflexivity].
  rewrite compare_bullets_with_tolerance_refl. reflexivity.
Qed.

Lemma compare_paragraph_refl (bullets : option (list bullet)) (para : Paragraph) :
  compare_paragraph opts bullets bullets (para, para) = Some true.
Proof.
  unfold compare_paragraph. rewrite !bool_decide_refl, andb_false_r. simpl.
  apply loop_same. intros run _. apply compare_run_refl.
Qed.

Lemma compare_text_refl (bullets : option (list bullet)) (shape : Shape) :
  compare_text opts bullets bullets shape shape = Some true.
Proof.
  unfold compare_text. destruct (text_frame shape) as [text_frame1|]; [|reflexivity].
  rewrite !bool_decide_refl. simpl.
  apply loop_same. intros para _. apply compare_paragraph_refl.
Qed.

Lemma compare_shapes_refl (bullets : option (list bullet)) (slide_idx : Z)
    (shape : Shape) :
  in_place opts -> well_formed_shape shape = true ->
  compare_shapes opts bullets bullets slide_idx (shape, shape) = Some true.
Proof.
  intros Hplace Hwf. unfold compare_shapes.
  rewrite bool_decide_refl, validate_picture_refl, validate_table_refl,
    (examine_positions_refl _ _ Hplace), compare_text_refl.
  simpl.
  destruct (decide (shape_type shape = TABLE)) as [Htable|Hother].
  - rewrite (compare_tables_refl _ Hwf Htable).
    destruct (bool_decide (shape_type shape = PICTURE)),
      (bool_decide (shape_type shape = TABLE)); reflexivity.
  - rewrite (bool_decide_eq_false_2 _ Hother).
    destruct (bool_decide (shape_type shape = PICTURE)); reflexivity.
Qed.

Lemma compare_text_shapes_refl (tshape : Shape) (text_frame1 : TextFrame) :
  text_frame tshape = Some text_frame1 ->
  compare_text_shapes opts (tshape, tshape) = Some true.
Proof.
  intros Hframe. unfold compare_text_shapes. rewrite Hframe. simpl.
  rewrite !bool_decide_refl. simpl.
  apply loop_same. intros para _. rewrite bool_decide_refl. reflexivity.
Qed.

Lemma compare_slides_same (slide_idx : Z) (slide : Slide) :
  in_place opts -> well_formed_slide slide = true -> stripped_notes slide <> None ->
  compare_slides opts slide_idx (slide, slide) = Some true.
Proof.
  unfold well_formed_slide. intros Hplace Hwf Hnotes.
  unfold compare_slides.
  change (get_slide_notes slide ≫= fmap strip) with (stripped_notes slide).
  destruct (get_slide_background_color slide) as [background|]; [|discriminate Hwf].
  destruct (stripped_notes slide) as [notes|]; [|congruence].
  simpl. rewrite !bool_decide_refl. simpl.
  rewrite forallb_forall in Hwf.
  rewrite (loop_same (compare_shapes opts (part_bullets slide) (part_bullets slide)
                        slide_idx)).
  - simpl. rewrite andb_true_r.
    destruct (examine_alignment opts); [|reflexivity].
    apply loop_same. intros tshape Hin.
    destruct (get_all_text_shapes_text_frame slide tshape Hin) as [text_frame1 Hframe].
    apply (compare_text_shapes_refl _ _ Hframe).
  - intros shape Hin. apply compare_shapes_refl; [exact Hplace|].
    apply Hwf, list_elem_of_In. exact Hin.
Qed.

Lemma compare_all_slides_refl (slides : list Slide) :
  in_place opts ->
  forall slide_idx,
    Forall (fun slide => well_formed_slide slide = true) slides ->
    Forall (fun slide => stripped_notes slide <> None) slides ->
    compare_all_slides opts slide_idx (zip slides slides) = Some true.
Proof.
  intros Hplace. induction slides as [|slide slides IH]; intros slide_idx Hwf Hnotes;
    [reflexivity|].
  apply Forall_cons in Hwf as [Hwf1 Hwf], Hnotes as [Hnotes1 Hnotes].
  change (zip (slide :: slides) (slide :: slides))
    with ((slide, slide) :: zip slides slides).
  cbn [compare_all_slides]. cbv zeta.
  rewrite (compare_slides_same _ _ Hplace Hwf1 Hnotes1). simpl.
  apply IH; assumption.
Qed.

(** A self-comparison never answers 0: it answers 1 or raises. *)
Lemma loop_not_false {A} (body : A -> option bool) (l : list A) :
  (forall x, x ∈ l -> body x <> Some false) -> loop body l <> Some false.
Proof.
  induction l as [|x l IH]; intros Hbody; simpl; [discriminate|].
  destruct (body x) as [[|]|] eqn:Hx; simpl.
  - apply IH. intros y Hy. apply Hbody. right. exact Hy.
  - destruct (Hbody x ltac:(left) Hx).
  - discriminate.
Qed.

Lemma compare_tables_not_false (shape : Shape) :
  compare_tables opts shape shape <> Some false.
Proof.
  unfold compare_tables.
  destruct (table shape) as [table1|]; [|discriminate]. simpl.
  rewrite !bool_decide_refl. simpl.
  destruct (loop (compare_cell_text table1 table1) _) as [[|]|] eqn:Htexts; simpl.
  - apply loop_not_false. intros [row_idx col_idx] _.
    unfold compare_cell_formatting.
    destruct (cell table1 row_idx col_idx) as [cell1|]; [|discriminate]. simpl.
    rewrite bool_decide_refl. simpl.
    rewrite loop_same; [discriminate|].
    intros para _. rewrite bool_decide_refl. simpl.
    apply loop_same. intros run _. apply compare_cell_run_refl.
  - exfalso. revert Htexts. apply loop_not_false. intros [row_idx col_idx] _.
    unfold compare_cell_text.
    destruct (cell table1 row_idx col_idx) as [cell1|]; [|discriminate]. simpl.
    rewrite bool_decide_refl. discriminate.
  - discriminate.
Qed.

Lemma compare_shapes_not_false (bullets : option (list bullet)) (slide_idx : Z)
    (shape : Shape) :
  in_place opts ->
  compare_shapes opts bullets bullets slide_idx (shape, shape) <> Some false.
Proof.
  intros Hplace. unfold compare_shapes.
  rewrite bool_decide_refl, validate_picture_refl, validate_table_refl,
    (examine_positions_refl _ _ Hplace), compare_text_refl.
  simpl. pose proof (compare_tables_not_false shape) as Htables.
  destruct (bool_decide (shape_type shape = PICTURE)),
    (bool_decide (shape_type shape = TABLE)); simpl;
    try discriminate;
    destruct (compare_tables opts shape shape) as [[|]|]; simpl;
    congruence.
Qed.

Lemma compare_slides_not_false (slide_idx : Z) (slide : Slide) :
  in_place opts -> compare_slides opts slide_idx (slide, slide) <> Some false.
Proof.
  intros Hplace. unfold compare_slides.
  destruct (get_slide_background_color slide) as [background|];
    [|simpl; discriminate].
  simpl. rewrite bool_decide_refl. simpl.
  destruct (get_slide_notes slide ≫= fmap strip) as [notes|];
    [|simpl; discriminate].
  simpl. rewrite !bool_decide_refl. simpl.
  destruct (loop (compare_shapes opts (part_bullets slide) (part_bullets slide)
                    slide_idx) _) as [[|]|] eqn:Hshapes; simpl.
  - rewrite andb_true_r. destruct (examine_alignment opts); [|discriminate].
    rewrite loop_same; [discriminate|]. intros tshape Hin.
    destruct (get_all_text_shapes_text_frame slide tshape Hin) as [text_frame1 Hframe].
    apply (compare_text_shapes_refl _ _ Hframe).
  - exfalso. revert Hshapes. apply loop_not_false. intros [shape1 shape2] Hin.
    apply elem_of_zip_same in Hin as ->. apply compare_shapes_not_false. exact Hplace.
  - discriminate.
Qed.

Lemma compare_all_slides_not_false (slides : list Slide) :
  in_place opts ->
  forall slide_idx, compare_all_slides opts slide_idx (zip slides slides) <> Some false.
Proof.
  intros Hplace. induction slides as [|slide slides IH]; intros slide_idx;
    [discriminate|].
  change (zip (slide :: slides) (slide :: slides))
    with ((slide, slide) :: zip slides slides).
  cbn [compare_all_slides]. cbv zeta.
  pose proof (compare_slides_not_false (slide_idx + 1) slide Hplace) as Hfirst.
  destruct (compare_slides opts (slide_idx + 1) (slide, slide)) as [[|]|]; simpl.
  - apply IH.
  - congruence.
  - discriminate.
Qed.

End Same.

(** X27. With the four options that ask for a moved shape off, as they
    are by default, the comparator of temp.py answers 1 when a
    well-formed presentation on which the notes of every slide can be
    read is compared with itself, whatever the other options and the
    tolerance. *)
Theorem compare_pptx_files_same (opts : options) (prs : Presentation) :
  in_place opts -> well_formed prs = true -> annotated prs ->
  Temp.compare_pptx_files opts prs prs = Some 1.
Proof.
  intros Hplace Hwf Hnotes. unfold Temp.compare_pptx_files.
  rewrite bool_decide_refl. simpl.
  rewrite compare_all_slides_refl; [reflexivity|exact Hplace| |exact Hnotes].
  unfold well_formed in Hwf. rewrite forallb_forall in Hwf.
  apply Forall_forall. intros slide Hin. apply Hwf, list_elem_of_In. exact Hin.
Qed.

Lemma compare_pptx_files_same_witness :
  Temp.compare_pptx_files default_options
    TempSamples.raised_golden TempSamples.raised_golden = Some 1.
Proof.
  apply (compare_pptx_files_same default_options TempSamples.raised_golden).
  - repeat split.
  - vm_compute. reflexivity.
  - repeat constructor; discriminate.
Defined.

End SameFacts.

Module SwapFacts.
Import Py Impress Temp TempNotions BasicFacts DecideFacts SymmetryFacts.

Lemma loop_swap {A} (body : A * A -> option bool) (l1 : list A) :
  (forall x y, body (x, y) = body (y, x)) ->
  forall l2, loop body (zip l1 l2) = loop body (zip l2 l1).
Proof.
  intros Hbody. induction l1 as [|x l1 IH]; intros [|y l2]; try reflexivity.
  cbn [zip zip_with loop]. rewrite Hbody, IH. reflexivity.
Qed.

Lemma loop_exchange {A} (body1 body2 : A * A -> option bool) (l1 : list A) :
  (forall x y, body1 (x, y) = body2 (y, x)) ->
  forall l2, loop body1 (zip l1 l2) = loop body2 (zip l2 l1).
Proof.
  intros Hbody. induction l1 as [|x l1 IH]; intros [|y l2]; try reflexivity.
  cbn [zip zip_with loop]. rewrite Hbody, IH. reflexivity.
Qed.

Lemma loop_ext {A} (body1 body2 : A -> option bool) (l : list A) :
  (forall x, body1 x = body2 x) -> loop body1 l = loop body2 l.
Proof.
  intros Hbody. induction l as [|x l IH]; [reflexivity|].
  cbn [loop]. rewrite Hbody, IH. reflexivity.
Qed.

Lemma compare_bullets_with_tolerance_comm (bullets1 : list bullet) :
  forall bullets2,
    _compare_bullets_with_tolerance bullets1 bullets2
    = _compare_bullets_with_tolerance bullets2 bullets1.
Proof.
  unfold _compare_bullets_with_tolerance. intros bullets2.
  rewrite (bool_decide_eq_sym (length bullets1)).
  destruct (bool_decide (length bullets2 = length bullets1)); cbn [negb]; [|reflexivity].
  revert bullets2.
  induction bullets1 as [|[[[lvl1 char1] text1] color1] bullets1 IH];
    intros [|[[[lvl2 char2] text2] color2] bullets2]; try reflexivity.
  cbn [zip zip_with forallb]. rewrite IH. cbv zeta.
  rewrite (bool_decide_eq_sym text1), (bool_decide_eq_sym char1),
    (bool_decide_eq_sym (default "0" lvl1)). reflexivity.
Qed.

Lemma same_text_comm (shape1 shape2 : Shape) :
  same_text shape1 shape2 = same_text shape2 shape1.
Proof.
  unfold same_text.
  destruct (text_frame shape1), (text_frame shape2); try reflexivity.
  apply bool_decide_eq_sym.
Qed.

Lemma same_text_is (shape1 shape2 : Shape) (literal : string) :
  same_text shape1 shape2 && text_is shape1 literal
  = same_text shape2 shape1 && text_is shape2 literal.
Proof.
  unfold same_text, text_is.
  destruct (text_frame shape1) as [text_frame1|],
    (text_frame shape2) as [text_frame2|]; try reflexivity.
  rewrite (bool_decide_eq_sym (text text_frame2)).
  destruct (decide (text text_frame1 = text text_frame2)) as [<-|Hne].
  - reflexivity.
  - rewrite (bool_decide_eq_false_2 _ Hne). reflexivity.
Qed.

Lemma no_text_comm (shape1 shape2 : Shape) :
  no_text shape1 shape2 = no_text shape2 shape1.
Proof. unfold no_text. destruct (text_frame shape1), (text_frame shape2); reflexivity. Qed.

Section Swap.
Variable opts : options.

Lemma differs_comm (a b : Z) : differs opts a b = differs opts b a.
Proof. unfold differs. rewrite is_approximately_equal_comm. reflexivity. Qed.

Lemma geometry_differs_comm (shape1 shape2 : Shape) :
  geometry_differs opts shape1 shape2 = geometry_differs opts shape2 shape1.
Proof.
  unfold geometry_differs.
  rewrite (differs_comm (shape_left shape1)), (differs_comm (shape_top shape1)),
    (differs_comm (shape_width shape1)), (differs_comm (shape_height shape1)).
  reflexivity.
Qed.

Lemma validate_picture_comm (shape1 shape2 : Shape) :
  validate_picture opts shape1 shape2 = validate_picture opts shape2 shape1.
Proof.
  unfold validate_picture.
  rewrite (differs_comm (shape_left shape1)), (differs_comm (shape_top shape1)),
    (differs_comm (shape_width shape1)), (differs_comm (shape_height shape1)).
  destruct (or_else (differs opts (shape_left shape2) (shape_left shape1)) _)
    as [[|]|]; try reflexivity.
  destruct (or_else (differs opts (shape_width shape2) (shape_width shape1)) _)
    as [[|]|]; try reflexivity.
  simpl.
  assert (Himage : match image_md5 shape1, image_md5 shape2 with
                   | Some hash1, Some hash2 => negb (bool_decide (hash1 = hash2))
                   | _, _ => false
                   end
                   = match image_md5 shape2, image_md5 shape1 with
                     | Some hash1, Some hash2 => negb (bool_decide (hash1 = hash2))
                     | _, _ => false
                     end).
  { destruct (image_md5 shape1) as [hash1|], (image_md5 shape2) as [hash2|];
      try reflexivity.
    rewrite (bool_decide_eq_sym hash1). reflexivity. }
  rewrite Himage.
  destruct (match image_md5 shape2, image_md5 shape1 with
            | Some hash1, Some hash2 => negb (bool_decide (hash1 = hash2))
            | _, _ => false
            end); [reflexivity|].
  destruct (line shape1) as [line1|], (line shape2) as [line2|]; try reflexivity.
  rewrite (bool_decide_eq_sym (dash_style line1)),
    (bool_decide_eq_sym (line_width line1)).
  destruct (bool_decide (dash_style line2 = dash_style line1)); [|reflexivity].
  cbn [negb].
  assert (Hwidth : match line_width line1, line_width line2 with
                   | Some width1, Some width2 =>
                       negb <$> is_approximately_equal width1 width2 float_0_01
                   | _, _ => None
                   end
                   = match line_width line2, line_width line1 with
                     | Some width1, Some width2 =>
                         negb <$> is_approximately_equal width1 width2 float_0_01
                     | _, _ => None
                     end).
  { destruct (line_width line1) as [width1|], (line_width line2) as [width2|];
      try reflexivity.
    rewrite (is_approximately_equal_comm width1). reflexivity. }
  rewrite Hwidth.
  destruct (if negb (bool_decide (line_width line2 = line_width line1)) then _
            else Some false) as [[|]|]; try reflexivity.
  simpl.
  destruct (line_color line1) as [color1|], (line_color line2) as [color2|];
    try reflexivity.
  rewrite (bool_decide_eq_sym (color_type color1)).
  destruct (rgb color1) as [rgb1|], (rgb color2) as [rgb2|]; try reflexivity.
  rewrite (bool_decide_eq_sym rgb1). reflexivity.
Qed.

Lemma validate_table_comm (shape1 shape2 : Shape) :
  validate_table opts shape1 shape2 = validate_table opts shape2 shape1.
Proof.
  unfold validate_table. cbv zeta.
  rewrite (differs_comm (shape_width shape1)), (differs_comm (shape_height shape1)).
  replace (Z.abs (shape_left shape1 - shape_left shape2))
    with (Z.abs (shape_left shape2 - shape_left shape1)) by lia.
  replace (Z.abs (shape_top shape1 - shape_top shape2))
    with (Z.abs (shape_top shape2 - shape_top shape1)) by lia.
  reflexivity.
Qed.

Lemma examine_positions_comm (slide_idx : Z) (shape1 shape2 : Shape) :
  in_place opts ->
  examine_positions opts slide_idx shape1 shape2
  = examine_positions opts slide_idx shape2 shape1.
Proof.
  intros (Htitle & Htable & Hright & Htop). unfold examine_positions.
  rewrite Htitle, Htable, Hright, Htop.
  rewrite (geometry_differs_comm shape1),
    (differs_comm (shape_width shape1)), (differs_comm (shape_height shape1)),
    (same_text_is shape1), (no_text_comm shape1),
    (andb_comm (bool_decide (shape_type shape1 = PICTURE))),
    (andb_comm (bool_decide (shape_type shape1 = FREEFORM))).
  reflexivity.
Qed.

Lemma compare_cell_text_comm (table1 table2 : Table) (pos : nat * nat) :
  compare_cell_text table1 table2 pos = compare_cell_text table2 table1 pos.
Proof.
  destruct pos as [row_idx col_idx]. unfold compare_cell_text.
  destruct (cell table1 row_idx col_idx) as [cell1|],
    (cell table2 row_idx col_idx) as [cell2|]; try reflexivity.
  simpl. rewrite (bool_decide_eq_sym (normalize_cell_text (cell_text cell1))).
  reflexivity.
Qed.

Lemma colors_differ_flag_comm (rgb1 rgb2 : option RGBColor) :
  match rgb1, rgb2 with
  | Some c1, Some c2 => negb (bool_decide (c1 = c2)) && examine_color_rgb opts
  | _, _ => false
  end
  = match rgb2, rgb1 with
    | Some c1, Some c2 => negb (bool_decide (c1 = c2)) && examine_color_rgb opts
    | _, _ => false
    end.
Proof.
  destruct rgb1 as [c1|], rgb2 as [c2|]; try reflexivity.
  rewrite (bool_decide_eq_sym c1). reflexivity.
Qed.

Lemma none_or_false_comm (v1 v2 : option bool) (flag : bool) :
  negb (bool_decide (v1 = v2)) && flag
  && negb ((bool_decide (v1 = None) || bool_decide (v1 = Some false))
           && (bool_decide (v2 = None) || bool_decide (v2 = Some false)))
  = negb (bool_decide (v2 = v1)) && flag
    && negb ((bool_decide (v2 = None) || bool_decide (v2 = Some false))
             && (bool_decide (v1 = None) || bool_decide (v1 = Some false))).
Proof. destruct v1 as [[|]|], v2 as [[|]|], flag; reflexivity. Qed.

Lemma underline_rule_comm (underline1 underline2 : option underline_value) :
  negb (bool_decide (underline1 = None)) && negb (bool_decide (underline2 = None))
  || (bool_decide (underline1 = None) && bool_decide (underline2 = Some (U_bool true))
      || bool_decide (underline1 = Some (U_bool true))
         && bool_decide (underline2 = None))
  = negb (bool_decide (underline2 = None)) && negb (bool_decide (underline1 = None))
    || (bool_decide (underline2 = None) && bool_decide (underline1 = Some (U_bool true))
        || bool_decide (underline2 = Some (U_bool true))
           && bool_decide (underline1 = None)).
Proof.
  destruct (bool_decide (underline1 = None)), (bool_decide (underline2 = None)),
    (bool_decide (underline1 = Some (U_bool true))),
    (bool_decide (underline2 = Some (U_bool true))); reflexivity.
Qed.

Lemma compare_cell_run_comm (run1 run2 : Run) :
  compare_cell_run opts (run1, run2) = compare_cell_run opts (run2, run1).
Proof.
  unfold compare_cell_run. cbv zeta.
  rewrite (colors_differ_flag_comm (rgb (color (font run1)))),
    (underline_differs_comm (underline (font run1))),
    (underline_rule_comm (underline (font run1))).
  pose proof (none_or_false_comm (bold (font run1)) (bold (font run2)) true) as Hbold.
  pose proof (none_or_false_comm (italic (font run1)) (italic (font run2)) true)
    as Hitalic.
  rewrite !andb_true_r in Hbold, Hitalic. rewrite Hbold, Hitalic. reflexivity.
Qed.

Lemma compare_cell_formatting_comm (table1 table2 : Table) (pos : nat * nat) :
  compare_cell_formatting opts table1 table2 pos
  = compare_cell_formatting opts table2 table1 pos.
Proof.
  destruct pos as [row_idx col_idx]. unfold compare_cell_formatting.
  destruct (cell table1 row_idx col_idx) as [cell1|],
    (cell table2 row_idx col_idx) as [cell2|]; try reflexivity.
  simpl. rewrite (bool_decide_eq_sym (length (cell_paragraphs cell1))).
  destruct (bool_decide _); [|reflexivity]. cbn [negb].
  apply loop_swap. intros para1 para2.
  rewrite (bool_decide_eq_sym (length (runs para1))).
  destruct (bool_decide _); [|reflexivity]. cbn [negb].
  apply loop_swap. intros run1 run2. apply compare_cell_run_comm.
Qed.

Lemma compare_tables_comm (shape1 shape2 : Shape) :
  compare_tables opts shape1 shape2 = compare_tables opts shape2 shape1.
Proof.
  unfold compare_tables.
  destruct (table shape1) as [table1|], (table shape2) as [table2|]; try reflexivity.
  simpl. rewrite (bool_decide_eq_sym (rows table1)),
    (bool_decide_eq_sym (columns table1)).
  destruct (decide (rows table2 = rows table1)) as [Hrows|Hrows];
    [|rewrite (bool_decide_eq_false_2 _ Hrows); reflexivity].
  destruct (decide (columns table2 = columns table1)) as [Hcolumns|Hcolumns];
    [|rewrite (bool_decide_eq_false_2 _ Hcolumns), orb_true_r; reflexivity].
  rewrite (bool_decide_eq_true_2 _ Hrows), (bool_decide_eq_true_2 _ Hcolumns).
  cbn [negb orb]. rewrite Hrows, Hcolumns.
  rewrite (loop_ext (compare_cell_text table1 table2) (compare_cell_text table2 table1))
    by apply compare_cell_text_comm.
  rewrite (loop_ext (compare_cell_formatting opts table1 table2)
             (compare_cell_formatting opts table2 table1))
    by apply compare_cell_formatting_comm.
  reflexivity.
Qed.

Lemma compare_run_comm (bullets1 bullets2 : option (list bullet)) (run1 run2 : Run) :
  compare_run opts bullets1 bullets2 (run1, run2)
  = compare_run opts bullets2 bullets1 (run2, run1).
Proof.
  unfold compare_run. cbv zeta.
  rewrite (bool_decide_eq_sym (font_name (font run1))),
    (bool_decide_eq_sym (font_size (font run1))),
    (none_or_false_comm (bold (font run1))),
    (none_or_false_comm (italic (font run1))),
    (colors_differ_flag_comm (rgb (color (font run1)))),
    (underline_differs_comm (underline (font run1))),
    (underline_rule_comm (underline (font run1))),
    (bool_decide_eq_sym (default "noStrike" (strike (font run1)))).
  assert (Hbullets : match bullets1, bullets2 with
                     | Some bullets1, Some bullets2 =>
                         if negb (_compare_bullets_with_tolerance bullets1 bullets2)
                         then Some false else Some true
                     | _, _ => Some true
                     end
                     = match bullets2, bullets1 with
                       | Some bullets1, Some bullets2 =>
                           if negb (_compare_bullets_with_tolerance bullets1 bullets2)
                           then Some false else Some true
                       | _, _ => Some true
                       end).
  { destruct bullets1 as [l1|], bullets2 as [l2|]; try reflexivity.
    rewrite (compare_bullets_with_tolerance_comm l1). reflexivity. }
  rewrite Hbullets. reflexivity.
Qed.

Lemma compare_paragraph_comm (bullets1 bullets2 : option (list bullet)) (para1 para2 : Paragraph) :
  compare_paragraph opts bullets1 bullets2 (para1, para2)
  = compare_paragraph opts bullets2 bullets1 (para2, para1).
Proof.
  unfold compare_paragraph.
  rewrite (bool_decide_eq_sym (normalize_alignment (alignment para1))),
    (bool_decide_eq_sym (para_text para1)), (bool_decide_eq_sym (level para1)),
    (bool_decide_eq_sym (length (runs para1))),
    (loop_exchange (compare_run opts bullets1 bullets2)
       (compare_run opts bullets2 bullets1) (runs para1)
       (compare_run_comm bullets1 bullets2)).
  reflexivity.
Qed.

Lemma compare_text_comm (bullets1 bullets2 : option (list bullet)) (shape1 shape2 : Shape) :
  compare_text opts bullets1 bullets2 shape1 shape2
  = compare_text opts bullets2 bullets1 shape2 shape1.
Proof.
  unfold compare_text.
  destruct (text_frame shape1) as [text_frame1|],
    (text_frame shape2) as [text_frame2|]; try reflexivity.
  rewrite (bool_decide_eq_sym (strip (text text_frame1))),
    (bool_decide_eq_sym (length (paragraphs text_frame1))),
    (loop_exchange (compare_paragraph opts bullets1 bullets2)
       (compare_paragraph opts bullets2 bullets1) (paragraphs text_frame1)
       (compare_paragraph_comm bullets1 bullets2)).
  reflexivity.
Qed.

Lemma compare_shapes_comm (bullets1 bullets2 : option (list bullet)) (slide_idx : Z)
    (shape1 shape2 : Shape) :
  in_place opts ->
  compare_shapes opts bullets1 bullets2 slide_idx (shape1, shape2)
  = compare_shapes opts bullets2 bullets1 slide_idx (shape2, shape1).
Proof.
  intros Hplace. unfold compare_shapes.
  rewrite (bool_decide_eq_sym (shape_type shape1)).
  destruct (decide (shape_type shape2 = shape_type shape1)) as [Htype|Htype];
    [|rewrite (bool_decide_eq_false_2 _ Htype); reflexivity].
  rewrite (bool_decide_eq_true_2 _ Htype). cbn [negb].
  rewrite <- Htype, (validate_picture_comm shape1), (validate_table_comm shape1),
    (examine_positions_comm _ shape1 _ Hplace), (compare_tables_comm shape1),
    (compare_text_comm bullets1 bullets2 shape1).
  reflexivity.
Qed.

Lemma compare_text_shapes_comm (tshape1 tshape2 : Shape) :
  compare_text_shapes opts (tshape1, tshape2) = compare_text_shapes opts (tshape2, tshape1).
Proof.
  unfold compare_text_shapes.
  destruct (text_frame tshape1) as [text_frame1|],
    (text_frame tshape2) as [text_frame2|]; try reflexivity.
  simpl.
  rewrite (bool_decide_eq_sym (strip (text text_frame1))),
    (bool_decide_eq_sym (length (paragraphs text_frame1))).
  destruct (negb (bool_decide (strip (text text_frame2) = strip (text text_frame1)))
            && examine_text opts); [reflexivity|].
  destruct (negb (bool_decide (length (paragraphs text_frame2)
                               = length (paragraphs text_frame1)))); [reflexivity|].
  apply loop_swap. intros para1 para2.
  rewrite (bool_decide_eq_sym (normalize_alignment (alignment para1))). reflexivity.
Qed.

Lemma compare_slides_comm (slide_idx : Z) (slide1 slide2 : Slide) :
  in_place opts ->
  compare_slides opts slide_idx (slide1, slide2)
  = compare_slides opts slide_idx (slide2, slide1).
Proof.
  intros Hplace. unfold compare_slides.
  change (get_slide_notes slide1 ≫= fmap strip) with (stripped_notes slide1).
  change (get_slide_notes slide2 ≫= fmap strip) with (stripped_notes slide2).
  destruct (get_slide_background_color slide1) as [background1|],
    (get_slide_background_color slide2) as [background2|]; try reflexivity.
  simpl. rewrite (bool_decide_eq_sym background1).
  destruct (negb (bool_decide (background2 = background1))
            && examine_background_color opts); [reflexivity|].
  destruct (stripped_notes slide1) as [notes1|], (stripped_notes slide2) as [notes2|];
    try reflexivity.
  simpl.
  rewrite (bool_decide_eq_sym notes1),
    (bool_decide_eq_sym (length (slide_shapes slide1))),
    (bool_decide_eq_sym (length (get_all_text_shapes slide1))),
    (loop_exchange
       (compare_shapes opts (part_bullets slide1) (part_bullets slide2) slide_idx)
       (compare_shapes opts (part_bullets slide2) (part_bullets slide1) slide_idx)
       (slide_shapes slide1)
       (fun x y => compare_shapes_comm _ _ slide_idx x y Hplace)),
    (loop_swap (compare_text_shapes opts) (get_all_text_shapes slide1)
       compare_text_shapes_comm).
  reflexivity.
Qed.

Lemma compare_all_slides_comm (slides1 : list Slide) :
  in_place opts ->
  forall slide_idx slides2,
    compare_all_slides opts slide_idx (zip slides1 slides2)
    = compare_all_slides opts slide_idx (zip slides2 slides1).
Proof.
  intros Hplace. induction slides1 as [|slide1 slides1 IH];
    intros slide_idx [|slide2 slides2]; try reflexivity.
  cbn [zip zip_with compare_all_slides]. cbv zeta.
  rewrite (compare_slides_comm _ slide1 slide2 Hplace), IH. reflexivity.
Qed.

End Swap.

(** X28. With the four options that ask for a moved shape off, as they
    are by default, the comparator of temp.py does not tell the test file
    from the golden file: exchanging the two presentations gives the same
    answer, 1, 0 or an exception. *)
Theorem compare_pptx_files_exchange (opts : options) (prs1 prs2 : Presentation) :
  in_place opts ->
  Temp.compare_pptx_files opts prs1 prs2 = Temp.compare_pptx_files opts prs2 prs1.
Proof.
  intros Hplace. unfold Temp.compare_pptx_files.
  rewrite (bool_decide_eq_sym (length prs1)),
    (compare_all_slides_comm opts prs1 Hplace).
  reflexivity.
Qed.

Lemma compare_pptx_files_exchange_witness :
  Temp.compare_pptx_files default_options
    TempSamples.raised_test TempSamples.raised_golden
  = Temp.compare_pptx_files default_options
      TempSamples.raised_golden TempSamples.raised_test.
Proof.
  apply (compare_pptx_files_exchange default_options).
  repeat split.
Defined.

End SwapFacts.

Module TempSuiteFacts.
Import Py Impress TempNotions TempSamples BasicFacts ComparatorFacts PositionalFacts
  SameFacts.

(** X29. The comparator of temp.py and [compare_pptx_files] of
    impress_test_evaluator.py do not give the same verdicts, in either
    direction: two captions that drift within the tolerance pass the
    first, which pairs the shapes by their order, and fail the second,
    whose greedy pairing crosses them; a title and a picture in exchanged
    order pass the second and fail the first. *)
Theorem positional_and_greedy_verdicts_differ :
  (exists prs1 prs2 : Presentation,
     Temp.compare_pptx_files Temp.default_options prs1 prs2 = Some 1
     /\ (Impress.compare_pptx_files prs1 prs2 []).1 = Some 0)
  /\ (exists prs1 prs2 : Presentation,
        Temp.compare_pptx_files Temp.default_options prs1 prs2 = Some 0
        /\ (Impress.compare_pptx_files prs1 prs2 []).1 = Some 1).
Proof.
  split.
  - exists (captions 30120000 30200000), (captions 30000000 30170000).
    split; vm_compute; reflexivity.
  - exists [OrderSamples.title_then_picture], [OrderSamples.picture_then_title].
    split; vm_compute; reflexivity.
Qed.

Lemma tables_agree_well_formed (table1 : Table) :
  tables_agree table1 table1 -> well_formed_table table1 = true.
Proof.
  intros (_ & _ & Hcells). unfold well_formed_table.
  apply forallb_forall. intros row_idx Hr. apply forallb_forall. intros col_idx Hc.
  apply in_seq in Hr, Hc.
  destruct (Hcells row_idx col_idx) as (cell1 & _ & -> & _); [lia|lia|reflexivity].
Qed.

Lemma shape_pair_agrees_well_formed (opts : Temp.options) (shape : Shape) :
  shape_pair_agrees opts shape shape -> well_formed_shape shape = true.
Proof.
  intros (_ & _ & _ & Htable & _). unfold well_formed_shape.
  case_bool_decide as Htype; [|reflexivity].
  destruct (Htable Htype) as (_ & _ & _ & _ & table1 & table2 & H1 & H2 & Hagree).
  rewrite H1. rewrite H1 in H2. injection H2 as <-.
  apply tables_agree_well_formed. exact Hagree.
Qed.

Lemma slide_pair_agrees_well_formed (opts : Temp.options) (slide : Slide) :
  slide_pair_agrees opts slide slide ->
  well_formed_slide slide = true /\ stripped_notes slide <> None.
Proof.
  intros ((notes1 & _ & Hnotes & _) & (background1 & _ & Hbackground & _) & Hshapes & _).
  split; [|congruence].
  unfold well_formed_slide. rewrite Hbackground.
  apply forallb_forall. intros shape Hin.
  apply list_elem_of_In, list_elem_of_lookup_1 in Hin as [j Hj].
  apply (shape_pair_agrees_well_formed opts).
  exact (Forall2_lookup_lr _ _ _ _ _ _ Hshapes Hj Hj).
Qed.

(** X30. [run_evaluator] of temp.py on a presentation compared with
    itself: the result is 1, without error message, exactly when every
    read of the comparison succeeds, that is when the presentation is
    well formed (readable backgrounds, tables with all their cells) and
    the notes of every slide can be read; in every other case the
    comparison raises and the result is 0 with the text of the
    exception. *)
Theorem run_evaluator_same (prs : Presentation) :
  (Temp.run_evaluator (Some prs) (Some prs) = (1, false)
   <-> well_formed prs = true /\ annotated prs)
  /\ (Temp.run_evaluator (Some prs) (Some prs) = (1, false)
      \/ Temp.run_evaluator (Some prs) (Some prs) = (0, true)).
Proof.
  assert (Hplace : in_place Temp.default_options) by (repeat split).
  assert (Hsame : well_formed prs = true /\ annotated prs ->
                  Temp.compare_pptx_files Temp.default_options prs prs = Some 1).
  { intros [Hwf Hnotes]. unfold Temp.compare_pptx_files.
    rewrite bool_decide_refl. simpl.
    rewrite compare_all_slides_refl; [reflexivity|exact Hplace| |exact Hnotes].
    unfold well_formed in Hwf. rewrite forallb_forall in Hwf.
    apply Forall_forall. intros slide Hin. apply Hwf, list_elem_of_In. exact Hin. }
  unfold Temp.run_evaluator. split; [split|].
  - intros Hrun.
    destruct (Temp.compare_pptx_files Temp.default_options prs prs) as [result|] eqn:Hres;
      [|discriminate Hrun].
    injection Hrun as ->.
    assert (Hslides : forall slide, slide ∈ prs ->
                        well_formed_slide slide = true /\ stripped_notes slide <> None).
    { intros slide Hin. apply list_elem_of_lookup_1 in Hin as [i Hi].
      apply (slide_pair_agrees_well_formed Temp.default_options).
      apply (compare_slides_sound Temp.default_options (Z.of_nat i + 1)).
      apply (compare_pptx_files_slides Temp.default_options prs prs); assumption. }
    split.
    + apply forallb_forall. intros slide Hin.
      apply Hslides, list_elem_of_In. exact Hin.
    + apply Forall_forall. intros slide Hin. apply Hslides. exact Hin.
  - intros Hgood. rewrite (Hsame Hgood). reflexivity.
  - unfold Temp.compare_pptx_files. rewrite bool_decide_refl. simpl.
    pose proof (compare_all_slides_not_false Temp.default_options prs Hplace 0)
      as Hnot.
    destruct (Temp.compare_all_slides Temp.default_options 0 (zip prs prs))
      as [[|]|]; simpl; [left; reflexivity|congruence|right; reflexivity].
Qed.

End TempSuiteFacts.
